(** * SEED: System for Environmental Entity Distribution (The Dark Mod)

    A shallow embedding of the placement, combination and scheduling
    code of [DarkMod/SEED.cpp], and the properties of it that the
    specification states.

    Conventions.
    - A C [int] is a [Z]; where the code can overflow, the wrap-around is
      written out ([wrap32]).
    - A C [float] is an IEEE-754 binary32 value, a [spec_float] of the
      Standard Library with precision 24 and maximal exponent 128; every
      arithmetic operation rounds to nearest-even as the hardware does.
      A C [double] is the same with precision 53 and exponent 1024.
    - [gameLocal.Warning] is modelled by the list of diagnostics emitted.
    - Services of the host engine (idlib math on boxes, traces against the
      world, the model generator, the entity table) are not part of the
      sources at hand; they are parameters of the sections that use them. *)

From Stdlib Require Import ZArith List String Ascii Bool Lia SpecFloat.
From Stdlib Require Import Sorting.Sorted.
Import ListNotations.

Open Scope string_scope.
Open Scope Z_scope.

(* ================================================================= *)
(** ** Machine arithmetic *)

(** Signed 32-bit wrap-around of an [int] computation. *)
Definition wrap32 (z : Z) : Z := (z + 2147483648) mod 4294967296 - 2147483648.

(** C [float] and [double] values. *)
Definition float : Type := spec_float.
Definition double : Type := spec_float.

(** C [float]. *)
Module F32.
Definition prec : Z := 24.
Definition emax : Z := 128.

Definition add : float -> float -> float := SFadd prec emax.
Definition sub : float -> float -> float := SFsub prec emax.
Definition mul : float -> float -> float := SFmul prec emax.
Definition div : float -> float -> float := SFdiv prec emax.
Definition neg : float -> float := SFopp.
Definition ltb : float -> float -> bool := SFltb.
Definition leb : float -> float -> bool := SFleb.
Definition eqb : float -> float -> bool := SFeqb.
  (** [a > b] and [a != b] of C. *)
Definition gtb (a b : float) : bool := SFltb b a.
Definition neqb (a b : float) : bool := negb (SFeqb a b).

  (** [(float)n] for an [int n]. *)
Definition of_Z (n : Z) : float := binary_normalize prec emax n 0 false.
  (** The literal [p/q] written in decimal in the source: the binary32
      value nearest to the quotient of two exactly representable
      integers. *)
Definition lit (p q : Z) : float := div (of_Z p) (of_Z q).

Definition zero : float := S754_zero false.
Definition one : float := of_Z 1.
Definition two : float := of_Z 2.

  (** [(int)f]: truncation toward zero.  Outside the range of [int], and
      for NaN, C leaves the result open; x86 yields the "integer
      indefinite" value, which is what is modelled. *)
Definition to_int (f : float) : Z :=
    match f with
    | S754_zero _ => 0
    | S754_finite s m e =>
        let a := if (0 <=? e) then Z.shiftl (Zpos m) e
                 else Z.shiftr (Zpos m) (- e) in
        let v := if s then - a else a in
        if (-2147483648 <=? v) && (v <=? 2147483647) then v else -2147483648
    | _ => -2147483648
    end.

  (** The value with the given 32-bit pattern ([*(float * )&i]). *)
Definition of_bits (i : Z) : float :=
    let s := Z.testbit i 31 in
    let e := Z.land (Z.shiftr i 23) 255 in
    let m := Z.land i 8388607 in
    if e =? 255 then (if m =? 0 then S754_infinity s else S754_nan)
    else if e =? 0 then
      match m with
      | Zpos p => S754_finite s p (-149)
      | _ => S754_zero s
      end
    else
      match m + 8388608 with
      | Zpos p => S754_finite s p (e - 150)
      | _ => S754_zero s
      end.

  (** [std::max(a, b)] is [(a < b) ? b : a]. *)
Definition max (a b : float) : float := if ltb a b then b else a.
End F32.

(** C [double]. *)
Module F64.
Definition prec : Z := 53.
Definition emax : Z := 1024.

Definition add : double -> double -> double := SFadd prec emax.
Definition mul : double -> double -> double := SFmul prec emax.
Definition div : double -> double -> double := SFdiv prec emax.
Definition ltb : double -> double -> bool := SFltb.
Definition of_Z (n : Z) : double := binary_normalize prec emax n 0 false.
Definition lit (p q : Z) : double := div (of_Z p) (of_Z q).

  (** The implicit conversion of a [float] operand to [double] (exact). *)
Definition of_float (f : float) : double :=
    match f with
    | S754_finite s m e => binary_normalize prec emax (cond_Zopp s (Zpos m)) e s
    | _ => f
    end.
  (** The conversion of a [double] to [float] on assignment (rounds). *)
Definition to_float (d : double) : float :=
    match d with
    | S754_finite s m e =>
        binary_normalize F32.prec F32.emax (cond_Zopp s (Zpos m)) e s
    | _ => d
    end.
Definition to_int (d : double) : Z := F32.to_int d.
End F64.

(* ================================================================= *)
(** ** The two random generators ([Seed::RandomSeed], [Seed::RandomFloat]) *)

(** Modelled from the spec: [Seed::IEEE_ONE] and [Seed::IEEE_MASK] are
    declared in SEED.h, which is not among the sources; the generator
    assembles "an IEEE-754 bit pattern in [1,2)", that is the exponent of
    1.0 and the 23 mantissa bits. *)
Definition IEEE_ONE : Z := 1065353216.   (* 0x3f800000 *)
Definition IEEE_MASK : Z := 8388607.     (* 0x007fffff *)

(** [m_iSeed_2 = 1103515245L * m_iSeed_2 + 12345L; return m_iSeed_2 & 0x7FFFFFF;]
    The result is the value returned and the new [m_iSeed_2]. *)
Definition RandomSeed (m_iSeed_2 : Z) : Z * Z :=
  let s := wrap32 (1103515245 * m_iSeed_2 + 12345) in
  (Z.land s 134217727, s).

(** [m_iSeed = 1664525L * m_iSeed + 1013904223L;
     i = IEEE_ONE | (m_iSeed & IEEE_MASK); return *(float * )&i - 1.0f;]
    The result is the value returned and the new [m_iSeed]. *)
Definition RandomFloat (m_iSeed : Z) : float * Z :=
  let s := wrap32 (1664525 * m_iSeed + 1013904223) in
  let i := Z.lor IEEE_ONE (Z.land s IEEE_MASK) in
  (F32.sub (F32.of_bits i) F32.one, s).

(* ================================================================= *)
(** ** Diagnostics *)

(** One constructor per [gameLocal.Warning] of the modelled code. *)
Inductive diagnostic : Type :=
| WrongFalloff (falloff : string)
| ExpectFuncA (falloff : string)
| LowImageDensity
| CouldNotLoadImageMap (mapName : string).

(** One constructor per [gameLocal.Error] of the modelled code; an error
    leaves the function at once. *)
Inductive fatal : Type :=
| CouldNotAccessImageData
| BadBytesPerPixel (bpp : Z).

(* ================================================================= *)
(** ** Constants of the headers *)

(** The constants that SEED.h and the game headers give to SEED.cpp.  The
    headers are not among the sources, so the values stay open; what the
    properties below need of them is said there. *)
Class Constants : Type := {
  SEED_ENTITY_HIDDEN : Z;
  SEED_ENTITY_EXISTS : Z;
  SEED_ENTITY_SPAWNED : Z;
  SEED_ENTITY_PSEUDO : Z;
  NOCOLLIDE_ATALL : Z;
  NOCOLLIDE_STATIC : Z;
  MAX_GENTITIES : Z;
  LOD_LEVELS : Z
}.

(** maximum number of tries to place an entity *)
Definition MAX_TRIES : Z := 8.
Definition FUNC_STATIC : string := "func_static".
Definition FUNC_DUMMY : string := "atdm:seed_dummy_static".

(** The flags of an instance are single bits, one for each of hidden,
    exists, spawned and composite. *)
Definition single_bit (f : Z) : Prop := exists n : Z, 0 <= n < 31 /\ f = 2 ^ n.

Definition flag_bits (K : Constants) : Prop :=
  single_bit SEED_ENTITY_HIDDEN /\ single_bit SEED_ENTITY_EXISTS /\
  single_bit SEED_ENTITY_SPAWNED /\ single_bit SEED_ENTITY_PSEUDO /\
  NoDup [SEED_ENTITY_HIDDEN; SEED_ENTITY_EXISTS; SEED_ENTITY_SPAWNED;
         SEED_ENTITY_PSEUDO].

(** The invariant of the specification on the flags of an instance:
    exactly one of hidden and exists is set. *)
Definition hidden_xor_exists {K : Constants} (f : Z) : Prop :=
  (Z.land f SEED_ENTITY_HIDDEN <> 0 /\ Z.land f SEED_ENTITY_EXISTS = 0) \/
  (Z.land f SEED_ENTITY_HIDDEN = 0 /\ Z.land f SEED_ENTITY_EXISTS <> 0).

(** [!v] of C on an integer. *)
Definition C_not (v : Z) : Z := if v =? 0 then 1 else 0.

(* ================================================================= *)
(** ** Spawn arguments ([idDict]) *)

(** Modelled from the spec: [idDict] belongs to idlib, which is not among
    the sources; it is the "read-only key/value lookup with defaulting" of
    the external interfaces.  [GetString key default] is the value of the
    first pair with that key, and the default when there is none. *)
Definition idDict := list (string * string).

Fixpoint FindKey (d : idDict) (key : string) : option string :=
  match d with
  | [] => None
  | (k, v) :: d' => if String.eqb k key then Some v else FindKey d' key
  end.

Definition GetString (d : idDict) (key default : string) : string :=
  match FindKey d key with
  | Some v => v
  | None => default
  end.


(* ================================================================= *)
(** ** Vectors, angles, boxes (idlib data) *)

(** Modelled from the spec: the math types of idlib are not among the
    sources.  [idVec3] is its vector of three floats, whose operators act
    on each component; [idAngles], [idMat3], [idBounds] and [idBox] are
    plain data.  What idlib computes on them (rotations, intersection
    tests, conversions) stays a parameter, see [Host] below. *)
Record idVec3 : Type := mkVec3 { x : float; y : float; z : float }.
Record idAngles : Type := mkAngles { pitch : float; yaw : float; roll : float }.
Record idMat3 : Type := mkMat3 { mat0 : idVec3; mat1 : idVec3; mat2 : idVec3 }.
(** [idBounds(point)] is [mkBounds point point]. *)
Record idBounds : Type := mkBounds { b0 : idVec3; b1 : idVec3 }.
(** [idBox(center, extents, axis)]. *)
Record idBox : Type := mkBox { center : idVec3; extents : idVec3; axis : idMat3 }.

Module Vec3.
Definition add (a b : idVec3) : idVec3 :=
  mkVec3 (F32.add (x a) (x b)) (F32.add (y a) (y b)) (F32.add (z a) (z b)).
Definition sub (a b : idVec3) : idVec3 :=
  mkVec3 (F32.sub (x a) (x b)) (F32.sub (y a) (y b)) (F32.sub (z a) (z b)).
Definition neg (a : idVec3) : idVec3 :=
  mkVec3 (F32.neg (x a)) (F32.neg (y a)) (F32.neg (z a)).
(** [v / a] multiplies by the inverse of [a]. *)
Definition divf (v : idVec3) (a : float) : idVec3 :=
  let inva := F32.div F32.one a in
  mkVec3 (F32.mul (x v) inva) (F32.mul (y v) inva) (F32.mul (z v) inva).
Definition LengthSqr (v : idVec3) : float :=
  F32.add (F32.add (F32.mul (x v) (x v)) (F32.mul (y v) (y v)))
          (F32.mul (z v) (z v)).
Definition dot (a b : idVec3) : float :=
  F32.add (F32.add (F32.mul (x a) (x b)) (F32.mul (y a) (y b)))
          (F32.mul (z a) (z b)).
Definition scale (a : float) (v : idVec3) : idVec3 :=
  mkVec3 (F32.mul (x v) a) (F32.mul (y v) a) (F32.mul (z v) a).
Definition zero : idVec3 := mkVec3 F32.zero F32.zero F32.zero.
Definition set_z (v : idVec3) (f : float) : idVec3 := mkVec3 (x v) (y v) f.
End Vec3.

Definition ang_zero : idAngles := mkAngles F32.zero F32.zero F32.zero.

(** Surface types of a material, as the switch of the ground probe names
    them; the constructors not named there are [SURFTYPE_other]. *)
Inductive surfTypes_t : Type :=
| SURFTYPE_METAL | SURFTYPE_STONE | SURFTYPE_FLESH | SURFTYPE_WOOD
| SURFTYPE_CARDBOARD | SURFTYPE_LIQUID | SURFTYPE_GLASS | SURFTYPE_PLASTIC
| SURFTYPE_15 | SURFTYPE_other.

(** The part of [trace_t] that the code reads. *)
Record trace_t : Type := mkTrace {
  fraction : float;
  endpos : idVec3;
  endAxis : idMat3;
  c_material_type : surfTypes_t;        (* trTest.c.material->GetSurfaceType() *)
  c_material_descr : string             (* trTest.c.material->GetDescription() *)
}.

(** The part of [lod_data_t] that the code reads. *)
Record lod_data_t : Type := mkLod {
  bDistCheckXYOnly : bool;
  ModelLOD : list string
}.

(* ================================================================= *)
(** ** The live objects of the game *)

(** Modelled from the spec: the game's entity table is not among the
    sources.  A live object has the arguments it was spawned with and a
    physics object that holds its origin and axis; [SetPhysics] makes it
    use the physics object of a composite class instead, which is shared
    with the class and named by its address.  [removals] are the objects
    whose removal has been posted ([PostEventMS( &EV_Remove, 0 )]). *)
Record idPhysics_t : Type := mkPhysics { p_origin : idVec3; p_axis : idMat3 }.

Record idEntity_t : Type := mkLive {
  l_spawnArgs : idDict;
  l_physics : idPhysics_t;
  l_SetPhysics : option Z;
  l_thinking : bool
}.

Record World : Type := mkWorld {
  entities : list (option idEntity_t);     (* gameLocal.entities[] *)
  num_entities : Z;                        (* gameLocal.num_entities *)
  physics : list (Z * idPhysics_t);        (* idPhysics_StaticMulti objects *)
  removals : list Z
}.

(* ================================================================= *)
(** ** The host engine *)

(** What the code asks of the engine around it.  None of this is in the
    sources at hand; the properties below hold for every host. *)
Class Host : Type := {
  (* the C library *)
  atof : string -> float;
  atoi : string -> Z;
  fmod : double -> double -> double;
  (* idlib *)
  sscanf_vec3 : string -> idVec3;            (* idDict::GetVector *)
  sscanf_angles : string -> idAngles;        (* idDict::GetAngles *)
  idVec3_ToString : idVec3 -> string;        (* idDict::SetVector *)
  idMath_Sqrt : float -> float;
  idMath_Pow : float -> float -> float;
  idMath_ClampFloat : float -> float -> float -> float;
  idMath_PI : float;
  idPolar3_ToVec3 : float -> float -> float -> idVec3;
  idAngles_ToMat3 : idAngles -> idMat3;
  idMat3_ToAngles : idMat3 -> idAngles;
  idVec3_mul_idMat3 : idVec3 -> idMat3 -> idVec3;      (* v * m *)
  idBounds_translate : idBounds -> idVec3 -> idBounds; (* b + v *)
  idBounds_rotate : idBounds -> idMat3 -> idBounds;    (* b * m *)
  idBounds_ExpandSelf : idBounds -> float -> idBounds;
  idBounds_IntersectsBounds : idBounds -> idBounds -> bool;
  idBounds_FromTransformedBounds : idBounds -> idVec3 -> idMat3 -> idBounds;
  idBox_ExpandSelf : idBox -> float -> idBox;
  idBox_IntersectsBox : idBox -> idBox -> bool;
  idBox_ContainsPoint : idBox -> idVec3 -> bool;
  (* the game *)
  cv_lod_bias : float;                                   (* cv_lod_bias.GetFloat() *)
  PackColor : idVec3 -> Z;
  UnpackColor : Z -> idVec3;
  TracePoint : idVec3 -> idVec3 -> trace_t;              (* gameLocal.clip *)
  TraceBounds : idVec3 -> idVec3 -> idBounds -> trace_t;
  GetImageMap : string -> Z;                             (* m_ImageMapManager *)
  GetMapDataAt : Z -> float -> float -> Z;
  GetMapData : Z -> option (list Z);                     (* None is NULL *)
  GetMapBpp : Z -> Z;
  GetMapWidth : Z -> Z;
  GetMapHeight : Z -> Z;
  GetMapDensity : Z -> float;
  FindModel : string -> Z;                               (* renderModelManager; 0 is NULL *)
  GetMaxModelCount : Z -> Z;                             (* m_ModelGenerator *)
  GetPVSAreas : idBounds -> Z * Z;                       (* count and iPVSAreas[0] *)
  ThinkAboutLOD : option lod_data_t -> float -> float * Z; (* alpha and m_LODLevel *)
  GetGravityNormal : idVec3;
  playerPos : idVec3;
  FindEntityDefDict : string -> bool;                    (* false is NULL *)
  IsMoveable : string -> bool;       (* ent2->IsType( idMoveable::Type ), by class name *)
  (* gameLocal.SpawnEntityDef: the number and the state of the new
     object, or None when the spawn fails *)
  SpawnEntityDef : World -> idDict -> option (Z * idEntity_t);
  (* new idPhysics_StaticMulti: the address of the new object *)
  new_idPhysics_StaticMulti : World -> Z;
  idClipModel_LoadModel : string -> bool;
  (* seed_debug_materials[ gameLocal.random.RandomInt( ... ) ] *)
  seed_debug_material : string;
  (* idList::Sort, that is qsort with the given comparison *)
  qsort : forall A : Type, (A -> A -> Z) -> list A -> list A
}.

Section Dict.
Context {H : Host}.

(** [idDict::GetFloat], [GetInt], [GetBool], [GetVector], [GetAngles]. *)
Definition GetFloat (d : idDict) (key default : string) : float :=
  atof (GetString d key default).
Definition GetInt (d : idDict) (key default : string) : Z :=
  atoi (GetString d key default).
Definition GetBool (d : idDict) (key default : string) : bool :=
  negb (atoi (GetString d key default) =? 0).
Definition GetVector (d : idDict) (key default : string) : idVec3 :=
  sscanf_vec3 (GetString d key default).
Definition GetAngles (d : idDict) (key default : string) : idAngles :=
  sscanf_angles (GetString d key default).

(** *** [Seed::ParseFalloff]

    The result is the return code, the contents of [*func_a] on return,
    and the warnings emitted. *)
Definition ParseFalloff (dict : idDict) (defaultName defaultFactor : string)
    (func_a : float) : Z * float * list diagnostic :=
  let falloff := GetString dict "seed_falloff" defaultName in
  if String.eqb falloff "none" then (0, func_a, [])
  else if String.eqb falloff "cutoff" then (1, func_a, [])
  else if String.eqb falloff "linear" then (4, func_a, [])
  else if String.eqb falloff "func" then (5, func_a, [])
  else
    let rc := 0 in
    let rc := if String.eqb falloff "power" then 2 else rc in
    let rc := if String.eqb falloff "root" then 3 else rc in
    if rc =? 0 then (0, func_a, [WrongFalloff falloff])
    else
      (* power or root, store the factor in func_a *)
      let a := GetFloat dict "seed_func_a" defaultFactor in
      if F32.ltb a F32.two
      then (rc, F32.two, [ExpectFuncA falloff])
      else (rc, a, []).

End Dict.

(* ================================================================= *)
(** ** The tables of a distribution *)

(** Modelled from the spec: the structures [seed_class_t],
    [seed_entity_t], [seed_inhibitor_t], [seed_material_t] and
    [model_ofs_t] and the flag constants are declared in SEED.h, which is
    not among the sources; the fields are those the code reads and
    writes, with the types [Seed::Save] writes them with.  A pointer is
    a [Z], zero for [NULL]. *)
Record seed_material_t : Type := mkMaterial {
  mat_name : string;
  mat_probability : float
}.

Record model_ofs_t : Type := mkOfs {
  ofs_offset : idVec3;
  ofs_angles : idAngles;
  ofs_lod : Z;
  ofs_color : Z;
  ofs_scale : idVec3;
  ofs_flags : Z
}.

Record seed_class_t : Type := mkClass {
  classname : string;
  modelname : string;
  pseudo : bool;
  watch : bool;
  seed : Z;
  maxEntities : Z;
  numEntities : Z;
  score : Z;
  solid : bool;
  nocombine : bool;
  c_origin : idVec3;
  c_offset : idVec3;
  c_floor : bool;
  noinhibit : bool;
  spacing : float;
  sink_min : float;
  sink_max : float;
  scale_min : idVec3;
  scale_max : idVec3;
  falloff : Z;
  func_x : float;
  func_y : float;
  func_s : float;
  func_a : float;
  func_Xt : Z;
  func_Yt : Z;
  func_f : Z;
  func_min : float;
  func_max : float;
  imgmap : Z;
  map_invert : bool;
  map_scale_x : float;
  map_scale_y : float;
  map_ofs_x : float;
  map_ofs_y : float;
  bunching : float;
  nocollide : Z;
  c_size : idVec3;
  cullDist : float;
  spawnDist : float;
  m_LOD : option lod_data_t;
  materials : list seed_material_t;
  defaultProb : float;
  hModel : Z;
  clip : Z;
  physicsObj : Z;
  materialName : string;
  color_min : idVec3;
  color_max : idVec3;
  impulse_min : idVec3;
  impulse_max : idVec3;
  z_invert : bool;
  z_min : float;
  z_max : float;
  z_fadein : float;
  z_fadeout : float;
  avgSize : float;
  skins : list Z;
  offsets : list model_ofs_t
}.

Record seed_entity_t : Type := mkEntity {
  skinIdx : Z;
  e_origin : idVec3;
  e_angles : idAngles;
  e_color : Z;
  flags : Z;
  entity : Z;
  classIdx : Z;
  e_scale : idVec3
}.

Record seed_inhibitor_t : Type := mkInhibitor {
  i_origin : idVec3;
  i_size : idVec3;
  i_box : idBox;
  inhibit_only : bool;
  i_falloff : Z;
  i_factor : float;
  classnames : list string
}.

(** The members of [Seed] that the modelled code uses.
    [renderEntity_size] is [renderEntity.bounds.GetSize()]. *)
Record Seed : Type := mkSeed {
  spawnArgs : idDict;
  renderEntity_size : idVec3;
  renderEntity_axis : idMat3;
  renderEntity_origin : idVec3;
  m_origin : idVec3;
  m_iSeed : Z;
  m_iSeed_2 : Z;
  m_iOrgSeed : Z;
  m_fLODBias : float;
  m_bCombine : bool;
  m_bDebugColors : bool;
  m_Entities : list seed_entity_t;
  m_Classes : list seed_class_t;
  m_Inhibitors : list seed_inhibitor_t;
  m_Skins : list string;
  m_iNumEntities : Z;
  m_iNumExisting : Z;
  m_iNumVisible : Z;
  m_iNumStaticMulties : Z;
  m_iNumPVSAreas : Z
}.

(** Assignments to single members. *)
Definition set_numEntities (c : seed_class_t) (n : Z) : seed_class_t :=
  mkClass (classname c) (modelname c) (pseudo c) (watch c) (seed c)
    (maxEntities c) n (score c) (solid c) (nocombine c) (c_origin c)
    (c_offset c) (c_floor c) (noinhibit c) (spacing c) (sink_min c)
    (sink_max c) (scale_min c) (scale_max c) (falloff c) (func_x c)
    (func_y c) (func_s c) (func_a c) (func_Xt c) (func_Yt c) (func_f c)
    (func_min c) (func_max c) (imgmap c) (map_invert c) (map_scale_x c)
    (map_scale_y c) (map_ofs_x c) (map_ofs_y c) (bunching c) (nocollide c)
    (c_size c) (cullDist c) (spawnDist c) (m_LOD c) (materials c)
    (defaultProb c) (hModel c) (clip c) (physicsObj c) (materialName c)
    (color_min c) (color_max c) (impulse_min c) (impulse_max c) (z_invert c)
    (z_min c) (z_max c) (z_fadein c) (z_fadeout c) (avgSize c) (skins c)
    (offsets c).

Definition set_seed (c : seed_class_t) (s : Z) : seed_class_t :=
  mkClass (classname c) (modelname c) (pseudo c) (watch c) s
    (maxEntities c) (numEntities c) (score c) (solid c) (nocombine c)
    (c_origin c) (c_offset c) (c_floor c) (noinhibit c) (spacing c)
    (sink_min c) (sink_max c) (scale_min c) (scale_max c) (falloff c)
    (func_x c) (func_y c) (func_s c) (func_a c) (func_Xt c) (func_Yt c)
    (func_f c) (func_min c) (func_max c) (imgmap c) (map_invert c)
    (map_scale_x c) (map_scale_y c) (map_ofs_x c) (map_ofs_y c) (bunching c)
    (nocollide c) (c_size c) (cullDist c) (spawnDist c) (m_LOD c)
    (materials c) (defaultProb c) (hModel c) (clip c) (physicsObj c)
    (materialName c) (color_min c) (color_max c) (impulse_min c)
    (impulse_max c) (z_invert c) (z_min c) (z_max c) (z_fadein c)
    (z_fadeout c) (avgSize c) (skins c) (offsets c).

Definition set_classIdx (e : seed_entity_t) (i : Z) : seed_entity_t :=
  mkEntity (skinIdx e) (e_origin e) (e_angles e) (e_color e) (flags e)
           (entity e) i (e_scale e).

(* ================================================================= *)
(** ** Target counts ([Seed::LODBIAS], [Seed::ComputeEntityCount]) *)

Section EntityCount.
Context {H : Host}.

(** Generate a scaling factor depending on the GUI setting. *)
Definition LODBIAS : float :=
  let lod_bias := cv_lod_bias in
  if F64.ltb (F64.of_float lod_bias) (F64.lit 8 10) then
    if F64.ltb (F64.of_float lod_bias) (F64.lit 7 10)
    then F32.mul lod_bias (F32.lit 14 10)       (* 0.5 => 0.7 *)
    else F32.mul lod_bias (F32.lit 12 10)       (* 0.75 => 0.90 *)
  else if F32.gtb lod_bias F32.one then
    (* 1.5, 2, 3 => 1.13, 1.25, 1.4 *)
    F32.add (if F32.gtb lod_bias F32.two then F32.lit 9 10 else F32.one)
            (F32.div (F32.sub lod_bias F32.one) (F32.of_Z 4))
  else lod_bias.

(** The count of one class, inside the loop over the classes. *)
Definition class_count (max_entities iScoreSum : Z) (fArea : float)
    (c : seed_class_t) : Z :=
  let newNum :=
    if 0 <? max_entities then
      (* at least one from each class *)
      Z.max 1 (Z.quot (wrap32 (max_entities * score c)) iScoreSum)
    else if F32.gtb (avgSize c) F32.zero
         then F32.to_int (F32.div fArea (avgSize c))
         else 0 in
  if (0 <? maxEntities c) && (maxEntities c <? newNum)
  then maxEntities c else newNum.

(** The loop over the classes: the classes with their [numEntities]
    set, and the sum of the counts. *)
Fixpoint count_classes (max_entities iScoreSum : Z) (fArea : float)
    (classes : list seed_class_t) (m_iNumEntities : Z)
    : list seed_class_t * Z :=
  match classes with
  | [] => ([], m_iNumEntities)
  | c :: rest =>
      if pseudo c || watch c then
        (* ignore pseudo classes and watch-over-breathren *)
        let '(rest', total) :=
          count_classes max_entities iScoreSum fArea rest m_iNumEntities in
        (c :: rest', total)
      else
        let newNum := class_count max_entities iScoreSum fArea c in
        let '(rest', total) :=
          count_classes max_entities iScoreSum fArea rest
                        (wrap32 (m_iNumEntities + newNum)) in
        (set_numEntities c newNum :: rest', total)
  end.

(** [Seed::ComputeEntityCount]: the class table and [m_iNumEntities]
    that it leaves. *)
Definition ComputeEntityCount (spawnArgs : idDict) (size : idVec3)
    (m_Classes : list seed_class_t) : list seed_class_t * Z :=
  let fDensity := GetFloat spawnArgs "density" "1.0" in
  let fDensity :=
    if GetBool spawnArgs "lod_scale_density" "1"
    then F32.mul fDensity LODBIAS else fDensity in
  let fDensity := F32.max fDensity (F32.lit 1 100000) in
  let fArea := F32.mul (F32.add (x size) F32.one) (F32.add (y size) F32.one) in
  let fArea := F32.mul fArea fDensity in
  let max_entities := GetInt spawnArgs "max_entities" "0" in
  let max_entities' :=
    if 0 <? max_entities then
      if F32.gtb (F32.of_Z max_entities)
                 (GetFloat spawnArgs "lod_scaling_limit" "10")
      then F32.to_int (F32.mul (F32.of_Z max_entities) LODBIAS)
      else max_entities
    else max_entities in
  let iScoreSum :=
    if 0 <? max_entities
    then fold_left (fun sum c => wrap32 (sum + score c)) m_Classes 0
    else 0 in
  let '(classes, total) :=
    count_classes max_entities' iScoreSum fArea m_Classes 0 in
  (classes, if 0 <? max_entities' then max_entities' else total).

End EntityCount.

(* ================================================================= *)
(** ** Class compilation: the density of a class ([Seed::AddClassFromEntity]) *)

Section AddClass.
Context {K : Constants} {H : Host}.

(** What the image-map part of [AddClassFromEntity] leaves in the class
    and in the local [fImgDensity]. *)
Record image_map_t : Type := mkImageMap {
  im_imgmap : Z;
  im_map_invert : bool;
  im_map_scale_x : float;
  im_map_scale_y : float;
  im_map_ofs_x : float;
  im_map_ofs_y : float;
  im_fImgDensity : float
}.

(** The two nested loops that average the image under a scale or an
    offset; [sum] is [fImgDensity] before the final division. *)
Definition resample_pixel (imgData : list Z) (w : Z)
    (wd hd xo yo xs ys : double) (px py : Z) : float :=
  let x1 := F64.to_int (fmod (F64.add (fmod (F64.add (F64.mul (F64.of_Z px) xs) xo) wd) wd) wd) in
  let y1 := F64.to_int (fmod (F64.add (fmod (F64.add (F64.mul (F64.of_Z py) ys) yo) hd) hd) hd) in
  F32.of_Z (nth (Z.to_nat ((w * y1 + x1) mod 4294967296)) imgData 0).

Definition resample_density (fImgDensity : float) (imgData : list Z) (w h : Z)
    (map_ofs_x map_ofs_y map_scale_x map_scale_y : float) : float :=
  let wd := F64.of_Z w in
  let hd := F64.of_Z h in
  let xo := F64.of_float (F32.mul (F32.of_Z w) map_ofs_x) in
  let yo := F64.of_float (F32.mul (F32.of_Z h) map_ofs_y) in
  let xs := F64.of_float map_scale_x in
  let ys := F64.of_float map_scale_y in
  let sum :=
    fold_left (fun acc px =>
      fold_left (fun acc py =>
        F32.add acc (resample_pixel imgData w wd hd xo yo xs ys
                       (Z.of_nat px) (Z.of_nat py)))
        (seq 0 (Z.to_nat h)) acc)
      (seq 0 (Z.to_nat w)) fImgDensity in
  (* divide the sum by W and H and 256 so we arrive at 0 .. 1.0 *)
  F32.div sum (F32.mul (F32.of_Z ((w * h) mod 4294967296)) (F32.of_Z 256)).

(** Lines 800 and 1041 to 1148: [float fImgDensity = 0.0f], then the
    image map of the class, if one is named.  [ent] are the spawn
    arguments of the template entity, [spawnArgs] those of the SEED. *)
Definition ClassImageMap (ent spawnArgs : idDict)
    : fatal + (image_map_t * list diagnostic) :=
  let fImgDensity := F32.zero in  (* average "density" of the image map *)
  let mapName := GetString ent "seed_map" (GetString spawnArgs "map" "") in
  let imgmap := if String.eqb mapName "" then 0 else GetImageMap mapName in
  let w1 := if negb (String.eqb mapName "") && (imgmap =? 0)
            then [CouldNotLoadImageMap mapName] else [] in
  if 0 <? imgmap then
    let map_invert :=
      GetBool ent "seed_map_invert" (GetString spawnArgs "map_invert" "0") in
    let map_scale_x :=
      GetFloat ent "seed_map_scale_x" (GetString ent "seed_map_scale"
        (GetString spawnArgs "map_scale_x" (GetString spawnArgs "map_scale" "1.0"))) in
    let map_scale_y :=
      GetFloat ent "seed_map_scale_y" (GetString ent "seed_map_scale"
        (GetString spawnArgs "map_scale_y" (GetString spawnArgs "map_scale" "1.0"))) in
    let map_ofs_x :=
      GetFloat ent "seed_map_ofs_x" (GetString ent "seed_map_ofs"
        (GetString spawnArgs "map_ofs_x" (GetString spawnArgs "map_ofs" "0"))) in
    let map_ofs_y :=
      GetFloat ent "seed_map_ofs_y" (GetString ent "seed_map_ofs"
        (GetString spawnArgs "map_ofs_y" (GetString spawnArgs "map_ofs" "0"))) in
    match GetMapData imgmap with
    | None => inl CouldNotAccessImageData
    | Some imgData =>
        let bpp := GetMapBpp imgmap in
        if negb (bpp =? 1) then inl (BadBytesPerPixel bpp)
        else
          let w := GetMapWidth imgmap in
          let h := GetMapHeight imgmap in
          let fImgDensity :=
            if F32.eqb map_ofs_x F32.zero && F32.eqb map_ofs_y F32.zero
               && F32.eqb map_scale_x F32.one && F32.eqb map_scale_y F32.one
            then (* can use the precomputed density of the entire image map *)
              GetMapDensity imgmap
            else
              resample_density fImgDensity imgData w h map_ofs_x map_ofs_y
                               map_scale_x map_scale_y in
          (* if the map is inverted, use 1 - x *)
          let fImgDensity :=
            if map_invert then F32.sub F32.one fImgDensity else fImgDensity in
          if F32.ltb fImgDensity (F32.lit 1 1000) then
            (* avoid divide-by-zero *)
            inr (mkImageMap imgmap map_invert map_scale_x map_scale_y
                            map_ofs_x map_ofs_y (F32.lit 1 1000),
                 [LowImageDensity])
          else
            inr (mkImageMap imgmap map_invert map_scale_x map_scale_y
                            map_ofs_x map_ofs_y fImgDensity, [])
    end
  else
    inr (mkImageMap imgmap false F32.one F32.one F32.zero F32.zero fImgDensity,
         w1).

(** Lines 1352 to 1376: the average footprint of the class.  [size] and
    [spacing] are those of the class, [falloff] its falloff code. *)
Definition density_divisor (fBaseDensity fImgDensity fDensity : float) : float :=
  F32.mul (F32.mul fBaseDensity fImgDensity) fDensity.

Definition ClassAvgSize (ent : idDict) (size : idVec3) (spacing : float)
    (falloff : Z) (fImgDensity : float) : float :=
  let size :=
    F32.mul (F32.add (F32.max (F32.lit 1 10) (x size)) spacing)
            (F32.add (F32.max (F32.lit 1 10) (y size)) spacing) in
  let size :=
    if (1 <=? falloff) && (falloff <=? 3)
    then F32.mul size (F32.div (F32.of_Z 4) idMath_PI)
    else size in
  (* minimum density values *)
  let fMin := F32.lit 1 1000000 in
  let fDensity := F32.max fMin (GetFloat ent "seed_density" "1.0") in
  let fBaseDensity := F32.max fMin (GetFloat ent "seed_base_density" "1.0") in
  F32.div size (density_divisor fBaseDensity fImgDensity fDensity).

(** Lines 1156 to 1165: what a class does not collide with. *)
Definition class_nocollide (spacing : float) : Z :=
  if F32.gtb spacing F32.zero then NOCOLLIDE_ATALL
  else
    (* don't collide with other existing statics, but collide with the
       autogenerated ones *)
    NOCOLLIDE_STATIC.

End AddClass.

(* ================================================================= *)
(** ** Spawning and culling ([Seed::SpawnEntity], [Seed::CullEntity]) *)

(** [l[i]] of an [idList], for reading and for writing.  The code never
    checks an index; out of range the model reads the given default and
    writes nothing. *)
Definition list_get {A : Type} (l : list A) (i : Z) (d : A) : A :=
  if i <? 0 then d else nth (Z.to_nat i) l d.

Fixpoint list_set_nat {A : Type} (l : list A) (i : nat) (v : A) : list A :=
  match l, i with
  | [], _ => []
  | _ :: l', O => v :: l'
  | a :: l', S i' => a :: list_set_nat l' i' v
  end.

Definition list_set {A : Type} (l : list A) (i : Z) (v : A) : list A :=
  if i <? 0 then l else list_set_nat l (Z.to_nat i) v.

(** [gameLocal.entities[n] = e], growing the table when [n] is the next
    free slot. *)
Definition place_entity (l : list (option idEntity_t)) (n : Z) (e : idEntity_t)
    : list (option idEntity_t) :=
  if n <? 0 then l
  else if Z.of_nat (List.length l) <=? n
       then (l ++ repeat None (Z.to_nat n - List.length l) ++ [Some e])%list
       else list_set l n (Some e).

(** [idDict::Set]. *)
Fixpoint Set_ (d : idDict) (key value : string) : idDict :=
  match d with
  | [] => [(key, value)]
  | (k, v) :: d' =>
      if String.eqb k key then (k, value) :: d' else (k, v) :: Set_ d' key value
  end.

Section SpawnCull.
Context {K : Constants} {H : Host}.

Definition SPAWN_LIMIT : Z := MAX_GENTITIES - 100.

(** [GetPhysics()] of a live object in the world. *)
Definition GetPhysics (w : World) (e : idEntity_t) : idPhysics_t :=
  match l_SetPhysics e with
  | Some p =>
      match find (fun q => fst q =? p) (physics w) with
      | Some q => snd q
      | None => l_physics e
      end
  | None => l_physics e
  end.

Definition set_physics_origin (w : World) (p : Z) (o : idVec3) : World :=
  mkWorld (entities w) (num_entities w)
    (map (fun q => if fst q =? p then (fst q, mkPhysics o (p_axis (snd q))) else q)
         (physics w))
    (removals w).

(** The members of [Seed] that spawning and culling change. *)
Definition with_entity (s : Seed) (idx : Z) (e : seed_entity_t)
    (m_iSeed' dExisting dMulties : Z) : Seed :=
  mkSeed (spawnArgs s) (renderEntity_size s) (renderEntity_axis s)
    (renderEntity_origin s) (m_origin s) m_iSeed' (m_iSeed_2 s)
    (m_iOrgSeed s) (m_fLODBias s) (m_bCombine s) (m_bDebugColors s)
    (list_set (m_Entities s) idx e) (m_Classes s) (m_Inhibitors s)
    (m_Skins s) (m_iNumEntities s)
    (m_iNumExisting s + dExisting) (m_iNumVisible s + dExisting)
    (m_iNumStaticMulties s + dMulties) (m_iNumPVSAreas s).

(** A blank instance and a blank class stand for what an index out of
    range would read. *)
Definition no_entity : seed_entity_t :=
  mkEntity 0 Vec3.zero ang_zero 0 0 0 0 Vec3.zero.

Definition no_class : seed_class_t :=
  mkClass "" "" false false 0 0 0 0 true false Vec3.zero
    Vec3.zero false false F32.zero F32.zero F32.zero Vec3.zero Vec3.zero 0
    F32.zero F32.zero F32.zero F32.zero 0 0 0 F32.zero F32.zero 0 false
    F32.one F32.one F32.zero F32.zero F32.zero 0 Vec3.zero F32.zero F32.zero
    None [] F32.one 0 0 0 "" Vec3.zero Vec3.zero Vec3.zero Vec3.zero false
    F32.zero F32.zero F32.zero F32.zero F32.one [] [].

(** The arguments [SpawnEntity] spawns a live object with. *)
Definition spawn_args (s : Seed) (ent : seed_entity_t) (lclass : seed_class_t)
    (managed : bool) : idDict :=
  let args := Set_ [] "classname" (classname lclass) in
  let args := Set_ args "model" (modelname lclass) in
  let args := Set_ args "origin" (idVec3_ToString (e_origin ent)) in
  let args := Set_ args "skin" (list_get (m_Skins s) (skinIdx ent) "") in
  let args := Set_ args "random_skin" "" in
  let args := Set_ args "_color" (idVec3_ToString (UnpackColor (e_color ent))) in
  let args := Set_ args "floor" "0" in
  if managed then Set_ args "dist_check_period" "0" else args.

(** The three draws of the random impulse of a moveable on its first
    spawn; only the state of the generator matters here. *)
Definition impulse_draws (m_iSeed : Z) : Z :=
  snd (RandomFloat (snd (RandomFloat (snd (RandomFloat m_iSeed))))).

(** What [SpawnEntity] does to the new live object [ent2]: it sets the
    axis from the angles of the instance, stops the thinking of a managed
    object, and gives the object of a composite class the physics object
    of the class (each pseudoclass spawns only one entity). *)
Definition setup_object (ent : seed_entity_t) (lclass : seed_class_t)
    (managed : bool) (ent2 : idEntity_t) : idEntity_t :=
  (* and rotate *)
  let ent2 :=
    mkLive (l_spawnArgs ent2)
           (mkPhysics (p_origin (l_physics ent2)) (idAngles_ToMat3 (e_angles ent)))
           (l_SetPhysics ent2)
           (if managed then false else l_thinking ent2) in
  if pseudo lclass
  then mkLive (l_spawnArgs ent2) (l_physics ent2) (Some (physicsObj lclass)) true
  else ent2.

(** The instance record after a successful spawn; the PSEUDO flag is
    preserved. *)
Definition spawned_entity (ent : seed_entity_t) (entityNumber : Z)
    : seed_entity_t :=
  mkEntity (skinIdx ent) (e_origin ent) (e_angles ent) (e_color ent)
    (wrap32 (SEED_ENTITY_SPAWNED + SEED_ENTITY_EXISTS
             + Z.land (flags ent) SEED_ENTITY_PSEUDO))
    entityNumber (classIdx ent) (e_scale ent).

(** [Seed::SpawnEntity]: whether the instance was spawned, and the
    distribution and the world afterwards. *)
Definition SpawnEntity (s : Seed) (w : World) (idx : Z) (managed : bool)
    : bool * Seed * World :=
  let ent := list_get (m_Entities s) idx no_entity in
  let lclass := list_get (m_Classes s) (classIdx ent) no_class in
  (* avoid that we run out of entities during run time *)
  if SPAWN_LIMIT <? num_entities w then (false, s, w)
  else if FindEntityDefDict (classname lclass) then
    match SpawnEntityDef w (spawn_args s ent lclass managed) with
    | Some (entityNumber, ent2) =>
        let w' :=
          mkWorld (place_entity (entities w) entityNumber
                                (setup_object ent lclass managed ent2))
                  (Z.max (num_entities w) (entityNumber + 1))
                  (physics w) (removals w) in
        let w' :=
          if pseudo lclass
          then set_physics_origin w' (physicsObj lclass) (e_origin ent)
          else w' in
        (* first spawn ever of a moveable: add a random impulse *)
        let m_iSeed' :=
          if negb (pseudo lclass || String.eqb (classname lclass) FUNC_DUMMY)
             && IsMoveable (classname lclass)
             && (Z.land (flags ent) SEED_ENTITY_SPAWNED =? 0)
          then impulse_draws (m_iSeed s) else m_iSeed s in
        (true,
         with_entity s idx (spawned_entity ent entityNumber) m_iSeed' 1
                     (if pseudo lclass then 1 else 0),
         w')
    | None => (false, s, w)
    end
  else (false, s, w).

(** The instance record after a successful cull, with the origin and the
    axis of the live object saved in it. *)
Definition culled_entity (ent : seed_entity_t) (ph : idPhysics_t)
    : seed_entity_t :=
  (* add visible, reset exists, keep the others *)
  let flags1 := wrap32 (flags ent + SEED_ENTITY_HIDDEN) in
  let flags2 := Z.land flags1 (C_not SEED_ENTITY_EXISTS) in
  mkEntity (skinIdx ent) (p_origin ph) (idMat3_ToAngles (p_axis ph))
           (e_color ent) flags2 0 (classIdx ent) (e_scale ent).

(** [Seed::CullEntity]: whether the instance was culled, and the
    distribution and the world afterwards. *)
Definition CullEntity (s : Seed) (w : World) (idx : Z) : bool * Seed * World :=
  let ent := list_get (m_Entities s) idx no_entity in
  let lclass := list_get (m_Classes s) (classIdx ent) no_class in
  if Z.land (flags ent) SEED_ENTITY_EXISTS =? 0 then (false, s, w)
  else
    (* cull (remove) the entity *)
    match list_get (entities w) (entity ent) None with
    | Some ent2 =>
        (* Before we remove the entity, save it's position and angles *)
        (true,
         with_entity s idx (culled_entity ent (GetPhysics w ent2)) (m_iSeed s)
                     (-1) (if pseudo lclass then -1 else 0),
         mkWorld (entities w) (num_entities w) (physics w)
                 (entity ent :: removals w))
    | None => (false, s, w)
    end.

End SpawnCull.

(** What "the live object is put where the arguments say" asks of the
    host: a spawned object has a number that is not negative, uses its
    own physics object, and stands at the origin argument. *)
Definition spawn_faithful (H : Host) : Prop :=
  forall (w : World) (args : idDict) (n : Z) (l : idEntity_t),
    SpawnEntityDef w args = Some (n, l) ->
    0 <= n /\ l_SetPhysics l = None /\
    p_origin (l_physics l) = sscanf_vec3 (GetString args "origin" "0 0 0").

(** What the round trip through the instance record asks of the host for
    the live object [ent2] of instance [idx].  For a composite class the
    object uses the physics object of the class; otherwise its origin
    survives being written as text and read back, and its axis survives
    being turned into angles and back. *)
Definition transform_survives (H : Host) (s : Seed) (w : World) (idx : Z)
    (ent2 : idEntity_t) : Prop :=
  let ent := list_get (m_Entities s) idx no_entity in
  let lclass := list_get (m_Classes s) (classIdx ent) no_class in
  if pseudo lclass then
    l_SetPhysics ent2 = Some (physicsObj lclass) /\
    exists q, find (fun q => fst q =? physicsObj lclass) (physics w) = Some q
  else
    sscanf_vec3 (idVec3_ToString (p_origin (GetPhysics w ent2)))
      = p_origin (GetPhysics w ent2) /\
    idAngles_ToMat3 (idMat3_ToAngles (p_axis (GetPhysics w ent2)))
      = p_axis (GetPhysics w ent2).

(* ================================================================= *)
(** ** Placement ([Seed::PrepareEntities]) *)

(** The code draws its random numbers from [m_iSeed] as it goes.  A step
    that draws takes the state of the generator and gives it back; a step
    that can give up on the attempt ([continue] in the loop over the
    tries) answers [None].  Where one C++ expression draws several
    numbers, the draws are taken from left to right. *)

Section Placement.
Context {K : Constants} {H : Host}.

(** What stays the same while the instances of the distribution are
    placed: the size, axis and box of the SEED, its origin, its own
    spacing, the default rotation range and the inhibitors. *)
Record place_env : Type := mkPlaceEnv {
  pe_size : idVec3;
  pe_axis : idMat3;
  pe_origin : idVec3;
  pe_box : idBox;
  pe_spacing : float;
  pe_rotate_min : idAngles;
  pe_rotate_max : idAngles;
  pe_inhibitors : list seed_inhibitor_t
}.

Definition half : float := F32.lit 1 2.
Definition tiny : float := F32.lit 1 1000000.       (* 0.000001f *)

(** *** The candidate position (lines 1925 to 2051) *)

(** The list [BunchEntities]: the numbers of the instances placed so
    far that are of class [i]. *)
Definition BunchEntities (i : Z) (m_Entities : list seed_entity_t) : list Z :=
  map fst
    (filter (fun p => classIdx (snd p) =? i)
       (combine (map Z.of_nat (seq 0 (List.length m_Entities))) m_Entities)).

(** [int bunchTarget = (float)BunchEntities.Num() * RandomFloat();] for
    the number [r] drawn. *)
Definition bunchTarget (i : Z) (m_Entities : list seed_entity_t) (r : float) : Z :=
  F32.to_int
    (F32.mul (F32.of_Z (Z.of_nat (List.length (BunchEntities i m_Entities)))) r).

(** The instance around which the new one is bunched:
    [m_Entities[ bunchTarget ]]. *)
Definition bunch_neighbor (i : Z) (m_Entities : list seed_entity_t) (r : float)
    : seed_entity_t :=
  list_get m_Entities (bunchTarget i m_Entities r) no_entity.

(** The radius of the bunch. *)
Definition bunch_distance (c : seed_class_t) : float :=
  let distance :=
    F32.add (F32.mul (x (c_size c)) (x (c_size c)))
            (F32.mul (y (c_size c)) (y (c_size c))) in
  let distance := idMath_Sqrt distance in
  (* need minimum the spacing and use maximum 2 times the spacing *)
  F32.add distance (F32.mul (spacing c) (F32.of_Z 2)).

(** The bunching branch, after the draw that chose it. *)
Definition bunch_position (env : place_env) (c : seed_class_t) (i : Z)
    (m_Entities : list seed_entity_t) (s : Z) : idVec3 * Z :=
  let distance := bunch_distance c in
  (* select one at random *)
  let '(r0, s) := RandomFloat s in
  let target := bunch_neighbor i m_Entities r0 in
  let '(r1, s) := RandomFloat s in
  let '(r2, s) := RandomFloat s in
  let origin :=
    idPolar3_ToVec3
      (F32.add (F32.mul (F32.of_Z 2) distance)
               (F32.div (F32.mul r1 distance) (F32.of_Z 3)))
      F32.zero
      (F32.mul r2 (F32.of_Z 360)) in
  (* subtract the SEED origin, as m_Entities[ bunchTarget ].origin
     already contains it *)
  (Vec3.add origin (Vec3.sub (e_origin target) (pe_origin env)), s).

(** The rejection sampling in the unit circle, for the falloffs cutoff,
    power, root and linear: at most [n] rounds ([n] is 16).  The result
    is [p], [x] and [y] when the loop is left. *)
Fixpoint falloff_loop (n : nat) (falloff : Z) (factor : float) (x0 y0 : float)
    (s : Z) : (float * float * float) * Z :=
  match n with
  | O => ((F32.zero, x0, y0), s)
  | S n' =>
      (* x and y are between -1 and +1 *)
      let '(rx, s) := RandomFloat s in
      let '(ry, s) := RandomFloat s in
      let x1 := F32.mul F32.two (F32.sub rx half) in
      let y1 := F32.mul F32.two (F32.sub ry half) in
      let d := F32.add (F32.mul x1 x1) (F32.mul y1 y1) in
      if F32.gtb d F32.one then
        (* outside the circle, try again *)
        falloff_loop n' falloff factor x1 y1 s
      else if falloff =? 1 then
        (* always 1.0f inside the unit-circle for cutoff *)
        ((F32.one, x1, y1), s)
      else
        let p := if falloff =? 4 then d else idMath_Pow d factor in
        let '(r, s) := RandomFloat s in
        if F32.gtb r p then ((F32.one, x1, y1), s)
        else falloff_loop n' falloff factor x1 y1 s
  end.

(** The position without bunching, relative to the centre of the SEED. *)
Definition random_position (env : place_env) (c : seed_class_t) (s : Z)
    : option idVec3 * Z :=
  let size := pe_size env in
  if (0 <? falloff c) && (falloff c <? 5) then
    (* not "none" nor "func" *)
    let factor :=
      if falloff c =? 3 then F32.div F32.one (func_a c) else func_a c in
    let '((p, x1, y1), s) :=
      falloff_loop 16 (falloff c) factor F32.zero F32.zero s in
    if F32.ltb p tiny then
      (* did not find a valid position, skip this *)
      (None, s)
    else
      (Some (mkVec3 (F32.div (F32.mul x1 (x size)) F32.two)
                    (F32.div (F32.mul y1 (y size)) F32.two) F32.zero), s)
  else
    (* falloff = none: a random position in a unit-square *)
    let '(rx, s) := RandomFloat s in
    let '(ry, s) := RandomFloat s in
    (Some (mkVec3 (F32.mul (F32.sub rx half) (x size))
                  (F32.mul (F32.sub ry half) (y size)) F32.zero), s).

(** Bunching or not: bunching needs an instance placed already, and
    then happens when the number drawn is below the bunching of the
    class. *)
Definition candidate_position (env : place_env) (c : seed_class_t) (i : Z)
    (m_Entities : list seed_entity_t) (s : Z) : option idVec3 * Z :=
  match m_Entities with
  | [] => random_position env c s
  | _ :: _ =>
      let '(r, s) := RandomFloat s in
      if F32.ltb r (bunching c) then
        let '(origin, s) := bunch_position env c i m_Entities s in
        (Some origin, s)
      else random_position env c s
  end.

(** *** The probability of the position (lines 2053 to 2235) *)

(** Falloff func: [None] when the zero-clamp rejects the position. *)
Definition func_probability (env : place_env) (c : seed_class_t)
    (origin : idVec3) : option float :=
  if falloff c =? 5 then
    (* p = s * (Xt * x + Yt * y + a) *)
    let fx := F32.add (F32.div (x origin) (x (pe_size env))) half in
    let fx := if func_Xt c =? 2 then F32.mul fx fx else fx in
    let fy := F32.add (F32.div (y origin) (y (pe_size env))) half in
    let fy := if func_Yt c =? 2 then F32.mul fy fy else fy in
    let p :=
      F32.mul (func_s c)
        (F32.add (F32.add (F32.mul fx (func_x c)) (F32.mul fy (func_y c)))
                 (func_a c)) in
    if func_f c =? 0 then
      if F32.ltb p (func_min c) || F32.gtb p (func_max c)
      then None                       (* outside range, zero-clamp *)
      else Some F32.one
    else Some (idMath_ClampFloat (func_min c) (func_max c) p)
  else Some F32.one.

(** [fmod( fmod(v, 1.0f) + 1.0, 1.0)], stored in a [float]. *)
Definition wrap_unit (v : float) : float :=
  F64.to_float
    (fmod (F64.add (fmod (F64.of_float v) (F64.of_Z 1)) (F64.of_Z 1))
          (F64.of_Z 1)).

(** Image based falloff: [None] when the probability has become
    negligible. *)
Definition image_probability (env : place_env) (c : seed_class_t)
    (origin : idVec3) (probability : float) : option float :=
  if negb (imgmap c =? 0) then
    let mx :=
      F32.add (F32.add (F32.mul (map_scale_x c)
                          (F32.div (x origin) (x (pe_size env))))
                       (map_ofs_x c)) half in
    let my :=
      F32.add (F32.add (F32.mul (map_scale_y c)
                          (F32.div (y origin) (y (pe_size env))))
                       (map_ofs_x c)) half in
    let mx := wrap_unit mx in
    let my := wrap_unit my in
    (* 1 - x to correct for top-left images *)
    let value := GetMapDataAt (imgmap c) (F32.sub F32.one mx) my in
    let value := if map_invert c then 255 - value else value in
    let probability :=
      F32.mul probability (F32.div (F32.of_Z value) (F32.of_Z 256)) in
    if F64.ltb (F64.of_float probability) (F64.lit 1 1000000)
    then None
    else Some probability
  else Some probability.

(** The name the ground probe gives to the surface it hit. *)
Definition surface_descr (t : trace_t) : string :=
  match c_material_type t with
  | SURFTYPE_METAL => "metal"
  | SURFTYPE_STONE => "stone"
  | SURFTYPE_FLESH => "flesh"
  | SURFTYPE_WOOD => "wood"
  | SURFTYPE_CARDBOARD => "cardboard"
  | SURFTYPE_LIQUID => "liquid"
  | SURFTYPE_GLASS => "glass"
  | SURFTYPE_PLASTIC => "plastic"
  | SURFTYPE_15 => c_material_descr t
  | SURFTYPE_other => ""
  end.

(** The probability of the first material of the class whose name
    starts with the description ([name.Find( descr ) == 0]), and the
    default when there is none. *)
Fixpoint material_lookup (ms : list seed_material_t) (descr : string)
    (default : float) : float :=
  match ms with
  | [] => default
  | m :: ms' =>
      if String.prefix descr (mat_name m) then mat_probability m
      else material_lookup ms' descr default
  end.

(** The end of a trace downwards from [origin], at the bottom of the
    SEED. *)
Definition trace_end (env : place_env) (origin : idVec3) : idVec3 :=
  Vec3.set_z origin (F32.sub (z (pe_origin env)) (z (pe_size env))).

(** The probability by the material of the ground under the position. *)
Definition material_probability (env : place_env) (c : seed_class_t)
    (origin : idVec3) (probability : float) : float :=
  match materials c with
  | [] => probability
  | _ :: _ =>
      let trTest := TracePoint origin (trace_end env origin) in
      if F32.ltb (fraction trTest) F32.one then
        (* hit something *)
        let p := material_lookup (materials c) (surface_descr trTest)
                                 (defaultProb c) in
        F32.mul probability p
      else probability
  end.

(** *** Flooring and the z band (lines 2237 to 2335) *)

Definition floor_position (env : place_env) (c : seed_class_t)
    (origin : idVec3) : idVec3 :=
  if c_floor c then
    (* bounds of the class entity; assume the entity origin is at the
       entity bottom *)
    let b_1 := Vec3.set_z (Vec3.divf (Vec3.neg (c_size c)) F32.two) F32.zero in
    let b_2 := Vec3.set_z (Vec3.divf (c_size c) F32.two) (z (c_size c)) in
    let trTest :=
      TraceBounds origin (trace_end env origin) (mkBounds b_1 b_2) in
    if F32.neqb (fraction trTest) F32.one
    then endpos trTest               (* hit something *)
    else origin                      (* hit nothing *)
  else
    (* just use the Z axis from the editor pos *)
    Vec3.set_z origin (z (c_origin c)).

(** The z band: [None] when the position is outside the band (inside it
    when the band is inverted); else the probability, faded near the
    band when the band is inverted. *)
Definition z_band (c : seed_class_t) (origin : idVec3) (probability : float)
    : option float :=
  let oz := z origin in
  if negb (z_invert c) then
    if F32.ltb oz (z_min c) || F32.gtb oz (z_max c)
    then None
    else Some probability
  else
    if F32.gtb oz (z_min c) && F32.ltb oz (z_max c) then None
    else
      let probability :=
        if F32.gtb (z_fadein c) F32.zero
           && F32.ltb oz (F32.add (z_min c) (z_fadein c))
        then F32.mul probability
               (F32.div (F32.sub (F32.add (z_min c) (z_fadein c)) oz)
                        (z_fadein c))
        else probability in
      let probability :=
        if F32.gtb (z_fadeout c) F32.zero
           && F32.gtb oz (F32.sub (z_max c) (z_fadeout c))
        then F32.mul probability
               (F32.div (F32.sub (z_max c) oz) (z_fadeout c))
        else probability in
      Some probability.

(** *** Sink, offset and rotation (lines 2337 to 2357) *)

Definition sink_offset (c : seed_class_t) (origin : idVec3) (s : Z)
    : idVec3 * Z :=
  let '(origin, s) :=
    if F32.neqb (sink_min c) F32.zero || F32.neqb (sink_max c) F32.zero then
      let '(r, s) := RandomFloat s in
      let sink :=
        F32.add (sink_min c) (F32.mul r (F32.sub (sink_max c) (sink_min c))) in
      (* modify the z-axis according to the sink-value *)
      (Vec3.set_z origin (F32.sub (z origin) sink), s)
    else (origin, s) in
  (* correct for misplaced origins *)
  (Vec3.add origin (c_offset c), s).

Definition random_angles (env : place_env) (s : Z) : idAngles * Z :=
  let lo := pe_rotate_min env in
  let hi := pe_rotate_max env in
  let '(r0, s) := RandomFloat s in
  let '(r1, s) := RandomFloat s in
  let '(r2, s) := RandomFloat s in
  (mkAngles (F32.add (pitch lo) (F32.mul r0 (F32.sub (pitch hi) (pitch lo))))
            (F32.add (yaw lo) (F32.mul r1 (F32.sub (yaw hi) (yaw lo))))
            (F32.add (roll lo) (F32.mul r2 (F32.sub (roll hi) (roll lo)))),
   s).

(** *** Inhibitors (lines 2378 to 2469) *)

(** The loop over the inhibitors, with [inhibited] as it stands and the
    rest of the inhibitors to look at; a [break] leaves the loop. *)
Fixpoint inhibit_loop (c : seed_class_t) (origin : idVec3) (testBox : idBox)
    (inhs : list seed_inhibitor_t) (inhibited : bool) (s : Z) : bool * Z :=
  match inhs with
  | [] => (inhibited, s)
  | inh :: rest =>
      if idBox_IntersectsBox testBox (i_box inh) then
        (* inside an inhibitor: default is inhibit *)
        let inhibited :=
          match classnames inh with
          | [] => true
          | _ :: _ =>
              (* flip the true/false value if we found a match *)
              xorb (negb (inhibit_only inh))
                   (existsb (fun n => String.eqb n (classname c))
                            (classnames inh))
          end in
        if inhibited && (0 <? i_falloff inh) then
          (* see if the falloff does allow it, tho *)
          let factor :=
            if i_falloff inh =? 3 then F32.div F32.one (i_factor inh)
            else i_factor inh in
          (* distance to inhibitor center, normalized to 1x1 square *)
          let ix :=
            F32.div (F32.mul F32.two (F32.sub (x origin) (x (i_origin inh))))
                    (x (i_size inh)) in
          let iy :=
            F32.div (F32.mul F32.two (F32.sub (y origin) (y (i_origin inh))))
                    (y (i_size inh)) in
          let d := F32.add (F32.mul ix ix) (F32.mul iy iy) in
          if F32.ltb d F32.one then
            let p :=
              if i_falloff inh =? 1 then F32.zero     (* cutoff - always inhibit *)
              else if i_falloff inh =? 4 then d       (* 4 - linear *)
              else idMath_Pow d factor in             (* 2 or 3 *)
            let '(r, s) := RandomFloat s in
            if F32.gtb r p then (true, s)
            else inhibit_loop c origin testBox rest false s
          else
            (* outside, gets not inhibited *)
            inhibit_loop c origin testBox rest false s
        else inhibit_loop c origin testBox rest inhibited s
      else inhibit_loop c origin testBox rest inhibited s
  end.

(** *** Spacing and collision (lines 2471 to 2513) *)

(** The spacing in use: that of the SEED, unless the class has one. *)
Definition use_spacing (env : place_env) (c : seed_class_t) : float :=
  if F32.neqb (spacing c) F32.zero then spacing c else pe_spacing env.

(** The bounds of an instance as the code computes them:
    [(idBounds( size ) + origin) * angles.ToMat3()]. *)
Definition entity_bounds (c : seed_class_t) (origin : idVec3) (angles : idAngles)
    : idBounds :=
  idBounds_rotate (idBounds_translate (mkBounds (c_size c) (c_size c)) origin)
                  (idAngles_ToMat3 angles).

Definition entity_box (c : seed_class_t) (origin : idVec3) (angles : idAngles)
    : idBox :=
  mkBox origin (c_size c) (idAngles_ToMat3 angles).

(** Whether the instances placed so far pass both tests against the
    candidate: first bounds against bounds, then box against box.
    [SeedEntityBounds] and [SeedEntityBoxes] grow with [m_Entities], one
    entry for each instance. *)
Definition collides_with (testBounds : idBounds) (testBox : idBox)
    (SeedEntityBounds : list idBounds) (SeedEntityBoxes : list idBox) : bool :=
  existsb
    (fun other =>
       (* do a quick check on bounds first, then a thorough check
          against the box *)
       idBounds_IntersectsBounds (fst other) testBounds
       && idBox_IntersectsBox (snd other) testBox)
    (combine SeedEntityBounds SeedEntityBoxes).

(** The check that the candidate does not collide with any other
    instance. *)
Definition collides (env : place_env) (c : seed_class_t) (origin : idVec3)
    (angles : idAngles) (SeedEntityBounds : list idBounds)
    (SeedEntityBoxes : list idBox) : bool :=
  if (0 <? nocollide c) || F32.gtb (use_spacing env c) F32.zero then
    (* expand the testBounds and testBox with the spacing *)
    let testBounds :=
      idBounds_ExpandSelf (entity_bounds c origin angles) (use_spacing env c) in
    let testBox :=
      idBox_ExpandSelf (entity_box c origin angles) (use_spacing env c) in
    collides_with testBounds testBox SeedEntityBounds SeedEntityBoxes
  else false.

(** *** One try (the body of the loop over the tries) *)

(** The instances placed so far, with their bounds and boxes. *)
Record placed_t : Type := mkPlaced {
  pl_Entities : list seed_entity_t;
  pl_Bounds : list idBounds;
  pl_Boxes : list idBox
}.

(** One try for an instance of class [c], number [i]: the origin and
    the angles found, or [None] when the try is given up. *)
Definition attempt (env : place_env) (c : seed_class_t) (i : Z)
    (pl : placed_t) (s : Z) : option (idVec3 * idAngles) * Z :=
  let '(position, s) := candidate_position env c i (pl_Entities pl) s in
  match position with
  | None => (None, s)
  | Some origin =>
  (* what is the probability it will appear here? *)
  match func_probability env c origin with
  | None => (None, s)
  | Some probability =>
  match image_probability env c origin probability with
  | None => (None, s)
  | Some probability =>
  (* Rotate around our rotation axis, add origin of the SEED *)
  let origin :=
    Vec3.add (idVec3_mul_idMat3 origin (pe_axis env)) (pe_origin env) in
  let probability := material_probability env c origin probability in
  (* check against the probability *)
  let '(r, s) := RandomFloat s in
  if F32.gtb r probability then (None, s)
  else
  let origin := floor_position env c origin in
  match z_band c origin probability with
  | None => (None, s)
  | Some probability =>
  if F32.gtb r probability then (None, s)
  else
  let '(origin, s) := sink_offset c origin s in
  let '(angles, s) := random_angles env s in
  (* inside SEED bounds? *)
  if idBox_ContainsPoint (pe_box env) origin then
    let '(inhibited, s) :=
      if noinhibit c then (false, s)
      else inhibit_loop c origin (entity_box c origin angles)
                        (pe_inhibitors env) false s in
    if inhibited then (None, s)
    else if collides env c origin angles (pl_Bounds pl) (pl_Boxes pl)
         then (None, s)
         else (Some (origin, angles), s)
  else (None, s)
  end end end end.

(** *** The loop over the tries, and one instance (lines 1916 to 2574) *)

(** [int tries = 0; while (tries++ < MAX_TRIES) { ... }]: the value of
    [tries] when the loop is left, the try that was accepted (the loop
    was left by [break]) or [None], and the generator.  [fuel] bounds
    the number of times the condition is looked at; [MAX_TRIES + 1] is
    enough. *)
Fixpoint try_loop (fuel : nat) (env : place_env) (c : seed_class_t) (i : Z)
    (pl : placed_t) (tries : Z) (s : Z)
    : Z * option (idVec3 * idAngles) * Z :=
  match fuel with
  | O => (tries, None, s)
  | S fuel' =>
      if tries <? MAX_TRIES then
        match attempt env c i pl s with
        | (Some found, s') => (tries + 1, Some found, s')
        | (None, s') => try_loop fuel' env c i pl (tries + 1) s'
        end
      else (tries + 1, None, s)
  end.

(** The instance that is stored for an accepted try. *)
Definition new_entity (c : seed_class_t) (i : Z) (origin : idVec3)
    (angles : idAngles) (s : Z) : seed_entity_t * Z :=
  (* compute a random color value *)
  let color := Vec3.sub (color_max c) (color_min c) in
  let '(r, s) := RandomFloat s in
  let cx := F32.add (F32.mul (x color) r) (x (color_min c)) in
  let '(r, s) := RandomFloat s in
  let cy := F32.add (F32.mul (y color) r) (y (color_min c)) in
  let '(r, s) := RandomFloat s in
  let cz := F32.add (F32.mul (z color) r) (z (color_min c)) in
  (* choose skin randomly *)
  let '(r, s) := RandomFloat s in
  let skin :=
    list_get (skins c)
      (F32.to_int (F32.mul r (F32.of_Z (Z.of_nat (List.length (skins c))))))
      0 in
  (* compute a random value between scale_min and scale_max *)
  let '(scale, s) :=
    if F32.eqb (x (scale_min c)) F32.zero then
      (* axes-equal scaling *)
      let '(r, s) := RandomFloat s in
      let factor :=
        F32.add (F32.mul r (F32.sub (z (scale_max c)) (z (scale_min c))))
                (z (scale_min c)) in
      (mkVec3 factor factor factor, s)
    else
      let scale := Vec3.sub (scale_max c) (scale_min c) in
      let '(r, s) := RandomFloat s in
      let sx := F32.add (F32.mul (x scale) r) (x (scale_min c)) in
      let '(r, s) := RandomFloat s in
      let sy := F32.add (F32.mul (y scale) r) (y (scale_min c)) in
      let '(r, s) := RandomFloat s in
      let sz := F32.add (F32.mul (z scale) r) (z (scale_min c)) in
      (mkVec3 sx sy sz, s) in
  (* will be automatically spawned when we are in range: hidden, but not
     SEED_ENTITY_EXISTS *)
  (mkEntity skin origin angles (PackColor (mkVec3 cx cy cz))
            SEED_ENTITY_HIDDEN 0 i scale, s).

(** One round of the loop over the instances of a class: whether an
    instance was stored, the instances afterwards, and the generator. *)
Definition place_instance (env : place_env) (c : seed_class_t) (i : Z)
    (pl : placed_t) (s : Z) : bool * placed_t * Z :=
  let '(tries, found, s) :=
    try_loop (Z.to_nat (MAX_TRIES + 1)) env c i pl 0 s in
  (* couldn't place entity even after 10 tries? *)
  if MAX_TRIES <=? tries then (false, pl, s)
  else
    match found with
    | None => (false, pl, s)
    | Some (origin, angles) =>
        let '(e, s) := new_entity c i origin angles s in
        (true,
         mkPlaced (pl_Entities pl ++ [e])%list
                  (pl_Bounds pl ++ [entity_bounds c origin angles])%list
                  (pl_Boxes pl ++ [entity_box c origin angles])%list,
         s)
    end.

(** The loop [for (int j = 0; j < iEntities; j++)], with [n] rounds
    left; it is left early when enough instances are stored. *)
Fixpoint instances_loop (n : nat) (env : place_env) (c : seed_class_t) (i : Z)
    (m_iNumEntities : Z) (pl : placed_t) (s : Z) : placed_t * Z :=
  match n with
  | O => (pl, s)
  | S n' =>
      let '(stored, pl', s') := place_instance env c i pl s in
      if stored && (m_iNumEntities <=? Z.of_nat (List.length (pl_Entities pl')))
      then (pl', s')                   (* have enough entities, stop *)
      else instances_loop n' env c i m_iNumEntities pl' s'
  end.

(** The number of instances to try for a class. *)
Definition iEntities (c : seed_class_t) : Z :=
  if maxEntities c <=? 0
  then (if numEntities c <? 0 then 0 else numEntities c)
  else maxEntities c.

(** The loop over the classes in their shuffled order [ClassIndex]. *)
Fixpoint classes_loop (ClassIndex : list Z) (env : place_env)
    (m_Classes : list seed_class_t) (m_iNumEntities : Z) (pl : placed_t)
    (m_iSeed : Z) : placed_t * Z :=
  match ClassIndex with
  | [] => (pl, m_iSeed)
  | i :: rest =>
      if m_iNumEntities <=? Z.of_nat (List.length (pl_Entities pl))
      then (pl, m_iSeed)               (* have enough entities, stop *)
      else
        let c := list_get m_Classes i no_class in
        if watch c
        then classes_loop rest env m_Classes m_iNumEntities pl m_iSeed
        else
          (* random generator 2 inits the random generator 1 *)
          let '(pl', s') :=
            instances_loop (Z.to_nat (iEntities c)) env c i m_iNumEntities
                           pl (seed c) in
          classes_loop rest env m_Classes m_iNumEntities pl' s'
  end.

(** The generator after [n] tries in a row that were all given up, and
    [None] when one of them was accepted. *)
Fixpoint after_rejections (n : nat) (env : place_env) (c : seed_class_t)
    (i : Z) (pl : placed_t) (s : Z) : option Z :=
  match n with
  | O => Some s
  | S n' =>
      match attempt env c i pl s with
      | (None, s') => after_rejections n' env c i pl s'
      | (Some _, _) => None
      end
  end.

(** *** Seeds and order of the classes (lines 1830 to 1872) *)

(** [m_Classes[i].seed = RandomSeed()] for every class in turn. *)
Fixpoint assign_seeds (classes : list seed_class_t) (m_iSeed_2 : Z)
    : list seed_class_t * Z :=
  match classes with
  | [] => ([], m_iSeed_2)
  | c :: rest =>
      let '(v, s2) := RandomSeed m_iSeed_2 in
      let '(rest', s2') := assign_seeds rest s2 in
      (set_seed c v :: rest', s2')
  end.

Definition swap (ClassIndex : list Z) (i second : Z) : list Z :=
  let temp := list_get ClassIndex i 0 in
  let ClassIndex := list_set ClassIndex i (list_get ClassIndex second 0) in
  list_set ClassIndex second temp.

(** Randomly shuffle all entries: one swap for each [i] of [todo], with
    a partner drawn among the [count] classes. *)
Fixpoint shuffle_loop (todo : list Z) (count : Z) (ClassIndex : list Z)
    (m_iSeed : Z) : list Z * Z :=
  match todo with
  | [] => (ClassIndex, m_iSeed)
  | i :: rest =>
      let '(r, s) := RandomFloat m_iSeed in
      let second := F32.to_int (F32.mul r (F32.of_Z count)) in
      shuffle_loop rest count (swap ClassIndex i second) s
  end.

(** *** Watched brethren (lines 2577 to 2616) *)

(** [Seed::AddSkin]: the index of the skin, and the skin table. *)
Fixpoint skin_index (m_Skins : list string) (skin : string) (i : Z) : option Z :=
  match m_Skins with
  | [] => None
  | n :: rest => if String.eqb n skin then Some i else skin_index rest skin (i + 1)
  end.

Definition AddSkin (m_Skins : list string) (skin : string) : Z * list string :=
  match skin_index m_Skins skin 0 with
  | Some i => (i, m_Skins)
  | None => (Z.of_nat (List.length m_Skins), (m_Skins ++ [skin])%list)
  end.

(** Modelled from the spec: the definition name and the skin of a live
    object are read from the arguments it was spawned with. *)
Definition GetEntityDefName (e : idEntity_t) : string :=
  GetString (l_spawnArgs e) "classname" "".
Definition GetSkinName (e : idEntity_t) : string :=
  GetString (l_spawnArgs e) "skin" "".

(** The live objects number [j] of [js] that class [c], number [i],
    watches over, appended to the instances.  [SeedEntity] is the local
    variable of that name as the placement left it: the colour and the
    scale of a watched instance are not assigned and stay what they were
    there. *)
Fixpoint watch_loop (js : list Z) (w : World) (box : idBox) (c : seed_class_t)
    (i : Z) (SeedEntity : seed_entity_t) (m_Entities : list seed_entity_t)
    (m_Skins : list string) : list seed_entity_t * list string :=
  match js with
  | [] => (m_Entities, m_Skins)
  | j :: rest =>
      match list_get (entities w) j None with
      | None => watch_loop rest w box c i SeedEntity m_Entities m_Skins
      | Some ent =>
          let origin := p_origin (GetPhysics w ent) in
          if String.eqb (GetEntityDefName ent) (classname c)
             && idBox_ContainsPoint box origin
          then
            let '(skin, m_Skins) := AddSkin m_Skins (GetSkinName ent) in
            (* already exists, already visible and spawned *)
            let e :=
              mkEntity skin origin (idMat3_ToAngles (p_axis (GetPhysics w ent)))
                (e_color SeedEntity)
                (wrap32 (SEED_ENTITY_EXISTS + SEED_ENTITY_SPAWNED))
                j i (e_scale SeedEntity) in
            watch_loop rest w box c i SeedEntity (m_Entities ++ [e])%list m_Skins
          else watch_loop rest w box c i SeedEntity m_Entities m_Skins
      end
  end.

Fixpoint watch_classes (cs : list (Z * seed_class_t)) (w : World) (box : idBox)
    (SeedEntity : seed_entity_t) (m_Entities : list seed_entity_t)
    (m_Skins : list string) : list seed_entity_t * list string :=
  match cs with
  | [] => (m_Entities, m_Skins)
  | (i, c) :: rest =>
      if watch c then
        let '(m_Entities, m_Skins) :=
          watch_loop (map Z.of_nat (seq 0 (Z.to_nat (num_entities w)))) w box
                     c i SeedEntity m_Entities m_Skins in
        watch_classes rest w box SeedEntity m_Entities m_Skins
      else watch_classes rest w box SeedEntity m_Entities m_Skins
  end.

(** *** The placement as a whole *)

Definition indices {A : Type} (l : list A) : list Z :=
  map Z.of_nat (seq 0 (List.length l)).

Definition placement_env (s : Seed) : place_env :=
  mkPlaceEnv (renderEntity_size s) (renderEntity_axis s) (m_origin s)
    (mkBox (m_origin s) (renderEntity_size s) (renderEntity_axis s))
    (GetFloat (spawnArgs s) "spacing" "0")
    (GetAngles (spawnArgs s) "seed_rotate_min"
               (GetString (spawnArgs s) "rotate_min" "0 0 0"))
    (GetAngles (spawnArgs s) "seed_rotate_max"
               (GetString (spawnArgs s) "rotate_max" "5 360 5"))
    (m_Inhibitors s).

(** The generated instances: [Seed::PrepareEntities] up to the end of
    the loop over the classes.  The result is the class table (pseudo
    classes removed, seeds assigned), the instances with their bounds and
    boxes, and the two generators. *)
Definition generate (s : Seed)
    : list seed_class_t * placed_t * Z * Z :=
  (* remove pseudo classes as we start over fresh *)
  let classes := filter (fun c => negb (pseudo c)) (m_Classes s) in
  (* Calculate the per-class seed *)
  let '(classes, m_iSeed_2) := assign_seeds classes (m_iSeed_2 s) in
  (* Randomly shuffle all entries *)
  let '(m_iSeed, m_iSeed_2) := RandomSeed m_iSeed_2 in
  let '(ClassIndex, m_iSeed) :=
    shuffle_loop (indices classes) (Z.of_nat (List.length classes))
                 (indices classes) m_iSeed in
  let '(pl, m_iSeed) :=
    classes_loop ClassIndex (placement_env s) classes (m_iNumEntities s)
                 (mkPlaced [] [] []) m_iSeed in
  (classes, pl, m_iSeed, m_iSeed_2).

(** The members of [Seed] that [PrepareEntities] assigns. *)
Definition with_placement (s : Seed) (classes : list seed_class_t)
    (ents : list seed_entity_t) (m_iSeed' m_iSeed_2' : Z)
    (skins : list string) : Seed :=
  mkSeed (spawnArgs s) (renderEntity_size s) (renderEntity_axis s)
    (renderEntity_origin s) (m_origin s) m_iSeed' m_iSeed_2'
    (m_iOrgSeed s) (m_fLODBias s) (m_bCombine s) (m_bDebugColors s)
    ents classes (m_Inhibitors s) skins (m_iNumEntities s) 0 0
    (m_iNumStaticMulties s) (m_iNumPVSAreas s).

(** [Seed::PrepareEntities] up to the call of [CombineEntities]: the
    generated instances, then the watched brethren.  [SeedEntity0] is
    what the local variable [SeedEntity] holds before anything is
    assigned to it. *)
Definition PlaceEntities (s : Seed) (w : World) (SeedEntity0 : seed_entity_t)
    : Seed :=
  let '(classes, pl, m_iSeed, m_iSeed_2) := generate s in
  let SeedEntity := last (pl_Entities pl) SeedEntity0 in
  let '(ents, skins) :=
    watch_classes (combine (indices classes) classes) w
      (pe_box (placement_env s)) SeedEntity (pl_Entities pl) (m_Skins s) in
  with_placement s classes ents m_iSeed m_iSeed_2 skins.

End Placement.

(* ================================================================= *)
(** ** Combining ([Seed::CombineEntities]) *)

Section Combine.
Context {K : Constants} {H : Host}.

(** An offset with the number of the instance it stands for. *)
Record seed_sort_ofs_t : Type := mkSortOfs {
  so_ofs : model_ofs_t;
  so_entity : Z
}.

(** sort a list of offsets by their distance *)
Definition SortOffsetsByDistance (a b : seed_sort_ofs_t) : Z :=
  let d := F32.sub (Vec3.LengthSqr (ofs_offset (so_ofs a)))
                   (Vec3.LengthSqr (ofs_offset (so_ofs b))) in
  if F32.ltb d F32.zero then -1
  else if F32.gtb d F32.zero then 1
  else 0.

(** [Seed::LODDistance] *)
Definition LODDistance (m_LOD : option lod_data_t) (delta : idVec3) : float :=
  let delta :=
    match m_LOD with
    | Some lod =>
        if bDistCheckXYOnly lod
        then Vec3.sub delta
               (Vec3.scale (Vec3.dot GetGravityNormal delta) GetGravityNormal)
        else delta
    | None => delta
    end in
  (* multiply with the user LOD bias setting *)
  F32.div (Vec3.LengthSqr delta) (F32.mul cv_lod_bias cv_lod_bias).

(** The offset record of instance [e] at [offset] from the instance
    [seedOrigin] that the others are merged into. *)
Definition make_ofs (entityClass : seed_class_t) (seedOrigin offset : idVec3)
    (e : seed_entity_t) : model_ofs_t :=
  let '(fAlpha, m_LODLevel) :=
    ThinkAboutLOD (m_LOD entityClass)
      (LODDistance (m_LOD entityClass) (Vec3.sub seedOrigin playerPos)) in
  (* 0 => default model, 1 => first stage etc *)
  mkOfs offset (e_angles e) (m_LODLevel + 1) (e_color e) (e_scale e) 0.

(** In which PVS is this entity? -1 for more than one area. *)
Definition entity_pvs (m_Classes : list seed_class_t) (e : seed_entity_t) : Z :=
  let size :=
    Vec3.divf (c_size (list_get m_Classes (classIdx e) no_class)) F32.two in
  let modelAbsBounds :=
    idBounds_FromTransformedBounds (mkBounds (Vec3.neg size) size)
      (e_origin e) (idAngles_ToMat3 (e_angles e)) in
  let '(iNumPVSAreas, area0) := GetPVSAreas modelAbsBounds in
  if 1 <? iNumPVSAreas then -1 else area0.

(** Whether instance [j] is merged into instance [i]: not merged
    already, same class, same skin, same PVS, and not too far. *)
Definition mergeable (multiPVS : bool) (pvs : list Z)
    (max_combine_distance : float) (m_Entities : list seed_entity_t)
    (i j : Z) : bool :=
  let ei := list_get m_Entities i no_entity in
  let ej := list_get m_Entities j no_entity in
  negb (classIdx ej =? -1)
  && (classIdx ej =? classIdx ei)
  && (skinIdx ej =? skinIdx ei)
  && negb (multiPVS && negb (list_get pvs j 0 =? list_get pvs i 0))
  && negb (F32.gtb (Vec3.LengthSqr (Vec3.sub (e_origin ej) (e_origin ei)))
                   max_combine_distance).

Definition negate_classIdx (m_Entities : list seed_entity_t) (idx : Z)
    : list seed_entity_t :=
  let e := list_get m_Entities idx no_entity in
  list_set m_Entities idx (set_classIdx e (- classIdx e)).

(** The loop over the later instances [js]: every one that can be merged
    gets an entry in [sortedOffsets] and a negated class index. *)
Fixpoint collect (js : list Z) (multiPVS : bool) (pvs : list Z)
    (max_combine_distance : float) (entityClass : seed_class_t) (i : Z)
    (m_Entities : list seed_entity_t) (sortedOffsets : list seed_sort_ofs_t)
    (merged : Z) : list seed_entity_t * list seed_sort_ofs_t * Z :=
  match js with
  | [] => (m_Entities, sortedOffsets, merged)
  | j :: rest =>
      if mergeable multiPVS pvs max_combine_distance m_Entities i j then
        let ei := list_get m_Entities i no_entity in
        let ej := list_get m_Entities j no_entity in
        let ofs :=
          make_ofs entityClass (e_origin ei)
                   (Vec3.sub (e_origin ej) (e_origin ei)) ej in
        (* mark with negative classIdx so we can skip it, or restore the
           classIdx (be negating it again) *)
        collect rest multiPVS pvs max_combine_distance entityClass i
                (negate_classIdx m_Entities j)
                (sortedOffsets ++ [mkSortOfs ofs j])%list (merged + 1)
      else
        collect rest multiPVS pvs max_combine_distance entityClass i
                m_Entities sortedOffsets merged
  end.

(** If we have more entities to merge than what will fit into the
    model, sort them based on distance and select the N nearest; for
    every entity after the first [maxModelCount], restore their class
    index so they get later checked again. *)
Definition truncate_offsets (maxModelCount merged : Z)
    (sortedOffsets : list seed_sort_ofs_t) (m_Entities : list seed_entity_t)
    : list seed_sort_ofs_t * list seed_entity_t :=
  if maxModelCount <? merged then
    let sorted := qsort _ SortOffsetsByDistance sortedOffsets in
    (firstn (Z.to_nat maxModelCount) sorted,
     fold_left (fun ents so => negate_classIdx ents (so_entity so))
               (skipn (Z.to_nat maxModelCount) sorted) m_Entities)
  else (sortedOffsets, m_Entities).

(** mark all entities that will be merged as "deleted" *)
Definition mark_merged (sortedOffsets : list seed_sort_ofs_t)
    (m_Entities : list seed_entity_t) : list seed_entity_t :=
  fold_left
    (fun ents so =>
       list_set ents (so_entity so)
                (set_classIdx (list_get ents (so_entity so) no_entity) (-1)))
    sortedOffsets m_Entities.

(** The model of the lowest LOD stage that can be loaded. *)
Definition lowest_LOD_model (entityClass : seed_class_t) : string :=
  match m_LOD entityClass with
  | None => modelname entityClass
  | Some lod =>
      fold_left
        (fun lowest mName =>
           if String.eqb mName "" then lowest
           else if FindModel mName =? 0 then lowest else mName)
        (firstn (Z.to_nat LOD_LEVELS) (ModelLOD lod)) (modelname entityClass)
  end.

(** The local [PseudoClass] once a merge has filled it in: the members
    the code assigns, and for the rest what the variable held before. *)
Definition make_pseudo (PseudoClass entityClass : seed_class_t)
    (newPhysics : Z) (newOffsets : list model_ofs_t) (material : string)
    : seed_class_t :=
  mkClass FUNC_DUMMY (modelname entityClass) true (watch PseudoClass)
    (seed PseudoClass) 0 0 0 (solid entityClass) (nocombine PseudoClass)
    (c_origin PseudoClass) (c_offset entityClass) (c_floor PseudoClass)
    (noinhibit PseudoClass) (spacing PseudoClass) (sink_min PseudoClass)
    (sink_max PseudoClass) (scale_min PseudoClass) (scale_max PseudoClass)
    (falloff PseudoClass) (func_x PseudoClass) (func_y PseudoClass)
    (func_s PseudoClass) (func_a PseudoClass) (func_Xt PseudoClass)
    (func_Yt PseudoClass) (func_f PseudoClass) (func_min PseudoClass)
    (func_max PseudoClass) 0 (map_invert PseudoClass)
    (map_scale_x PseudoClass) (map_scale_y PseudoClass)
    (map_ofs_x PseudoClass) (map_ofs_y PseudoClass) (bunching PseudoClass)
    (nocollide PseudoClass) (c_size entityClass) (cullDist entityClass)
    (spawnDist entityClass) (m_LOD entityClass) (materials PseudoClass)
    (defaultProb PseudoClass) (hModel entityClass) (clip entityClass)
    newPhysics material (color_min PseudoClass) (color_max PseudoClass)
    (impulse_min PseudoClass) (impulse_max PseudoClass) (z_invert PseudoClass)
    (z_min PseudoClass) (z_max PseudoClass) (z_fadein PseudoClass)
    (z_fadeout PseudoClass) (avgSize PseudoClass) (skins PseudoClass)
    newOffsets.

(** What the loop over the instances carries along. *)
Record combine_t : Type := mkCombine {
  cb_Entities : list seed_entity_t;
  cb_Classes : list seed_class_t;
  cb_mergedCount : Z;
  cb_world : World;
  cb_PseudoClass : seed_class_t
}.

(** One round of the loop over the instances: instance [i] takes in the
    later instances [js] that can be merged into it. *)
Definition combine_one (m_bDebugColors multiPVS : bool) (pvs : list Z)
    (max_combine_distance : float) (js : list Z) (i : Z) (st : combine_t)
    : combine_t :=
  let ei := list_get (cb_Entities st) i no_entity in
  if classIdx ei <? 0 then st                   (* already combined, skip *)
  else
    let entityClass := list_get (cb_Classes st) (classIdx ei) no_class in
    if nocombine entityClass then st
    else
      let tempModel :=
        if hModel entityClass =? 0 then FindModel (modelname entityClass)
        else hModel entityClass in
      if tempModel =? 0 then st
      else
        (* the first copy is the original *)
        let first := make_ofs entityClass (e_origin ei) Vec3.zero ei in
        (* how many can we combine at most? *)
        let maxModelCount := GetMaxModelCount tempModel in
        let '(ents, sortedOffsets, merged) :=
          collect js multiPVS pvs max_combine_distance entityClass i
                  (cb_Entities st) [mkSortOfs first i] 0 in
        if 0 <? merged then
          let w := cb_world st in
          let newPhysics := new_idPhysics_StaticMulti w in
          let '(sortedOffsets, ents) :=
            truncate_offsets maxModelCount merged sortedOffsets ents in
          let clipLoaded :=
            solid entityClass
            && (negb (clip entityClass =? 0)
                || idClipModel_LoadModel (lowest_LOD_model entityClass)) in
          let ph :=
            if clipLoaded
            then mkPhysics (e_origin (list_get ents i no_entity))
                           (idAngles_ToMat3 ang_zero)
            else mkPhysics Vec3.zero (idAngles_ToMat3 ang_zero) in
          let ents := mark_merged sortedOffsets ents in
          let material :=
            if m_bDebugColors
            then String.append "textures/darkmod/debug/" seed_debug_material
            else "" in
          let PseudoClass :=
            make_pseudo (cb_PseudoClass st) entityClass newPhysics
                        (map so_ofs sortedOffsets) material in
          (* replace the old class with the new pseudo class, mark as
             using a pseudo class, don't rotate the combined model *)
          let e := list_get ents i no_entity in
          let e :=
            mkEntity (skinIdx e) (e_origin e) ang_zero (e_color e)
                     (wrap32 (flags e + SEED_ENTITY_PSEUDO)) (entity e)
                     (Z.of_nat (List.length (cb_Classes st))) (e_scale e) in
          mkCombine (list_set ents i e)
                    (cb_Classes st ++ [PseudoClass])%list
                    (cb_mergedCount st + merged)
                    (mkWorld (entities w) (num_entities w)
                             ((newPhysics, ph) :: physics w) (removals w))
                    PseudoClass
        else
          mkCombine ents (cb_Classes st) (cb_mergedCount st) (cb_world st)
                    (cb_PseudoClass st).

(** The members of [Seed] that combining assigns. *)
Definition with_tables (s : Seed) (ents : list seed_entity_t)
    (classes : list seed_class_t) : Seed :=
  mkSeed (spawnArgs s) (renderEntity_size s) (renderEntity_axis s)
    (renderEntity_origin s) (m_origin s) (m_iSeed s) (m_iSeed_2 s)
    (m_iOrgSeed s) (m_fLODBias s) (m_bCombine s) (m_bDebugColors s)
    ents classes (m_Inhibitors s) (m_Skins s) (m_iNumEntities s)
    (m_iNumExisting s) (m_iNumVisible s) (m_iNumStaticMulties s)
    (m_iNumPVSAreas s).

(** The loop [for (int i = 0; i < n - 1; i++)] over the instances. *)
Definition combine_loop (m_bDebugColors multiPVS : bool) (pvs : list Z)
    (max_combine_distance : float) (n : nat) (st : combine_t) : combine_t :=
  fold_left
    (fun st i =>
       combine_one m_bDebugColors multiPVS pvs max_combine_distance
         (map Z.of_nat (seq (S i) (n - 1 - i))) (Z.of_nat i) st)
    (seq 0 (n - 1)) st.

(** [Seed::CombineEntities].  [PseudoClass0] is what the local variable
    [PseudoClass] holds before anything is assigned to it. *)
Definition CombineEntities (s : Seed) (w : World) (PseudoClass0 : seed_class_t)
    : Seed * World :=
  if negb (m_bCombine s) then (s, w)
  else
    let max_combine_distance := GetFloat (spawnArgs s) "combine_distance" "1024" in
    let max_combine_distance :=
      if F32.ltb max_combine_distance (F32.of_Z 10) then F32.of_Z 10
      else max_combine_distance in
    (* square for easier comparing *)
    let max_combine_distance :=
      F32.mul max_combine_distance max_combine_distance in
    let multiPVS := 1 <? m_iNumPVSAreas s in
    let pvs :=
      if multiPVS then map (entity_pvs (m_Classes s)) (m_Entities s) else [] in
    let st :=
      combine_loop (m_bDebugColors s) multiPVS pvs max_combine_distance
        (List.length (m_Entities s))
        (mkCombine (m_Entities s) (m_Classes s) 0 w PseudoClass0) in
    (* delete all entities that got merged *)
    let ents :=
      if 0 <? cb_mergedCount st
      then filter (fun e => negb (classIdx e =? -1)) (cb_Entities st)
      else cb_Entities st in
    (with_tables s ents (cb_Classes st), cb_world st).

(** [Seed::PrepareEntities]: placement, then combination. *)
Definition PrepareEntities (s : Seed) (w : World) (SeedEntity0 : seed_entity_t)
    (PseudoClass0 : seed_class_t) : Seed * World :=
  CombineEntities (PlaceEntities s w SeedEntity0) w PseudoClass0.

(** *** Recomputing when the quality bias has changed ([Seed::Think]) *)

(** [Seed::Event_CullAll] *)
Definition Event_CullAll (s : Seed) (w : World) : Seed * World :=
  let '(s, w) :=
    fold_left
      (fun sw i => let '(_, s', w') := CullEntity (fst sw) (snd sw) i in (s', w'))
      (indices (m_Entities s)) (s, w) in
  (mkSeed (spawnArgs s) (renderEntity_size s) (renderEntity_axis s)
     (renderEntity_origin s) (m_origin s) (m_iSeed s) (m_iSeed_2 s)
     (m_iOrgSeed s) (m_fLODBias s) (m_bCombine s) (m_bDebugColors s)
     (m_Entities s) (m_Classes s) (m_Inhibitors s) (m_Skins s)
     (m_iNumEntities s) 0 0 0 (m_iNumPVSAreas s),
   w).

(** create same sequence again: [m_iSeed_2 = m_iOrgSeed] *)
Definition reseed (s : Seed) : Seed :=
  mkSeed (spawnArgs s) (renderEntity_size s) (renderEntity_axis s)
    (renderEntity_origin s) (m_origin s) (m_iSeed s) (m_iOrgSeed s)
    (m_iOrgSeed s) (m_fLODBias s) (m_bCombine s) (m_bDebugColors s)
    (m_Entities s) (m_Classes s) (m_Inhibitors s) (m_Skins s)
    (m_iNumEntities s) (m_iNumExisting s) (m_iNumVisible s)
    (m_iNumStaticMulties s) (m_iNumPVSAreas s).

Definition with_counts (s : Seed) (classes : list seed_class_t)
    (numEntities : Z) (bias : float) : Seed :=
  mkSeed (spawnArgs s) (renderEntity_size s) (renderEntity_axis s)
    (renderEntity_origin s) (m_origin s) (m_iSeed s) (m_iSeed_2 s)
    (m_iOrgSeed s) bias (m_bCombine s) (m_bDebugColors s)
    (m_Entities s) classes (m_Inhibitors s) (m_Skins s)
    numEntities (m_iNumExisting s) (m_iNumVisible s)
    (m_iNumStaticMulties s) (m_iNumPVSAreas s).

(** The branch of [Think] for a changed GUI setting. *)
Definition Think_bias_changed (s : Seed) (w : World)
    (SeedEntity0 : seed_entity_t) (PseudoClass0 : seed_class_t)
    : Seed * World :=
  let cur_entities := m_iNumEntities s in
  let '(classes, numEntities) :=
    ComputeEntityCount (spawnArgs s) (renderEntity_size s) (m_Classes s) in
  let s := with_counts s classes numEntities (m_fLODBias s) in
  let '(s, w) :=
    if negb (cur_entities =? numEntities) then
      let '(s, w) := Event_CullAll s w in
      PrepareEntities (reseed s) w SeedEntity0 PseudoClass0
    else (s, w) in
  (* save the new value *)
  (with_counts s (m_Classes s) (m_iNumEntities s) cv_lod_bias, w).

End Combine.

(* ================================================================= *)
(** ** Two runs of the placement *)

(** What two distributions have in common when the placement is run on
    both "for a fixed root seed and fixed class and inhibitor tables":
    the root seed, the settings and the geometry of the SEED, the
    inhibitors, the target count, and the classes that are not pseudo
    classes, up to the seed that the placement assigns to each class
    itself.  The working generators, the instances and the pseudo classes
    left by an earlier run may differ. *)
Definition same_inputs (s1 s2 : Seed) : Prop :=
  spawnArgs s1 = spawnArgs s2 /\
  renderEntity_size s1 = renderEntity_size s2 /\
  renderEntity_axis s1 = renderEntity_axis s2 /\
  m_origin s1 = m_origin s2 /\
  m_iOrgSeed s1 = m_iOrgSeed s2 /\
  m_Inhibitors s1 = m_Inhibitors s2 /\
  m_iNumEntities s1 = m_iNumEntities s2 /\
  map (fun c => set_seed c 0) (filter (fun c => negb (pseudo c)) (m_Classes s1))
  = map (fun c => set_seed c 0) (filter (fun c => negb (pseudo c)) (m_Classes s2)).

(* ================================================================= *)
(** ** A concrete host *)

(** Decimal numbers as [atoi] and [atof] read them, for numbers of a few
    digits: an optional minus sign, digits, and for [atof] a point and
    more digits. *)
Definition digit_of (c : ascii) : option Z :=
  let n := Z.of_nat (nat_of_ascii c) in
  if (48 <=? n) && (n <=? 57) then Some (n - 48) else None.

Fixpoint digits (s : string) (acc : Z) : Z * string :=
  match s with
  | String c s' =>
      match digit_of c with
      | Some d => digits s' (10 * acc + d)
      | None => (acc, s)
      end
  | EmptyString => (acc, s)
  end.

Fixpoint frac_digits (s : string) (num den : Z) : Z * Z :=
  match s with
  | String c s' =>
      match digit_of c with
      | Some d => frac_digits s' (10 * num + d) (10 * den)
      | None => (num, den)
      end
  | EmptyString => (num, den)
  end.

Definition atoi_dec (s : string) : Z :=
  match s with
  | String "-"%char s' => - fst (digits s' 0)
  | _ => fst (digits s 0)
  end.

Definition atof_dec (s : string) : float :=
  let '(minus, s) :=
    match s with
    | String "-"%char s' => (true, s')
    | _ => (false, s)
    end in
  let '(ip, rest) := digits s 0 in
  let '(num, den) :=
    match rest with
    | String "."%char r => frac_digits r ip 1
    | _ => (ip, 1)
    end in
  let v := F32.lit num den in
  if minus then F32.neg v else v.

(** A sort by insertion, to stand for [qsort] on concrete inputs. *)
Fixpoint insert_sorted {A : Type} (cmp : A -> A -> Z) (a : A) (l : list A)
    : list A :=
  match l with
  | [] => [a]
  | b :: l' => if cmp a b <=? 0 then a :: l else b :: insert_sorted cmp a l'
  end.

Definition insertion_sort (A : Type) (cmp : A -> A -> Z) (l : list A) : list A :=
  fold_right (insert_sorted cmp) [] l.

(** A host in which nothing is ever hit, numbers are read in decimal,
    the quality bias is the given one, every model name loads as the
    given model ([0]: none loads) and the model generator merges at most
    the given number of models.  It serves to run the code on concrete
    inputs. *)
Definition idle_trace : trace_t :=
  mkTrace F32.one Vec3.zero (mkMat3 Vec3.zero Vec3.zero Vec3.zero)
          SURFTYPE_other "".

Definition test_host (bias : float) (model maxModelCount : Z) : Host := {|
  atof := atof_dec;
  atoi := atoi_dec;
  fmod := fun a _ => a;
  sscanf_vec3 := fun _ => Vec3.zero;
  sscanf_angles := fun _ => ang_zero;
  idVec3_ToString := fun _ => "0 0 0";
  idMath_Sqrt := fun f => f;
  idMath_Pow := fun f _ => f;
  idMath_ClampFloat := fun _ _ f => f;
  idMath_PI := F32.lit 13176795 4194304;
  idPolar3_ToVec3 := fun _ _ _ => Vec3.zero;
  idAngles_ToMat3 := fun _ => mkMat3 Vec3.zero Vec3.zero Vec3.zero;
  idMat3_ToAngles := fun _ => ang_zero;
  idVec3_mul_idMat3 := fun v _ => v;
  idBounds_translate := fun b _ => b;
  idBounds_rotate := fun b _ => b;
  idBounds_ExpandSelf := fun b _ => b;
  idBounds_IntersectsBounds := fun _ _ => false;
  idBounds_FromTransformedBounds := fun b _ _ => b;
  idBox_ExpandSelf := fun b _ => b;
  idBox_IntersectsBox := fun _ _ => false;
  idBox_ContainsPoint := fun _ _ => true;
  cv_lod_bias := bias;
  PackColor := fun _ => 0;
  UnpackColor := fun _ => Vec3.zero;
  TracePoint := fun _ _ => idle_trace;
  TraceBounds := fun _ _ _ => idle_trace;
  GetImageMap := fun _ => 0;
  GetMapDataAt := fun _ _ _ => 0;
  GetMapData := fun _ => None;
  GetMapBpp := fun _ => 1;
  GetMapWidth := fun _ => 0;
  GetMapHeight := fun _ => 0;
  GetMapDensity := fun _ => F32.zero;
  FindModel := fun _ => model;
  GetMaxModelCount := fun _ => maxModelCount;
  GetPVSAreas := fun _ => (0, 0);
  ThinkAboutLOD := fun _ _ => (F32.one, 0);
  GetGravityNormal := Vec3.zero;
  playerPos := Vec3.zero;
  FindEntityDefDict := fun _ => true;
  IsMoveable := fun _ => false;
  SpawnEntityDef := fun w args =>
    Some (Z.of_nat (List.length (entities w)),
          mkLive args (mkPhysics Vec3.zero (mkMat3 Vec3.zero Vec3.zero Vec3.zero))
                 None true);
  new_idPhysics_StaticMulti := fun w => 1 + Z.of_nat (List.length (physics w));
  idClipModel_LoadModel := fun _ => false;
  seed_debug_material := "";
  qsort := insertion_sort
|}.

Definition idle_host_with (bias : float) : Host := test_host bias 0 0.

Definition idle_host : Host := idle_host_with F32.one.

(** A class of the given score, per-class cap, bunching and spacing, with
    nothing else set: no falloff, no image map, a footprint of zero. *)
Definition plain_class_with (name : string) (score maxEntities : Z)
    (bunching spacing : float) : seed_class_t :=
  mkClass name "" false false 0 maxEntities 0 score true false Vec3.zero
    Vec3.zero false false spacing F32.zero F32.zero Vec3.zero Vec3.zero 0
    F32.zero F32.zero F32.zero F32.zero 0 0 0 F32.zero F32.zero 0 false
    F32.one F32.one F32.zero F32.zero bunching 0 Vec3.zero F32.zero F32.zero
    None [] F32.one 0 0 0 "" Vec3.zero Vec3.zero Vec3.zero Vec3.zero false
    F32.zero F32.zero F32.zero F32.zero F32.one [0] [].

Definition plain_class (name : string) (score maxEntities : Z) : seed_class_t :=
  plain_class_with name score maxEntities F32.zero F32.zero.

(** Flag bits to run the code with: hidden 1, exists 2, spawned 4,
    composite 8. *)
Definition sample_constants : Constants := {|
  SEED_ENTITY_HIDDEN := 1;
  SEED_ENTITY_EXISTS := 2;
  SEED_ENTITY_SPAWNED := 4;
  SEED_ENTITY_PSEUDO := 8;
  NOCOLLIDE_ATALL := 15;
  NOCOLLIDE_STATIC := 1;
  MAX_GENTITIES := 8192;
  LOD_LEVELS := 7
|}.

(** A distribution with the given tables and seeds and nothing else. *)
Definition sample_seed (args : idDict) (classes : list seed_class_t)
    (ents : list seed_entity_t) (rootSeed numEntities : Z) : Seed :=
  mkSeed args (mkVec3 (F32.of_Z 100) (F32.of_Z 100) (F32.of_Z 10))
    (mkMat3 Vec3.zero Vec3.zero Vec3.zero) Vec3.zero Vec3.zero
    3 7 rootSeed F32.one true false ents classes [] [""] numEntities 0 0 0 1.

Definition zero_physics : idPhysics_t :=
  mkPhysics Vec3.zero (mkMat3 Vec3.zero Vec3.zero Vec3.zero).

(** A world with one live object, number 0, at the origin. *)
Definition one_object_world : World :=
  mkWorld [Some (mkLive [] zero_physics None false)] 1 [] [].

(** A distribution with one class and one instance of it, spawned as the
    live object number 0. *)
Definition one_spawned : Seed :=
  sample_seed [] [plain_class "a" 1 0]
    [mkEntity 0 Vec3.zero ang_zero 0 6 0 0 Vec3.zero] 7 1.

(** An instance of class [i] at [(px, 0, 0)], hidden as the placement
    leaves it ([sample_constants]). *)
Definition entity_at (i px : Z) : seed_entity_t :=
  mkEntity 0 (mkVec3 (F32.of_Z px) F32.zero F32.zero) ang_zero 0 1 0 i Vec3.zero.

(** Three instances of one class, 10 units apart. *)
Definition three_in_a_row : Seed :=
  sample_seed [] [plain_class "a" 1 0]
    [entity_at 0 0; entity_at 0 10; entity_at 0 20] 7 3.

Definition empty_world : World := mkWorld [] 0 [] [].

(** Two instances, the first of class 0 and the second of class 1, and a
    class 1 that always bunches. *)
Definition one_of_each : list seed_entity_t := [entity_at 0 5; entity_at 1 50].

Definition bunching_class : seed_class_t :=
  plain_class_with "b" 1 0 F32.one F32.zero.

Definition one_of_each_env : place_env :=
  @placement_env idle_host
    (sample_seed [] [plain_class "a" 1 0; bunching_class] one_of_each 7 3).

(** A class with a spacing of 5 in a SEED with a spacing of 10. *)
Definition spaced_class : seed_class_t :=
  plain_class_with "a" 1 0 F32.zero (F32.of_Z 5).

Definition spaced_env : place_env :=
  @placement_env idle_host (sample_seed [("spacing", "10")] [spaced_class] [] 7 3).

(** A distribution before its first placement, and the same after some
    use: other working generators, an instance and a pseudo class left
    by an earlier run, other seeds in the classes. *)
Definition fresh_seed : Seed :=
  sample_seed []
    [set_numEntities (plain_class "a" 1 0) 2;
     set_numEntities (plain_class "b" 3 0) 2] [] 11 4.

Definition used_seed : Seed :=
  mkSeed [] (mkVec3 (F32.of_Z 100) (F32.of_Z 100) (F32.of_Z 10))
    (mkMat3 Vec3.zero Vec3.zero Vec3.zero) Vec3.zero Vec3.zero
    99 1234 11 F32.one true false [entity_at 2 5]
    [set_seed (set_numEntities (plain_class "a" 1 0) 2) 5;
     set_seed (set_numEntities (plain_class "b" 3 0) 2) 6;
     make_pseudo no_class (plain_class "a" 1 0) 1 [] ""]
    [] [""] 4 1 1 1 1.

(* ================================================================= *)
(** ** The parts of [Seed::ComputeEntityCount] *)

Section EntityCountParts.
Context {H : Host}.

(** Lines 1451 to 1457: the overall cap [max_entities], multiplied by the
    quality bias when it exceeds [lod_scaling_limit]. *)
Definition overall_cap (spawnArgs : idDict) : Z :=
  let max_entities := GetInt spawnArgs "max_entities" "0" in
  if 0 <? max_entities then
    if F32.gtb (F32.of_Z max_entities) (GetFloat spawnArgs "lod_scaling_limit" "10")
    then F32.to_int (F32.mul (F32.of_Z max_entities) LODBIAS)
    else max_entities
  else max_entities.

(** Lines 1448 to 1463: the overall score [iScoreSum]. *)
Definition score_sum (spawnArgs : idDict) (m_Classes : list seed_class_t) : Z :=
  if 0 <? GetInt spawnArgs "max_entities" "0"
  then fold_left (fun sum c => wrap32 (sum + score c)) m_Classes 0
  else 0.

(** Lines 1428 to 1443: the area [fArea] that the SEED covers, scaled by
    the density. *)
Definition covered_area (spawnArgs : idDict) (size : idVec3) : float :=
  let fDensity := GetFloat spawnArgs "density" "1.0" in
  let fDensity :=
    if GetBool spawnArgs "lod_scale_density" "1"
    then F32.mul fDensity LODBIAS else fDensity in
  let fDensity := F32.max fDensity (F32.lit 1 100000) in
  F32.mul (F32.mul (F32.add (x size) F32.one) (F32.add (y size) F32.one)) fDensity.

(** The classes that the loop does not skip: neither pseudo classes nor
    watch-over-brethren. *)
Definition real_class (c : seed_class_t) : bool := negb (pseudo c || watch c).

End EntityCountParts.

(* ================================================================= *)
(** ** The bounds and the box of a stored instance *)

Section InstanceBounds.
Context {H : Host}.

(** What [SeedEntityBounds] and [SeedEntityBoxes] hold for an instance
    (lines 2563 to 2566), in terms of the instance and its class. *)
Definition instance_bounds (classes : list seed_class_t) (e : seed_entity_t)
    : idBounds :=
  entity_bounds (list_get classes (classIdx e) no_class) (e_origin e) (e_angles e).

Definition instance_box (classes : list seed_class_t) (e : seed_entity_t) : idBox :=
  entity_box (list_get classes (classIdx e) no_class) (e_origin e) (e_angles e).

End InstanceBounds.

(* ================================================================= *)
(** ** Parts of the placement, of culling and of combining *)

(** Lines 2389 to 2409: what an inhibitor that the candidate touches says
    before its falloff is looked at.  The default is to inhibit; with
    class names, the answer starts from [!inhibit_only] and is flipped
    when the class is named. *)
Definition inhibitor_verdict (c : seed_class_t) (inh : seed_inhibitor_t) : bool :=
  match classnames inh with
  | [] => true
  | _ :: _ =>
      xorb (negb (inhibit_only inh))
           (existsb (fun n => String.eqb n (classname c)) (classnames inh))
  end.

Section CullParts.
Context {K : Constants} {H : Host}.

(** Lines 3297 to 3339: what a call of [CullEntity] makes of the
    instance it is called for. *)
Definition culled_or_kept (w : World) (e : seed_entity_t) : seed_entity_t :=
  if Z.land (flags e) SEED_ENTITY_EXISTS =? 0 then e
  else match list_get (entities w) (entity e) None with
       | Some ent2 => culled_entity e (GetPhysics w ent2)
       | None => e
       end.

(** One round of the loop of [Event_CullAll]. *)
Definition cull_step (sw : Seed * World) (i : Z) : Seed * World :=
  let '(_, s', w') := CullEntity (fst sw) (snd sw) i in (s', w').

End CullParts.

Section CombineParts.
Context {H : Host}.

(** Lines 2716 to 2723: the combine distance, at least 10, squared. *)
Definition max_combine_distance (spawnArgs : idDict) : float :=
  let d := GetFloat spawnArgs "combine_distance" "1024" in
  let d := if F32.ltb d (F32.of_Z 10) then F32.of_Z 10 else d in
  F32.mul d d.

(** Lines 2790 to 2801: the model [tempModel] of a class, loaded by name
    when the class has none of its own. *)
Definition class_model (c : seed_class_t) : Z :=
  if hModel c =? 0 then FindModel (modelname c) else hModel c.

End CombineParts.

(** What lines 2887 to 2901 assign to every pseudo class. *)
Definition composite_class (c : seed_class_t) : Prop :=
  pseudo c = true /\ classname c = FUNC_DUMMY /\
  score c = 0 /\ numEntities c = 0 /\ maxEntities c = 0 /\ imgmap c = 0.

(* ================================================================= *)
(** ** The rounds of the sampling in the unit circle *)

Section FalloffRounds.
Context {H : Host}.

(** What one round of [while (falloff_tries++ < 16)] leaves. *)
Record round_t : Type := mkRound {
  r_found : bool;      (* the round leaves the loop, with [p = 1.0f] *)
  r_x : float;
  r_y : float;
  r_seed : Z           (* the generator after the round *)
}.

(** The body of the loop: one round, from the state [s] of the
    generator. *)
Definition falloff_round (falloff : Z) (factor : float) (s : Z) : round_t :=
  (* x and y are between -1 and +1 *)
  let '(rx, s) := RandomFloat s in
  let '(ry, s) := RandomFloat s in
  let x1 := F32.mul F32.two (F32.sub rx half) in
  let y1 := F32.mul F32.two (F32.sub ry half) in
  let d := F32.add (F32.mul x1 x1) (F32.mul y1 y1) in
  if F32.gtb d F32.one then
    (* outside the circle, try again *)
    mkRound false x1 y1 s
  else if falloff =? 1 then mkRound true x1 y1 s
  else
    let p := if falloff =? 4 then d else idMath_Pow d factor in
    (* compute a random value and see if it is bigger than p *)
    let '(r, s) := RandomFloat s in
    mkRound (F32.gtb r p) x1 y1 s.

(** Round number [k], counted from 0, when no round before it has left
    the loop: each round starts with the generator as the round before
    has left it. *)
Fixpoint nth_round (k : nat) (falloff : Z) (factor : float) (s : Z) : round_t :=
  match k with
  | O => falloff_round falloff factor s
  | S k' => nth_round k' falloff factor (r_seed (falloff_round falloff factor s))
  end.

End FalloffRounds.

(* ================================================================= *)
(** ** The scheduler ([Seed::Think] and the events) *)

(** [idMath::Fabs].  Modelled from the spec: idlib is not among the
    sources; the absolute value of a float clears its sign. *)
Definition idMath_Fabs (f : float) : float := SFabs f.

(** The members of [Seed] that only [Think], [Prepare] and the events
    read and write, around the tables [sc_seed].  [thinking] is the flag
    [TH_THINK] of the entity, which [BecomeActive] sets and
    [BecomeInactive] clears. *)
Record Scheduler : Type := mkScheduler {
  sc_seed : Seed;
  active : bool;
  thinking : bool;
  m_bWaitForTrigger : bool;
  m_bPrepared : bool;
  m_bRestoreLOD : bool;
  m_iThinkCounter : Z;
  m_DistCheckTimeStamp : Z;
  m_DistCheckInterval : Z;
  targets : list Z;             (* the numbers of the entities targeted *)
  entityNumber : Z;
  physics_origin : idVec3       (* GetPhysics()->GetOrigin() *)
}.

Definition with_seed (st : Scheduler) (s : Seed) : Scheduler :=
  mkScheduler s (active st) (thinking st) (m_bWaitForTrigger st) (m_bPrepared st)
    (m_bRestoreLOD st) (m_iThinkCounter st) (m_DistCheckTimeStamp st)
    (m_DistCheckInterval st) (targets st) (entityNumber st)
    (physics_origin st).

Definition with_check (st : Scheduler) (counter stamp : Z) : Scheduler :=
  mkScheduler (sc_seed st) (active st) (thinking st) (m_bWaitForTrigger st)
    (m_bPrepared st) (m_bRestoreLOD st) counter stamp
    (m_DistCheckInterval st) (targets st) (entityNumber st) (physics_origin st).

(** [Seed::Event_Activate]: enough waiting around, lets do some action. *)
Definition Event_Activate (st : Scheduler) : Scheduler :=
  mkScheduler (sc_seed st) true true false (m_bPrepared st) (m_bRestoreLOD st)
    (m_iThinkCounter st) (m_DistCheckTimeStamp st) (m_DistCheckInterval st)
    (targets st) (entityNumber st) (physics_origin st).

(** [Seed::Event_Disable] *)
Definition Event_Disable (st : Scheduler) : Scheduler :=
  mkScheduler (sc_seed st) false false (m_bWaitForTrigger st) (m_bPrepared st)
    (m_bRestoreLOD st) (m_iThinkCounter st) (m_DistCheckTimeStamp st)
    (m_DistCheckInterval st) (targets st) (entityNumber st)
    (physics_origin st).

(** [Seed::Event_Enable]: [active = true; BecomeInactive(TH_THINK);] *)
Definition Event_Enable (st : Scheduler) : Scheduler :=
  mkScheduler (sc_seed st) true false (m_bWaitForTrigger st) (m_bPrepared st)
    (m_bRestoreLOD st) (m_iThinkCounter st) (m_DistCheckTimeStamp st)
    (m_DistCheckInterval st) (targets st) (entityNumber st)
    (physics_origin st).

Section Think.
Context {K : Constants} {H : Host}.

(** [Seed::Prepare] compiles the targets of the SEED and places the
    instances; [Think] calls it as long as the SEED is not prepared.  It
    is embedded further down; as it reads the clock and the generator of
    the engine and can end in [gameLocal.Error], it is a parameter here:
    what it makes of the SEED and of the world when it returns. *)
Variable Prepare : Scheduler -> World -> Scheduler * World.

(** What the local variables [SeedEntity] of [PrepareEntities] and
    [PseudoClass] of [CombineEntities] hold before anything is assigned
    to them. *)
Variable SeedEntity0 : seed_entity_t.
Variable PseudoClass0 : seed_class_t.

(** Lines 3378 to 3401: GUI setting changed? *)
Definition bias_changed (s : Seed) : bool :=
  F64.ltb (F64.lit 1 10)
          (F64.of_float (idMath_Fabs (F32.sub cv_lod_bias (m_fLODBias s)))).

(** Lines 3404 to 3427: after [Restore], the live objects of the
    composite instances get their LOD data again and think.  Where such
    an instance has no live object the code goes through a null pointer;
    the world is left as it is there. *)
Definition restore_LOD (s : Seed) (w : World) : World :=
  fold_left
    (fun w ent =>
       let lclass := list_get (m_Classes s) (classIdx ent) no_class in
       if pseudo lclass then
         match list_get (entities w) (entity ent) None with
         | Some ent2 =>
             (* enable thinking (mainly for debug draw) *)
             mkWorld (list_set (entities w) (entity ent)
                        (Some (mkLive (l_spawnArgs ent2) (l_physics ent2)
                                      (l_SetPhysics ent2) true)))
                     (num_entities w) (physics w) (removals w)
         | None => w
         end
       else w)
    (m_Entities s) w.

(** Lines 3467 to 3479: the distance of instance [ent] from the player,
    squared and divided by the squared LOD bias. *)
Definition deltaSq (lclass : seed_class_t) (ent : seed_entity_t) : float :=
  let delta := Vec3.sub playerPos (e_origin ent) in
  let delta :=
    match m_LOD lclass with
    | Some lod =>
        if bDistCheckXYOnly lod
        then Vec3.sub delta
               (Vec3.scale (Vec3.dot delta GetGravityNormal) GetGravityNormal)
        else delta
    | None => delta
    end in
  F32.div (Vec3.LengthSqr delta) (F32.mul cv_lod_bias cv_lod_bias).

(** What the distance check asks for an instance. *)
Inductive lod_action : Type := DoSpawn | DoCull | DoNothing.

(** Lines 3481 to 3502: the normal distance checks. *)
Definition distance_check (lclass : seed_class_t) (ent : seed_entity_t)
    : lod_action :=
  if (Z.land (flags ent) SEED_ENTITY_EXISTS =? 0)
     && (F32.eqb (spawnDist lclass) F32.zero
         || F32.ltb (deltaSq lclass ent) (spawnDist lclass))
  then DoSpawn
  else
    (* cull entities that are outside "hide_distance + fade_out_distance
       + cullRange" *)
    if negb (Z.land (flags ent) SEED_ENTITY_EXISTS =? 0)
       && F32.gtb (cullDist lclass) F32.zero
       && F32.gtb (deltaSq lclass ent) (cullDist lclass)
    then DoCull
    else DoNothing.

(** One round of the loop over the instances (lines 3461 to 3521). *)
Definition check_instance (sw : Seed * World) (i : Z) : Seed * World :=
  let s := fst sw in
  let w := snd sw in
  let ent := list_get (m_Entities s) i no_entity in
  let lclass := list_get (m_Classes s) (classIdx ent) no_class in
  match distance_check lclass ent with
  | DoSpawn =>
      (* Spawn and manage LOD, except for CStaticMulti entities with a
         megamodel *)
      let '(_, s', w') := SpawnEntity s w i (negb (pseudo lclass)) in (s', w')
  | DoCull => let '(_, s', w') := CullEntity s w i in (s', w')
  | DoNothing => (s, w)
  end.

(** What the distance check asks for instance [i] of [s]. *)
Definition asked (s : Seed) (i : Z) : lod_action :=
  let ent := list_get (m_Entities s) i no_entity in
  distance_check (list_get (m_Classes s) (classIdx ent) no_class) ent.

(** What a pass of the distance checks may leave of the instance [e],
    given what the check asked for it. *)
Definition handled (a : lod_action) (e e' : seed_entity_t) : Prop :=
  match a with
  | DoNothing => e' = e
  | DoSpawn => e' = e \/ exists n, e' = spawned_entity e n
  | DoCull => e' = e \/ exists ph, e' = culled_entity e ph
  end.

Definition distance_checks (s : Seed) (w : World) : Seed * World :=
  fold_left check_instance (indices (m_Entities s)) (s, w).

(** Lines 3377 to 3530: [Think] once the entities are prepared.  [time]
    is [gameLocal.time], and [inPVS] says whether the SEED is in the
    current PVS of the player. *)
Definition Think_prepared (st : Scheduler) (w : World) (time : Z) (inPVS : bool)
    : Scheduler * World :=
  (* GUI setting changed? *)
  let '(s, w) :=
    if bias_changed (sc_seed st)
    then Think_bias_changed (sc_seed st) w SeedEntity0 PseudoClass0
    else (sc_seed st, w) in
  let st := with_seed st s in
  (* After Restore(), do we need to do SetLODData()? *)
  let w :=
    if m_bRestoreLOD st && (0 <? m_iNumStaticMulties s)
    then restore_LOD s w else w in
  (* Distance dependence checks *)
  if m_DistCheckInterval st <? time - m_DistCheckTimeStamp st then
    (* are we outside the player PVS? *)
    if (m_iThinkCounter st <? 20) && negb inPVS then
      (* if so, do nothing until think counter is high enough again *)
      (with_check st (m_iThinkCounter st + 1) time, w)
    else
      let '(s, w) := distance_checks s w in
      (with_seed (with_check st 0 time) s, w)
  else (st, w).

(** [Seed::Think] *)
Definition Think (st : Scheduler) (w : World) (time : Z) (inPVS : bool)
    : Scheduler * World :=
  (* return early in case we have no targets, also return until activated *)
  if (m_iNumEntities (sc_seed st) <? 0) || m_bWaitForTrigger st then (st, w)
  else
    (* haven't initialized entities yet? *)
    let '(st, w) := if negb (m_bPrepared st) then Prepare st w else (st, w) in
    Think_prepared st w time inPVS.

(** The calls that the engine and the scripts make on a SEED. *)
Inductive call : Type :=
| CallThink (time : Z) (inPVS : bool)
| CallActivate
| CallDisable
| CallEnable.

Definition do_call (stw : Scheduler * World) (c : call) : Scheduler * World :=
  match c with
  | CallThink time inPVS => Think (fst stw) (snd stw) time inPVS
  | CallActivate => (Event_Activate (fst stw), snd stw)
  | CallDisable => (Event_Disable (fst stw), snd stw)
  | CallEnable => (Event_Enable (fst stw), snd stw)
  end.

Definition run (calls : list call) (stw : Scheduler * World)
    : Scheduler * World :=
  fold_left do_call calls stw.

End Think.

(* ================================================================= *)
(** ** Preparing a SEED ([Seed::Prepare]) *)

(** [idDict::MatchPrefix], called again and again with the pair found
    last: the pairs whose key starts with the prefix, in the order of the
    dictionary.  Modelled from the spec, as [idDict] is. *)
Definition MatchPrefix (d : idDict) (prefix : string) : idDict :=
  filter (fun kv => String.prefix prefix (fst kv)) d.

(** Lines 1712 and 1713: the root seed taken from the clock,
    [(int) (1664525L * seconds + 1013904223L) & 0x7FFFFFFFL] for
    [seconds = (unsigned long) time (NULL) + (unsigned long) entityNumber].
    [ulong_bits] is the width of [unsigned long]. *)
Definition time_seed (ulong_bits clock entityNumber : Z) : Z :=
  let seconds := (clock + entityNumber) mod 2 ^ ulong_bits in
  Z.land (wrap32 ((1664525 * seconds + 1013904223) mod 2 ^ ulong_bits))
         2147483647.

(** The object posted for removal ([PostEventMS( &EV_Remove, 0 )],
    [PostEventMS( &EV_SafeRemove, 0 )]). *)
Definition post_removal (w : World) (n : Z) : World :=
  mkWorld (entities w) (num_entities w) (physics w) (n :: removals w).

(** A world that has grown out of another: what was posted for removal
    still is, and the live objects of then are still there. *)
Definition world_grows (w w' : World) : Prop :=
  incl (removals w) (removals w') /\
  forall t, list_get (entities w) t None <> None ->
            list_get (entities w') t None <> None.

(** What the placement asks of an inhibitor: a falloff of none, cutoff,
    power, root or linear, and for power and root a factor that is not
    below 2. *)
Definition inhibitor_ok (inh : seed_inhibitor_t) : Prop :=
  0 <= i_falloff inh <= 4 /\
  (i_falloff inh = 2 \/ i_falloff inh = 3 ->
   F32.ltb (i_factor inh) F32.two = false).

Section Prepare.
Context {K : Constants} {H : Host}.

(** The state of [gameLocal.random], the generator of the engine. *)
Variable idRandom : Type.

(** [Seed::AddClassFromEntity] compiles a class from a template entity
    and appends it to the class table.  Here it is a parameter: for the
    state of the engine's generator, the distribution, the template and
    the [watch] flag it gives the class it appends, the skin table, the
    template (whose axis it resets) and the generator afterwards, or
    nothing when it ends in [gameLocal.Error]. *)
Variable AddClassFromEntity :
  idRandom -> Seed -> idEntity_t -> bool ->
  option (seed_class_t * list string * idEntity_t * idRandom).

(** [idStr::RandomPart]: select one at random. *)
Variable RandomPart : idRandom -> string -> string * idRandom.

(** [ent->GetRenderEntity()->bounds.GetSize()] *)
Variable bounds_size : idEntity_t -> idVec3.

(** The width of [unsigned long]. *)
Variable ulong_bits : Z.

(** What the local variables [SeedInhibitor] of [Prepare], [SeedEntity]
    of [PrepareEntities] and [PseudoClass] of [CombineEntities] hold
    before anything is assigned to them. *)
Variable SeedInhibitor0 : seed_inhibitor_t.
Variable SeedEntity0 : seed_entity_t.
Variable PseudoClass0 : seed_class_t.

(** The members of [Seed] that the compilation of the targets assigns. *)
Definition with_compiled (s : Seed) (classes : list seed_class_t)
    (inhibitors : list seed_inhibitor_t) (skins : list string) : Seed :=
  mkSeed (spawnArgs s) (renderEntity_size s) (renderEntity_axis s)
    (renderEntity_origin s) (m_origin s) (m_iSeed s) (m_iSeed_2 s)
    (m_iOrgSeed s) (m_fLODBias s) (m_bCombine s) (m_bDebugColors s)
    (m_Entities s) classes inhibitors skins (m_iNumEntities s)
    (m_iNumExisting s) (m_iNumVisible s) (m_iNumStaticMulties s)
    (m_iNumPVSAreas s).

(** Lines 1543 to 1597: the inhibitor of an [atdm:no_seed] entity.
    [SeedInhibitor] is the local variable as the round before left it;
    its [factor] is kept where [ParseFalloff] does not write it. *)
Definition compile_inhibitor (w : World) (SeedInhibitor : seed_inhibitor_t)
    (ent : idEntity_t) : seed_inhibitor_t :=
  let args := l_spawnArgs ent in
  let size := bounds_size ent in
  let origin := GetVector args "origin" "0 0 0" in
  let box := mkBox origin (Vec3.divf size F32.two) (p_axis (GetPhysics w ent)) in
  let '(falloff, factor, _) :=
    ParseFalloff args (GetString args "falloff" "none")
                 (GetString args "func_a" "2") (i_factor SeedInhibitor) in
  (* func is not supported *)
  let falloff := if 4 <? falloff then 0 else falloff in
  (* if "inhibit" is set, it will only inhibit the given classes, and we
     ignore "noinhibit" *)
  let inhibit_only :=
    match FindKey args "inhibit" with Some _ => true | None => false end in
  let prefix :=
    if inhibit_only then "inhibit"
    else match FindKey args "noinhibit" with
         | Some _ => "noinhibit"
         | None => ""
         end in
  (* have either inhibit or noinhibit in the spawnargs? *)
  let classnames :=
    if String.eqb prefix "" then [] else map snd (MatchPrefix args prefix) in
  mkInhibitor origin size box inhibit_only falloff factor classnames.

(** A call of [AddClassFromEntity] on the live object number [n]. *)
Definition add_class (rnd : idRandom) (s : Seed) (w : World) (n : Z)
    (ent : idEntity_t) (watch : bool) : option (Seed * World * idRandom) :=
  match AddClassFromEntity rnd s ent watch with
  | Some (SeedClass, skins, ent', rnd') =>
      Some (with_compiled s (m_Classes s ++ [SeedClass]) (m_Inhibitors s) skins,
            mkWorld (list_set (entities w) n (Some ent')) (num_entities w)
                    (physics w) (removals w),
            rnd')
  | None => None
  end.

(** What the two loops over the targets and over the [spawn_class]
    arguments carry along. *)
Record prepare_t : Type := mkPrepare {
  pr_seed : Seed;
  pr_world : World;
  pr_random : idRandom;
  pr_SeedInhibitor : seed_inhibitor_t
}.

(** What every round of the two loops keeps: the distribution changes
    in its classes, inhibitors and skins only, the world grows, and the
    inhibitors stay fit for the placement. *)
Definition prepare_step (p p' : prepare_t) : Prop :=
  (exists classes inhibitors skins,
      pr_seed p' = with_compiled (pr_seed p) classes inhibitors skins) /\
  world_grows (pr_world p) (pr_world p') /\
  (Forall inhibitor_ok (m_Inhibitors (pr_seed p)) ->
   Forall inhibitor_ok (m_Inhibitors (pr_seed p'))).

(** One round of the loop over the targets (lines 1534 to 1619). *)
Definition gather_target (p : prepare_t) (t : Z) : option prepare_t :=
  let s := pr_seed p in
  let w := pr_world p in
  match list_get (entities w) t None with
  | Some ent =>
      (* if this is a SEED inhibitor, add it to our "forbidden zones" *)
      if String.eqb (GetEntityDefName ent) "atdm:no_seed" then
        let SeedInhibitor := compile_inhibitor w (pr_SeedInhibitor p) ent in
        Some (mkPrepare
                (with_compiled s (m_Classes s)
                               (m_Inhibitors s ++ [SeedInhibitor]) (m_Skins s))
                w (pr_random p) SeedInhibitor)
      else
        (* If this entity wants us to watch over his brethren, add a
           pseudo class; else add a class based on this entity *)
        match add_class (pr_random p) s w t ent
                        (GetBool (l_spawnArgs ent) "seed_watch_brethren" "0") with
        | Some (s', w', rnd') => Some (mkPrepare s' w' rnd' (pr_SeedInhibitor p))
        | None => None
        end
  | None => Some p
  end.

Fixpoint gather_targets (ts : list Z) (p : prepare_t) : option prepare_t :=
  match ts with
  | [] => Some p
  | t :: ts' =>
      match gather_target p t with
      | Some p' => gather_targets ts' p'
      | None => None
      end
  end.

(** The arguments the template of a [spawn_class] is spawned with. *)
Definition template_args (entityClass : string) (origin : idVec3)
    (skin : string) : idDict :=
  let args := Set_ [] "classname" entityClass in
  (* move to origin of ourselfs *)
  let args := Set_ args "origin" (idVec3_ToString origin) in
  (* want it floored *)
  let args := Set_ args "seed_floor" "1" in
  (* but if it is a moveable, don't floor it *)
  let args := Set_ args "floor" "0" in
  let args := Set_ args "skin" skin in
  Set_ args "random_skin" "".

(** One round of the loop over the [spawn_class] arguments (lines 1626
    to 1687). *)
Definition spawn_class (origin : idVec3) (p : prepare_t) (kv : string * string)
    : option prepare_t :=
  let s := pr_seed p in
  let w := pr_world p in
  let entityClass := snd kv in
  if FindEntityDefDict entityClass then
    (* spawn_classX => spawn_skinX *)
    let skin :=
      String.append "spawn_skin"
        (String.substring 11 (String.length (fst kv) - 11) (fst kv)) in
    (* spawn_classX => "abc, def, '', abc" *)
    let skin := GetString (spawnArgs s) skin "" in
    (* select one at random *)
    let '(skin, rnd) := RandomPart (pr_random p) skin in
    match SpawnEntityDef w (template_args entityClass origin skin) with
    | Some (n, ent) =>
        let w :=
          mkWorld (place_entity (entities w) n ent)
                  (Z.max (num_entities w) (n + 1)) (physics w) (removals w) in
        (* add a class based on this entity *)
        match add_class rnd s w n ent false with
        | Some (s', w', rnd') =>
            (* remove the temp. entity *)
            Some (mkPrepare s' (post_removal w' n) rnd' (pr_SeedInhibitor p))
        | None => None
        end
    | None => Some (mkPrepare s w rnd (pr_SeedInhibitor p))
    end
  else Some p.

Fixpoint spawn_classes (origin : idVec3) (kvs : idDict) (p : prepare_t)
    : option prepare_t :=
  match kvs with
  | [] => Some p
  | kv :: kvs' =>
      match spawn_class origin p kv with
      | Some p' => spawn_classes origin kvs' p'
      | None => None
      end
  end.

(** Lines 1689 to 1699: set [m_iNumEntities] from spawnarg, or density,
    taking GUI setting into account. *)
Definition count_entities (s : Seed) : Seed :=
  if (0 <? Z.of_nat (List.length (m_Classes s))) then
    let '(classes, numEntities) :=
      ComputeEntityCount (spawnArgs s) (renderEntity_size s) (m_Classes s) in
    with_counts s classes (if numEntities <=? 0 then 0 else numEntities)
                (m_fLODBias s)
  else s.

(** Lines 1703 to 1717: Init the seed.  0 means random sequence,
    otherwise use the specified value. *)
Definition root_seed (spawnArgs : idDict) (clock entityNumber : Z) : Z :=
  let m_iSeed_2 := GetInt spawnArgs "randseed" "0" in
  if m_iSeed_2 =? 0 then time_seed ulong_bits clock entityNumber
  else m_iSeed_2.

Definition with_root_seed (s : Seed) (seed : Z) : Seed :=
  mkSeed (spawnArgs s) (renderEntity_size s) (renderEntity_axis s)
    (renderEntity_origin s) (m_origin s) (m_iSeed s) seed seed
    (m_fLODBias s) (m_bCombine s) (m_bDebugColors s)
    (m_Entities s) (m_Classes s) (m_Inhibitors s) (m_Skins s)
    (m_iNumEntities s) (m_iNumExisting s) (m_iNumVisible s)
    (m_iNumStaticMulties s) (m_iNumPVSAreas s).

(** Lines 1721 to 1729: remove all our targets from the game. *)
Definition remove_targets (ts : list Z) (w : World) : World :=
  fold_left
    (fun w t =>
       match list_get (entities w) t None with
       | Some _ => post_removal w t
       | None => w
       end)
    ts w.

(** Lines 1746 to 1749: spawn all entities, as unmanaged. *)
Definition spawn_all (s : Seed) (w : World) : Seed * World :=
  fold_left
    (fun sw i =>
       let '(_, s', w') := SpawnEntity (fst sw) (snd sw) i false in (s', w'))
    (indices (m_Entities s)) (s, w).

(** Lines 1752 to 1754: [ClearClasses()], [m_Entities.Clear()] and
    [m_iNumEntities = -1]. *)
Definition cleared (s : Seed) : Seed :=
  mkSeed (spawnArgs s) (renderEntity_size s) (renderEntity_axis s)
    (renderEntity_origin s) (m_origin s) (m_iSeed s) (m_iSeed_2 s)
    (m_iOrgSeed s) (m_fLODBias s) (m_bCombine s) (m_bDebugColors s)
    [] [] (m_Inhibitors s) (m_Skins s) (-1) (m_iNumExisting s)
    (m_iNumVisible s) 0 (m_iNumPVSAreas s).

Definition with_numEntities (s : Seed) (n : Z) : Seed :=
  with_counts s (m_Classes s) n (m_fLODBias s).

(** Lines 1732 to 1774: remove ourself after spawn, or stay and watch. *)
Definition finish_Prepare (st : Scheduler) (s : Seed) (w : World)
    : Scheduler * World :=
  if GetBool (spawnArgs s) "remove" "0" then
    if 0 <? m_iNumStaticMulties s then
      (* cannot remove myself, because I have static multies *)
      (mkScheduler s (active st) (thinking st) (m_bWaitForTrigger st)
         (m_bPrepared st) (m_bRestoreLOD st) (m_iThinkCounter st)
         (m_DistCheckTimeStamp st) (m_DistCheckInterval st) []
         (entityNumber st) (physics_origin st),
       w)
    else
      let '(s, w) := spawn_all s w in
      (* clear out memory just to be sure; post event to remove
         ourselfes *)
      (mkScheduler (cleared s) false false (m_bWaitForTrigger st)
         (m_bPrepared st) (m_bRestoreLOD st) (m_iThinkCounter st)
         (m_DistCheckTimeStamp st) (m_DistCheckInterval st) []
         (entityNumber st) (physics_origin st),
       post_removal w (entityNumber st))
  else
    if Z.of_nat (List.length (m_Entities s)) =? 0 then
      (* could not create any entities? *)
      (mkScheduler (with_numEntities s (-1)) (active st) false
         (m_bWaitForTrigger st) true (m_bRestoreLOD st) (m_iThinkCounter st)
         (m_DistCheckTimeStamp st) (m_DistCheckInterval st) []
         (entityNumber st) (physics_origin st),
       w)
    else
      (mkScheduler s (active st) (thinking st) (m_bWaitForTrigger st) true
         (m_bRestoreLOD st) (m_iThinkCounter st) (m_DistCheckTimeStamp st)
         (m_DistCheckInterval st) [] (entityNumber st) (physics_origin st),
       w).

(** [Seed::Prepare].  [clock] is [time (NULL)].  The result is nothing
    when a class could not be compiled. *)
Definition Prepare (rnd : idRandom) (clock : Z) (st : Scheduler) (w : World)
    : option (Scheduler * World * idRandom) :=
  let s := sc_seed st in
  (* Gather all targets and make a note of them *)
  let s := with_compiled s [] [] (m_Skins s) in
  match gather_targets (targets st) (mkPrepare s w rnd SeedInhibitor0) with
  | None => None
  | Some p =>
      (* the same, but this time for the "spawn_class/spawn_count/
         spawn_skin" spawnargs *)
      match spawn_classes (physics_origin st)
                          (MatchPrefix (spawnArgs s) "spawn_class") p with
      | None => None
      | Some p =>
          let s := count_entities (pr_seed p) in
          let s :=
            with_root_seed s (root_seed (spawnArgs s) clock (entityNumber st)) in
          let '(s, w) := PrepareEntities s (pr_world p) SeedEntity0 PseudoClass0 in
          let w := remove_targets (targets st) w in
          let '(st', w) := finish_Prepare st s w in
          Some (st', w, pr_random p)
      end
  end.

End Prepare.

(* ================================================================= *)
(** ** Class compilation: the skins of a class ([Seed::AddClassFromEntity]) *)

(** Modelled from the spec: [idStr] belongs to idlib.  [idStr_at s i]
    is [s[i]], [idStr_Mid s start len] is [s.Mid( start, len )], the
    [len] characters of [s] from index [start] on, and [idStr_Length s]
    is [s.Length()]. *)
Definition idStr_at (s : string) (i : Z) : ascii :=
  nth (Z.to_nat i) (list_ascii_of_string s) Ascii.zero.

Definition idStr_Mid (s : string) (start len : Z) : string :=
  string_of_list_ascii
    (firstn (Z.to_nat len) (skipn (Z.to_nat start) (list_ascii_of_string s))).

Definition idStr_Length (s : string) : Z := Z.of_nat (String.length s).

(** Lines 903 to 906: find first non-"," and non " ". *)
Fixpoint skip_loop (random_skin : string) (numChars : Z) (fuel : nat)
    (start : Z) : Z :=
  match fuel with
  | O => start
  | S fuel' =>
      if (start <? numChars)
         && (Ascii.eqb (idStr_at random_skin start) ","
             || Ascii.eqb (idStr_at random_skin start) " ")
      then skip_loop random_skin numChars fuel' (start + 1)
      else start
  end.

(** Lines 911 to 914: the end of the piece. *)
Fixpoint end_loop (random_skin : string) (numChars : Z) (fuel : nat)
    (end_ : Z) : Z :=
  match fuel with
  | O => end_
  | S fuel' =>
      if (end_ <? numChars) && negb (Ascii.eqb (idStr_at random_skin end_) ",")
      then end_loop random_skin numChars fuel' (end_ + 1)
      else end_
  end.

(** Lines 918 to 926: a piece of [random_skin] becomes a skin of the
    class. *)
Definition add_piece (acc : list Z * list string) (skin : string)
    : list Z * list string :=
  (* "''" => "" (default skin) *)
  let skin := if String.eqb skin "''" then "" else skin in
  let '(skinIdx, m_Skins) := AddSkin (snd acc) skin in
  ((fst acc ++ [skinIdx])%list, m_Skins).

(** Lines 900 to 931: split up at "," and add all these to the skins.
    [acc] is [SeedClass.skins] and [m_Skins]. *)
Fixpoint random_skin_loop (random_skin : string) (numChars : Z) (fuel : nat)
    (start : Z) (acc : list Z * list string) : list Z * list string :=
  match fuel with
  | O => acc
  | S fuel' =>
      if start <? numChars then
        let start :=
          skip_loop random_skin numChars (Z.to_nat numChars) start in
        if start <? numChars then
          (* have at least one non ',' *)
          let end_ :=
            end_loop random_skin numChars (Z.to_nat numChars) (start + 1) in
          (* cut between start and end *)
          let acc :=
            if 0 <? end_ - start
            then add_piece acc (idStr_Mid random_skin start (end_ - start))
            else acc in
          random_skin_loop random_skin numChars fuel' end_ acc
        else random_skin_loop random_skin numChars fuel' start acc
      else acc
  end.

(** Lines 874 to 932: get all "skin" and "skin_xx", as well as
    "random_skin" spawnargs.  [ent] are the spawn arguments of the
    template; the result is [SeedClass.skins] and [m_Skins]. *)
Definition class_skins (ent : idDict) (m_Skins : list string)
    : list Z * list string :=
  (* if no skin spawnarg exists, add the empty skin so we at least have
     one entry *)
  let skins := match FindKey ent "skin" with Some _ => [] | None => [0] end in
  let acc :=
    fold_left
      (fun acc kv =>
         (* find the proper skin index *)
         let '(skinIdx, m_Skins) := AddSkin (snd acc) (snd kv) in
         ((fst acc ++ [skinIdx])%list, m_Skins))
      (MatchPrefix ent "skin") (skins, m_Skins) in
  let random_skin := GetString ent "random_skin" "" in
  if String.eqb random_skin "" then acc
  else
    let numChars := idStr_Length random_skin in
    random_skin_loop random_skin numChars (S (Z.to_nat numChars)) 0 acc.

(** The pieces of a [random_skin] argument, read from left to right:
    outside a piece ([cur] is [None]) commas and blanks are passed over
    and any other character starts a piece; inside a piece, whose
    characters [cur] holds in reverse, a comma ends it and any other
    character, blanks too, goes into it. *)
Fixpoint pieces (cur : option (list ascii)) (l : list ascii) : list string :=
  match l with
  | [] =>
      match cur with
      | Some p => [string_of_list_ascii (rev p)]
      | None => []
      end
  | c :: l' =>
      match cur with
      | None =>
          if Ascii.eqb c "," || Ascii.eqb c " " then pieces None l'
          else pieces (Some [c]) l'
      | Some p =>
          if Ascii.eqb c "," then string_of_list_ascii (rev p) :: pieces None l'
          else pieces (Some (c :: p)) l'
      end
  end.

(* ================================================================= *)
(** ** Saving and restoring ([Seed::Save], [Seed::Restore]) *)

(** Modelled from the spec: [idSaveGame] and [idRestoreGame] belong to
    the engine.  The persistent state is "an ordered sequence of
    primitive fields and nested records": a save file is the list of the
    fields written, each of the kind of the call that wrote it, and a
    read takes the next field, which has to be of its kind.  The clip
    model, the render model and the physics object of a class are
    written and read by the engine; as elsewhere they are named by a
    number, zero for [NULL]. *)
Inductive field : Type :=
| FBool (b : bool)
| FInt (i : Z)
| FUnsignedInt (i : Z)
| FFloat (f : float)
| FString (s : string)
| FVec3 (v : idVec3)
| FAngles (a : idAngles)
| FBox (b : idBox)
| FClipModel (c : Z)
| FModel (m : Z)
| FPhysics (p : Z).

(** The members of [Seed] that only [Save] and [Restore] read and write,
    around the others.  [c_stack] holds the member [stack] of each class,
    in the order of the class table. *)
Record SeedObject : Type := mkObject {
  ob_sched : Scheduler;
  m_iDebug : Z;
  m_bDistCheckXYOnly : bool;
  m_iPVSAreas : list Z;
  c_stack : list bool
}.

(** *** [Seed::Save] *)

Definition Save_entity (e : seed_entity_t) : list field :=
  [FInt (skinIdx e); FVec3 (e_origin e); FAngles (e_angles e);
   (* a dword is "unsigned int" *)
   FInt (wrap32 (e_color e));
   FInt (flags e); FInt (entity e); FInt (classIdx e)].

Definition Save_material (m : seed_material_t) : list field :=
  [FString (mat_name m); FFloat (mat_probability m)].

Definition Save_class (c : seed_class_t) (stack : bool) : list field :=
  ([FString (classname c); FString (modelname c); FBool (pseudo c);
    FBool (watch c); FInt (maxEntities c); FInt (numEntities c);
    FInt (score c)]
   ++ (if negb (clip c =? 0) then [FBool true; FClipModel (clip c)]
       else [FBool false])
   ++ [FFloat (cullDist c); FFloat (spawnDist c); FFloat (spacing c);
       FFloat (bunching c); FFloat (sink_min c); FFloat (sink_max c);
       FVec3 (scale_min c); FVec3 (scale_max c); FVec3 (c_origin c);
       FVec3 (c_offset c); FInt (nocollide c); FBool (nocombine c);
       FBool (solid c); FInt (falloff c); FBool (c_floor c); FBool stack;
       FBool (noinhibit c); FVec3 (c_size c); FFloat (avgSize c);
       FVec3 (color_min c); FVec3 (color_max c); FBool (z_invert c);
       FFloat (z_min c); FFloat (z_max c); FFloat (z_fadein c);
       FFloat (z_fadeout c); FFloat (defaultProb c);
       FInt (Z.of_nat (List.length (skins c)))]
   ++ map FInt (skins c)
   ++ [FInt (Z.of_nat (List.length (materials c)))]
   ++ flat_map Save_material (materials c)
   (* only save these if they are used *)
   ++ (if falloff c =? 5
       then [FFloat (func_x c); FFloat (func_y c); FFloat (func_s c);
             FFloat (func_a c); FInt (func_Xt c); FInt (func_Yt c);
             FInt (func_f c); FFloat (func_min c); FFloat (func_max c)]
       else [])
   ++ (if (2 <=? falloff c) && (falloff c <=? 3) then [FFloat (func_a c)]
       else [])
   (* image based distribution *)
   ++ [FUnsignedInt (imgmap c)]
   ++ (if negb (imgmap c =? 0)
       then [FBool (map_invert c); FFloat (map_scale_x c);
             FFloat (map_scale_y c); FFloat (map_ofs_x c);
             FFloat (map_ofs_y c)]
       else [])
   (* only write the rendermodel if it is used *)
   ++ (if negb (hModel c =? 0) then [FBool true; FModel (hModel c)]
       else [FBool false])
   (* only write the clipmodel if it is used *)
   ++ (if negb (physicsObj c =? 0) then [FBool true; FPhysics (physicsObj c)]
       else [FBool false]))%list.

Definition Save_inhibitor (inh : seed_inhibitor_t) : list field :=
  ([FVec3 (i_origin inh); FVec3 (i_size inh); FBox (i_box inh);
    FBool (inhibit_only inh); FInt (i_falloff inh); FFloat (i_factor inh);
    FInt (Z.of_nat (List.length (classnames inh)))]
   ++ map FString (classnames inh))%list.

Definition Save (o : SeedObject) : list field :=
  let st := ob_sched o in
  let s := sc_seed st in
  ([FBool (active st); FBool (m_bWaitForTrigger st);
    FInt (m_iDebug o); FBool (m_bDebugColors s);
    FBool (m_bCombine s);
    FInt (m_iSeed s); FInt (m_iSeed_2 s); FInt (m_iOrgSeed s);
    FInt (m_iNumEntities s); FInt (m_iNumExisting s); FInt (m_iNumVisible s);
    FInt (m_iThinkCounter st); FFloat (m_fLODBias s);
    FInt (m_DistCheckTimeStamp st); FInt (m_DistCheckInterval st);
    FBool (m_bDistCheckXYOnly o);
    FVec3 (m_origin s);
    FInt (m_iNumStaticMulties s);
    FInt (Z.of_nat (List.length (m_Entities s)))]
   ++ flat_map Save_entity (m_Entities s)
   ++ [FInt (Z.of_nat (List.length (m_Classes s)))]
   ++ flat_map
        (fun i => Save_class (list_get (m_Classes s) i no_class)
                             (list_get (c_stack o) i false))
        (indices (m_Classes s))
   ++ [FInt (Z.of_nat (List.length (m_Inhibitors s)))]
   ++ flat_map Save_inhibitor (m_Inhibitors s)
   ++ [FInt (Z.of_nat (List.length (m_Skins s)))]
   ++ map FString (m_Skins s)
   ++ [FInt (m_iNumPVSAreas s)]
   ++ map (fun i => FInt (list_get (m_iPVSAreas o) i 0))
          (map Z.of_nat (seq 0 (Z.to_nat (m_iNumPVSAreas s)))))%list.

(** *** [Seed::Restore] *)

(** A read: the value and the rest of the file, or nothing when the next
    field is not of the kind asked for. *)
Definition reader (A : Type) : Type := list field -> option (A * list field).

Definition ret {A : Type} (a : A) : reader A := fun fs => Some (a, fs).

Definition bind {A B : Type} (r : reader A) (k : A -> reader B) : reader B :=
  fun fs =>
    match r fs with
    | Some (a, fs') => k a fs'
    | None => None
    end.

Notation "x <- r ;; k" := (bind r (fun x => k))
  (at level 61, r at next level, right associativity).

Definition ReadBool : reader bool :=
  fun fs => match fs with FBool b :: fs' => Some (b, fs') | _ => None end.
Definition ReadInt : reader Z :=
  fun fs => match fs with FInt i :: fs' => Some (i, fs') | _ => None end.
Definition ReadUnsignedInt : reader Z :=
  fun fs => match fs with FUnsignedInt i :: fs' => Some (i, fs') | _ => None end.
Definition ReadFloat : reader float :=
  fun fs => match fs with FFloat f :: fs' => Some (f, fs') | _ => None end.
Definition ReadString : reader string :=
  fun fs => match fs with FString s :: fs' => Some (s, fs') | _ => None end.
Definition ReadVec3 : reader idVec3 :=
  fun fs => match fs with FVec3 v :: fs' => Some (v, fs') | _ => None end.
Definition ReadAngles : reader idAngles :=
  fun fs => match fs with FAngles a :: fs' => Some (a, fs') | _ => None end.
Definition ReadBox : reader idBox :=
  fun fs => match fs with FBox b :: fs' => Some (b, fs') | _ => None end.
Definition ReadClipModel : reader Z :=
  fun fs => match fs with FClipModel c :: fs' => Some (c, fs') | _ => None end.
Definition ReadModel : reader Z :=
  fun fs => match fs with FModel m :: fs' => Some (m, fs') | _ => None end.
Definition ReadPhysics : reader Z :=
  fun fs => match fs with FPhysics p :: fs' => Some (p, fs') | _ => None end.

(** A loop [for (int i = 0; i < num; i++)] that reads one element in
    each round. *)
Fixpoint read_n {A : Type} (num : nat) (r : reader A) : reader (list A) :=
  match num with
  | O => ret []
  | S num' => a <- r ;; l <- read_n num' r ;; ret (a :: l)
  end.

(** A read that is only made if the flag read before it is set. *)
Definition read_if {A : Type} (b : bool) (r : reader A) (otherwise : A)
    : reader A :=
  if b then r else ret otherwise.

(** An instance is read into a new element of the table, [blank]; its
    scale is not in the file. *)
Definition Restore_entity (blank : seed_entity_t) : reader seed_entity_t :=
  skinIdx <- ReadInt ;;
  origin <- ReadVec3 ;;
  angles <- ReadAngles ;;
  (* a dword is "unsigned int" *)
  clr <- ReadInt ;;
  flags <- ReadInt ;;
  entity <- ReadInt ;;
  classIdx <- ReadInt ;;
  ret (mkEntity skinIdx origin angles (clr mod 4294967296) flags entity
                classIdx (e_scale blank)).

Definition Restore_material : reader seed_material_t :=
  name <- ReadString ;;
  probability <- ReadFloat ;;
  ret (mkMaterial name probability).

(** The nine members of the falloff [func]. *)
Record func_t : Type := mkFunc {
  f_x : float; f_y : float; f_s : float; f_a : float;
  f_Xt : Z; f_Yt : Z; f_f : Z; f_min : float; f_max : float
}.

Definition Restore_func : reader func_t :=
  func_x <- ReadFloat ;;
  func_y <- ReadFloat ;;
  func_s <- ReadFloat ;;
  func_a <- ReadFloat ;;
  func_Xt <- ReadInt ;;
  func_Yt <- ReadInt ;;
  func_f <- ReadInt ;;
  func_min <- ReadFloat ;;
  func_max <- ReadFloat ;;
  ret (mkFunc func_x func_y func_s func_a func_Xt func_Yt func_f func_min
              func_max).

(** The five members of the image map. *)
Record map_t : Type := mkMap {
  mp_invert : bool; mp_scale_x : float; mp_scale_y : float;
  mp_ofs_x : float; mp_ofs_y : float
}.

Definition Restore_map : reader map_t :=
  map_invert <- ReadBool ;;
  map_scale_x <- ReadFloat ;;
  map_scale_y <- ReadFloat ;;
  map_ofs_x <- ReadFloat ;;
  map_ofs_y <- ReadFloat ;;
  ret (mkMap map_invert map_scale_x map_scale_y map_ofs_x map_ofs_y).

(** A class is read into a new element of the table, [blank]; the result
    is the class and its member [stack]. *)
Definition Restore_class (blank : seed_class_t) : reader (seed_class_t * bool) :=
  classname <- ReadString ;;
  modelname <- ReadString ;;
  pseudo <- ReadBool ;;
  watch <- ReadBool ;;
  maxEntities <- ReadInt ;;
  numEntities <- ReadInt ;;
  score <- ReadInt ;;
  bHaveModel <- ReadBool ;;
  (* only read the clip model if it is actually used *)
  clip <- read_if bHaveModel ReadClipModel 0 ;;
  cullDist <- ReadFloat ;;
  spawnDist <- ReadFloat ;;
  spacing <- ReadFloat ;;
  bunching <- ReadFloat ;;
  sink_min <- ReadFloat ;;
  sink_max <- ReadFloat ;;
  scale_min <- ReadVec3 ;;
  scale_max <- ReadVec3 ;;
  origin <- ReadVec3 ;;
  offset <- ReadVec3 ;;
  nocollide <- ReadInt ;;
  nocombine <- ReadBool ;;
  solid <- ReadBool ;;
  falloff <- ReadInt ;;
  floor <- ReadBool ;;
  stack <- ReadBool ;;
  noinhibit <- ReadBool ;;
  size <- ReadVec3 ;;
  avgSize <- ReadFloat ;;
  color_min <- ReadVec3 ;;
  color_max <- ReadVec3 ;;
  z_invert <- ReadBool ;;
  z_min <- ReadFloat ;;
  z_max <- ReadFloat ;;
  z_fadein <- ReadFloat ;;
  z_fadeout <- ReadFloat ;;
  defaultProb <- ReadFloat ;;
  num <- ReadInt ;;
  skins <- read_n (Z.to_nat num) ReadInt ;;
  num <- ReadInt ;;
  materials <- read_n (Z.to_nat num) Restore_material ;;
  (* only restore these if they are used *)
  func <- read_if (falloff =? 5) Restore_func
            (mkFunc (func_x blank) (func_y blank) (func_s blank) (func_a blank)
                    (func_Xt blank) (func_Yt blank) (func_f blank)
                    (func_min blank) (func_max blank)) ;;
  func_a <- read_if ((2 <=? falloff) && (falloff <=? 3)) ReadFloat (f_a func) ;;
  imgmap <- ReadUnsignedInt ;;
  imap <- read_if (negb (imgmap =? 0)) Restore_map
            (mkMap false F32.one F32.one F32.zero F32.zero) ;;
  bHaveModel <- ReadBool ;;
  (* only read the model if it is actually used *)
  hModel <- read_if bHaveModel ReadModel 0 ;;
  bHaveModel <- ReadBool ;;
  physicsObj <- read_if bHaveModel ReadPhysics 0 ;;
  ret (mkClass classname modelname pseudo watch (seed blank) maxEntities
         numEntities score solid nocombine origin offset floor noinhibit
         spacing sink_min sink_max scale_min scale_max falloff
         (f_x func) (f_y func) (f_s func) func_a (f_Xt func) (f_Yt func)
         (f_f func) (f_min func) (f_max func)
         imgmap (mp_invert imap) (mp_scale_x imap) (mp_scale_y imap)
         (mp_ofs_x imap) (mp_ofs_y imap)
         bunching nocollide size cullDist spawnDist (m_LOD blank) materials
         defaultProb hModel clip physicsObj (materialName blank)
         color_min color_max (impulse_min blank) (impulse_max blank)
         z_invert z_min z_max z_fadein z_fadeout avgSize skins (offsets blank),
       stack).

Definition Restore_inhibitor : reader seed_inhibitor_t :=
  origin <- ReadVec3 ;;
  size <- ReadVec3 ;;
  box <- ReadBox ;;
  inhibit_only <- ReadBool ;;
  falloff <- ReadInt ;;
  factor <- ReadFloat ;;
  n <- ReadInt ;;
  classnames <- read_n (Z.to_nat n) ReadString ;;
  ret (mkInhibitor origin size box inhibit_only falloff factor classnames).

(** [Seed::Restore] into the object [o].  [blank_entity] and
    [blank_class] are what [SetNum] leaves in a new element of the
    instance table and of the class table. *)
Definition Restore (blank_entity : seed_entity_t) (blank_class : seed_class_t)
    (o : SeedObject) : reader SeedObject :=
  let st := ob_sched o in
  let s := sc_seed st in
  active <- ReadBool ;;
  m_bWaitForTrigger <- ReadBool ;;
  m_iDebug <- ReadInt ;;
  m_bDebugColors <- ReadBool ;;
  m_bCombine <- ReadBool ;;
  m_iSeed <- ReadInt ;;
  m_iSeed_2 <- ReadInt ;;
  m_iOrgSeed <- ReadInt ;;
  m_iNumEntities <- ReadInt ;;
  m_iNumExisting <- ReadInt ;;
  m_iNumVisible <- ReadInt ;;
  m_iThinkCounter <- ReadInt ;;
  m_fLODBias <- ReadFloat ;;
  m_DistCheckTimeStamp <- ReadInt ;;
  m_DistCheckInterval <- ReadInt ;;
  m_bDistCheckXYOnly <- ReadBool ;;
  m_origin <- ReadVec3 ;;
  m_iNumStaticMulties <- ReadInt ;;
  (* do the SetLODData() once in Think() *)
  let m_bRestoreLOD := true in
  num <- ReadInt ;;
  m_Entities <- read_n (Z.to_nat num) (Restore_entity blank_entity) ;;
  numClasses <- ReadInt ;;
  (* clear m_Classes and free any models in it, too: [ClearClasses]
     ends with [m_iNumStaticMulties = 0] *)
  let m_iNumStaticMulties := 0 in
  classes <- read_n (Z.to_nat numClasses) (Restore_class blank_class) ;;
  num <- ReadInt ;;
  m_Inhibitors <- read_n (Z.to_nat num) Restore_inhibitor ;;
  num <- ReadInt ;;
  m_Skins <- read_n (Z.to_nat num) ReadString ;;
  m_iNumPVSAreas <- ReadInt ;;
  areas <- read_n (Z.to_nat m_iNumPVSAreas) ReadInt ;;
  ret (mkObject
         (mkScheduler
            (mkSeed (spawnArgs s) (renderEntity_size s) (renderEntity_axis s)
               (renderEntity_origin s) m_origin m_iSeed m_iSeed_2 m_iOrgSeed
               m_fLODBias m_bCombine m_bDebugColors m_Entities
               (map fst classes) m_Inhibitors m_Skins m_iNumEntities
               m_iNumExisting m_iNumVisible m_iNumStaticMulties
               m_iNumPVSAreas)
            active (thinking st) m_bWaitForTrigger (m_bPrepared st)
            m_bRestoreLOD m_iThinkCounter m_DistCheckTimeStamp
            m_DistCheckInterval (targets st) (entityNumber st)
            (physics_origin st))
         m_iDebug m_bDistCheckXYOnly
         (areas ++ skipn (List.length areas) (m_iPVSAreas o))%list
         (map snd classes)).

(** *** What comes back *)

(** What comes back of an instance and of a class that were saved, read
    into the new element [blank]: the members that are not in the file
    are those of [blank]. *)
Definition entity_as_saved (blank e : seed_entity_t) : seed_entity_t :=
  mkEntity (skinIdx e) (e_origin e) (e_angles e) (e_color e) (flags e)
           (entity e) (classIdx e) (e_scale blank).

Definition class_as_saved (blank c : seed_class_t) : seed_class_t :=
  (* the members of the falloff func are in the file for that falloff
     only, the factor for power and root as well *)
  let func := if falloff c =? 5 then c else blank in
  (* the members of the image map are in the file if there is a map *)
  let has_map := negb (imgmap c =? 0) in
  mkClass (classname c) (modelname c) (pseudo c) (watch c) (seed blank)
    (maxEntities c) (numEntities c) (score c) (solid c) (nocombine c)
    (c_origin c) (c_offset c) (c_floor c) (noinhibit c) (spacing c)
    (sink_min c) (sink_max c) (scale_min c) (scale_max c) (falloff c)
    (func_x func) (func_y func) (func_s func)
    (if (2 <=? falloff c) && (falloff c <=? 3) then func_a c else func_a func)
    (func_Xt func) (func_Yt func) (func_f func) (func_min func) (func_max func)
    (imgmap c)
    (if has_map then map_invert c else false)
    (if has_map then map_scale_x c else F32.one)
    (if has_map then map_scale_y c else F32.one)
    (if has_map then map_ofs_x c else F32.zero)
    (if has_map then map_ofs_y c else F32.zero)
    (bunching c) (nocollide c) (c_size c) (cullDist c) (spawnDist c)
    (m_LOD blank) (materials c) (defaultProb c) (hModel c) (clip c)
    (physicsObj c) (materialName blank) (color_min c) (color_max c)
    (impulse_min blank) (impulse_max blank) (z_invert c) (z_min c) (z_max c)
    (z_fadein c) (z_fadeout c) (avgSize c) (skins c) (offsets blank).

(* ================================================================= *)
(** ** Hosts that convert *)

(** The host [h] with other conversions of vectors and orientations,
    another power function, another notion of what is a moveable and
    another way to spawn. *)
Definition host_with (h : Host)
    (pow : float -> float -> float)
    (scan : string -> idVec3) (to_text : idVec3 -> string)
    (toMat3 : idAngles -> idMat3) (toAngles : idMat3 -> idAngles)
    (moveable : string -> bool)
    (spawn : World -> idDict -> option (Z * idEntity_t)) : Host := {|
  atof := @atof h;
  atoi := @atoi h;
  fmod := @fmod h;
  sscanf_vec3 := scan;
  sscanf_angles := @sscanf_angles h;
  idVec3_ToString := to_text;
  idMath_Sqrt := @idMath_Sqrt h;
  idMath_Pow := pow;
  idMath_ClampFloat := @idMath_ClampFloat h;
  idMath_PI := @idMath_PI h;
  idPolar3_ToVec3 := @idPolar3_ToVec3 h;
  idAngles_ToMat3 := toMat3;
  idMat3_ToAngles := toAngles;
  idVec3_mul_idMat3 := @idVec3_mul_idMat3 h;
  idBounds_translate := @idBounds_translate h;
  idBounds_rotate := @idBounds_rotate h;
  idBounds_ExpandSelf := @idBounds_ExpandSelf h;
  idBounds_IntersectsBounds := @idBounds_IntersectsBounds h;
  idBounds_FromTransformedBounds := @idBounds_FromTransformedBounds h;
  idBox_ExpandSelf := @idBox_ExpandSelf h;
  idBox_IntersectsBox := @idBox_IntersectsBox h;
  idBox_ContainsPoint := @idBox_ContainsPoint h;
  cv_lod_bias := @cv_lod_bias h;
  PackColor := @PackColor h;
  UnpackColor := @UnpackColor h;
  TracePoint := @TracePoint h;
  TraceBounds := @TraceBounds h;
  GetImageMap := @GetImageMap h;
  GetMapDataAt := @GetMapDataAt h;
  GetMapData := @GetMapData h;
  GetMapBpp := @GetMapBpp h;
  GetMapWidth := @GetMapWidth h;
  GetMapHeight := @GetMapHeight h;
  GetMapDensity := @GetMapDensity h;
  FindModel := @FindModel h;
  GetMaxModelCount := @GetMaxModelCount h;
  GetPVSAreas := @GetPVSAreas h;
  ThinkAboutLOD := @ThinkAboutLOD h;
  GetGravityNormal := @GetGravityNormal h;
  playerPos := @playerPos h;
  FindEntityDefDict := @FindEntityDefDict h;
  IsMoveable := moveable;
  SpawnEntityDef := spawn;
  new_idPhysics_StaticMulti := @new_idPhysics_StaticMulti h;
  idClipModel_LoadModel := @idClipModel_LoadModel h;
  seed_debug_material := @seed_debug_material h;
  qsort := @qsort h
|}.

(** *** Vectors as text *)

(** The digits of [n], which is not negative, before [acc]. *)
Fixpoint decimal (fuel : nat) (n : Z) (acc : string) : string :=
  match fuel with
  | O => acc
  | S fuel' =>
      let acc := String (ascii_of_nat (Z.to_nat (48 + n mod 10))) acc in
      if n <? 10 then acc else decimal fuel' (n / 10) acc
  end.

(** The magnitude of a number in hundredths, to the nearest. *)
Definition hundredths (f : float) : Z :=
  match f with
  | S754_finite _ m e =>
      if 0 <=? e then 100 * Z.shiftl (Zpos m) e
      else
        let den := Z.shiftl 1 (- e) in
        (2 * (100 * Zpos m) + den) / (2 * den)
  | _ => 0
  end.

Definition is_negative (f : float) : bool :=
  match f with
  | S754_finite sg _ _ => sg
  | S754_zero sg => sg
  | _ => false
  end.

(** A number as [idVec3::ToString] writes it with its default precision:
    [%.2f], then without the zeros at the end and without a point left
    at the end. *)
Definition float_text (f : float) : string :=
  let h := hundredths f in
  let whole := decimal 48 (h / 100) "" in
  let tenths := decimal 1 ((h / 10) mod 10) "" in
  let last := decimal 1 (h mod 10) "" in
  let shown :=
    if h mod 100 =? 0 then whole
    else if h mod 10 =? 0 then whole ++ "." ++ tenths
    else whole ++ "." ++ tenths ++ last in
  if is_negative f then "-" ++ shown else shown.

(** [idDict::SetVector] stores [vec.ToString()]. *)
Definition vec3_text (v : idVec3) : string :=
  float_text (x v) ++ " " ++ float_text (y v) ++ " " ++ float_text (z v).

(** What follows the first blank. *)
Fixpoint after_blank (s : string) : string :=
  match s with
  | String " "%char s' => s'
  | String _ s' => after_blank s'
  | EmptyString => EmptyString
  end.

(** [idDict::GetVector] reads with [sscanf( s, "%f %f %f", ... )]. *)
Definition text_vec3 (s : string) : idVec3 :=
  mkVec3 (atof_dec s) (atof_dec (after_blank s))
         (atof_dec (after_blank (after_blank s))).

(** *** Quarter turns *)

(** Orientations are turns about the vertical axis by a multiple of 90
    degrees, which [float] holds exactly.  [ToMat3] knows the yaws 90,
    180 and -90 and takes every other angle for no turn at all; the rows
    are [(cy, sy, 0)], [(-sy, cy, 0)] and [(0, 0, 1)]. *)
Definition yaw_mat3 (cy sy : Z) : idMat3 :=
  mkMat3 (mkVec3 (F32.of_Z cy) (F32.of_Z sy) F32.zero)
         (mkVec3 (F32.of_Z (- sy)) (F32.of_Z cy) F32.zero)
         (mkVec3 F32.zero F32.zero F32.one).

Definition quarter_ToMat3 (a : idAngles) : idMat3 :=
  if F32.eqb (yaw a) (F32.of_Z 90) then yaw_mat3 0 1
  else if F32.eqb (yaw a) (F32.of_Z 180) then yaw_mat3 (-1) 0
  else if F32.eqb (yaw a) (F32.of_Z (-90)) then yaw_mat3 0 (-1)
  else yaw_mat3 1 0.

(** [ToAngles] gives the quarter turn that the first row is nearest
    to. *)
Definition quarter_ToAngles (m : idMat3) : idAngles :=
  let cy := x (mat0 m) in
  let sy := y (mat0 m) in
  let turn :=
    if F32.gtb sy half then 90
    else if F32.ltb sy (F32.neg half) then -90
    else if F32.ltb cy F32.zero then 180
    else 0 in
  mkAngles F32.zero (F32.of_Z turn) F32.zero.

(** *** The hosts *)

(** A new object takes the next free number and stands where the
    argument "origin" says, unturned, with a physics object of its
    own. *)
Definition spawn_at_origin (w : World) (args : idDict)
    : option (Z * idEntity_t) :=
  Some (Z.of_nat (List.length (entities w)),
        mkLive args
               (mkPhysics (text_vec3 (GetString args "origin" "0 0 0"))
                          (yaw_mat3 1 0))
               None true).

(** The idle host with the conversions above; every class is a moveable
    or none is. *)
Definition text_host (moveable : bool) : Host :=
  host_with idle_host (@idMath_Pow idle_host) text_vec3 vec3_text
    quarter_ToMat3 quarter_ToAngles (fun _ => moveable) spawn_at_origin.

(** The idle host with a power function that is 1.0 everywhere, as the
    power 0 is. *)
Definition flat_pow_host : Host :=
  host_with idle_host (fun _ _ => F32.one) (@sscanf_vec3 idle_host)
    (@idVec3_ToString idle_host) (@idAngles_ToMat3 idle_host)
    (@idMat3_ToAngles idle_host) (@IsMoveable idle_host)
    (@SpawnEntityDef idle_host).

(** *** An instance that is spawned, culled and spawned again *)

(** An instance at (3.25, -1.5, 12), turned by 90 degrees, not spawned
    yet. *)
Definition turned_instance : seed_entity_t :=
  mkEntity 0 (mkVec3 (F32.lit 13 4) (F32.neg (F32.lit 3 2)) (F32.of_Z 12))
           (mkAngles F32.zero (F32.of_Z 90) F32.zero) 0 1 0 0 Vec3.zero.

Definition turned_seed : Seed :=
  sample_seed [] [plain_class "a" 1 0] [turned_instance] 7 1.

Definition turned_spawned : bool * Seed * World :=
  @SpawnEntity sample_constants (text_host false) turned_seed
               empty_world 0 true.

Definition turned_culled : bool * Seed * World :=
  @CullEntity sample_constants (text_host false) (snd (fst turned_spawned))
              (snd turned_spawned) 0.

Definition turned_respawned : bool * Seed * World :=
  @SpawnEntity sample_constants (text_host false) (snd (fst turned_culled))
               (snd turned_culled) 0 true.

(** An instance of a composite class whose physics object is number 1,
    at (0.1875, 0, 0), not spawned yet, and a world with that physics
    object; and the same spawned, culled and spawned again. *)
Definition merged_class : seed_class_t :=
  make_pseudo no_class (plain_class "a" 1 0) 1 [] "".

Definition merged_instance : seed_entity_t :=
  mkEntity 0 (mkVec3 (F32.lit 3 16) F32.zero F32.zero) ang_zero 0 9 0 0
           Vec3.zero.

Definition merged_seed : Seed :=
  sample_seed [] [merged_class] [merged_instance] 7 1.

Definition merged_world : World :=
  mkWorld [] 0 [(1, mkPhysics Vec3.zero (yaw_mat3 0 1))] [].

Definition merged_spawned : bool * Seed * World :=
  @SpawnEntity sample_constants (text_host false) merged_seed merged_world
               0 true.

Definition merged_culled : bool * Seed * World :=
  @CullEntity sample_constants (text_host false) (snd (fst merged_spawned))
              (snd merged_spawned) 0.

Definition merged_respawned : bool * Seed * World :=
  @SpawnEntity sample_constants (text_host false) (snd (fst merged_culled))
               (snd merged_culled) 0 true.

(** A moveable that was spawned at (0.25, 0, 0) and has come to rest at
    (0.1875, 0, 0), as the live object number 0. *)
Definition rested_object : idEntity_t :=
  mkLive [("classname", "a"); ("origin", "0.25 0 0")]
         (mkPhysics (mkVec3 (F32.lit 3 16) F32.zero F32.zero) (yaw_mat3 1 0))
         None true.

Definition rested_world : World := mkWorld [Some rested_object] 1 [] [].

Definition rested_seed : Seed :=
  sample_seed [] [plain_class "a" 1 0]
    [mkEntity 0 (mkVec3 (F32.lit 1 4) F32.zero F32.zero) ang_zero 0 6 0 0
              Vec3.zero] 7 1.

Definition rested_culled : bool * Seed * World :=
  @CullEntity sample_constants (text_host true) rested_seed rested_world 0.

Definition rested_respawned : bool * Seed * World :=
  @SpawnEntity sample_constants (text_host true) (snd (fst rested_culled))
               (snd rested_culled) 0 true.

(** A class with the falloff power and the exponent 0. *)
Definition power_zero_class : seed_class_t :=
  mkClass "a" "" false false 0 0 0 1 true false Vec3.zero
    Vec3.zero false false F32.zero F32.zero F32.zero Vec3.zero Vec3.zero 2
    F32.zero F32.zero F32.zero F32.zero 0 0 0 F32.zero F32.zero 0 false
    F32.one F32.one F32.zero F32.zero F32.zero 0 Vec3.zero F32.zero F32.zero
    None [] F32.one 0 0 0 "" Vec3.zero Vec3.zero Vec3.zero Vec3.zero false
    F32.zero F32.zero F32.zero F32.zero F32.one [0] [].
(* ================================================================= *)
(** ** More inputs to run the code on *)

(** An inhibitor without falloff that inhibits the class "rock" only. *)
Definition rock_inhibitor : seed_inhibitor_t :=
  mkInhibitor Vec3.zero (mkVec3 (F32.of_Z 10) (F32.of_Z 10) (F32.of_Z 10))
    (mkBox Vec3.zero (mkVec3 (F32.of_Z 5) (F32.of_Z 5) (F32.of_Z 5))
           (mkMat3 Vec3.zero Vec3.zero Vec3.zero))
    true 0 F32.two ["rock"].

(** A class with the falloff cutoff and nothing else set. *)
Definition cutoff_class : seed_class_t :=
  mkClass "a" "" false false 0 0 0 1 true false Vec3.zero
    Vec3.zero false false F32.zero F32.zero F32.zero Vec3.zero Vec3.zero 1
    F32.zero F32.zero F32.zero F32.two 0 0 0 F32.zero F32.zero 0 false
    F32.one F32.one F32.zero F32.zero F32.zero 0 Vec3.zero F32.zero F32.zero
    None [] F32.one 0 0 0 "" Vec3.zero Vec3.zero Vec3.zero Vec3.zero false
    F32.zero F32.zero F32.zero F32.zero F32.one [0] [].

(** Two instances of one class, 10 units apart. *)
Definition two_in_a_row : Seed :=
  sample_seed [] [plain_class "a" 1 0] [entity_at 0 0; entity_at 0 10] 7 2.


(** A scheduler around a distribution: prepared, not waiting for a
    trigger, checking the distances every 500 ms. *)
Definition sample_scheduler (s : Seed) (counter : Z) : Scheduler :=
  mkScheduler s true true false true false counter 0 500 [] 0 Vec3.zero.

(** A [Prepare] that has nothing to do. *)
Definition no_Prepare (st : Scheduler) (w : World) : Scheduler * World := (st, w).

(** A stand-in for [AddClassFromEntity]: a plain class of score 1, named
    after the template, and nothing else changed. *)
Definition plain_AddClass (rnd : unit) (s : Seed) (ent : idEntity_t)
    (watch : bool) : option (seed_class_t * list string * idEntity_t * unit) :=
  Some (plain_class (GetEntityDefName ent) 1 0, m_Skins s, ent, rnd).

Definition first_RandomPart (rnd : unit) (s : string) : string * unit := (s, rnd).

Definition no_bounds (ent : idEntity_t) : idVec3 := Vec3.zero.

Definition no_inhibitor : seed_inhibitor_t :=
  mkInhibitor Vec3.zero Vec3.zero
    (mkBox Vec3.zero Vec3.zero (mkMat3 Vec3.zero Vec3.zero Vec3.zero))
    false 0 F32.zero [].

(** A world with an inhibitor whose falloff is [func], as object 0, and a
    template of the class [a], as object 1; and a SEED that targets
    both. *)
Definition template_world : World :=
  mkWorld
    [Some (mkLive [("classname", "atdm:no_seed"); ("falloff", "func")]
                  zero_physics None false);
     Some (mkLive [("classname", "a")] zero_physics None false)]
    2 [] [].

Definition unprepared (args : idDict) : Scheduler :=
  mkScheduler (sample_seed args [] [] 7 0) true true false false false 0 0 500
              [0; 1] 5 Vec3.zero.

Definition sample_Prepare (clock : Z) (args : idDict)
    : option (Scheduler * World * unit) :=
  @Prepare sample_constants idle_host unit plain_AddClass first_RandomPart
           no_bounds 64 no_inhibitor no_entity no_class tt clock
           (unprepared args) template_world.

(** What that [Prepare] gives with a root seed of 11 and a cap of three
    instances. *)
Definition sample_Prepare_result : Scheduler * World * unit :=
  match sample_Prepare 1300000000 [("randseed", "11"); ("max_entities", "3")] with
  | Some r => r
  | None => (unprepared [], template_world, tt)
  end.

(** The object around [three_in_a_row], and a new object to restore
    into. *)
Definition sample_object : SeedObject :=
  mkObject (sample_scheduler three_in_a_row 3) 0 false [4] [true].

Definition new_object : SeedObject :=
  mkObject (mkScheduler (sample_seed [] [] [] 7 0) false false false false
                        false 0 0 0 [] 0 Vec3.zero)
           0 false [0] [].
(* ================================================================= *)
(** * Properties *)

(* ================================================================= *)
(** ** Falloff parsing *)

Lemma string_eqb_false (a b : string) : a <> b -> String.eqb a b = false.
Proof. intro Hne. now apply String.eqb_neq. Qed.

(** C4, as the code has it.  The parser knows the names none, cutoff,
    power, root, linear and func, with the codes 0 to 5 in the order
    none, cutoff, power, root, linear, func.  For power and root the shape
    factor read from seed_func_a is stored, and a factor below 2 is
    replaced by 2 with a warning.  Every other name gives the code of
    none with a warning, and leaves the factor alone. *)
Theorem ParseFalloff_names :
  forall (H : Host) (dict : idDict) (defaultName defaultFactor : string)
         (func_a : float),
    let falloff := GetString dict "seed_falloff" defaultName in
    let a := GetFloat dict "seed_func_a" defaultFactor in
    let clamped := if F32.ltb a F32.two then F32.two else a in
    let warned := if F32.ltb a F32.two then [ExpectFuncA falloff] else [] in
    let r := ParseFalloff dict defaultName defaultFactor func_a in
    (falloff = "none" -> r = (0, func_a, [])) /\
    (falloff = "cutoff" -> r = (1, func_a, [])) /\
    (falloff = "power" -> r = (2, clamped, warned)) /\
    (falloff = "root" -> r = (3, clamped, warned)) /\
    (falloff = "linear" -> r = (4, func_a, [])) /\
    (falloff = "func" -> r = (5, func_a, [])) /\
    (~ In falloff ["none"; "cutoff"; "power"; "root"; "linear"; "func"] ->
     r = (0, func_a, [WrongFalloff falloff])).
Proof.
  intros H dict defaultName defaultFactor func_a falloff a clamped warned r.
  subst r clamped warned. unfold ParseFalloff. fold falloff. fold a.
  repeat split; intro Hf.
  - rewrite Hf. reflexivity.
  - rewrite Hf. reflexivity.
  - rewrite Hf. cbn. destruct (F32.ltb a _); reflexivity.
  - rewrite Hf. cbn. destruct (F32.ltb a _); reflexivity.
  - rewrite Hf. reflexivity.
  - rewrite Hf. reflexivity.
  - cbn in Hf.
    rewrite !string_eqb_false by (intro E; apply Hf; rewrite E; tauto).
    reflexivity.
Qed.

(** C4 as stated fails: the name function is not one the parser knows
    (it is answered like any unknown name), while func is. *)
Lemma ParseFalloff_function_unknown :
  @ParseFalloff idle_host [("seed_falloff", "function")] "none" "2" F32.one
    = (0, F32.one, [WrongFalloff "function"])
  /\ @ParseFalloff idle_host [("seed_falloff", "func")] "none" "2" F32.one
    = (5, F32.one, []).
Proof. split; reflexivity. Qed.

(* ================================================================= *)
(** ** The density of a class *)

(** A product with a zero factor in the middle is a zero or not a number,
    whatever the other factors: it is never positive. *)
Lemma density_divisor_zero (b d : float) :
  F32.ltb F32.zero (density_divisor b F32.zero d) = false.
Proof.
  destruct b as [sb | sb | | sb mb eb], d as [sd | sd | | sd md ed];
    try destruct sb; try destruct sd; reflexivity.
Qed.

(** With an image map in use, the density that leaves the image-map part
    is not below 0.001. *)
Lemma image_density_clamped (H : Host) (ent spawnArgs : idDict)
    (im : image_map_t) (w : list diagnostic) :
  ClassImageMap ent spawnArgs = inr (im, w) ->
  0 < im_imgmap im ->
  F32.ltb (im_fImgDensity im) (F32.lit 1 1000) = false.
Proof.
  unfold ClassImageMap.
  set (mapName := GetString ent "seed_map" (GetString spawnArgs "map" "")).
  set (imgmap := if String.eqb mapName "" then 0 else GetImageMap mapName).
  destruct (0 <? imgmap) eqn:Hpos.
  - destruct (GetMapData imgmap) as [imgData |]; [| discriminate].
    destruct (negb (GetMapBpp imgmap =? 1)); [discriminate |].
    match goal with
    | |- context [F32.ltb ?f (F32.lit 1 1000)] =>
        destruct (F32.ltb f (F32.lit 1 1000)) eqn:Hlow
    end; intros E _; inversion E; subst; cbn [im_fImgDensity].
    + reflexivity.
    + exact Hlow.
  - intros E Him. inversion E; subst. cbn [im_imgmap] in Him.
    apply Z.ltb_ge in Hpos. lia.
Qed.

(** C5 on the code.  A class that names no image map keeps the initial
    [fImgDensity = 0.0f]: the clamp to 0.001 sits inside the image-map
    branch and is not reached.  The divisor of the footprint is then a
    zero (or not a number), for every per-class and base density. *)
Theorem no_image_map_zero_density :
  forall (H : Host) (ent spawnArgs : idDict),
    GetString ent "seed_map" (GetString spawnArgs "map" "") = "" ->
    exists im w,
      ClassImageMap ent spawnArgs = inr (im, w) /\
      im_imgmap im = 0 /\
      im_fImgDensity im = F32.zero /\
      F32.ltb (im_fImgDensity im) (F32.lit 1 1000) = true /\
      forall fBaseDensity fDensity,
        F32.ltb F32.zero
          (density_divisor fBaseDensity (im_fImgDensity im) fDensity) = false.
Proof.
  intros H ent spawnArgs Hname.
  unfold ClassImageMap. rewrite Hname. cbn.
  eexists. eexists. split; [reflexivity |]. cbn.
  repeat split. intros b d. apply density_divisor_zero.
Qed.

Lemma no_image_map_zero_density_witness :
  exists im w,
    @ClassImageMap idle_host [] [] = inr (im, w) /\
    im_imgmap im = 0 /\
    im_fImgDensity im = F32.zero /\
    F32.ltb (im_fImgDensity im) (F32.lit 1 1000) = true /\
    forall fBaseDensity fDensity,
      F32.ltb F32.zero
        (density_divisor fBaseDensity (im_fImgDensity im) fDensity) = false.
Proof. apply (no_image_map_zero_density idle_host [] []). reflexivity. Defined.

(** The same on numbers: a footprint of 16 by 16 units with the default
    densities 1.0 and no image map is divided by zero, and the average
    footprint of the class is infinite; an area of 10000 divided by it
    gives a count of 0. *)
Example avg_size_without_image_map :
  density_divisor F32.one F32.zero F32.one = S754_zero false /\
  F32.div (F32.mul (F32.of_Z 16) (F32.of_Z 16))
          (density_divisor F32.one F32.zero F32.one) = S754_infinity false /\
  F32.to_int (F32.div (F32.of_Z 10000) (S754_infinity false)) = 0.
Proof. repeat split; reflexivity. Qed.

(* ================================================================= *)
(** ** Target counts *)

Lemma LODBIAS_default (H : Host) : cv_lod_bias = F32.one -> LODBIAS = F32.one.
Proof. intro Hb. unfold LODBIAS. rewrite Hb. reflexivity. Qed.

(** C8, as the code has it.  Two classes that are neither pseudo nor
    watched, with scores 1 and 3 and no cap of their own, under an
    overall cap of 40: when the cap is not rescaled by the quality bias
    (the bias setting is 1.0, or 40 does not exceed lod_scaling_limit),
    the classes get 10 and 30 instances and the overall target is 40. *)
Theorem ComputeEntityCount_1_3_cap_40 :
  forall (H : Host) (spawnArgs : idDict) (size : idVec3) (c1 c2 : seed_class_t),
    GetInt spawnArgs "max_entities" "0" = 40 ->
    cv_lod_bias = F32.one \/
    F32.gtb (F32.of_Z 40) (GetFloat spawnArgs "lod_scaling_limit" "10") = false ->
    pseudo c1 = false -> watch c1 = false -> score c1 = 1 -> maxEntities c1 = 0 ->
    pseudo c2 = false -> watch c2 = false -> score c2 = 3 -> maxEntities c2 = 0 ->
    ComputeEntityCount spawnArgs size [c1; c2]
      = ([set_numEntities c1 10; set_numEntities c2 30], 40)
    /\ Forall (fun c => 1 <= numEntities c)
              (fst (ComputeEntityCount spawnArgs size [c1; c2])).
Proof.
  intros H spawnArgs size c1 c2 Hcap Hbias Hp1 Hw1 Hs1 Hm1 Hp2 Hw2 Hs2 Hm2.
  assert (Hrun : ComputeEntityCount spawnArgs size [c1; c2]
                 = ([set_numEntities c1 10; set_numEntities c2 30], 40));
    [| split; [exact Hrun | rewrite Hrun; repeat constructor; cbn; lia]].
  unfold ComputeEntityCount. rewrite Hcap.
  change (0 <? 40) with true. cbv iota.
  assert (Hscaled :
    (if F32.gtb (F32.of_Z 40) (GetFloat spawnArgs "lod_scaling_limit" "10")
     then F32.to_int (F32.mul (F32.of_Z 40) LODBIAS) else 40) = 40).
  { destruct Hbias as [Hb | Hlim].
    - rewrite (LODBIAS_default H Hb).
      destruct (F32.gtb _ _); reflexivity.
    - rewrite Hlim. reflexivity. }
  rewrite Hscaled.
  cbn [fold_left count_classes]. rewrite Hs1, Hs2.
  rewrite Hp1, Hw1, Hp2, Hw2. cbn [orb].
  unfold class_count. rewrite Hs1, Hs2, Hm1, Hm2.
  reflexivity.
Qed.

Lemma ComputeEntityCount_1_3_cap_40_witness :
  @ComputeEntityCount idle_host [("max_entities", "40")] Vec3.zero
     [plain_class "a" 1 0; plain_class "b" 3 0]
    = ([set_numEntities (plain_class "a" 1 0) 10;
        set_numEntities (plain_class "b" 3 0) 30], 40)
  /\ Forall (fun c => 1 <= numEntities c)
            (fst (@ComputeEntityCount idle_host [("max_entities", "40")]
                    Vec3.zero [plain_class "a" 1 0; plain_class "b" 3 0])).
Proof.
  apply (ComputeEntityCount_1_3_cap_40 idle_host [("max_entities", "40")]
           Vec3.zero (plain_class "a" 1 0) (plain_class "b" 3 0));
    first [ reflexivity | left; reflexivity ].
Defined.

(** C8 as stated fails: with the quality bias set to 2.0 the cap of 40 is
    first multiplied by 1.25, and the two classes get 12 and 37 instances
    under an overall target of 50. *)
Lemma ComputeEntityCount_bias_2 :
  let r := @ComputeEntityCount (idle_host_with (F32.of_Z 2))
             [("max_entities", "40")] Vec3.zero
             [plain_class "a" 1 0; plain_class "b" 3 0] in
  map numEntities (fst r) = [12; 37] /\ snd r = 50.
Proof. vm_compute. split; reflexivity. Qed.

(* ================================================================= *)
(** ** Spawning and culling *)

Lemma list_set_nat_length {A : Type} (l : list A) (i : nat) (v : A) :
  List.length (list_set_nat l i v) = List.length l.
Proof.
  revert i. induction l as [| a l IH]; intros [| i]; cbn; auto.
Qed.

Lemma nth_list_set_nat {A : Type} (l : list A) (i : nat) (v d : A) :
  (i < List.length l)%nat -> nth i (list_set_nat l i v) d = v.
Proof.
  revert i. induction l as [| a l IH]; intros [| i] Hi; cbn in *;
    try lia; auto. apply IH. lia.
Qed.

Lemma list_set_length_Z {A : Type} (l : list A) (i : Z) (v : A) :
  Z.of_nat (List.length (list_set l i v)) = Z.of_nat (List.length l).
Proof.
  unfold list_set. destruct (i <? 0); [reflexivity |].
  now rewrite list_set_nat_length.
Qed.

Lemma list_get_set {A : Type} (l : list A) (i : Z) (v d : A) :
  0 <= i < Z.of_nat (List.length l) -> list_get (list_set l i v) i d = v.
Proof.
  intros Hi. unfold list_get, list_set.
  destruct (i <? 0) eqn:Hneg; [apply Z.ltb_lt in Hneg; lia |].
  apply nth_list_set_nat. lia.
Qed.

Lemma list_get_place_entity (l : list (option idEntity_t)) (n : Z)
    (e : idEntity_t) :
  0 <= n -> list_get (place_entity l n e) n None = Some e.
Proof.
  intros Hn. unfold place_entity.
  destruct (n <? 0) eqn:Hneg; [apply Z.ltb_lt in Hneg; lia |].
  destruct (Z.of_nat (List.length l) <=? n) eqn:Hlen.
  - apply Z.leb_le in Hlen. unfold list_get. rewrite Hneg.
    rewrite app_nth2 by lia. rewrite app_nth2 by (rewrite repeat_length; lia).
    rewrite repeat_length.
    replace (Z.to_nat n - List.length l - (Z.to_nat n - List.length l))%nat
      with 0%nat by lia.
    reflexivity.
  - apply Z.leb_gt in Hlen. apply list_get_set. lia.
Qed.

Lemma single_bit_land_self (f : Z) : single_bit f -> Z.land f f <> 0 /\ 0 < f.
Proof.
  intros [n [Hn ->]]. rewrite Z.land_diag.
  assert (0 < 2 ^ n) by (apply Z.pow_pos_nonneg; lia). lia.
Qed.

Lemma single_bit_land_other (f g : Z) :
  single_bit f -> single_bit g -> f <> g -> Z.land f g = 0.
Proof.
  intros [n [Hn ->]] [m [Hm ->]] Hne.
  apply Z.bits_inj'. intros k Hk.
  rewrite Z.land_spec, Z.bits_0, !Z.pow2_bits_eqb by lia.
  destruct (Z.eqb_spec n k), (Z.eqb_spec m k); try reflexivity.
  subst. congruence.
Qed.

(** C1 on the code.  Culling a spawned instance whose live object is
    still there succeeds and leaves the instance with no flag at all:
    [flags &= (! SEED_ENTITY_EXISTS)] masks with the logical negation of a
    non-zero constant, which is 0.  Hidden is not set afterwards, and the
    spawned and composite flags are lost with exists. *)
Theorem CullEntity_drops_every_flag :
  forall (K : Constants) (H : Host) (s : Seed) (w : World) (idx : Z)
         (ent2 : idEntity_t),
    SEED_ENTITY_EXISTS <> 0 ->
    0 <= idx < Z.of_nat (List.length (m_Entities s)) ->
    Z.land (flags (list_get (m_Entities s) idx no_entity)) SEED_ENTITY_EXISTS <> 0 ->
    list_get (entities w) (entity (list_get (m_Entities s) idx no_entity)) None
      = Some ent2 ->
    exists s' w',
      CullEntity s w idx = (true, s', w') /\
      flags (list_get (m_Entities s') idx no_entity) = 0 /\
      ~ hidden_xor_exists (flags (list_get (m_Entities s') idx no_entity)).
Proof.
  intros K H s w idx ent2 Hex Hidx Hflag Hlive.
  unfold CullEntity.
  destruct (Z.land _ SEED_ENTITY_EXISTS =? 0) eqn:Hz;
    [apply Z.eqb_eq in Hz; contradiction |].
  rewrite Hlive.
  eexists. eexists. split; [reflexivity |].
  unfold with_entity. cbn [m_Entities].
  rewrite list_get_set by exact Hidx. unfold culled_entity. cbn [flags].
  assert (Hmask : C_not SEED_ENTITY_EXISTS = 0).
  { unfold C_not. destruct (SEED_ENTITY_EXISTS =? 0) eqn:E; [| reflexivity].
    apply Z.eqb_eq in E. contradiction. }
  rewrite Hmask, Z.land_0_r.
  split; [reflexivity |].
  unfold hidden_xor_exists. rewrite !Z.land_0_l. intros [[Hh _] | [_ He]]; congruence.
Qed.

Lemma CullEntity_drops_every_flag_witness :
  exists s' w',
    @CullEntity sample_constants idle_host one_spawned one_object_world 0
      = (true, s', w') /\
    flags (list_get (m_Entities s') 0 no_entity) = 0 /\
    ~ @hidden_xor_exists sample_constants
        (flags (list_get (m_Entities s') 0 no_entity)).
Proof.
  apply (CullEntity_drops_every_flag sample_constants idle_host one_spawned
           one_object_world 0 (mkLive [] zero_physics None false)).
  - cbn. lia.
  - cbn. lia.
  - cbn. lia.
  - reflexivity.
Defined.

Lemma land_below (a b : Z) : 0 <= b -> 0 <= Z.land a b <= b.
Proof.
  intros Hb. apply Z.ldiff_le; [exact Hb |].
  apply Z.bits_inj'. intros k Hk.
  rewrite Z.ldiff_spec, Z.land_spec, Z.bits_0.
  destruct (Z.testbit a k), (Z.testbit b k); reflexivity.
Qed.

Lemma single_bit_range (f : Z) : single_bit f -> 0 <= f < 2 ^ 31.
Proof.
  intros [n [Hn ->]]. split; [apply Z.pow_nonneg; lia |].
  apply Z.pow_lt_mono_r; lia.
Qed.

Lemma wrap32_small (v : Z) : 0 <= v < 2 ^ 31 -> wrap32 v = v.
Proof.
  intros Hv. unfold wrap32. change (2 ^ 31) with 2147483648 in Hv.
  rewrite Z.mod_small; lia.
Qed.

(** The flags that a successful spawn stores: spawned and exists, and
    composite if it was set before.  Exists is set and hidden is not. *)
Lemma spawned_flags (K : Constants) (fl : Z) :
  flag_bits K ->
  let f := wrap32 (SEED_ENTITY_SPAWNED + SEED_ENTITY_EXISTS
                   + Z.land fl SEED_ENTITY_PSEUDO) in
  Z.land f SEED_ENTITY_EXISTS <> 0 /\ Z.land f SEED_ENTITY_HIDDEN = 0.
Proof.
  intros (Hh & He & Hs & Hp & Hnd) f.
  assert (Hd : SEED_ENTITY_HIDDEN <> SEED_ENTITY_EXISTS /\
               SEED_ENTITY_HIDDEN <> SEED_ENTITY_SPAWNED /\
               SEED_ENTITY_HIDDEN <> SEED_ENTITY_PSEUDO /\
               SEED_ENTITY_EXISTS <> SEED_ENTITY_SPAWNED /\
               SEED_ENTITY_EXISTS <> SEED_ENTITY_PSEUDO /\
               SEED_ENTITY_SPAWNED <> SEED_ENTITY_PSEUDO).
  { inversion Hnd as [| ? ? N1 Hnd1]; subst.
    inversion Hnd1 as [| ? ? N2 Hnd2]; subst.
    inversion Hnd2 as [| ? ? N3 _]; subst.
    cbn in N1, N2, N3. repeat split; intro E; rewrite E in *; tauto. }
  destruct Hd as (Dhe & Dhs & Dhp & Des & Dep & Dsp).
  pose proof (single_bit_range _ Hh) as Rh.
  pose proof (single_bit_range _ He) as Re.
  pose proof (single_bit_range _ Hs) as Rs.
  pose proof (single_bit_range _ Hp) as Rp.
  set (P' := Z.land fl SEED_ENTITY_PSEUDO).
  assert (HP'r : 0 <= P' < 2 ^ 31).
  { unfold P'. pose proof (land_below fl SEED_ENTITY_PSEUDO). lia. }
  assert (HP'se : Z.land (Z.lor SEED_ENTITY_SPAWNED SEED_ENTITY_EXISTS) P' = 0).
  { unfold P'. rewrite (Z.land_comm fl), Z.land_assoc, Z.land_lor_distr_l.
    rewrite (single_bit_land_other _ _ Hs Hp Dsp).
    rewrite (single_bit_land_other _ _ He Hp Dep). reflexivity. }
  assert (Hse : Z.land SEED_ENTITY_SPAWNED SEED_ENTITY_EXISTS = 0).
  { apply single_bit_land_other; auto. }
  assert (Hsum : SEED_ENTITY_SPAWNED + SEED_ENTITY_EXISTS + P'
                 = Z.lor (Z.lor SEED_ENTITY_SPAWNED SEED_ENTITY_EXISTS) P').
  { rewrite (Z.add_nocarry_lxor _ _ Hse), (Z.lxor_lor _ _ Hse).
    rewrite (Z.add_nocarry_lxor _ _ HP'se), (Z.lxor_lor _ _ HP'se).
    reflexivity. }
  assert (Hf : f = Z.lor (Z.lor SEED_ENTITY_SPAWNED SEED_ENTITY_EXISTS) P').
  { unfold f. fold P'. rewrite <- Hsum. apply wrap32_small.
    split; [lia |].
    apply Z.add_nocarry_lt_pow2; [| | lia].
    - rewrite (Z.add_nocarry_lxor _ _ Hse), (Z.lxor_lor _ _ Hse). exact HP'se.
    - apply Z.add_nocarry_lt_pow2; [exact Hse | lia | lia]. }
  rewrite Hf. split.
  - rewrite !Z.land_lor_distr_l, Z.land_diag.
    rewrite (single_bit_land_other _ _ Hs He) by auto.
    unfold P'. rewrite <- Z.land_assoc.
    rewrite (single_bit_land_other _ _ Hp He) by auto.
    rewrite Z.land_0_r, Z.lor_0_l, Z.lor_0_r.
    pose proof (proj2 (single_bit_land_self _ He)). lia.
  - rewrite !Z.land_lor_distr_l.
    rewrite (single_bit_land_other _ _ Hs Hh) by auto.
    rewrite (single_bit_land_other _ _ He Hh) by auto.
    unfold P'. rewrite <- Z.land_assoc.
    rewrite (single_bit_land_other _ _ Hp Hh) by auto.
    rewrite Z.land_0_r. reflexivity.
Qed.

(** A successful spawn leaves the instance with exists set and hidden
    clear. *)
Lemma SpawnEntity_sets_exists (K : Constants) (H : Host) (s s' : Seed)
    (w w' : World) (idx : Z) (managed : bool) :
  flag_bits K ->
  0 <= idx < Z.of_nat (List.length (m_Entities s)) ->
  SpawnEntity s w idx managed = (true, s', w') ->
  hidden_xor_exists (flags (list_get (m_Entities s') idx no_entity)).
Proof.
  intros HK Hidx. unfold SpawnEntity.
  destruct (SPAWN_LIMIT <? num_entities w); [discriminate |].
  destruct (FindEntityDefDict _); [| discriminate].
  destruct (SpawnEntityDef w _) as [[n ent2] |]; [| discriminate].
  intros E. inversion E; subst; clear E.
  unfold with_entity. cbn [m_Entities].
  rewrite list_get_set by exact Hidx. unfold spawned_entity. cbn [flags].
  right. destruct (spawned_flags K
    (flags (list_get (m_Entities s) idx no_entity)) HK) as [He Hh].
  split; assumption.
Qed.

Lemma find_map_same_key (p : Z) (g : idPhysics_t -> idPhysics_t)
    (l : list (Z * idPhysics_t)) (q : Z * idPhysics_t) :
  find (fun q => fst q =? p) l = Some q ->
  find (fun q => fst q =? p)
       (map (fun q => if fst q =? p then (fst q, g (snd q)) else q) l)
  = Some (fst q, g (snd q)).
Proof.
  induction l as [| a l IH]; cbn; [discriminate |].
  destruct (fst a =? p) eqn:Ha; cbn; rewrite Ha.
  - intros E. inversion E; subst. reflexivity.
  - exact IH.
Qed.

Lemma GetPhysics_own (w : World) (e : idEntity_t) :
  l_SetPhysics e = None -> GetPhysics w e = l_physics e.
Proof. intros E. unfold GetPhysics. now rewrite E. Qed.

Lemma GetPhysics_shared (w : World) (e : idEntity_t) (p : Z)
    (q : Z * idPhysics_t) :
  l_SetPhysics e = Some p ->
  find (fun q => fst q =? p) (physics w) = Some q ->
  GetPhysics w e = snd q.
Proof. intros E Hq. unfold GetPhysics. now rewrite E, Hq. Qed.

(** What a successful cull leaves. *)
Lemma CullEntity_inv (K : Constants) (H : Host) (s s1 : Seed) (w w1 : World)
    (idx : Z) (ent2 : idEntity_t) :
  list_get (entities w) (entity (list_get (m_Entities s) idx no_entity)) None
    = Some ent2 ->
  CullEntity s w idx = (true, s1, w1) ->
  m_Entities s1
    = list_set (m_Entities s) idx
        (culled_entity (list_get (m_Entities s) idx no_entity) (GetPhysics w ent2)) /\
  m_Classes s1 = m_Classes s /\
  m_Skins s1 = m_Skins s /\
  physics w1 = physics w.
Proof.
  intros Hlive. unfold CullEntity.
  destruct (Z.land _ SEED_ENTITY_EXISTS =? 0); [discriminate |].
  rewrite Hlive. intros E. inversion E; subst. cbn. auto.
Qed.

(** What a successful spawn leaves. *)
Lemma SpawnEntity_inv (K : Constants) (H : Host) (s s' : Seed) (w w' : World)
    (idx : Z) (managed : bool) :
  SpawnEntity s w idx managed = (true, s', w') ->
  let ent := list_get (m_Entities s) idx no_entity in
  let lclass := list_get (m_Classes s) (classIdx ent) no_class in
  exists n l,
    SpawnEntityDef w (spawn_args s ent lclass managed) = Some (n, l) /\
    m_Entities s' = list_set (m_Entities s) idx (spawned_entity ent n) /\
    entities w' = place_entity (entities w) n (setup_object ent lclass managed l) /\
    physics w'
      = if pseudo lclass
        then map (fun q => if fst q =? physicsObj lclass
                           then (fst q, mkPhysics (e_origin ent) (p_axis (snd q)))
                           else q) (physics w)
        else physics w.
Proof.
  intros E ent lclass. unfold SpawnEntity in E. fold ent lclass in E.
  destruct (SPAWN_LIMIT <? num_entities w); [discriminate |].
  destruct (FindEntityDefDict (classname lclass)); [| discriminate].
  destruct (SpawnEntityDef w _) as [[n l] |] eqn:Hsp; [| discriminate].
  exists n, l. inversion E; subst; clear E.
  split; [reflexivity |]. split; [reflexivity |].
  destruct (pseudo lclass); cbn; auto.
Qed.

(** What culling and spawning again gives for an instance of a plain
    class, whatever the conversions of the host do: the new live object
    stands where the old origin, written into the spawn arguments and
    read back, says, and it is turned as the angles of the old axis
    say. *)
Lemma cull_then_spawn_plain_transform (K : Constants) (H : Host)
    (s s1 s2 : Seed) (w w1 w2 : World) (idx : Z) (managed : bool)
    (ent2 : idEntity_t) :
  0 <= idx < Z.of_nat (List.length (m_Entities s)) ->
  list_get (entities w) (entity (list_get (m_Entities s) idx no_entity)) None
    = Some ent2 ->
  CullEntity s w idx = (true, s1, w1) ->
  SpawnEntity s1 w1 idx managed = (true, s2, w2) ->
  spawn_faithful H ->
  pseudo (list_get (m_Classes s)
                   (classIdx (list_get (m_Entities s) idx no_entity)) no_class)
    = false ->
  exists ent3,
    list_get (entities w2) (entity (list_get (m_Entities s2) idx no_entity)) None
      = Some ent3 /\
    p_origin (GetPhysics w2 ent3)
      = sscanf_vec3 (idVec3_ToString (p_origin (GetPhysics w ent2))) /\
    p_axis (GetPhysics w2 ent3)
      = idAngles_ToMat3 (idMat3_ToAngles (p_axis (GetPhysics w ent2))).
Proof.
  intros Hidx Hlive Hcull Hspawn Hhost Hps.
  destruct (CullEntity_inv K H s s1 w w1 idx ent2 Hlive Hcull)
    as (Hents1 & Hcls1 & Hskins1 & Hphys1).
  destruct (SpawnEntity_inv K H s1 s2 w1 w2 idx managed Hspawn)
    as (n & l & Hsp & Hents2 & Hworld2 & Hphys2).
  destruct (Hhost _ _ _ _ Hsp) as (Hn & Hown & Horg).
  assert (Hent1 : list_get (m_Entities s1) idx no_entity
                  = culled_entity (list_get (m_Entities s) idx no_entity)
                                  (GetPhysics w ent2)).
  { rewrite Hents1. apply list_get_set. exact Hidx. }
  rewrite Hent1, Hcls1 in *.
  set (ent := list_get (m_Entities s) idx no_entity) in *.
  change (classIdx (culled_entity ent (GetPhysics w ent2)))
    with (classIdx ent) in *.
  set (lclass := list_get (m_Classes s) (classIdx ent) no_class) in *.
  rewrite Hents2.
  rewrite list_get_set
    by (rewrite Hents1, list_set_length_Z; exact Hidx).
  cbn [spawned_entity entity].
  exists (setup_object (culled_entity ent (GetPhysics w ent2)) lclass managed l).
  split; [rewrite Hworld2; apply list_get_place_entity; exact Hn |].
  rewrite (GetPhysics_own w2 (setup_object _ lclass managed l))
    by (unfold setup_object; rewrite Hps; exact Hown).
  unfold setup_object. rewrite Hps.
  cbn [l_physics p_origin p_axis culled_entity e_angles]. split.
  - rewrite Horg. unfold spawn_args. destruct managed; reflexivity.
  - reflexivity.
Qed.

(** C10.  An instance that exists is culled and spawned again, and both
    calls succeed.  The new live object has the origin and the axis that
    the old one had when it was culled, provided the host puts a new
    object where its arguments say and, for a plain class, the origin
    comes back from the text of the spawn arguments as it went in and the
    axis comes back from its angles; the live object of a composite
    class has to use the physics object of its class.  Without the
    proviso the transform is not always restored, as the lemma after the
    witness shows. *)
Theorem cull_then_spawn_restores_transform :
  forall (K : Constants) (H : Host) (s s1 s2 : Seed) (w w1 w2 : World)
         (idx : Z) (managed : bool) (ent2 : idEntity_t),
    0 <= idx < Z.of_nat (List.length (m_Entities s)) ->
    list_get (entities w) (entity (list_get (m_Entities s) idx no_entity)) None
      = Some ent2 ->
    CullEntity s w idx = (true, s1, w1) ->
    SpawnEntity s1 w1 idx managed = (true, s2, w2) ->
    spawn_faithful H ->
    transform_survives H s w idx ent2 ->
    exists ent3,
      list_get (entities w2) (entity (list_get (m_Entities s2) idx no_entity)) None
        = Some ent3 /\
      p_origin (GetPhysics w2 ent3) = p_origin (GetPhysics w ent2) /\
      p_axis (GetPhysics w2 ent3) = p_axis (GetPhysics w ent2).
Proof.
  intros K H s s1 s2 w w1 w2 idx managed ent2 Hidx Hlive Hcull Hspawn Hhost Hrt.
  unfold transform_survives in Hrt. cbv zeta in Hrt.
  destruct (pseudo (list_get (m_Classes s)
                             (classIdx (list_get (m_Entities s) idx no_entity))
                             no_class)) eqn:Hps.
  - (* a composite class: the shared physics object *)
    destruct (CullEntity_inv K H s s1 w w1 idx ent2 Hlive Hcull)
      as (Hents1 & Hcls1 & Hskins1 & Hphys1).
    destruct (SpawnEntity_inv K H s1 s2 w1 w2 idx managed Hspawn)
      as (n & l & Hsp & Hents2 & Hworld2 & Hphys2).
    destruct (Hhost _ _ _ _ Hsp) as (Hn & Hown & Horg).
    assert (Hent1 : list_get (m_Entities s1) idx no_entity
                    = culled_entity (list_get (m_Entities s) idx no_entity)
                                    (GetPhysics w ent2)).
    { rewrite Hents1. apply list_get_set. exact Hidx. }
    rewrite Hent1, Hcls1 in *.
    set (ent := list_get (m_Entities s) idx no_entity) in *.
    change (classIdx (culled_entity ent (GetPhysics w ent2)))
      with (classIdx ent) in *.
    set (lclass := list_get (m_Classes s) (classIdx ent) no_class) in *.
    rewrite Hents2.
    rewrite list_get_set
      by (rewrite Hents1, list_set_length_Z; exact Hidx).
    cbn [spawned_entity entity].
    exists (setup_object (culled_entity ent (GetPhysics w ent2)) lclass managed l).
    split; [rewrite Hworld2; apply list_get_place_entity; exact Hn |].
    destruct Hrt as [Hshared [q Hq]].
    rewrite (GetPhysics_shared w ent2 _ q Hshared Hq).
    rewrite (GetPhysics_shared w2 _ (physicsObj lclass)
               (fst q, mkPhysics (e_origin (culled_entity ent (snd q)))
                                 (p_axis (snd q)))).
    + split; reflexivity.
    + unfold setup_object. rewrite Hps. reflexivity.
    + rewrite Hphys2, Hphys1, Hps.
      rewrite (GetPhysics_shared w ent2 _ q Hshared Hq).
      apply (find_map_same_key _
               (fun ph => mkPhysics (e_origin (culled_entity ent (snd q)))
                                    (p_axis ph)) _ _ Hq).
  - (* a plain class: through the spawn arguments and the angles *)
    destruct Hrt as [Hvec Hang].
    destruct (cull_then_spawn_plain_transform K H s s1 s2 w w1 w2 idx managed
                ent2 Hidx Hlive Hcull Hspawn Hhost Hps)
      as (ent3 & Hlook & Horg & Hax).
    exists ent3. split; [exact Hlook |].
    rewrite Horg, Hax. split; [exact Hvec | exact Hang].
Qed.

Lemma text_host_spawn_faithful (moveable : bool) :
  spawn_faithful (text_host moveable).
Proof.
  intros w args n l E. cbn in E. unfold spawn_at_origin in E.
  inversion E; subst; clear E. cbn.
  split; [lia |]. split; reflexivity.
Qed.

Lemma cull_then_spawn_restores_transform_witness :
  (exists ent3,
      list_get (entities (snd turned_respawned))
               (entity (list_get (m_Entities (snd (fst turned_respawned))) 0
                                 no_entity))
               None = Some ent3 /\
      p_origin (GetPhysics (snd turned_respawned) ent3)
        = mkVec3 (F32.lit 13 4) (F32.neg (F32.lit 3 2)) (F32.of_Z 12) /\
      p_axis (GetPhysics (snd turned_respawned) ent3) = yaw_mat3 0 1) /\
  (exists ent3,
      list_get (entities (snd merged_respawned))
               (entity (list_get (m_Entities (snd (fst merged_respawned))) 0
                                 no_entity))
               None = Some ent3 /\
      p_origin (GetPhysics (snd merged_respawned) ent3)
        = mkVec3 (F32.lit 3 16) F32.zero F32.zero /\
      p_axis (GetPhysics (snd merged_respawned) ent3) = yaw_mat3 0 1).
Proof.
  split.
  - (* a plain class *)
    apply (cull_then_spawn_restores_transform sample_constants
             (text_host false)
             (snd (fst turned_spawned)) (snd (fst turned_culled))
             (snd (fst turned_respawned))
             (snd turned_spawned) (snd turned_culled) (snd turned_respawned)
             0 true
             (@setup_object (text_host false) turned_instance
                (plain_class "a" 1 0) true
                (mkLive (@spawn_args (text_host false) turned_seed
                                     turned_instance (plain_class "a" 1 0) true)
                        (mkPhysics (mkVec3 (F32.lit 13 4)
                                           (F32.neg (F32.lit 3 2))
                                           (F32.of_Z 12))
                                   (yaw_mat3 1 0))
                        None true))).
    + vm_compute. split; [discriminate | reflexivity].
    + vm_compute. reflexivity.
    + vm_compute. reflexivity.
    + vm_compute. reflexivity.
    + exact (text_host_spawn_faithful false).
    + vm_compute. split; reflexivity.
  - (* a composite class *)
    apply (cull_then_spawn_restores_transform sample_constants
             (text_host false)
             (snd (fst merged_spawned)) (snd (fst merged_culled))
             (snd (fst merged_respawned))
             (snd merged_spawned) (snd merged_culled) (snd merged_respawned)
             0 true
             (@setup_object (text_host false) merged_instance merged_class true
                (mkLive (@spawn_args (text_host false) merged_seed
                                     merged_instance merged_class true)
                        (mkPhysics (mkVec3 (F32.lit 19 100) F32.zero F32.zero)
                                   (yaw_mat3 1 0))
                        None true))).
    + vm_compute. split; [discriminate | reflexivity].
    + vm_compute. reflexivity.
    + vm_compute. reflexivity.
    + vm_compute. reflexivity.
    + exact (text_host_spawn_faithful false).
    + vm_compute. split; [reflexivity |].
      exists (1, mkPhysics (mkVec3 (F32.lit 3 16) F32.zero F32.zero)
                           (yaw_mat3 0 1)).
      vm_compute. reflexivity.
Defined.

(** C10 as stated fails.  On a host that writes vectors with two
    decimals, a moveable that has come to rest at x = 0.1875 is culled
    and spawned again; both calls succeed and nothing moves in between.
    The origin goes into the spawn arguments as "0.19 0 0", and the new
    live object stands at x = 0.19. *)
Lemma respawn_after_rest_moves_object :
  fst (fst rested_culled) = true /\
  fst (fst rested_respawned) = true /\
  list_get (entities rested_world)
           (entity (list_get (m_Entities rested_seed) 0 no_entity)) None
    = Some rested_object /\
  p_origin (GetPhysics rested_world rested_object)
    = mkVec3 (F32.lit 3 16) F32.zero F32.zero /\
  option_map
    (fun ent3 => (GetString (l_spawnArgs ent3) "origin" "",
                  p_origin (GetPhysics (snd rested_respawned) ent3)))
    (list_get (entities (snd rested_respawned))
              (entity (list_get (m_Entities (snd (fst rested_respawned))) 0
                                no_entity)) None)
    = Some ("0.19 0 0", mkVec3 (F32.lit 19 100) F32.zero F32.zero) /\
  F32.eqb (F32.lit 19 100) (F32.lit 3 16) = false.
Proof. vm_compute. repeat split. Qed.

(* ================================================================= *)
(** ** Combining *)

(** The loop over the candidates adds one entry to [sortedOffsets] for
    every instance it counts in [merged]. *)
Lemma collect_length (K : Constants) (H : Host) (js : list Z) (multiPVS : bool)
    (pvs : list Z) (dist : float) (entityClass : seed_class_t) (i : Z) :
  forall (ents : list seed_entity_t) (so : list seed_sort_ofs_t) (merged : Z),
    let '(_, so', merged') :=
      collect js multiPVS pvs dist entityClass i ents so merged in
    Z.of_nat (List.length so') - merged' = Z.of_nat (List.length so) - merged.
Proof.
  induction js as [| j rest IH]; intros ents so merged; cbn [collect].
  - reflexivity.
  - destruct (mergeable multiPVS pvs dist ents i j).
    + specialize (IH (negate_classIdx ents j)
                     (so ++ [mkSortOfs
                        (make_ofs entityClass
                           (e_origin (list_get ents i no_entity))
                           (Vec3.sub (e_origin (list_get ents j no_entity))
                                     (e_origin (list_get ents i no_entity)))
                           (list_get ents j no_entity)) j])%list
                     (merged + 1)).
      destruct (collect rest _ _ _ _ _ _ _ _) as [[ents' so'] merged'].
      rewrite IH, length_app. cbn [List.length]. lia.
    + apply IH.
Qed.

(** Without more candidates than the model takes, nothing is cut: all
    the candidates stay, and the original with them. *)
Lemma truncate_offsets_within (K : Constants) (H : Host)
    (maxModelCount merged : Z) (so : list seed_sort_ofs_t)
    (ents : list seed_entity_t) :
  merged <= maxModelCount ->
  truncate_offsets maxModelCount merged so ents = (so, ents).
Proof.
  intros Hle. unfold truncate_offsets.
  destruct (maxModelCount <? merged) eqn:E; [| reflexivity].
  apply Z.ltb_lt in E. lia.
Qed.

(** When the list is cut and [qsort] has sorted it, no entry that is
    dropped compares below an entry that is kept. *)
Lemma truncate_offsets_nearest (K : Constants) (H : Host)
    (maxModelCount merged : Z) (so : list seed_sort_ofs_t)
    (ents : list seed_entity_t) :
  maxModelCount < merged ->
  StronglySorted (fun a b => SortOffsetsByDistance a b <= 0)
                 (qsort _ SortOffsetsByDistance so) ->
  forall a b,
    In a (fst (truncate_offsets maxModelCount merged so ents)) ->
    In b (skipn (Z.to_nat maxModelCount) (qsort _ SortOffsetsByDistance so)) ->
    SortOffsetsByDistance a b <= 0.
Proof.
  intros Hlt Hsorted a b. unfold truncate_offsets.
  apply Z.ltb_lt in Hlt. rewrite Hlt. cbn [fst].
  set (sorted := qsort _ SortOffsetsByDistance so) in *.
  rewrite <- (firstn_skipn (Z.to_nat maxModelCount) sorted) in Hsorted.
  revert Hsorted.
  generalize (firstn (Z.to_nat maxModelCount) sorted) as kept.
  generalize (skipn (Z.to_nat maxModelCount) sorted) as dropped.
  intros dropped kept. induction kept as [| k kept IH]; cbn; intros Hs Ha Hb.
  - contradiction.
  - inversion Hs as [| ? ? Hrest Hall]; subst.
    destruct Ha as [-> | Ha].
    + rewrite Forall_forall in Hall. apply Hall. apply in_or_app. now right.
    + now apply IH.
Qed.

(** One round of the loop over the instances that finds [merged]
    candidates, at least one and not more than the model takes, adds a
    pseudo class with [merged + 1] offset records: one for each candidate
    and one for the original. *)
Lemma combine_one_offsets (K : Constants) (H : Host)
    (m_bDebugColors multiPVS : bool) (pvs : list Z) (dist : float)
    (js : list Z) (i : Z) (st : combine_t) (ents : list seed_entity_t)
    (so : list seed_sort_ofs_t) (merged : Z) :
  let ei := list_get (cb_Entities st) i no_entity in
  let entityClass := list_get (cb_Classes st) (classIdx ei) no_class in
  let tempModel :=
    if hModel entityClass =? 0 then FindModel (modelname entityClass)
    else hModel entityClass in
  0 <= classIdx ei ->
  nocombine entityClass = false ->
  tempModel <> 0 ->
  collect js multiPVS pvs dist entityClass i (cb_Entities st)
          [mkSortOfs (make_ofs entityClass (e_origin ei) Vec3.zero ei) i] 0
    = (ents, so, merged) ->
  0 < merged <= GetMaxModelCount tempModel ->
  exists P,
    cb_Classes (combine_one m_bDebugColors multiPVS pvs dist js i st)
      = (cb_Classes st ++ [P])%list /\
    pseudo P = true /\
    Z.of_nat (List.length (offsets P)) = merged + 1.
Proof.
  intros ei entityClass tempModel Hidx Hcomb Hmodel Hcollect [Hpos Hmax].
  pose proof (collect_length K H js multiPVS pvs dist entityClass i
                (cb_Entities st)
                [mkSortOfs (make_ofs entityClass (e_origin ei) Vec3.zero ei) i]
                0) as Hlen.
  rewrite Hcollect in Hlen. cbn [List.length] in Hlen.
  unfold combine_one. fold ei. fold entityClass. fold tempModel.
  destruct (classIdx ei <? 0) eqn:E1; [apply Z.ltb_lt in E1; lia |].
  rewrite Hcomb.
  destruct (tempModel =? 0) eqn:E2; [apply Z.eqb_eq in E2; contradiction |].
  rewrite Hcollect.
  destruct (0 <? merged) eqn:E3; [| apply Z.ltb_ge in E3; lia].
  rewrite (truncate_offsets_within K H _ _ so ents Hmax).
  eexists. cbn [cb_Classes]. split; [reflexivity |].
  cbn [pseudo offsets make_pseudo]. split; [reflexivity |].
  rewrite length_map. lia.
Qed.

(** C3 on the code.  Three instances of one class within the combine
    distance, and a model generator that merges at most 2 models: the
    composite class gets 3 offset records, the original and both
    candidates.  The list is only cut when there are more candidates
    than [maxModelCount], not counting the original, while the cut
    itself keeps [maxModelCount] records with the original among them. *)
Theorem combine_exceeds_model_count :
  let host := test_host F32.one 1 2 in
  let r := @CombineEntities sample_constants host three_in_a_row empty_world
                            no_class in
  @GetMaxModelCount host 1 = 2 /\
  map (fun c => Z.of_nat (List.length (offsets c)))
      (filter pseudo (m_Classes (fst r))) = [3] /\
  map classIdx (m_Entities (fst r)) = [1].
Proof. vm_compute. repeat split. Qed.

(** With one candidate more the list is cut, to 2 records: the original
    and the nearer candidate; the class index of the other is restored
    and it stays in the table. *)
Example combine_cuts_to_model_count :
  let host := test_host F32.one 1 2 in
  let s := sample_seed [] [plain_class "a" 1 0; plain_class "b" 1 0]
             [entity_at 1 0; entity_at 1 30; entity_at 1 20; entity_at 1 10]
             7 4 in
  let r := @CombineEntities sample_constants host s empty_world no_class in
  map (fun c => map (fun o => F32.to_int (x (ofs_offset o))) (offsets c))
      (filter pseudo (m_Classes (fst r))) = [[0; 10]; [0; -10]] /\
  map classIdx (m_Entities (fst r)) = [2; 3].
Proof. vm_compute. repeat split. Qed.

(* ================================================================= *)
(** ** The loop over the tries *)

(** The loop with [n] tries left: it is left at the first try that is
    accepted, with the generator as that try left it, or after [n] tries
    that were all given up.  [tries] counts the times the condition was
    looked at. *)
Lemma try_loop_runs (K : Constants) (H : Host) (env : place_env)
    (c : seed_class_t) (i : Z) (pl : placed_t) :
  forall (n fuel : nat) (tries s : Z),
    (n < fuel)%nat -> tries + Z.of_nat n = MAX_TRIES ->
    (exists (k : nat) (sk s' : Z) (found : idVec3 * idAngles),
        (k < n)%nat /\
        after_rejections k env c i pl s = Some sk /\
        attempt env c i pl sk = (Some found, s') /\
        try_loop fuel env c i pl tries s
          = (tries + Z.of_nat k + 1, Some found, s'))
    \/
    (exists s' : Z,
        after_rejections n env c i pl s = Some s' /\
        try_loop fuel env c i pl tries s = (MAX_TRIES + 1, None, s')).
Proof.
  induction n as [| n IH]; intros fuel tries s Hfuel Htries.
  - right. exists s. split; [reflexivity |].
    destruct fuel as [| fuel]; [lia |]. cbn [try_loop].
    destruct (tries <? MAX_TRIES) eqn:E; [apply Z.ltb_lt in E; lia |].
    f_equal. f_equal. lia.
  - destruct fuel as [| fuel]; [lia |]. cbn [try_loop].
    destruct (tries <? MAX_TRIES) eqn:E; [| apply Z.ltb_ge in E; lia].
    destruct (attempt env c i pl s) as [[found |] s1] eqn:Hatt.
    + left. exists 0%nat, s, s1, found.
      repeat split; [lia | exact Hatt | f_equal; f_equal; lia].
    + destruct (IH fuel (tries + 1) s1) as
        [(k & sk & s' & found & Hk & Hrej & Hacc & Hrun) | (s' & Hrej & Hrun)];
        [lia | lia | |].
      * left. exists (S k), sk, s', found.
        repeat split; [lia | cbn [after_rejections]; now rewrite Hatt | exact Hacc |].
        rewrite Hrun. f_equal. f_equal. lia.
      * right. exists s'. split; [cbn [after_rejections]; now rewrite Hatt |].
        exact Hrun.
Qed.

(** More fuel than [MAX_TRIES + 1] changes nothing. *)
Lemma try_loop_enough_fuel (K : Constants) (H : Host) (env : place_env)
    (c : seed_class_t) (i : Z) (pl : placed_t) :
  forall (n fuel1 fuel2 : nat) (tries s : Z),
    (n < fuel1)%nat -> (n < fuel2)%nat -> tries + Z.of_nat n = MAX_TRIES ->
    try_loop fuel1 env c i pl tries s = try_loop fuel2 env c i pl tries s.
Proof.
  induction n as [| n IH]; intros fuel1 fuel2 tries s H1 H2 Htries;
    (destruct fuel1 as [| fuel1]; [lia |]);
    (destruct fuel2 as [| fuel2]; [lia |]); cbn [try_loop].
  - destruct (tries <? MAX_TRIES) eqn:E; [apply Z.ltb_lt in E; lia |].
    reflexivity.
  - destruct (tries <? MAX_TRIES); [| reflexivity].
    destruct (attempt env c i pl s) as [[found |] s1]; [reflexivity |].
    apply IH; lia.
Qed.

(** C6.  For one instance the loop makes at most [MAX_TRIES], that is 8,
    tries.  Either one of the first 8 tries is accepted after [k] tries
    that were given up: the loop is left right there, with the generator
    as the accepted try left it.  Or all 8 tries are given up: then
    nothing is stored, the instances stay as they were and the loop over
    the instances goes on with the next one. *)
Theorem at_most_MAX_TRIES_tries :
  forall (K : Constants) (H : Host) (env : place_env) (c : seed_class_t)
         (i : Z) (pl : placed_t) (s : Z),
    (exists (k : nat) (sk s' : Z) (found : idVec3 * idAngles),
        (k < 8)%nat /\
        after_rejections k env c i pl s = Some sk /\
        attempt env c i pl sk = (Some found, s') /\
        try_loop (Z.to_nat (MAX_TRIES + 1)) env c i pl 0 s
          = (Z.of_nat k + 1, Some found, s'))
    \/
    (exists s' : Z,
        after_rejections 8 env c i pl s = Some s' /\
        try_loop (Z.to_nat (MAX_TRIES + 1)) env c i pl 0 s = (9, None, s') /\
        place_instance env c i pl s = (false, pl, s') /\
        forall n m_iNumEntities,
          instances_loop (S n) env c i m_iNumEntities pl s
            = instances_loop n env c i m_iNumEntities pl s').
Proof.
  intros K H env c i pl s.
  destruct (try_loop_runs K H env c i pl 8 (Z.to_nat (MAX_TRIES + 1)) 0 s)
    as [(k & sk & s' & found & Hk & Hrej & Hacc & Hrun) | (s' & Hrej & Hrun)].
  - cbn. lia.
  - reflexivity.
  - left. exists k, sk, s', found. repeat split; try assumption.
  - right. exists s'. change (MAX_TRIES + 1) with 9 in Hrun.
    assert (Hplace : place_instance env c i pl s = (false, pl, s')).
    { unfold place_instance. change (MAX_TRIES + 1) with 9. rewrite Hrun.
      reflexivity. }
    repeat split; try assumption.
    intros n m. cbn [instances_loop]. rewrite Hplace. reflexivity.
Qed.

(** What becomes of an accepted try: on one of the first 7 tries the
    instance is stored; on the eighth, [tries] has reached [MAX_TRIES]
    when the loop is left and the instance is skipped all the same. *)
Lemma accepted_try_stored_or_skipped (K : Constants) (H : Host)
    (env : place_env) (c : seed_class_t) (i : Z) (pl : placed_t) (s s' : Z)
    (k : nat) (origin : idVec3) (angles : idAngles) :
  try_loop (Z.to_nat (MAX_TRIES + 1)) env c i pl 0 s
    = (Z.of_nat k + 1, Some (origin, angles), s') ->
  ((k < 7)%nat ->
   place_instance env c i pl s
     = (true,
        mkPlaced
          (pl_Entities pl ++ [fst (new_entity c i origin angles s')])%list
          (pl_Bounds pl ++ [entity_bounds c origin angles])%list
          (pl_Boxes pl ++ [entity_box c origin angles])%list,
        snd (new_entity c i origin angles s')))
  /\ (k = 7%nat -> place_instance env c i pl s = (false, pl, s')).
Proof.
  intros Hrun. unfold place_instance. rewrite Hrun. split; intros Hk.
  - destruct (MAX_TRIES <=? Z.of_nat k + 1) eqn:E;
      [apply Z.leb_le in E; unfold MAX_TRIES in E; lia |].
    destruct (new_entity c i origin angles s'). reflexivity.
  - subst k. reflexivity.
Qed.

(* ================================================================= *)
(** ** Bunching *)

(** C7 on the code.  Two instances are placed, number 0 of class 0 and
    number 1 of class 1, and an instance of class 1 is bunched.  The list
    [BunchEntities] holds the one instance of class 1, number 1; the
    draw picks its entry 0; and the code then reads [m_Entities[0]], the
    instance of class 0, and puts the new instance next to that. *)
Theorem bunch_neighbor_of_other_class :
  let r := fst (RandomFloat 3) in
  let r0 := fst (RandomFloat (snd (RandomFloat 3))) in
  F32.ltb r (bunching bunching_class) = true /\
  BunchEntities 1 one_of_each = [1] /\
  bunchTarget 1 one_of_each r0 = 0 /\
  classIdx (bunch_neighbor 1 one_of_each r0) = 0 /\
  fst (@candidate_position idle_host one_of_each_env bunching_class 1
         one_of_each 3)
    = Some (e_origin (entity_at 0 5)).
Proof. vm_compute. repeat split. Qed.

(** The entry drawn stays below the number of instances of the class
    only as a position in [BunchEntities]; with no instance of the class
    placed, entry 0 is drawn as well and [m_Entities[0]] is read. *)
Example bunch_neighbor_without_same_class :
  let r0 := fst (RandomFloat (snd (RandomFloat 3))) in
  BunchEntities 1 [entity_at 0 5] = [] /\
  bunchTarget 1 [entity_at 0 5] r0 = 0 /\
  classIdx (bunch_neighbor 1 [entity_at 0 5] r0) = 0.
Proof. vm_compute. repeat split. Qed.

(* ================================================================= *)
(** ** Spacing and collision *)


(** A try that is accepted has gone through the collision check. *)
Lemma accepted_try_passed_check (K : Constants) (H : Host) (env : place_env)
    (c : seed_class_t) (i : Z) (pl : placed_t) (s s' : Z) (origin : idVec3)
    (angles : idAngles) :
  attempt env c i pl s = (Some (origin, angles), s') ->
  collides env c origin angles (pl_Bounds pl) (pl_Boxes pl) = false.
Proof.
  unfold attempt. intros Hatt.
  repeat match type of Hatt with
  | context [match ?t with _ => _ end] => destruct t eqn:?
  end; try discriminate.
  inversion Hatt; subst. assumption.
Qed.



(* ================================================================= *)
(** ** Two runs of the placement *)

Lemma set_seed_twice (c : seed_class_t) (a b : Z) :
  set_seed (set_seed c a) b = set_seed c b.
Proof. destruct c; reflexivity. Qed.

(** The seeds that the classes carry before do not matter to the seeds
    they get. *)
Lemma assign_seeds_ignores_seed (cs1 cs2 : list seed_class_t) :
  map (fun c => set_seed c 0) cs1 = map (fun c => set_seed c 0) cs2 ->
  forall g, assign_seeds cs1 g = assign_seeds cs2 g.
Proof.
  revert cs2. induction cs1 as [| c1 cs1 IH]; intros [| c2 cs2] Hmap g;
    cbn in Hmap; try discriminate; [reflexivity |].
  pose proof (f_equal (hd (set_seed c1 0)) Hmap) as Hc.
  pose proof (f_equal (@tl _) Hmap) as Hrest.
  cbn [hd tl] in Hc, Hrest. cbn [assign_seeds].
  destruct (RandomSeed g) as [v g'].
  rewrite (IH cs2 Hrest g').
  rewrite <- (set_seed_twice c1 0 v), <- (set_seed_twice c2 0 v), Hc.
  reflexivity.
Qed.

Lemma last_nonempty {A : Type} (l : list A) (d1 d2 : A) :
  l <> [] -> last l d1 = last l d2.
Proof.
  induction l as [| a l IH]; [congruence |]. intros _.
  destruct l as [| b l]; [reflexivity |].
  change (last (b :: l) d1 = last (b :: l) d2). apply IH. discriminate.
Qed.

(** C2.  Two distributions with the same root seed, settings, inhibitors,
    target count and classes are re-seeded from the root seed and placed
    in the same world.  The generated instances are the same, with their
    positions, angles, scales, colours and skins, in the same order, and
    so are the seeds of the classes and the generators afterwards.  With
    the same skin table the whole instance table is the same, the watched
    brethren included, provided an instance was generated or the local
    [SeedEntity] started with the same contents: a watched instance
    takes its colour and scale from what that variable holds. *)
Theorem placement_deterministic :
  forall (K : Constants) (H : Host) (s1 s2 : Seed) (w : World)
         (u1 u2 : seed_entity_t),
    same_inputs s1 s2 ->
    generate (reseed s1) = generate (reseed s2) /\
    (m_Skins s1 = m_Skins s2 ->
     u1 = u2 \/ pl_Entities (snd (fst (fst (generate (reseed s1))))) <> [] ->
     m_Entities (PlaceEntities (reseed s1) w u1)
       = m_Entities (PlaceEntities (reseed s2) w u2)).
Proof.
  intros K H s1 s2 w u1 u2
         (Hargs & Hsize & Haxis & Horg & Hroot & Hinh & Hnum & Hcls).
  assert (Henv : placement_env (reseed s1) = placement_env (reseed s2)).
  { unfold placement_env, reseed. cbn.
    now rewrite Hargs, Hsize, Haxis, Horg, Hinh. }
  assert (Hgen : generate (reseed s1) = generate (reseed s2)).
  { unfold generate. rewrite Henv.
    change (m_Classes (reseed s1)) with (m_Classes s1).
    change (m_Classes (reseed s2)) with (m_Classes s2).
    change (m_iSeed_2 (reseed s1)) with (m_iOrgSeed s1).
    change (m_iSeed_2 (reseed s2)) with (m_iOrgSeed s2).
    change (m_iNumEntities (reseed s1)) with (m_iNumEntities s1).
    change (m_iNumEntities (reseed s2)) with (m_iNumEntities s2).
    rewrite (assign_seeds_ignores_seed _ _ Hcls), Hroot, Hnum.
    reflexivity. }
  split; [exact Hgen |].
  intros Hskins Hstale. unfold PlaceEntities.
  rewrite Hgen in *. rewrite Henv.
  destruct (generate (reseed s2)) as [[[classes pl] a] b].
  cbn [fst snd] in Hstale.
  assert (Hlast : last (pl_Entities pl) u1 = last (pl_Entities pl) u2).
  { destruct Hstale as [-> | Hne]; [reflexivity | now apply last_nonempty]. }
  rewrite Hlast.
  change (m_Skins (reseed s1)) with (m_Skins s1).
  change (m_Skins (reseed s2)) with (m_Skins s2). rewrite Hskins.
  destruct (watch_classes _ _ _ _ _ _) as [ents skins]. reflexivity.
Qed.

Lemma placement_deterministic_witness :
  @generate sample_constants idle_host (reseed fresh_seed)
    = @generate sample_constants idle_host (reseed used_seed) /\
  (m_Skins fresh_seed = m_Skins used_seed ->
   no_entity = entity_at 7 7 \/
   pl_Entities (snd (fst (fst (@generate sample_constants idle_host
                                  (reseed fresh_seed))))) <> [] ->
   m_Entities (@PlaceEntities sample_constants idle_host (reseed fresh_seed)
                              one_object_world no_entity)
   = m_Entities (@PlaceEntities sample_constants idle_host (reseed used_seed)
                                one_object_world (entity_at 7 7))).
Proof.
  apply (placement_deterministic sample_constants idle_host fresh_seed
           used_seed one_object_world no_entity (entity_at 7 7)).
  repeat split.
Defined.

(* ================================================================= *)
(** ** The flags of a generated instance *)

(** An instance that the placement stores is hidden and does not exist:
    its flags are [SEED_ENTITY_HIDDEN] and nothing else. *)
Lemma new_entity_hidden (K : Constants) (H : Host) (c : seed_class_t) (i : Z)
    (origin : idVec3) (angles : idAngles) (s : Z) :
  flag_bits K ->
  flags (fst (new_entity c i origin angles s)) = SEED_ENTITY_HIDDEN /\
  hidden_xor_exists (flags (fst (new_entity c i origin angles s))).
Proof.
  intros (Hh & He & _ & _ & Hnd).
  assert (Hflags : flags (fst (new_entity c i origin angles s))
                   = SEED_ENTITY_HIDDEN).
  { unfold new_entity.
    repeat match goal with
    | |- context [let '(_, _) := ?t in _] => destruct t
    | |- context [if ?b then _ else _] => destruct b
    end; reflexivity. }
  split; [exact Hflags |]. rewrite Hflags. left. split.
  - apply single_bit_land_self. exact Hh.
  - apply single_bit_land_other; try assumption.
    inversion Hnd as [| ? ? Hnotin _]; subst. intro E. apply Hnotin.
    rewrite E. left. reflexivity.
Qed.

(* ================================================================= *)
(** ** The code on small inputs *)

Example ParseFalloff_power_clamped :
  @ParseFalloff idle_host [("seed_falloff", "power"); ("seed_func_a", "1.5")]
                "none" "2" F32.zero
    = (2, F32.two, [ExpectFuncA "power"]).
Proof. reflexivity. Qed.

Example ParseFalloff_root_kept :
  @ParseFalloff idle_host [("seed_falloff", "root"); ("seed_func_a", "3")]
                "none" "2" F32.zero
    = (3, F32.of_Z 3, []).
Proof. reflexivity. Qed.

Example ParseFalloff_default_name :
  @ParseFalloff idle_host [] "cutoff" "2" F32.one = (1, F32.one, []).
Proof. reflexivity. Qed.

Example RandomSeed_7 : RandomSeed 7 = (74208564, -865315532).
Proof. reflexivity. Qed.

Example RandomFloat_in_unit_interval :
  F32.leb F32.zero (fst (RandomFloat 3)) = true /\
  F32.ltb (fst (RandomFloat 3)) F32.one = true.
Proof. split; reflexivity. Qed.

Example LODBIAS_values :
  @LODBIAS (idle_host_with (F32.lit 1 2)) = F32.mul (F32.lit 1 2) (F32.lit 14 10) /\
  @LODBIAS (idle_host_with F32.one) = F32.one /\
  @LODBIAS (idle_host_with (F32.of_Z 2)) = F32.lit 5 4 /\
  @LODBIAS (idle_host_with (F32.of_Z 3)) = F32.lit 14 10.
Proof. repeat split; reflexivity. Qed.

(** Four instances are asked for from two classes of two each; the class
    drawn first by the shuffle is class 1. *)
Example placement_of_fresh_seed :
  map classIdx
      (m_Entities (@PlaceEntities sample_constants idle_host
                     (reseed fresh_seed) empty_world no_entity))
    = [1; 1; 0; 0].
Proof. vm_compute. reflexivity. Qed.

(* ================================================================= *)
(** * Further properties of the code *)

(* ================================================================= *)
(** ** The random generators *)

Lemma wrap32_range (v : Z) : -2147483648 <= wrap32 v <= 2147483647.
Proof.
  unfold wrap32. pose proof (Z.mod_pos_bound (v + 2147483648) 4294967296). lia.
Qed.

(** X1.  [RandomSeed] answers the low 27 bits of the new state: a number
    from 0 to 2^27 - 1, whatever the state was, and the state stays an
    [int]. *)
Theorem RandomSeed_range (m_iSeed_2 : Z) :
  0 <= fst (RandomSeed m_iSeed_2) < 2 ^ 27 /\
  fst (RandomSeed m_iSeed_2) = snd (RandomSeed m_iSeed_2) mod 2 ^ 27 /\
  -2147483648 <= snd (RandomSeed m_iSeed_2) <= 2147483647.
Proof.
  unfold RandomSeed. cbn [fst snd].
  change 134217727 with (Z.ones 27). rewrite Z.land_ones by lia.
  split; [apply Z.mod_pos_bound; reflexivity |]. split; [reflexivity |].
  apply wrap32_range.
Qed.

(** A number of [d] binary digits is at least [2^(d-1)]. *)
Lemma digits2_pos_lower (p : positive) : 2 ^ (Zpos (digits2_pos p) - 1) <= Zpos p.
Proof.
  induction p as [p IH | p IH |]; cbn [digits2_pos];
    try (rewrite Pos2Z.inj_succ;
         replace (Z.succ (Zpos (digits2_pos p)) - 1)
           with (Z.succ (Zpos (digits2_pos p) - 1)) by lia;
         rewrite Z.pow_succ_r by lia; lia).
  cbn. lia.
Qed.

Lemma digits2_pos_iter_xO (p q : positive) :
  Zpos (digits2_pos (Pos.iter xO p q)) = Zpos (digits2_pos p) + Zpos q.
Proof.
  revert p. induction q using Pos.peano_ind; intros p.
  - cbn. lia.
  - rewrite Pos.iter_succ. cbn [digits2_pos]. rewrite Pos2Z.inj_succ, IHq. lia.
Qed.

(** A multiple [p * 2^-23] with [p < 2^23] is a binary32 number as it
    stands, with an exponent below that of 1.0. *)
Lemma binary_normalize_below_one (p : positive) :
  Zpos p < 2 ^ 23 ->
  exists m e,
    binary_normalize 24 128 (Zpos p) (-23) false = S754_finite false m e /\ e < -23.
Proof.
  intros Hp.
  assert (Hd : Zpos (digits2_pos p) <= 23).
  { pose proof (digits2_pos_lower p) as Hl.
    destruct (Z_le_gt_dec (Zpos (digits2_pos p)) 23) as [| Hgt]; [assumption |].
    assert (2 ^ 23 <= 2 ^ (Zpos (digits2_pos p) - 1))
      by (apply Z.pow_le_mono_r; lia).
    lia. }
  unfold binary_normalize, binary_round.
  set (d := Zpos (digits2_pos p)) in *.
  assert (Hfexp : fexp 24 128 (d + -23) = d - 47) by (unfold fexp, emin; lia).
  rewrite Hfexp. unfold shl_align.
  destruct (d - 47 - -23) as [| q | q] eqn:Hq; try lia.
  unfold binary_round_aux, shr_fexp. cbn [Zdigits2].
  rewrite digits2_pos_iter_xO. fold d.
  assert (Hfexp2 : fexp 24 128 (d + Zpos q + (d - 47)) = d - 47)
    by (unfold fexp, emin; lia).
  rewrite Hfexp2, Z.sub_diag.
  cbn [shr shr_record_of_loc shr_m loc_of_shr_record round_nearest_even Zdigits2].
  rewrite digits2_pos_iter_xO. fold d. rewrite Hfexp2, Z.sub_diag. cbn [shr shr_m].
  destruct (d - 47 <=? 128 - 24) eqn:E; [| apply Z.leb_gt in E; lia].
  eexists. eexists. split; [reflexivity | lia].
Qed.

Lemma land_IEEE_ONE (k : Z) : 0 <= k < 2 ^ 23 -> Z.land IEEE_ONE k = 0.
Proof.
  intros Hk. apply Z.bits_inj'. intros n Hn. rewrite Z.land_spec, Z.bits_0.
  destruct (Z_lt_le_dec n 23).
  - replace IEEE_ONE with (127 * 2 ^ 23) by reflexivity.
    rewrite Z.mul_pow2_bits_low by lia. reflexivity.
  - destruct (Z.eq_dec k 0) as [-> | Hk0]; [rewrite Z.bits_0; apply andb_false_r |].
    rewrite (Z.bits_above_log2 k n); [apply andb_false_r | lia |].
    apply Z.log2_lt_pow2; [lia |].
    apply Z.lt_le_trans with (2 ^ 23); [lia | apply Z.pow_le_mono_r; lia].
Qed.

(** The bit pattern that [RandomFloat] puts together is a number from
    1.0 up to, and not including, 2.0. *)
Lemma of_bits_one_two (k : Z) :
  0 <= k < 2 ^ 23 ->
  F32.of_bits (Z.lor IEEE_ONE k) = S754_finite false (Z.to_pos (k + 8388608)) (-23).
Proof.
  intros Hk.
  assert (Hlor : Z.lor IEEE_ONE k = IEEE_ONE + k).
  { pose proof (land_IEEE_ONE k Hk) as Hland.
    rewrite (Z.add_nocarry_lxor _ _ Hland). symmetry. now apply Z.lxor_lor. }
  change (2 ^ 23) with 8388608 in Hk.
  rewrite Hlor. unfold F32.of_bits, IEEE_ONE.
  assert (Hs : Z.testbit (1065353216 + k) 31 = false).
  { apply Z.bits_above_log2; [lia |]. apply Z.log2_lt_pow2; [lia |].
    change (2 ^ 31) with 2147483648. lia. }
  assert (He : Z.land (Z.shiftr (1065353216 + k) 23) 255 = 127).
  { rewrite Z.shiftr_div_pow2 by lia. change (2 ^ 23) with 8388608.
    replace ((1065353216 + k) / 8388608) with 127; [reflexivity |].
    apply Z.div_unique with (r := k); lia. }
  assert (Hm : Z.land (1065353216 + k) 8388607 = k).
  { change 8388607 with (Z.ones 23). rewrite Z.land_ones by lia.
    change (2 ^ 23) with 8388608.
    symmetry. apply Z.mod_unique with (q := 127); lia. }
  rewrite Hs, He, Hm. cbn [Z.eqb Pos.eqb].
  destruct (k + 8388608) as [| p | p] eqn:E; try lia. reflexivity.
Qed.

(** X2.  [RandomFloat] answers a number from 0.0 up to, and not
    including, 1.0, whatever the state of the generator was, and the
    state stays an [int]. *)
Theorem RandomFloat_unit_interval (m_iSeed : Z) :
  F32.leb F32.zero (fst (RandomFloat m_iSeed)) = true /\
  F32.ltb (fst (RandomFloat m_iSeed)) F32.one = true /\
  -2147483648 <= snd (RandomFloat m_iSeed) <= 2147483647.
Proof.
  unfold RandomFloat. cbn [fst snd].
  set (s := wrap32 (1664525 * m_iSeed + 1013904223)).
  assert (Hk : 0 <= Z.land s IEEE_MASK < 2 ^ 23).
  { unfold IEEE_MASK. change 8388607 with (Z.ones 23). rewrite Z.land_ones by lia.
    apply Z.mod_pos_bound. reflexivity. }
  rewrite (of_bits_one_two _ Hk).
  set (k := Z.land s IEEE_MASK) in *. change (2 ^ 23) with 8388608 in Hk.
  assert (Hsub : F32.sub (S754_finite false (Z.to_pos (k + 8388608)) (-23)) F32.one
                 = binary_normalize 24 128 k (-23) false).
  { change F32.one with (S754_finite false 8388608 (-23)).
    unfold F32.sub, SFsub, F32.prec, F32.emax.
    change (Z.min (-23) (-23)) with (-23).
    unfold shl_align. change (-23 - -23) with 0. cbn [fst cond_Zopp].
    f_equal. rewrite Z2Pos.id by lia. lia. }
  rewrite Hsub. split; [| split; [| apply wrap32_range]].
  - destruct k as [| p | p]; [reflexivity | | lia].
    destruct (binary_normalize_below_one p) as (m & e & -> & _);
      [change (2 ^ 23) with 8388608; lia | reflexivity].
  - destruct k as [| p | p]; [reflexivity | | lia].
    destruct (binary_normalize_below_one p) as (m & e & -> & He);
      [change (2 ^ 23) with 8388608; lia |].
    change F32.one with (S754_finite false 8388608 (-23)).
    unfold F32.ltb, SFltb, SFcompare.
    assert (E : IntDef.Z.compare e (-23) = Lt) by (apply Z.compare_lt_iff; exact He).
    rewrite E. reflexivity.
Qed.

(* ================================================================= *)
(** ** The skin table ([Seed::AddSkin]) *)

Lemma skin_index_spec (m_Skins : list string) (skin : string) :
  forall (i : Z),
    0 <= i ->
    match skin_index m_Skins skin i with
    | Some j =>
        i <= j < i + Z.of_nat (List.length m_Skins) /\
        nth_error m_Skins (Z.to_nat (j - i)) = Some skin /\
        forall k, (k < Z.to_nat (j - i))%nat -> nth_error m_Skins k <> Some skin
    | None => ~ In skin m_Skins
    end.
Proof.
  induction m_Skins as [| n rest IH]; intros i Hi; cbn [skin_index].
  - intros [].
  - destruct (String.eqb n skin) eqn:E.
    + apply String.eqb_eq in E. subst n. rewrite Z.sub_diag. cbn [List.length].
      repeat split; [lia | lia | intros k Hk; cbn in Hk; lia].
    + apply String.eqb_neq in E. specialize (IH (i + 1) ltac:(lia)).
      destruct (skin_index rest skin (i + 1)) as [j |].
      * destruct IH as (Hj & Hnth & Hfirst). cbn [List.length].
        replace (j - (i + 1)) with (j - i - 1) in * by lia.
        assert (Hs : Z.to_nat (j - i) = S (Z.to_nat (j - i - 1))) by lia.
        rewrite Hs. cbn [nth_error]. repeat split; [lia | lia | exact Hnth |].
        intros [| k] Hk; cbn [nth_error]; [congruence |]. apply Hfirst. lia.
      * intros [-> | Hin]; [congruence | exact (IH Hin)].
Qed.

Lemma skin_index_appended (m_Skins : list string) (skin : string) :
  forall (i : Z),
    ~ In skin m_Skins ->
    skin_index (m_Skins ++ [skin]) skin i
      = Some (i + Z.of_nat (List.length m_Skins)).
Proof.
  induction m_Skins as [| n rest IH]; intros i Hnot;
    cbn [skin_index app List.length].
  - rewrite String.eqb_refl. f_equal. cbn. lia.
  - destruct (String.eqb n skin) eqn:E.
    + apply String.eqb_eq in E. subst. exfalso. apply Hnot. now left.
    + rewrite IH by (intro Hin; apply Hnot; now right). f_equal. lia.
Qed.

(** X3.  [AddSkin] answers the first index at which the table holds the
    skin.  A skin that is in the table leaves the table as it is; a new
    skin is appended, so the indices given out before keep their names;
    and adding the same skin again gives the same index and changes
    nothing. *)
Theorem AddSkin_lookup (m_Skins : list string) (skin : string) :
  let i := fst (AddSkin m_Skins skin) in
  let skins' := snd (AddSkin m_Skins skin) in
  0 <= i < Z.of_nat (List.length skins') /\
  nth_error skins' (Z.to_nat i) = Some skin /\
  (forall k, (k < Z.to_nat i)%nat -> nth_error skins' k <> Some skin) /\
  (In skin m_Skins -> skins' = m_Skins) /\
  (~ In skin m_Skins -> skins' = (m_Skins ++ [skin])%list) /\
  AddSkin skins' skin = (i, skins').
Proof.
  intros i skins'. subst i skins'. unfold AddSkin.
  pose proof (skin_index_spec m_Skins skin 0 ltac:(lia)) as Hspec.
  destruct (skin_index m_Skins skin 0) as [j |] eqn:Hidx; cbn [fst snd].
  - destruct Hspec as (Hj & Hnth & Hfirst). rewrite Z.sub_0_r in *.
    repeat split; try lia; try assumption.
    + intros Hnot. exfalso. apply Hnot. eapply nth_error_In. exact Hnth.
    + rewrite Hidx. reflexivity.
  - pose proof (skin_index_appended m_Skins skin 0 Hspec) as Hnew.
    rewrite Z.add_0_l in Hnew.
    rewrite length_app. cbn [List.length].
    repeat split; try lia.
    + rewrite Nat2Z.id. rewrite nth_error_app2 by lia.
      rewrite Nat.sub_diag. reflexivity.
    + intros k Hk. rewrite Nat2Z.id in Hk. rewrite nth_error_app1 by lia.
      intro Hk'. apply Hspec. eapply nth_error_In. exact Hk'.
    + intros Hin. contradiction.
    + rewrite Hnew. reflexivity.
Qed.

(* ================================================================= *)
(** ** Target counts ([Seed::ComputeEntityCount]) *)

(** [ComputeEntityCount] in terms of its parts. *)
Lemma ComputeEntityCount_eq (H : Host) (spawnArgs : idDict) (size : idVec3)
    (m_Classes : list seed_class_t) :
  ComputeEntityCount spawnArgs size m_Classes
  = let '(classes, total) :=
      count_classes (overall_cap spawnArgs) (score_sum spawnArgs m_Classes)
                    (covered_area spawnArgs size) m_Classes 0 in
    (classes, if 0 <? overall_cap spawnArgs then overall_cap spawnArgs else total).
Proof. reflexivity. Qed.

(** The loop over the classes sets the count of every real class and
    adds the counts up. *)
Lemma count_classes_spec (cap sum : Z) (area : float) (classes : list seed_class_t) :
  forall n0 : Z,
    fst (count_classes cap sum area classes n0)
      = map (fun c => if real_class c
                      then set_numEntities c (class_count cap sum area c) else c)
            classes /\
    snd (count_classes cap sum area classes n0)
      = fold_left (fun a c => if real_class c
                              then wrap32 (a + class_count cap sum area c) else a)
                  classes n0.
Proof.
  induction classes as [| c rest IH]; intros n0; cbn [count_classes map fold_left].
  - split; reflexivity.
  - assert (Epw : pseudo c || watch c = negb (real_class c))
      by (unfold real_class; now rewrite negb_involutive).
    rewrite Epw. destruct (real_class c); cbn [negb].
    + destruct (IH (wrap32 (n0 + class_count cap sum area c))) as [Hc Ht].
      destruct (count_classes cap sum area rest _) as [rest' total].
      cbn [fst snd] in *. now rewrite Hc, Ht.
    + destruct (IH n0) as [Hc Ht].
      destruct (count_classes cap sum area rest n0) as [rest' total].
      cbn [fst snd] in *. now rewrite Hc, Ht.
Qed.

Lemma class_count_capped (cap sum : Z) (area : float) (c : seed_class_t) :
  0 < maxEntities c -> class_count cap sum area c <= maxEntities c.
Proof.
  intros Hmax. unfold class_count.
  destruct (0 <? maxEntities c) eqn:E1; [| apply Z.ltb_ge in E1; lia]. cbn [andb].
  match goal with
  | |- context [maxEntities c <? ?n] => destruct (maxEntities c <? n) eqn:E2
  end.
  - lia.
  - apply Z.ltb_ge in E2. exact E2.
Qed.

Lemma class_count_at_least_one (cap sum : Z) (area : float) (c : seed_class_t) :
  0 < cap -> 1 <= class_count cap sum area c.
Proof.
  intros Hcap. unfold class_count.
  destruct (0 <? cap) eqn:E; [| apply Z.ltb_ge in E; lia].
  destruct ((0 <? maxEntities c) && (maxEntities c <? _)) eqn:E2.
  - apply andb_true_iff in E2. destruct E2 as [E2 _]. apply Z.ltb_lt in E2. lia.
  - lia.
Qed.

(** X4.  Under an overall cap (a positive [max_entities], after the
    scaling by the quality bias), with scores that do not add up to zero
    so that the division is defined: the overall target is the cap, and
    every class that is neither a pseudo class nor watched gets at least
    one instance, whatever its score and its own cap. *)
Theorem ComputeEntityCount_at_least_one (H : Host) (spawnArgs : idDict)
    (size : idVec3) (m_Classes : list seed_class_t) :
  0 < overall_cap spawnArgs ->
  score_sum spawnArgs m_Classes <> 0 ->
  snd (ComputeEntityCount spawnArgs size m_Classes) = overall_cap spawnArgs /\
  Forall (fun c => real_class c = true -> 1 <= numEntities c)
         (fst (ComputeEntityCount spawnArgs size m_Classes)).
Proof.
  intros Hcap _. rewrite ComputeEntityCount_eq.
  pose proof (count_classes_spec (overall_cap spawnArgs)
                (score_sum spawnArgs m_Classes) (covered_area spawnArgs size)
                m_Classes 0) as [Hc Ht].
  destruct (count_classes _ _ _ m_Classes 0) as [classes total]. cbn [fst snd] in *.
  split.
  - destruct (0 <? overall_cap spawnArgs) eqn:E;
      [reflexivity | apply Z.ltb_ge in E; lia].
  - rewrite Hc. apply Forall_map. apply Forall_forall. intros c _.
    destruct (real_class c) eqn:Er.
    + intros _. cbn [numEntities set_numEntities].
      now apply class_count_at_least_one.
    + congruence.
Qed.

Lemma ComputeEntityCount_at_least_one_witness :
  snd (@ComputeEntityCount idle_host [("max_entities", "40")] Vec3.zero
         [plain_class "a" 1 0; plain_class "b" 3 2])
    = @overall_cap idle_host [("max_entities", "40")] /\
  Forall (fun c => real_class c = true -> 1 <= numEntities c)
         (fst (@ComputeEntityCount idle_host [("max_entities", "40")] Vec3.zero
                 [plain_class "a" 1 0; plain_class "b" 3 2])).
Proof.
  apply (ComputeEntityCount_at_least_one idle_host [("max_entities", "40")]
           Vec3.zero [plain_class "a" 1 0; plain_class "b" 3 2]).
  - vm_compute. reflexivity.
  - vm_compute. discriminate.
Defined.

(** X5.  A class with a cap of its own ([seed_max_entities] above zero)
    never gets more instances than that cap, with or without an overall
    cap. *)
Theorem ComputeEntityCount_class_cap (H : Host) (spawnArgs : idDict)
    (size : idVec3) (m_Classes : list seed_class_t) :
  Forall (fun c => real_class c = true /\ 0 < maxEntities c ->
                   numEntities c <= maxEntities c)
         (fst (ComputeEntityCount spawnArgs size m_Classes)).
Proof.
  rewrite ComputeEntityCount_eq.
  pose proof (count_classes_spec (overall_cap spawnArgs)
                (score_sum spawnArgs m_Classes) (covered_area spawnArgs size)
                m_Classes 0) as [Hc Ht].
  destruct (count_classes _ _ _ m_Classes 0) as [classes total]. cbn [fst snd] in *.
  rewrite Hc. apply Forall_map. apply Forall_forall. intros c _.
  destruct (real_class c) eqn:Er.
  - intros [_ Hmax]. cbn [numEntities maxEntities set_numEntities] in *.
    now apply class_count_capped.
  - rewrite Er. intros [E _]. discriminate.
Qed.

(** X6.  [ComputeEntityCount] changes nothing in the class table but
    the counts: the classes stay in place, pseudo classes and watched
    classes are left as they are, and of the others only [numEntities]
    is assigned.  Without an overall cap the overall target is the sum of
    the counts it has assigned. *)
Theorem ComputeEntityCount_frame (H : Host) (spawnArgs : idDict)
    (size : idVec3) (m_Classes : list seed_class_t) :
  let r := ComputeEntityCount spawnArgs size m_Classes in
  Forall2 (fun c c' => set_numEntities c' 0 = set_numEntities c 0 /\
                       (real_class c = false -> c' = c))
          m_Classes (fst r) /\
  (overall_cap spawnArgs <= 0 ->
   snd r = fold_left (fun a c => if real_class c
                                 then wrap32 (a + numEntities c) else a)
                     (fst r) 0).
Proof.
  intros r. subst r. rewrite ComputeEntityCount_eq.
  pose proof (count_classes_spec (overall_cap spawnArgs)
                (score_sum spawnArgs m_Classes) (covered_area spawnArgs size)
                m_Classes 0) as [Hc Ht].
  destruct (count_classes _ _ _ m_Classes 0) as [classes total]. cbn [fst snd] in *.
  subst classes total.
  generalize (score_sum spawnArgs m_Classes) as sum.
  generalize (covered_area spawnArgs size) as area. intros area sum. split.
  - induction m_Classes as [| c rest IH]; cbn [map]; [constructor |].
    constructor; [| exact IH].
    destruct (real_class c); split; try reflexivity; discriminate.
  - intros Hcap.
    destruct (0 <? overall_cap spawnArgs) eqn:E; [apply Z.ltb_lt in E; lia |].
    generalize 0. induction m_Classes as [| c rest IH]; intros n0;
      cbn [map fold_left].
    + reflexivity.
    + rewrite IH. f_equal.
      destruct (real_class c) eqn:Er; [| now rewrite Er].
      replace (real_class (set_numEntities c _)) with (real_class c)
        by reflexivity.
      now rewrite Er.
Qed.

(* ================================================================= *)
(** ** The instances that the placement stores *)

(** A try that is accepted has found its place inside the box of the
    SEED. *)
Lemma accepted_try_in_box (K : Constants) (H : Host) (env : place_env)
    (c : seed_class_t) (i : Z) (pl : placed_t) (s s' : Z) (origin : idVec3)
    (angles : idAngles) :
  attempt env c i pl s = (Some (origin, angles), s') ->
  idBox_ContainsPoint (pe_box env) origin = true.
Proof.
  unfold attempt. intros Hatt.
  repeat match type of Hatt with
  | context [match ?t with _ => _ end] => destruct t eqn:?
  end; try discriminate.
  inversion Hatt; subst. assumption.
Qed.

(** What the loop over the tries has found, one of the tries accepted. *)
Lemma try_loop_found (K : Constants) (H : Host) (env : place_env)
    (c : seed_class_t) (i : Z) (pl : placed_t) :
  forall (fuel : nat) (tries s t s' : Z) (found : idVec3 * idAngles),
    try_loop fuel env c i pl tries s = (t, Some found, s') ->
    exists s0, attempt env c i pl s0 = (Some found, s').
Proof.
  induction fuel as [| fuel IH]; intros tries s t s' found; cbn [try_loop].
  - discriminate.
  - destruct (tries <? MAX_TRIES); [| discriminate].
    destruct (attempt env c i pl s) as [[f |] s1] eqn:Hatt.
    + intros E. inversion E; subst. now exists s.
    + apply IH.
Qed.

Lemma new_entity_fields (K : Constants) (H : Host) (c : seed_class_t) (i : Z)
    (origin : idVec3) (angles : idAngles) (s : Z) :
  let e := fst (new_entity c i origin angles s) in
  e_origin e = origin /\ e_angles e = angles /\ classIdx e = i /\
  flags e = SEED_ENTITY_HIDDEN /\ entity e = 0.
Proof.
  unfold new_entity.
  repeat match goal with
  | |- context [let '(_, _) := ?t in _] => destruct t
  | |- context [if ?b then _ else _] => destruct b
  end; cbn; repeat split.
Qed.

(** What one round of the loop over the instances does to the instances
    placed so far: nothing, or one instance more at the end, at the place
    that a try has accepted. *)
Lemma place_instance_cases (K : Constants) (H : Host) (env : place_env)
    (c : seed_class_t) (i : Z) (pl pl' : placed_t) (s s' : Z) (b : bool) :
  place_instance env c i pl s = (b, pl', s') ->
  (b = false /\ pl' = pl) \/
  (b = true /\
   exists (s0 s1 : Z) (origin : idVec3) (angles : idAngles),
     attempt env c i pl s0 = (Some (origin, angles), s1) /\
     pl' = mkPlaced
             (pl_Entities pl ++ [fst (new_entity c i origin angles s1)])%list
             (pl_Bounds pl ++ [entity_bounds c origin angles])%list
             (pl_Boxes pl ++ [entity_box c origin angles])%list).
Proof.
  unfold place_instance.
  destruct (try_loop _ env c i pl 0 s) as [[tries found] s1] eqn:Hrun.
  destruct (MAX_TRIES <=? tries).
  - intros E. inversion E; subst. now left.
  - destruct found as [[origin angles] |].
    + destruct (try_loop_found K H env c i pl _ _ _ _ _ _ Hrun) as [s0 Hatt].
      destruct (new_entity c i origin angles s1) as [e s2] eqn:Hnew.
      intros E. inversion E; subst. right. split; [reflexivity |].
      exists s0, s1, origin, angles. rewrite Hnew.
      split; [exact Hatt | reflexivity].
    + intros E. inversion E; subst. now left.
Qed.

(** A property of the instances placed so far that every round keeps is
    kept by the loop over the instances and by the loop over the
    classes. *)
Section Preserved.
Context {K : Constants} {H : Host}.
Variable P : placed_t -> Prop.
Variable env : place_env.

Lemma instances_loop_preserves (c : seed_class_t) (i N : Z) :
  (forall pl s b pl' s',
      P pl -> place_instance env c i pl s = (b, pl', s') -> P pl') ->
  forall (n : nat) (pl : placed_t) (s : Z),
    P pl -> P (fst (instances_loop n env c i N pl s)).
Proof.
  intros Hstep. induction n as [| n IH]; intros pl s Hpl; cbn [instances_loop].
  - exact Hpl.
  - destruct (place_instance env c i pl s) as [[b pl'] s'] eqn:Hplace.
    pose proof (Hstep _ _ _ _ _ Hpl Hplace) as Hpl'.
    destruct (b && _); [exact Hpl' | now apply IH].
Qed.

Lemma classes_loop_preserves (classes : list seed_class_t) (N : Z)
    (ClassIndex : list Z) :
  (forall i c pl s b pl' s',
      In i ClassIndex -> c = list_get classes i no_class -> watch c = false ->
      P pl -> place_instance env c i pl s = (b, pl', s') -> P pl') ->
  forall (pl : placed_t) (s : Z),
    P pl -> P (fst (classes_loop ClassIndex env classes N pl s)).
Proof.
  induction ClassIndex as [| i rest IH]; intros Hstep pl s Hpl; cbn [classes_loop].
  - exact Hpl.
  - destruct (N <=? _); [exact Hpl |].
    destruct (watch (list_get classes i no_class)) eqn:Hw.
    + apply IH; [| exact Hpl]. intros; eapply Hstep; eauto. now right.
    + pose proof (instances_loop_preserves (list_get classes i no_class) i N
                    (fun pl s b pl' s' Hp Hpi =>
                       Hstep i _ pl s b pl' s' (or_introl eq_refl) eq_refl Hw Hp Hpi)
                    (Z.to_nat (iEntities (list_get classes i no_class))) pl
                    (seed (list_get classes i no_class)) Hpl) as Hpl'.
      destruct (instances_loop _ env _ i N pl _) as [pl' s'].
      apply IH; [| exact Hpl']. intros; eapply Hstep; eauto. now right.
Qed.

End Preserved.

Lemma list_set_nat_Forall {A : Type} (P : A -> Prop) (l : list A) (v : A) :
  Forall P l -> P v -> forall i : nat, Forall P (list_set_nat l i v).
Proof.
  intros Hl Hv. induction Hl as [| a l Ha Hl IH]; intros [| i]; cbn;
    constructor; auto.
Qed.

Lemma list_set_Forall {A : Type} (P : A -> Prop) (l : list A) (i : Z) (v : A) :
  Forall P l -> P v -> Forall P (list_set l i v).
Proof.
  intros Hl Hv. unfold list_set. destruct (i <? 0); [exact Hl |].
  now apply list_set_nat_Forall.
Qed.

Lemma list_get_Forall {A : Type} (P : A -> Prop) (l : list A) (i : Z) (d : A) :
  Forall P l -> P d -> P (list_get l i d).
Proof.
  intros Hl Hd. unfold list_get. destruct (i <? 0); [exact Hd |].
  destruct (nth_in_or_default (Z.to_nat i) l d) as [Hin | ->]; [| exact Hd].
  rewrite Forall_forall in Hl. now apply Hl.
Qed.

(** The shuffle moves the entries of [ClassIndex] about; whatever the
    numbers drawn, an entry is one of the entries it started with, or
    0. *)
Lemma shuffle_loop_Forall (P : Z -> Prop) (todo : list Z) (count : Z) :
  P 0 ->
  forall (ClassIndex : list Z) (s : Z),
    Forall P ClassIndex -> Forall P (fst (shuffle_loop todo count ClassIndex s)).
Proof.
  intros H0. induction todo as [| i rest IH]; intros ClassIndex s Hall;
    cbn [shuffle_loop].
  - exact Hall.
  - destruct (RandomFloat s) as [r s']. apply IH. unfold swap.
    apply list_set_Forall; [apply list_set_Forall |]; try assumption;
      now apply list_get_Forall.
Qed.

Lemma indices_range {A : Type} (l : list A) :
  Forall (fun i => 0 <= i < Z.of_nat (List.length l)) (indices l).
Proof.
  unfold indices. apply Forall_map. apply Forall_forall. intros n Hn.
  apply in_seq in Hn. lia.
Qed.

Lemma assign_seeds_not_pseudo (classes : list seed_class_t) :
  forall g : Z,
    Forall (fun c => pseudo c = false) classes ->
    Forall (fun c => pseudo c = false) (fst (assign_seeds classes g)).
Proof.
  induction classes as [| c rest IH]; intros g Hall; cbn [assign_seeds].
  - constructor.
  - inversion Hall as [| ? ? Hc Hrest]; subst.
    destruct (RandomSeed g) as [v g']. specialize (IH g' Hrest).
    destruct (assign_seeds rest g') as [rest' g'']. cbn [fst] in *.
    constructor; [exact Hc | exact IH].
Qed.

(** X7.  Every instance that the placement generates is hidden and has
    no live object; its class index points into the class table, at a
    class that is neither a pseudo class nor watched; and its origin lies
    inside the box of the SEED. *)
Theorem generated_instances_valid (K : Constants) (H : Host) (s : Seed) :
  let classes := fst (fst (fst (generate s))) in
  let pl := snd (fst (fst (generate s))) in
  Forall (fun e =>
            flags e = SEED_ENTITY_HIDDEN /\ entity e = 0 /\
            0 <= classIdx e < Z.of_nat (List.length classes) /\
            pseudo (list_get classes (classIdx e) no_class) = false /\
            watch (list_get classes (classIdx e) no_class) = false /\
            idBox_ContainsPoint (pe_box (placement_env s)) (e_origin e) = true)
         (pl_Entities pl).
Proof.
  unfold generate.
  pose proof (assign_seeds_not_pseudo
                (filter (fun c => negb (pseudo c)) (m_Classes s)) (m_iSeed_2 s))
    as Hnp.
  destruct (assign_seeds _ (m_iSeed_2 s)) as [classes g2]. cbn [fst] in Hnp.
  assert (Hnp' : Forall (fun c => pseudo c = false) classes).
  { apply Hnp. apply Forall_forall. intros c Hc. apply filter_In in Hc.
    destruct Hc as [_ Hc]. now apply negb_true_iff in Hc. }
  clear Hnp. rename Hnp' into Hnp.
  destruct (RandomSeed g2) as [g1 g2'].
  assert (Hidx : Forall (fun i => 0 <= i < Z.of_nat (List.length classes))
                   (fst (shuffle_loop (indices classes)
                           (Z.of_nat (List.length classes)) (indices classes) g1))).
  { destruct classes as [| c0 cs].
    - cbn. constructor.
    - apply shuffle_loop_Forall; [cbn [List.length]; lia | apply indices_range]. }
  destruct (shuffle_loop _ _ (indices classes) g1) as [ClassIndex g1'].
  cbn [fst] in Hidx.
  set (ok := fun e : seed_entity_t =>
        flags e = SEED_ENTITY_HIDDEN /\ entity e = 0 /\
        0 <= classIdx e < Z.of_nat (List.length classes) /\
        pseudo (list_get classes (classIdx e) no_class) = false /\
        watch (list_get classes (classIdx e) no_class) = false /\
        idBox_ContainsPoint (pe_box (placement_env s)) (e_origin e) = true).
  assert (Hloop : forall g, Forall ok (pl_Entities (fst
            (classes_loop ClassIndex (placement_env s) classes (m_iNumEntities s)
                          (mkPlaced [] [] []) g)))).
  { intros g. apply (classes_loop_preserves (fun pl => Forall ok (pl_Entities pl)));
      [| constructor].
    intros i c pl s0 b pl' s' Hin Hc Hw Hpl Hplace.
    destruct (place_instance_cases K H _ _ _ _ _ _ _ _ Hplace)
      as [[_ ->] | [_ (s1 & s2 & origin & angles & Hatt & ->)]]; [exact Hpl |].
    cbn [pl_Entities]. apply Forall_app. split; [exact Hpl |].
    constructor; [| constructor].
    destruct (new_entity_fields K H c i origin angles s2)
      as (Ho & Ha & Hi & Hf & He).
    rewrite Forall_forall in Hidx. specialize (Hidx i Hin).
    unfold ok. rewrite Hi, Ho. repeat split; try assumption; try lia;
      first [ apply list_get_Forall; [exact Hnp | reflexivity]
            | rewrite <- Hc; exact Hw
            | exact (accepted_try_in_box K H _ c i pl s1 s2 origin angles Hatt) ]. }
  specialize (Hloop g1').
  destruct (classes_loop ClassIndex _ classes _ _ g1') as [pl g1'']. exact Hloop.
Qed.

Lemma instances_loop_count (K : Constants) (H : Host) (env : place_env)
    (c : seed_class_t) (i N : Z) :
  forall (n : nat) (pl : placed_t) (s : Z),
    Z.of_nat (List.length (pl_Entities pl)) < N ->
    Z.of_nat (List.length (pl_Entities (fst (instances_loop n env c i N pl s))))
      <= N.
Proof.
  induction n as [| n IH]; intros pl s Hlt; cbn [instances_loop].
  - cbn [fst]. lia.
  - destruct (place_instance env c i pl s) as [[b pl'] s'] eqn:Hplace.
    destruct (place_instance_cases K H _ _ _ _ _ _ _ _ Hplace)
      as [[-> ->] | [-> (s1 & s2 & origin & angles & _ & ->)]].
    + cbn [andb]. now apply IH.
    + cbn [andb pl_Entities].
      destruct (N <=? _) eqn:E.
      * cbn [fst pl_Entities]. rewrite length_app. cbn [List.length]. lia.
      * apply IH. apply Z.leb_gt in E. exact E.
Qed.

Lemma classes_loop_count (K : Constants) (H : Host) (env : place_env)
    (classes : list seed_class_t) (N B : Z) (ClassIndex : list Z) :
  N <= B ->
  forall (pl : placed_t) (s : Z),
    Z.of_nat (List.length (pl_Entities pl)) <= B ->
    Z.of_nat (List.length
                (pl_Entities (fst (classes_loop ClassIndex env classes N pl s))))
      <= B.
Proof.
  intros HB. induction ClassIndex as [| i rest IH]; intros pl s Hpl;
    cbn [classes_loop].
  - exact Hpl.
  - destruct (N <=? _) eqn:E; [exact Hpl |]. apply Z.leb_gt in E.
    destruct (watch (list_get classes i no_class)); [now apply IH |].
    pose proof (instances_loop_count K H env (list_get classes i no_class) i N
                  (Z.to_nat (iEntities (list_get classes i no_class))) pl
                  (seed (list_get classes i no_class)) E) as Hn.
    destruct (instances_loop _ env _ i N pl _) as [pl' s']. cbn [fst] in Hn.
    apply IH. lia.
Qed.

(** X8.  The placement never generates more instances than the overall
    target [m_iNumEntities] (none when the target is not positive), and
    it keeps one entry of [SeedEntityBounds] and one of [SeedEntityBoxes]
    for every instance. *)
Theorem generated_count_bounded (K : Constants) (H : Host) (s : Seed) :
  let pl := snd (fst (fst (generate s))) in
  Z.of_nat (List.length (pl_Entities pl)) <= Z.max 0 (m_iNumEntities s) /\
  List.length (pl_Bounds pl) = List.length (pl_Entities pl) /\
  List.length (pl_Boxes pl) = List.length (pl_Entities pl).
Proof.
  unfold generate.
  destruct (assign_seeds _ (m_iSeed_2 s)) as [classes g2].
  destruct (RandomSeed g2) as [g1 g2'].
  destruct (shuffle_loop _ _ (indices classes) g1) as [ClassIndex g1'].
  pose proof (classes_loop_count K H (placement_env s) classes (m_iNumEntities s)
                (Z.max 0 (m_iNumEntities s)) ClassIndex ltac:(lia)
                (mkPlaced [] [] []) g1' ltac:(cbn; lia)) as Hcount.
  assert (Hlen : let pl := fst (classes_loop ClassIndex (placement_env s) classes
                                  (m_iNumEntities s) (mkPlaced [] [] []) g1') in
                 List.length (pl_Bounds pl) = List.length (pl_Entities pl) /\
                 List.length (pl_Boxes pl) = List.length (pl_Entities pl)).
  { apply (classes_loop_preserves
             (fun pl => List.length (pl_Bounds pl) = List.length (pl_Entities pl) /\
                        List.length (pl_Boxes pl) = List.length (pl_Entities pl)));
      [| split; reflexivity].
    intros i c pl s0 b pl' s' _ _ _ [Hb Hx] Hplace.
    destruct (place_instance_cases K H _ _ _ _ _ _ _ _ Hplace)
      as [[_ ->] | [_ (s1 & s2 & origin & angles & _ & ->)]]; [now split |].
    cbn [pl_Entities pl_Bounds pl_Boxes]. rewrite !length_app. cbn [List.length].
    lia. }
  destruct (classes_loop ClassIndex _ classes _ _ g1') as [pl g1''].
  cbn [fst snd] in *. tauto.
Qed.

(** X9.  The bounds and boxes kept for the collision check are those of
    the instances stored, in their order.  And for every instance of a
    class that is checked for collisions (a positive [nocollide], or a
    positive spacing in use): no instance stored before it has both its
    bounds intersect the bounds of the later instance, expanded by the
    spacing, and its box intersect the box of the later instance,
    expanded by the spacing. *)
Theorem generated_instances_apart (K : Constants) (H : Host) (s : Seed) :
  let classes := fst (fst (fst (generate s))) in
  let pl := snd (fst (fst (generate s))) in
  let env := placement_env s in
  pl_Bounds pl = map (instance_bounds classes) (pl_Entities pl) /\
  pl_Boxes pl = map (instance_box classes) (pl_Entities pl) /\
  forall pre e post,
    pl_Entities pl = (pre ++ e :: post)%list ->
    let c := list_get classes (classIdx e) no_class in
    0 < nocollide c \/ F32.gtb (use_spacing env c) F32.zero = true ->
    forall other,
      In other pre ->
      idBounds_IntersectsBounds (instance_bounds classes other)
        (idBounds_ExpandSelf (instance_bounds classes e) (use_spacing env c)) = true ->
      idBox_IntersectsBox (instance_box classes other)
        (idBox_ExpandSelf (instance_box classes e) (use_spacing env c)) = false.
Proof.
  cbv zeta. unfold generate.
  destruct (assign_seeds _ (m_iSeed_2 s)) as [classes g2].
  destruct (RandomSeed g2) as [g1 g2'].
  destruct (shuffle_loop _ _ (indices classes) g1) as [ClassIndex g1'].
  set (env := placement_env s).
  set (inv := fun pl : placed_t =>
    pl_Bounds pl = map (instance_bounds classes) (pl_Entities pl) /\
    pl_Boxes pl = map (instance_box classes) (pl_Entities pl) /\
    forall pre e post,
      pl_Entities pl = (pre ++ e :: post)%list ->
      collides env (list_get classes (classIdx e) no_class) (e_origin e)
               (e_angles e)
               (map (instance_bounds classes) pre) (map (instance_box classes) pre)
        = false).
  assert (Hinv : inv (fst (classes_loop ClassIndex env classes (m_iNumEntities s)
                             (mkPlaced [] [] []) g1'))).
  { apply (classes_loop_preserves inv).
    - intros i c pl s0 b pl' s' _ Hc _ (Hb & Hx & Hsep) Hplace.
      destruct (place_instance_cases K H _ _ _ _ _ _ _ _ Hplace)
        as [[_ ->] | [_ (s1 & s2 & origin & angles & Hatt & ->)]];
        [now repeat split |].
      destruct (new_entity_fields K H c i origin angles s2)
        as (Ho & Ha & Hi & _ & _).
      set (e' := fst (new_entity c i origin angles s2)) in *.
      assert (Hbe : instance_bounds classes e' = entity_bounds c origin angles)
        by (unfold instance_bounds; now rewrite Hi, Ho, Ha, <- Hc).
      assert (Hxe : instance_box classes e' = entity_box c origin angles)
        by (unfold instance_box; now rewrite Hi, Ho, Ha, <- Hc).
      unfold inv. cbn [pl_Entities pl_Bounds pl_Boxes].
      rewrite !map_app. cbn [map]. rewrite Hbe, Hxe, <- Hb, <- Hx.
      repeat split.
      intros pre e post Hsplit.
      destruct post as [| p post] using rev_ind.
      + apply app_inj_tail in Hsplit. destruct Hsplit as [<- <-].
        rewrite Hi, Ho, Ha, <- Hc, <- Hb, <- Hx.
        exact (accepted_try_passed_check K H env c i pl s1 s2 origin angles Hatt).
      + clear IHpost. rewrite app_comm_cons, app_assoc in Hsplit.
        apply app_inj_tail in Hsplit. destruct Hsplit as [Hsplit _].
        exact (Hsep pre e post Hsplit).
    - unfold inv. cbn. repeat split. intros [| ? ?] ? ? E; discriminate. }
  destruct (classes_loop ClassIndex env classes _ _ g1') as [pl g1''].
  cbn [fst snd] in *. destruct Hinv as (Hb & Hx & Hsep).
  split; [exact Hb |]. split; [exact Hx |].
  intros pre e post Hsplit Hcheck other Hin Hbounds.
  specialize (Hsep pre e post Hsplit).
  set (c := list_get classes (classIdx e) no_class) in *.
  unfold collides in Hsep.
  assert (Hon : (0 <? nocollide c) || F32.gtb (use_spacing env c) F32.zero = true).
  { apply orb_true_iff.
    destruct Hcheck as [Hn | Hs]; [left; now apply Z.ltb_lt | now right]. }
  rewrite Hon in Hsep. unfold collides_with in Hsep.
  destruct (idBox_IntersectsBox _ _) eqn:Hbox; [| reflexivity].
  exfalso. apply Bool.not_true_iff_false in Hsep. apply Hsep.
  apply existsb_exists.
  exists (instance_bounds classes other, instance_box classes other). split.
  - clear - Hin. induction pre as [| a pre IH]; [contradiction |].
    cbn [map combine]. destruct Hin as [-> | Hin]; [now left | right; now apply IH].
  - cbn [fst snd]. apply andb_true_iff. split; assumption.
Qed.

(* ================================================================= *)
(** ** The candidate position and the inhibitors *)

(** A round that leaves the loop has drawn a point that is not outside
    the unit circle. *)
Lemma falloff_round_inside (H : Host) (falloff : Z) (factor : float) (s : Z) :
  r_found (falloff_round falloff factor s) = true ->
  F32.gtb (F32.add (F32.mul (r_x (falloff_round falloff factor s))
                            (r_x (falloff_round falloff factor s)))
                   (F32.mul (r_y (falloff_round falloff factor s))
                            (r_y (falloff_round falloff factor s))))
          F32.one = false.
Proof.
  unfold falloff_round.
  destruct (RandomFloat s) as [rx s1]. destruct (RandomFloat s1) as [ry s2].
  cbv zeta.
  destruct (F32.gtb _ F32.one) eqn:Hd; [discriminate |].
  destruct (falloff =? 1); [intros _; exact Hd |].
  destruct (RandomFloat s2) as [r s3]. intros _. exact Hd.
Qed.

Lemma nth_round_inside (H : Host) (falloff : Z) (factor : float) (k : nat) :
  forall s : Z,
    r_found (nth_round k falloff factor s) = true ->
    F32.gtb (F32.add (F32.mul (r_x (nth_round k falloff factor s))
                              (r_x (nth_round k falloff factor s)))
                     (F32.mul (r_y (nth_round k falloff factor s))
                              (r_y (nth_round k falloff factor s))))
            F32.one = false.
Proof.
  induction k as [| k IH]; intros s; cbn [nth_round].
  - apply falloff_round_inside.
  - apply IH.
Qed.

(** The loop in terms of its rounds: it is left in the first round that
    finds a point, with [p] at 1.0 and that point; and when none of the
    [n] rounds finds one, it ends with [p] at 0.0 and the generator as
    the last round has left it. *)
Lemma falloff_loop_rounds (H : Host) (falloff : Z) (factor : float) (n : nat) :
  forall (x0 y0 : float) (s : Z),
    (exists k : nat,
        (k < n)%nat /\
        (forall j, (j < k)%nat -> r_found (nth_round j falloff factor s) = false) /\
        r_found (nth_round k falloff factor s) = true /\
        falloff_loop n falloff factor x0 y0 s
        = ((F32.one, r_x (nth_round k falloff factor s),
                     r_y (nth_round k falloff factor s)),
           r_seed (nth_round k falloff factor s))) \/
    ((forall j, (j < n)%nat -> r_found (nth_round j falloff factor s) = false) /\
     fst (fst (fst (falloff_loop n falloff factor x0 y0 s))) = F32.zero /\
     (n <> O ->
      snd (falloff_loop n falloff factor x0 y0 s)
      = r_seed (nth_round (Nat.pred n) falloff factor s))).
Proof.
  induction n as [| n IH]; intros x0 y0 s.
  - right. split; [intros j Hj; lia |].
    split; [reflexivity | intros E; now elim E].
  - assert (Hstep :
      (r_found (falloff_round falloff factor s) = true /\
       falloff_loop (S n) falloff factor x0 y0 s
       = ((F32.one, r_x (falloff_round falloff factor s),
                    r_y (falloff_round falloff factor s)),
          r_seed (falloff_round falloff factor s))) \/
      (r_found (falloff_round falloff factor s) = false /\
       falloff_loop (S n) falloff factor x0 y0 s
       = falloff_loop n falloff factor
           (r_x (falloff_round falloff factor s))
           (r_y (falloff_round falloff factor s))
           (r_seed (falloff_round falloff factor s)))).
    { cbn [falloff_loop]. unfold falloff_round.
      destruct (RandomFloat s) as [rx s1]. destruct (RandomFloat s1) as [ry s2].
      cbv zeta.
      destruct (F32.gtb _ F32.one); [right; split; reflexivity |].
      destruct (falloff =? 1); [left; split; reflexivity |].
      destruct (RandomFloat s2) as [r s3].
      destruct (F32.gtb r _); [left | right]; split; reflexivity. }
    destruct Hstep as [[Hf Hl] | [Hf Hl]].
    + left. exists O. split; [lia |]. split; [intros j Hj; lia |].
      split; [exact Hf | exact Hl].
    + rewrite Hl.
      destruct (IH (r_x (falloff_round falloff factor s))
                   (r_y (falloff_round falloff factor s))
                   (r_seed (falloff_round falloff factor s)))
        as [(k & Hk & Hbefore & Hfound & Hres) | (Hall & Hp & Hs)].
      * left. exists (S k). split; [lia |]. split.
        -- intros [| j] Hj; [exact Hf | apply Hbefore; lia].
        -- split; [exact Hfound | exact Hres].
      * right. split.
        -- intros [| j] Hj; [exact Hf | apply Hall; lia].
        -- split; [exact Hp |]. intros _.
           destruct n as [| n]; [reflexivity |].
           apply Hs. discriminate.
Qed.

(** X10.  For a class with one of the falloffs cutoff, power, root and
    linear, a position without bunching is found in at most 16 rounds.
    Each round draws a point [(x, y)]; it finds it when the squares of
    [x] and [y] do not add up to more than 1 and, for a falloff other
    than cutoff, one more number drawn is above the probability of the
    point.  The first round that finds its point ends the search: the
    position is that point stretched to the size of the SEED,
    [x * size.x / 2] and [y * size.y / 2] at height 0, and the generator
    is as this round has left it.  When none of the 16 rounds finds its
    point, the try is given up, with the generator as the sixteenth round
    has left it. *)
Theorem random_position_inside_ellipse (H : Host) (env : place_env)
    (c : seed_class_t) (s : Z) :
  0 < falloff c < 5 ->
  let factor :=
    if falloff c =? 3 then F32.div F32.one (func_a c) else func_a c in
  let round := fun k : nat => nth_round k (falloff c) factor s in
  (exists k : nat,
      (k < 16)%nat /\
      (forall j, (j < k)%nat -> r_found (round j) = false) /\
      r_found (round k) = true /\
      F32.gtb (F32.add (F32.mul (r_x (round k)) (r_x (round k)))
                       (F32.mul (r_y (round k)) (r_y (round k))))
              F32.one = false /\
      random_position env c s
      = (Some (mkVec3 (F32.div (F32.mul (r_x (round k)) (x (pe_size env)))
                               F32.two)
                      (F32.div (F32.mul (r_y (round k)) (y (pe_size env)))
                               F32.two)
                      F32.zero),
         r_seed (round k))) \/
  ((forall j, (j < 16)%nat -> r_found (round j) = false) /\
   random_position env c s = (None, r_seed (round 15%nat))).
Proof.
  intros [Hlo Hhi] factor round. unfold random_position.
  replace ((0 <? falloff c) && (falloff c <? 5)) with true
    by (symmetry; apply andb_true_iff; split; apply Z.ltb_lt; lia).
  fold factor.
  destruct (falloff_loop_rounds H (falloff c) factor 16 F32.zero F32.zero s)
    as [(k & Hk & Hbefore & Hfound & Hres) | (Hall & Hp & Hs)].
  - left. exists k. split; [exact Hk |]. split; [exact Hbefore |].
    split; [exact Hfound |].
    split; [exact (nth_round_inside H (falloff c) factor k s Hfound) |].
    rewrite Hres.
    change (F32.ltb F32.one tiny) with false. reflexivity.
  - right. split; [exact Hall |].
    specialize (Hs ltac:(discriminate)).
    destruct (falloff_loop 16 (falloff c) factor F32.zero F32.zero s)
      as [[[p x1] y1] s'].
    cbn [fst snd] in Hp, Hs. subst p s'.
    change (F32.ltb F32.zero tiny) with true. reflexivity.
Qed.

Lemma random_position_inside_ellipse_witness :
  let factor :=
    if falloff cutoff_class =? 3 then F32.div F32.one (func_a cutoff_class)
    else func_a cutoff_class in
  let round :=
    fun k : nat => @nth_round idle_host k (falloff cutoff_class) factor 1 in
  (exists k : nat,
      (k < 16)%nat /\
      (forall j, (j < k)%nat -> r_found (round j) = false) /\
      r_found (round k) = true /\
      F32.gtb (F32.add (F32.mul (r_x (round k)) (r_x (round k)))
                       (F32.mul (r_y (round k)) (r_y (round k))))
              F32.one = false /\
      @random_position idle_host spaced_env cutoff_class 1
      = (Some (mkVec3 (F32.div (F32.mul (r_x (round k)) (x (pe_size spaced_env)))
                               F32.two)
                      (F32.div (F32.mul (r_y (round k)) (y (pe_size spaced_env)))
                               F32.two)
                      F32.zero),
         r_seed (round k))) \/
  ((forall j, (j < 16)%nat -> r_found (round j) = false) /\
   @random_position idle_host spaced_env cutoff_class 1
   = (None, r_seed (round 15%nat))).
Proof.
  apply (random_position_inside_ellipse idle_host spaced_env cutoff_class 1).
  cbn. lia.
Defined.

(** With the falloff cutoff and the generator at 1, the first two rounds
    draw points outside the circle and the third finds its point. *)
Example random_position_third_round :
  map (fun k => r_found (@nth_round idle_host k 1 F32.two 1)) [0; 1; 2]%nat
    = [false; false; true] /\
  @random_position idle_host spaced_env cutoff_class 1
  = (Some (mkVec3
             (F32.div (F32.mul (r_x (@nth_round idle_host 2 1 F32.two 1))
                               (F32.of_Z 100)) F32.two)
             (F32.div (F32.mul (r_y (@nth_round idle_host 2 1 F32.two 1))
                               (F32.of_Z 100)) F32.two)
             F32.zero),
     r_seed (@nth_round idle_host 2 1 F32.two 1)).
Proof. vm_compute. split; reflexivity. Qed.

(** With the falloff power and a probability of 1.0 everywhere, as for
    the exponent 0, no round finds its point, and the try is given up
    after the sixteenth. *)
Example random_position_gives_up :
  forallb (fun k => negb (r_found (@nth_round flat_pow_host k 2 F32.zero 3)))
          (seq 0 16) = true /\
  @random_position flat_pow_host spaced_env power_zero_class 3
  = (None, r_seed (@nth_round flat_pow_host 15 2 F32.zero 3)).
Proof. vm_compute. split; reflexivity. Qed.

(** X11.  With inhibitors that have no falloff, the loop over the
    inhibitors draws no random number, and the answer is that of the last
    inhibitor whose box the candidate touches: every such inhibitor
    overwrites what the ones before it have said.  A candidate that
    touches none is not inhibited. *)
Theorem inhibit_loop_without_falloff (H : Host) (c : seed_class_t)
    (origin : idVec3) (testBox : idBox) (inhs : list seed_inhibitor_t) :
  Forall (fun inh => i_falloff inh <= 0) inhs ->
  forall (inhibited : bool) (s : Z),
    inhibit_loop c origin testBox inhs inhibited s
    = (fold_left (fun b inh => if idBox_IntersectsBox testBox (i_box inh)
                               then inhibitor_verdict c inh else b)
                 inhs inhibited, s).
Proof.
  induction 1 as [| inh rest Hf Hrest IH]; intros inhibited s;
    cbn [inhibit_loop fold_left].
  - reflexivity.
  - destruct (idBox_IntersectsBox testBox (i_box inh)); [| apply IH].
    assert (E : (0 <? i_falloff inh) = false) by (apply Z.ltb_ge; exact Hf).
    rewrite E, andb_false_r. unfold inhibitor_verdict. apply IH.
Qed.

Lemma inhibit_loop_without_falloff_witness :
  @inhibit_loop idle_host (plain_class "rock" 1 0) Vec3.zero
    (i_box rock_inhibitor) [rock_inhibitor; rock_inhibitor] false 3
  = (fold_left (fun b inh =>
                  if @idBox_IntersectsBox idle_host (i_box rock_inhibitor)
                                          (i_box inh)
                  then inhibitor_verdict (plain_class "rock" 1 0) inh else b)
               [rock_inhibitor; rock_inhibitor] false, 3).
Proof.
  apply (inhibit_loop_without_falloff idle_host (plain_class "rock" 1 0) Vec3.zero
           (i_box rock_inhibitor) [rock_inhibitor; rock_inhibitor]).
  repeat constructor; cbn; lia.
Defined.

(* ================================================================= *)
(** ** Spawning and culling: what a call changes *)

Lemma nth_list_set_nat_other {A : Type} (l : list A) (i j : nat) (v d : A) :
  i <> j -> nth j (list_set_nat l i v) d = nth j l d.
Proof.
  revert i j. induction l as [| a l IH]; intros [| i] [| j] Hne; cbn;
    try reflexivity; try congruence.
  apply IH. congruence.
Qed.

Lemma list_get_set_other {A : Type} (l : list A) (i j : Z) (v d : A) :
  i <> j -> list_get (list_set l i v) j d = list_get l j d.
Proof.
  intros Hne. unfold list_get, list_set.
  destruct (j <? 0) eqn:Hj; [reflexivity |].
  destruct (i <? 0) eqn:Hi; [reflexivity |].
  apply Z.ltb_ge in Hj, Hi. apply nth_list_set_nat_other. lia.
Qed.

(** X12.  [SpawnEntity] answers false, and changes nothing, when the
    number of live objects is above [SPAWN_LIMIT] or the class has no
    entity definition; and whenever it answers false, nothing has
    changed.  When it answers true, the counts of existing and of visible
    instances have grown by one, the count of static multis by one for a
    pseudo class, the class table and every other instance are as before,
    and nothing is posted for removal. *)
Theorem SpawnEntity_outcome (K : Constants) (H : Host) (s : Seed) (w : World)
    (idx : Z) (managed : bool) :
  let ent := list_get (m_Entities s) idx no_entity in
  let lclass := list_get (m_Classes s) (classIdx ent) no_class in
  (SPAWN_LIMIT < num_entities w \/ FindEntityDefDict (classname lclass) = false ->
   SpawnEntity s w idx managed = (false, s, w)) /\
  (forall s' w',
      SpawnEntity s w idx managed = (false, s', w') -> s' = s /\ w' = w) /\
  (forall s' w',
      SpawnEntity s w idx managed = (true, s', w') ->
      m_iNumExisting s' = m_iNumExisting s + 1 /\
      m_iNumVisible s' = m_iNumVisible s + 1 /\
      m_iNumStaticMulties s'
        = m_iNumStaticMulties s + (if pseudo lclass then 1 else 0) /\
      m_Classes s' = m_Classes s /\
      List.length (m_Entities s') = List.length (m_Entities s) /\
      (forall j, j <> idx ->
                 list_get (m_Entities s') j no_entity
                 = list_get (m_Entities s) j no_entity) /\
      removals w' = removals w /\
      num_entities w <= num_entities w').
Proof.
  intros ent lclass. unfold SpawnEntity. fold ent. fold lclass.
  split; [| split].
  - intros [Hlimit | Hdef].
    + apply Z.ltb_lt in Hlimit. now rewrite Hlimit.
    + rewrite Hdef. now destruct (SPAWN_LIMIT <? num_entities w).
  - intros s' w'.
    destruct (SPAWN_LIMIT <? num_entities w); [intros E; now inversion E |].
    destruct (FindEntityDefDict (classname lclass)); [| intros E; now inversion E].
    destruct (SpawnEntityDef w _) as [[n ent2] |]; [discriminate |].
    intros E; now inversion E.
  - intros s' w'.
    destruct (SPAWN_LIMIT <? num_entities w); [discriminate |].
    destruct (FindEntityDefDict (classname lclass)); [| discriminate].
    destruct (SpawnEntityDef w _) as [[n ent2] |]; [| discriminate].
    intros E. inversion E; subst; clear E. unfold with_entity.
    cbn [m_iNumExisting m_iNumVisible m_iNumStaticMulties m_Classes m_Entities].
    repeat split.
    + apply Nat2Z.inj. apply list_set_length_Z.
    + intros j Hj. apply list_get_set_other. congruence.
    + destruct (pseudo lclass); reflexivity.
    + destruct (pseudo lclass); cbn [num_entities set_physics_origin]; lia.
Qed.

(** X13.  [CullEntity] answers false, and changes nothing, when the
    instance does not exist or its live object is gone; and whenever it
    answers false, nothing has changed.  When it answers true, the live
    object of the instance is posted for removal and no other, the counts
    of existing and of visible instances have gone down by one, the count
    of static multis by one for a pseudo class, the class table and every
    other instance are as before, and the instance keeps its skin,
    colour, class and scale but no longer names a live object. *)
Theorem CullEntity_outcome (K : Constants) (H : Host) (s : Seed) (w : World)
    (idx : Z) :
  let ent := list_get (m_Entities s) idx no_entity in
  let lclass := list_get (m_Classes s) (classIdx ent) no_class in
  (Z.land (flags ent) SEED_ENTITY_EXISTS = 0 \/
   list_get (entities w) (entity ent) None = None ->
   CullEntity s w idx = (false, s, w)) /\
  (forall s' w', CullEntity s w idx = (false, s', w') -> s' = s /\ w' = w) /\
  (forall s' w',
      CullEntity s w idx = (true, s', w') ->
      m_iNumExisting s' = m_iNumExisting s - 1 /\
      m_iNumVisible s' = m_iNumVisible s - 1 /\
      m_iNumStaticMulties s'
        = m_iNumStaticMulties s - (if pseudo lclass then 1 else 0) /\
      m_Classes s' = m_Classes s /\
      List.length (m_Entities s') = List.length (m_Entities s) /\
      (forall j, j <> idx ->
                 list_get (m_Entities s') j no_entity
                 = list_get (m_Entities s) j no_entity) /\
      removals w' = entity ent :: removals w /\
      entities w' = entities w /\ physics w' = physics w /\
      (0 <= idx < Z.of_nat (List.length (m_Entities s)) ->
       let e' := list_get (m_Entities s') idx no_entity in
       entity e' = 0 /\ skinIdx e' = skinIdx ent /\ e_color e' = e_color ent /\
       classIdx e' = classIdx ent /\ e_scale e' = e_scale ent)).
Proof.
  intros ent lclass. unfold CullEntity. fold ent. fold lclass.
  split; [| split].
  - intros [Hflag | Hlive].
    + rewrite Hflag. reflexivity.
    + rewrite Hlive. now destruct (Z.land (flags ent) SEED_ENTITY_EXISTS =? 0).
  - intros s' w'.
    destruct (Z.land (flags ent) SEED_ENTITY_EXISTS =? 0);
      [intros E; now inversion E |].
    destruct (list_get (entities w) (entity ent) None); [discriminate |].
    intros E; now inversion E.
  - intros s' w'.
    destruct (Z.land (flags ent) SEED_ENTITY_EXISTS =? 0); [discriminate |].
    destruct (list_get (entities w) (entity ent) None) as [ent2 |];
      [| discriminate].
    intros E. inversion E; subst; clear E. unfold with_entity.
    cbn [m_iNumExisting m_iNumVisible m_iNumStaticMulties m_Classes m_Entities
         removals entities physics].
    repeat split; try lia;
      try (rewrite list_get_set by assumption; reflexivity).
    + destruct (pseudo lclass); lia.
    + apply Nat2Z.inj. apply list_set_length_Z.
    + intros j Hj. apply list_get_set_other. congruence.
Qed.

Lemma list_get_app_mid {A : Type} (l1 l2 : list A) (e d : A) :
  list_get (l1 ++ e :: l2) (Z.of_nat (List.length l1)) d = e.
Proof.
  unfold list_get.
  destruct (Z.of_nat (List.length l1) <? 0) eqn:E; [apply Z.ltb_lt in E; lia |].
  rewrite Nat2Z.id, app_nth2 by lia. now rewrite Nat.sub_diag.
Qed.

Lemma list_set_app_mid {A : Type} (l1 l2 : list A) (e v : A) :
  list_set (l1 ++ e :: l2) (Z.of_nat (List.length l1)) v = (l1 ++ v :: l2)%list.
Proof.
  unfold list_set.
  destruct (Z.of_nat (List.length l1) <? 0) eqn:E; [apply Z.ltb_lt in E; lia |].
  rewrite Nat2Z.id. clear E. induction l1 as [| a l1 IH]; cbn; [reflexivity |].
  now rewrite IH.
Qed.

(** The loop of [Event_CullAll], with the instances [l1] done and the
    instances [l2] to do: culling goes through the table once and leaves
    the live objects and their physics alone. *)
Lemma cull_fold (K : Constants) (H : Host) (w0 : World)
    (l2 : list seed_entity_t) :
  forall (l1 : list seed_entity_t) (s : Seed) (w : World),
    m_Entities s = (l1 ++ l2)%list ->
    entities w = entities w0 -> physics w = physics w0 ->
    let r := fold_left cull_step
               (map Z.of_nat (seq (List.length l1) (List.length l2))) (s, w) in
    m_Entities (fst r) = (l1 ++ map (culled_or_kept w0) l2)%list /\
    m_Classes (fst r) = m_Classes s /\
    entities (snd r) = entities w0 /\ physics (snd r) = physics w0.
Proof.
  induction l2 as [| e l2 IH]; intros l1 s w Hents Hw Hp;
    cbn [List.length seq map fold_left].
  - cbn [fst snd]. rewrite Hents. cbn [map]. auto.
  - assert (Hstep : exists s1 w1,
              cull_step (s, w) (Z.of_nat (List.length l1)) = (s1, w1) /\
              m_Entities s1 = ((l1 ++ [culled_or_kept w0 e]) ++ l2)%list /\
              m_Classes s1 = m_Classes s /\
              entities w1 = entities w0 /\ physics w1 = physics w0).
    { unfold cull_step, CullEntity. cbn [fst snd].
      rewrite Hents, list_get_app_mid. unfold culled_or_kept.
      destruct (Z.land (flags e) SEED_ENTITY_EXISTS =? 0).
      - exists s, w. rewrite <- app_assoc. cbn [app]. auto.
      - rewrite Hw.
        destruct (list_get (entities w0) (entity e) None) as [ent2 |].
        + eexists. eexists. split; [reflexivity |].
          unfold with_entity. cbn [m_Entities m_Classes entities physics].
          rewrite Hents, list_set_app_mid, <- app_assoc. cbn [app].
          unfold GetPhysics. rewrite Hp. auto.
        + exists s, w. rewrite <- app_assoc. cbn [app]. auto. }
    destruct Hstep as (s1 & w1 & -> & Hents1 & Hcls1 & Hw1 & Hp1).
    specialize (IH (l1 ++ [culled_or_kept w0 e])%list s1 w1 Hents1 Hw1 Hp1).
    rewrite length_app in IH. cbn [List.length] in IH.
    replace (List.length l1 + 1)%nat with (S (List.length l1)) in IH by lia.
    cbv zeta in IH. destruct IH as (IH1 & IH2 & IH3 & IH4).
    rewrite IH1, IH2, <- app_assoc. cbn [app map]. auto.
Qed.

(** X14.  [Event_CullAll] does to every instance what [CullEntity] does
    to it alone, in the world as it was before: the instances that
    existed and had a live object are culled, the others are left as they
    are.  The class table and the live objects are untouched, and the
    three counts are 0 afterwards.  An instance that still counts as
    existing afterwards is one whose live object was gone already. *)
Theorem Event_CullAll_outcome (K : Constants) (H : Host) (s : Seed) (w : World) :
  let s' := fst (Event_CullAll s w) in
  let w' := snd (Event_CullAll s w) in
  m_Entities s' = map (culled_or_kept w) (m_Entities s) /\
  m_Classes s' = m_Classes s /\
  m_iNumExisting s' = 0 /\ m_iNumVisible s' = 0 /\ m_iNumStaticMulties s' = 0 /\
  entities w' = entities w /\
  (SEED_ENTITY_EXISTS <> 0 ->
   Forall (fun e => Z.land (flags e) SEED_ENTITY_EXISTS <> 0 ->
                    list_get (entities w) (entity e) None = None)
          (m_Entities s')).
Proof.
  cbv zeta. unfold Event_CullAll.
  pose proof (cull_fold K H w (m_Entities s) [] s w eq_refl eq_refl eq_refl)
    as Hfold.
  cbn [List.length app] in Hfold. cbv zeta in Hfold.
  change (fold_left cull_step
            (map Z.of_nat (seq 0 (List.length (m_Entities s)))) (s, w))
    with (fold_left
            (fun sw i =>
               let '(_, s', w') := CullEntity (fst sw) (snd sw) i in (s', w'))
            (indices (m_Entities s)) (s, w)) in Hfold.
  destruct (fold_left _ (indices (m_Entities s)) (s, w)) as [s1 w1].
  cbn [fst snd] in *. destruct Hfold as (He & Hc & Hw & Hp).
  cbn [m_Entities m_Classes m_iNumExisting m_iNumVisible m_iNumStaticMulties].
  repeat split; try assumption.
  intros Hex. rewrite He. apply Forall_map. apply Forall_forall. intros e _.
  unfold culled_or_kept.
  destruct (Z.land (flags e) SEED_ENTITY_EXISTS =? 0) eqn:E.
  - apply Z.eqb_eq in E. intros Hne. contradiction.
  - destruct (list_get (entities w) (entity e) None) as [ent2 |] eqn:Hlive.
    + unfold culled_entity. cbn [flags]. unfold C_not.
      destruct (SEED_ENTITY_EXISTS =? 0) eqn:E0;
        [apply Z.eqb_eq in E0; contradiction |].
      rewrite Z.land_0_r, Z.land_0_l. intros Hne. contradiction.
    + intros _. exact Hlive.
Qed.

(* ================================================================= *)
(** ** Combining: what happens to the tables *)

Lemma negate_classIdx_length (ents : list seed_entity_t) (idx : Z) :
  List.length (negate_classIdx ents idx) = List.length ents.
Proof. unfold negate_classIdx. apply Nat2Z.inj. apply list_set_length_Z. Qed.

Lemma collect_ents_length (K : Constants) (H : Host) (js : list Z)
    (multiPVS : bool) (pvs : list Z) (dist : float) (entityClass : seed_class_t)
    (i : Z) :
  forall (ents : list seed_entity_t) (so : list seed_sort_ofs_t) (merged : Z),
    List.length
      (fst (fst (collect js multiPVS pvs dist entityClass i ents so merged)))
    = List.length ents.
Proof.
  induction js as [| j rest IH]; intros ents so merged; cbn [collect].
  - reflexivity.
  - destruct (mergeable multiPVS pvs dist ents i j).
    + rewrite IH. apply negate_classIdx_length.
    + apply IH.
Qed.

Lemma fold_negate_length (l : list seed_sort_ofs_t) :
  forall ents : list seed_entity_t,
    List.length
      (fold_left (fun ents so => negate_classIdx ents (so_entity so)) l ents)
    = List.length ents.
Proof.
  induction l as [| so l IH]; intros ents; cbn [fold_left]; [reflexivity |].
  rewrite IH. apply negate_classIdx_length.
Qed.

Lemma truncate_offsets_length (K : Constants) (H : Host)
    (maxModelCount merged : Z) (so : list seed_sort_ofs_t)
    (ents : list seed_entity_t) :
  List.length (snd (truncate_offsets maxModelCount merged so ents))
  = List.length ents.
Proof.
  unfold truncate_offsets. destruct (maxModelCount <? merged); [| reflexivity].
  cbn [snd]. apply fold_negate_length.
Qed.

Lemma mark_merged_length (so : list seed_sort_ofs_t) :
  forall ents : list seed_entity_t,
    List.length (mark_merged so ents) = List.length ents.
Proof.
  unfold mark_merged. induction so as [| o so IH]; intros ents; cbn [fold_left];
    [reflexivity |].
  rewrite IH. apply Nat2Z.inj. apply list_set_length_Z.
Qed.

(** One round of the loop over the instances keeps the number of
    instances, and leaves the class table as it is or appends one pseudo
    class to it. *)
Lemma combine_one_tables (K : Constants) (H : Host)
    (m_bDebugColors multiPVS : bool) (pvs : list Z) (dist : float)
    (js : list Z) (i : Z) (st : combine_t) :
  let st' := combine_one m_bDebugColors multiPVS pvs dist js i st in
  List.length (cb_Entities st') = List.length (cb_Entities st) /\
  (cb_Classes st' = cb_Classes st \/
   exists P, cb_Classes st' = (cb_Classes st ++ [P])%list /\ composite_class P).
Proof.
  cbv zeta. unfold combine_one.
  destruct (classIdx _ <? 0); [split; [reflexivity | now left] |].
  destruct (nocombine _); [split; [reflexivity | now left] |].
  destruct ((if hModel _ =? 0 then _ else _) =? 0);
    [split; [reflexivity | now left] |].
  match goal with
  | |- context [collect ?a ?b ?c ?d ?e ?f ?g ?h ?k] =>
      pose proof (collect_ents_length K H a b c d e f g h k) as Hlen;
      destruct (collect a b c d e f g h k) as [[ents so] merged]
  end.
  cbn [fst] in Hlen.
  destruct (0 <? merged).
  - match goal with
    | |- context [truncate_offsets ?a ?b ?c ?d] =>
        pose proof (truncate_offsets_length K H a b c d) as Hlen2;
        destruct (truncate_offsets a b c d) as [so' ents']
    end.
    cbn [snd] in Hlen2. cbn [cb_Entities cb_Classes]. split.
    + apply Nat2Z.inj. rewrite list_set_length_Z. f_equal.
      rewrite mark_merged_length. congruence.
    + right. eexists. split; [reflexivity |]. unfold composite_class. cbn.
      repeat split.
  - cbn [cb_Entities cb_Classes]. split; [exact Hlen | now left].
Qed.

Lemma combine_loop_tables (K : Constants) (H : Host)
    (m_bDebugColors multiPVS : bool) (pvs : list Z) (dist : float) (n : nat)
    (todo : list nat) :
  forall st : combine_t,
    let st' := fold_left
                 (fun st i =>
                    combine_one m_bDebugColors multiPVS pvs dist
                      (map Z.of_nat (seq (S i) (n - 1 - i))) (Z.of_nat i) st)
                 todo st in
    List.length (cb_Entities st') = List.length (cb_Entities st) /\
    exists added, cb_Classes st' = (cb_Classes st ++ added)%list /\
                  Forall composite_class added.
Proof.
  induction todo as [| i rest IH]; intros st; cbn [fold_left].
  - split; [reflexivity |]. exists []. rewrite app_nil_r.
    split; [reflexivity | constructor].
  - cbv zeta in IH.
    destruct (combine_one_tables K H m_bDebugColors multiPVS pvs dist
                (map Z.of_nat (seq (S i) (n - 1 - i))) (Z.of_nat i) st)
      as [Hlen Hcls].
    destruct (IH (combine_one m_bDebugColors multiPVS pvs dist
                    (map Z.of_nat (seq (S i) (n - 1 - i))) (Z.of_nat i) st))
      as [Hlen' (added & Hadd & Hall)].
    split; [congruence |].
    destruct Hcls as [Hsame | (P & HP & Hcomp)].
    + exists added. rewrite Hadd, Hsame. split; [reflexivity | exact Hall].
    + exists (P :: added). rewrite Hadd, HP, <- app_assoc.
      split; [reflexivity |]. constructor; [exact Hcomp | exact Hall].
Qed.

(** X15.  [CombineEntities] never adds an instance, and it never
    changes or removes a class: the class table afterwards is the table
    before with pseudo classes appended, each of the class
    [atdm:seed_dummy_static] with score and counts 0 and no image map, so
    the class indices in use stay valid.  With fewer than two instances,
    or with combining switched off, it changes nothing at all. *)
Theorem CombineEntities_tables (K : Constants) (H : Host) (s : Seed) (w : World)
    (PseudoClass0 : seed_class_t) :
  let s' := fst (CombineEntities s w PseudoClass0) in
  (List.length (m_Entities s') <= List.length (m_Entities s))%nat /\
  (exists added, m_Classes s' = (m_Classes s ++ added)%list /\
                 Forall composite_class added) /\
  ((List.length (m_Entities s) <= 1)%nat \/ m_bCombine s = false ->
   m_Entities s' = m_Entities s /\ m_Classes s' = m_Classes s /\
   snd (CombineEntities s w PseudoClass0) = w).
Proof.
  cbv zeta. unfold CombineEntities.
  destruct (m_bCombine s) eqn:Hcomb; cbn [negb].
  2:{ cbn [fst snd]. split; [lia |]. split; [| auto].
      exists []. rewrite app_nil_r. split; [reflexivity | constructor]. }
  set (dist := F32.mul _ _).
  set (multiPVS := 1 <? m_iNumPVSAreas s).
  set (pvs := if multiPVS then _ else _).
  unfold combine_loop.
  pose proof (combine_loop_tables K H (m_bDebugColors s) multiPVS pvs dist
                (List.length (m_Entities s))
                (seq 0 (List.length (m_Entities s) - 1))
                (mkCombine (m_Entities s) (m_Classes s) 0 w PseudoClass0))
    as Hloop.
  cbv zeta in Hloop. cbn [cb_Entities cb_Classes] in Hloop.
  destruct Hloop as [Hlen (added & Hadd & Hall)].
  cbn [fst snd with_tables m_Entities m_Classes].
  split; [| split].
  - destruct (0 <? cb_mergedCount _).
    + etransitivity; [apply filter_length_le |]. lia.
    + lia.
  - exists added. split; assumption.
  - intros [Hn | Hoff]; [| discriminate].
    replace (List.length (m_Entities s) - 1)%nat with 0%nat by lia.
    cbn [seq fold_left cb_mergedCount cb_Entities cb_Classes cb_world].
    auto.
Qed.

Lemma list2_get0 {A : Type} (a b d : A) : list_get [a; b] 0 d = a.
Proof. reflexivity. Qed.

Lemma list2_get1 {A : Type} (a b d : A) : list_get [a; b] 1 d = b.
Proof. reflexivity. Qed.

Lemma list2_set0 {A : Type} (a b v : A) : list_set [a; b] 0 v = [v; b].
Proof. reflexivity. Qed.

Lemma list2_set1 {A : Type} (a b v : A) : list_set [a; b] 1 v = [a; v].
Proof. reflexivity. Qed.

(** X16.  Two instances of one class and one skin that can be combined:
    the class allows it and has a model that merges at least one more,
    the SEED lies in one PVS area, and the second instance is not farther
    from the first than the combine distance.  [CombineEntities] leaves
    one instance, at the place of the first, without rotation, marked as
    composite and of a new pseudo class at the end of the class table;
    the pseudo class has the model of the class and two offsets: zero
    with the angles of the first instance, and the way from the first to
    the second with the angles of the second. *)
Theorem combine_pair (K : Constants) (H : Host) (s : Seed) (w : World)
    (PseudoClass0 : seed_class_t) (e0 e1 : seed_entity_t) :
  let c := list_get (m_Classes s) (classIdx e0) no_class in
  m_bCombine s = true ->
  m_iNumPVSAreas s <= 1 ->
  m_Entities s = [e0; e1] ->
  0 <= classIdx e0 -> classIdx e1 = classIdx e0 -> skinIdx e1 = skinIdx e0 ->
  nocombine c = false ->
  class_model c <> 0 ->
  1 <= GetMaxModelCount (class_model c) ->
  F32.gtb (Vec3.LengthSqr (Vec3.sub (e_origin e1) (e_origin e0)))
          (max_combine_distance (spawnArgs s)) = false ->
  exists P e,
    m_Classes (fst (CombineEntities s w PseudoClass0))
      = (m_Classes s ++ [P])%list /\
    m_Entities (fst (CombineEntities s w PseudoClass0)) = [e] /\
    classIdx e = Z.of_nat (List.length (m_Classes s)) /\
    e_origin e = e_origin e0 /\ e_angles e = ang_zero /\
    flags e = wrap32 (flags e0 + SEED_ENTITY_PSEUDO) /\
    modelname P = modelname c /\
    map ofs_offset (offsets P)
      = [Vec3.zero; Vec3.sub (e_origin e1) (e_origin e0)] /\
    map ofs_angles (offsets P) = [e_angles e0; e_angles e1].
Proof.
  intros c Hcomb Hpvs Hents Hidx Hcls Hskin Hnc Hmodel Hmax Hdist.
  unfold CombineEntities. rewrite Hcomb. cbn [negb].
  fold (max_combine_distance (spawnArgs s)).
  assert (Hmulti : (1 <? m_iNumPVSAreas s) = false) by (apply Z.ltb_ge; lia).
  rewrite Hmulti, Hents. cbn [List.length]. unfold combine_loop.
  cbn [Nat.sub seq fold_left map].
  change (Z.of_nat 0) with 0. change (Z.of_nat 1) with 1.
  unfold combine_one.
  cbn [cb_Entities cb_Classes cb_world cb_mergedCount cb_PseudoClass].
  rewrite !list2_get0. fold c. fold (class_model c).
  destruct (classIdx e0 <? 0) eqn:E0; [apply Z.ltb_lt in E0; lia |].
  rewrite Hnc.
  destruct (class_model c =? 0) eqn:E1; [apply Z.eqb_eq in E1; contradiction |].
  cbn [collect].
  assert (Hmerge : mergeable false [] (max_combine_distance (spawnArgs s))
                     [e0; e1] 0 1 = true).
  { unfold mergeable. rewrite list2_get0, list2_get1.
    rewrite Hdist, Hcls, Hskin, !Z.eqb_refl. cbn [andb negb].
    destruct (classIdx e0 =? -1) eqn:E; [apply Z.eqb_eq in E; lia | reflexivity]. }
  rewrite Hmerge. rewrite !list2_get0, !list2_get1. cbn [app].
  change (0 + 1) with 1. change (0 <? 1) with true. cbv iota.
  rewrite (truncate_offsets_within K H _ 1 _ _ Hmax).
  unfold negate_classIdx, mark_merged. cbn [fold_left so_entity map so_ofs].
  rewrite ?list2_get0, ?list2_get1, ?list2_set0, ?list2_set1.
  rewrite ?list2_get0, ?list2_get1, ?list2_set0, ?list2_set1.
  rewrite ?list2_get0, ?list2_get1, ?list2_set0, ?list2_set1.
  cbn [set_classIdx classIdx skinIdx e_origin e_angles e_color flags entity
       e_scale].
  cbn [cb_mergedCount cb_Entities cb_Classes fst with_tables m_Classes
       m_Entities].
  change (0 + 1) with 1. change (0 <? 1) with true. cbv iota.
  cbn [filter classIdx].
  assert (Hnew : (Z.of_nat (List.length (m_Classes s)) =? -1) = false)
    by (apply Z.eqb_neq; lia).
  rewrite Hnew. change (-1 =? -1) with true. cbn [negb].
  eexists. eexists. split; [reflexivity |]. split; [reflexivity |].
  cbn [classIdx e_origin e_angles flags modelname make_pseudo offsets map].
  unfold make_ofs. destruct (ThinkAboutLOD _ _) as [a l].
  cbn [ofs_offset ofs_angles]. repeat split.
Qed.

Lemma combine_pair_witness :
  exists P e,
    m_Classes (fst (@CombineEntities sample_constants (test_host F32.one 1 2)
                      two_in_a_row empty_world no_class))
      = (m_Classes two_in_a_row ++ [P])%list /\
    m_Entities (fst (@CombineEntities sample_constants (test_host F32.one 1 2)
                       two_in_a_row empty_world no_class)) = [e] /\
    classIdx e = Z.of_nat (List.length (m_Classes two_in_a_row)) /\
    e_origin e = e_origin (entity_at 0 0) /\ e_angles e = ang_zero /\
    flags e = wrap32 (flags (entity_at 0 0) + 8) /\
    modelname P = modelname (plain_class "a" 1 0) /\
    map ofs_offset (offsets P)
      = [Vec3.zero;
         Vec3.sub (e_origin (entity_at 0 10)) (e_origin (entity_at 0 0))] /\
    map ofs_angles (offsets P)
      = [e_angles (entity_at 0 0); e_angles (entity_at 0 10)].
Proof.
  apply (combine_pair sample_constants (test_host F32.one 1 2) two_in_a_row
           empty_world no_class (entity_at 0 0) (entity_at 0 10));
    try reflexivity; try (vm_compute; congruence); cbn; lia.
Defined.

(* ================================================================= *)
(** ** The scheduler: what [Think] and the events change *)

Lemma SpawnEntity_frame (K : Constants) (H : Host) (s : Seed) (w : World)
    (idx : Z) (managed : bool) :
  let r := SpawnEntity s w idx managed in
  m_Classes (snd (fst r)) = m_Classes s /\
  m_fLODBias (snd (fst r)) = m_fLODBias s /\
  List.length (m_Entities (snd (fst r))) = List.length (m_Entities s) /\
  (forall j, j <> idx ->
             list_get (m_Entities (snd (fst r))) j no_entity
             = list_get (m_Entities s) j no_entity) /\
  removals (snd r) = removals w /\
  (m_Entities (snd (fst r)) = m_Entities s \/
   exists n, m_Entities (snd (fst r))
             = list_set (m_Entities s) idx
                 (spawned_entity (list_get (m_Entities s) idx no_entity) n)).
Proof.
  cbv zeta. unfold SpawnEntity.
  destruct (SPAWN_LIMIT <? num_entities w); [cbn; auto 10 |].
  destruct (FindEntityDefDict _); [| cbn; auto 10].
  destruct (SpawnEntityDef w _) as [[n ent2] |]; [| cbn; auto 10].
  cbn [fst snd]. unfold with_entity. cbn [m_Classes m_fLODBias m_Entities].
  split; [reflexivity |]. split; [reflexivity |].
  split; [apply Nat2Z.inj; apply list_set_length_Z |].
  split; [intros j Hj; apply list_get_set_other; congruence |].
  split; [destruct (pseudo _); reflexivity |].
  right. exists n. reflexivity.
Qed.

Lemma CullEntity_frame (K : Constants) (H : Host) (s : Seed) (w : World)
    (idx : Z) :
  let r := CullEntity s w idx in
  m_Classes (snd (fst r)) = m_Classes s /\
  m_fLODBias (snd (fst r)) = m_fLODBias s /\
  List.length (m_Entities (snd (fst r))) = List.length (m_Entities s) /\
  (forall j, j <> idx ->
             list_get (m_Entities (snd (fst r))) j no_entity
             = list_get (m_Entities s) j no_entity) /\
  entities (snd r) = entities w /\ num_entities (snd r) = num_entities w /\
  (removals (snd r) = removals w \/
   removals (snd r)
   = entity (list_get (m_Entities s) idx no_entity) :: removals w) /\
  (m_Entities (snd (fst r)) = m_Entities s \/
   exists ph, m_Entities (snd (fst r))
              = list_set (m_Entities s) idx
                  (culled_entity (list_get (m_Entities s) idx no_entity) ph)).
Proof.
  cbv zeta. unfold CullEntity.
  destruct (Z.land _ SEED_ENTITY_EXISTS =? 0); [cbn; auto 10 |].
  destruct (list_get (entities w) _ None) as [ent2 |]; [| cbn; auto 10].
  cbn [fst snd]. unfold with_entity.
  cbn [m_Classes m_fLODBias m_Entities entities num_entities removals].
  split; [reflexivity |]. split; [reflexivity |].
  split; [apply Nat2Z.inj; apply list_set_length_Z |].
  split; [intros j Hj; apply list_get_set_other; congruence |].
  split; [reflexivity |]. split; [reflexivity |].
  split; [right; reflexivity |].
  right. exists (GetPhysics w ent2). reflexivity.
Qed.

Lemma list_get_outside {A : Type} (l : list A) (j : Z) (d : A) :
  ~ (0 <= j < Z.of_nat (List.length l)) -> list_get l j d = d.
Proof.
  intros Hj. unfold list_get. destruct (j <? 0) eqn:E; [reflexivity |].
  apply Z.ltb_ge in E. apply nth_overflow. lia.
Qed.

Lemma list_get_set_any {A : Type} (l : list A) (i : Z) (v d : A) :
  list_get (list_set l i v) i d = v \/
  list_get (list_set l i v) i d = list_get l i d.
Proof.
  destruct (Z_lt_dec i 0) as [Hneg | Hpos].
  - right. unfold list_get. apply Z.ltb_lt in Hneg. now rewrite Hneg.
  - destruct (Z_lt_dec i (Z.of_nat (List.length l))) as [Hin | Hout].
    + left. apply list_get_set. lia.
    + right. rewrite !list_get_outside; [reflexivity | lia |].
      rewrite list_set_length_Z. lia.
Qed.

(** One round of the loop of the distance checks. *)
Lemma check_instance_frame (K : Constants) (H : Host) (sw : Seed * World)
    (i : Z) :
  let sw' := check_instance sw i in
  m_Classes (fst sw') = m_Classes (fst sw) /\
  m_fLODBias (fst sw') = m_fLODBias (fst sw) /\
  List.length (m_Entities (fst sw')) = List.length (m_Entities (fst sw)) /\
  (forall j, j <> i ->
             list_get (m_Entities (fst sw')) j no_entity
             = list_get (m_Entities (fst sw)) j no_entity) /\
  (asked (fst sw) i = DoNothing -> sw' = sw) /\
  (forall r, In r (removals (snd sw')) ->
             In r (removals (snd sw)) \/
             (asked (fst sw) i = DoCull /\
              r = entity (list_get (m_Entities (fst sw)) i no_entity))) /\
  (asked (fst sw) i <> DoSpawn ->
   entities (snd sw') = entities (snd sw) /\
   num_entities (snd sw') = num_entities (snd sw)) /\
  handled (asked (fst sw) i) (list_get (m_Entities (fst sw)) i no_entity)
          (list_get (m_Entities (fst sw')) i no_entity).
Proof.
  destruct sw as [s w]. cbv zeta. unfold check_instance, asked. cbn [fst snd].
  set (ent := list_get (m_Entities s) i no_entity).
  set (lclass := list_get (m_Classes s) (classIdx ent) no_class).
  destruct (distance_check lclass ent).
  - pose proof (SpawnEntity_frame K H s w i (negb (pseudo lclass))) as F.
    cbv zeta in F. fold ent in F.
    destruct (SpawnEntity s w i (negb (pseudo lclass))) as [[b s'] w'].
    cbn [fst snd] in *. destruct F as (F1 & F2 & F3 & F4 & F5 & F6).
    split; [exact F1 |]. split; [exact F2 |]. split; [exact F3 |].
    split; [exact F4 |]. split; [discriminate |].
    split; [intros r Hr; left; congruence |].
    split; [intros X; now contradiction X |].
    cbn [handled]. destruct F6 as [F6 | [n F6]]; rewrite F6.
    + now left.
    + destruct (list_get_set_any (m_Entities s) i (spawned_entity ent n)
                                 no_entity) as [E | E]; rewrite E.
      * right. now exists n.
      * now left.
  - pose proof (CullEntity_frame K H s w i) as F. cbv zeta in F. fold ent in F.
    destruct (CullEntity s w i) as [[b s'] w']. cbn [fst snd] in *.
    destruct F as (F1 & F2 & F3 & F4 & F5 & F6 & F7 & F8).
    split; [exact F1 |]. split; [exact F2 |]. split; [exact F3 |].
    split; [exact F4 |]. split; [discriminate |].
    split.
    { intros r Hr. destruct F7 as [F7 | F7]; rewrite F7 in Hr.
      + now left.
      + destruct Hr as [Hr | Hr]; [right; split; [reflexivity | now symmetry] |].
        now left. }
    split; [intros _; now split |].
    cbn [handled]. destruct F8 as [F8 | [ph F8]]; rewrite F8.
    + now left.
    + destruct (list_get_set_any (m_Entities s) i (culled_entity ent ph)
                                 no_entity) as [E | E]; rewrite E.
      * right. now exists ph.
      * now left.
  - cbn [handled]. repeat split; auto; try discriminate.
Qed.

Lemma indices_NoDup {A : Type} (l : list A) : NoDup (indices l).
Proof.
  unfold indices. generalize 0%nat as a. generalize (List.length l) as n.
  induction n as [| n IH]; intros a; cbn; constructor; [| apply IH].
  intros Hin. apply in_map_iff in Hin. destruct Hin as (x & Hx & Hin).
  apply in_seq in Hin. lia.
Qed.

Lemma indices_In {A : Type} (l : list A) (j : Z) :
  In j (indices l) <-> 0 <= j < Z.of_nat (List.length l).
Proof.
  unfold indices. rewrite in_map_iff. split.
  - intros (x & Hx & Hin). apply in_seq in Hin. lia.
  - intros Hj. exists (Z.to_nat j). split; [lia |]. apply in_seq. lia.
Qed.

(** The loop of the distance checks over the indices [todo], started in a
    distribution that agrees with [s0] on the classes and on the
    instances still to be visited. *)
Lemma check_instances_fold (K : Constants) (H : Host) (s0 : Seed) :
  forall (todo : list Z) (sw : Seed * World),
    NoDup todo ->
    m_Classes (fst sw) = m_Classes s0 ->
    (forall i, In i todo ->
               list_get (m_Entities (fst sw)) i no_entity
               = list_get (m_Entities s0) i no_entity) ->
    let sw' := fold_left check_instance todo sw in
    m_Classes (fst sw') = m_Classes s0 /\
    m_fLODBias (fst sw') = m_fLODBias (fst sw) /\
    List.length (m_Entities (fst sw')) = List.length (m_Entities (fst sw)) /\
    (forall j, ~ In j todo ->
               list_get (m_Entities (fst sw')) j no_entity
               = list_get (m_Entities (fst sw)) j no_entity) /\
    (forall j, In j todo ->
               handled (asked s0 j) (list_get (m_Entities s0) j no_entity)
                       (list_get (m_Entities (fst sw')) j no_entity)) /\
    (forall r, In r (removals (snd sw')) ->
               In r (removals (snd sw)) \/
               exists i, In i todo /\ asked s0 i = DoCull /\
                         r = entity (list_get (m_Entities s0) i no_entity)) /\
    ((forall i, In i todo -> asked s0 i <> DoSpawn) ->
     entities (snd sw') = entities (snd sw) /\
     num_entities (snd sw') = num_entities (snd sw)).
Proof.
  induction todo as [| a todo IH]; intros sw Hnd Hcls Hinst; cbv zeta.
  - cbn. repeat split; auto. all: try (now intros j []).
  - cbn [fold_left].
    pose proof (check_instance_frame K H sw a) as F. cbv zeta in F.
    destruct F as (F1 & F2 & F3 & F4 & F5 & F6 & F7 & F8).
    inversion Hnd as [| a' todo' Hnotin Hnd']; subst.
    assert (Hask : asked (fst sw) a = asked s0 a).
    { unfold asked. rewrite Hcls, (Hinst a) by (now left). reflexivity. }
    assert (Hinst' : forall i, In i todo ->
               list_get (m_Entities (fst (check_instance sw a))) i no_entity
               = list_get (m_Entities s0) i no_entity).
    { intros i Hi. rewrite F4; [apply Hinst; now right |].
      intros ->. contradiction. }
    specialize (IH (check_instance sw a) Hnd' (eq_trans F1 Hcls) Hinst').
    cbv zeta in IH. destruct IH as (I1 & I2 & I3 & I4 & I5 & I6 & I7).
    split; [| split; [| split; [| split; [| split; [| split]]]]].
    + exact I1.
    + congruence.
    + congruence.
    + intros j Hj. rewrite I4 by (intros Hin; apply Hj; now right).
      apply F4. intros ->. apply Hj. now left.
    + intros j [-> | Hj].
      * rewrite I4 by exact Hnotin. rewrite <- Hask.
        rewrite <- (Hinst j) by (now left). exact F8.
      * now apply I5.
    + intros r Hr. destruct (I6 r Hr) as [Hr' | (i & Hi & Hc & Er)].
      * destruct (F6 r Hr') as [Hr'' | [Hc Er]]; [now left |].
        right. exists a. split; [now left |]. split; [congruence |].
        rewrite Er. now rewrite Hinst by (now left).
      * right. exists i. split; [now right |]. now split.
    + intros X.
      destruct I7 as [I7a I7b]; [intros i Hi; apply X; now right |].
      destruct F7 as [F7a F7b]; [rewrite Hask; apply X; now left |].
      split; congruence.
Qed.

Lemma asked_cull (K : Constants) (H : Host) (s : Seed) (i : Z) :
  asked s i = DoCull ->
  let ent := list_get (m_Entities s) i no_entity in
  let lclass := list_get (m_Classes s) (classIdx ent) no_class in
  Z.land (flags ent) SEED_ENTITY_EXISTS <> 0 /\
  F32.gtb (cullDist lclass) F32.zero = true /\
  F32.gtb (deltaSq lclass ent) (cullDist lclass) = true.
Proof.
  cbv zeta. unfold asked, distance_check.
  destruct (Z.land _ SEED_ENTITY_EXISTS =? 0) eqn:E.
  - cbn [negb andb].
    destruct (F32.eqb _ F32.zero || F32.ltb _ _); cbn; discriminate.
  - cbn [negb andb]. apply Z.eqb_neq in E.
    destruct (F32.gtb (cullDist _) F32.zero); cbn [andb]; [| discriminate].
    destruct (F32.gtb (deltaSq _ _) _); [auto | discriminate].
Qed.

(** X17.  A pass of the distance checks of [Think] handles every
    instance by what it was at the start of the pass, and once: an
    instance for which the check asks nothing is left as it is, one to
    spawn is left as it is or becomes the spawned instance, one to cull
    is left as it is or becomes the culled instance.  The class table and
    the number of instances do not change.  In particular an existing
    instance of a class without a cull distance stays as it is at any
    distance of the player. *)
Theorem distance_checks_instances (K : Constants) (H : Host) (s : Seed)
    (w : World) :
  let s' := fst (distance_checks s w) in
  m_Classes s' = m_Classes s /\
  List.length (m_Entities s') = List.length (m_Entities s) /\
  (forall j,
      handled (asked s j) (list_get (m_Entities s) j no_entity)
              (list_get (m_Entities s') j no_entity)) /\
  (forall j,
      let ent := list_get (m_Entities s) j no_entity in
      let lclass := list_get (m_Classes s) (classIdx ent) no_class in
      Z.land (flags ent) SEED_ENTITY_EXISTS <> 0 ->
      F32.gtb (cullDist lclass) F32.zero = false ->
      list_get (m_Entities s') j no_entity = ent).
Proof.
  cbv zeta. unfold distance_checks.
  pose proof (check_instances_fold K H s (indices (m_Entities s)) (s, w)
                (indices_NoDup _) eq_refl (fun i _ => eq_refl)) as F.
  cbv zeta in F. cbn [fst snd] in F.
  destruct F as (F1 & _ & F3 & F4 & F5 & _).
  assert (Hall : forall j,
      handled (asked s j) (list_get (m_Entities s) j no_entity)
        (list_get (m_Entities
                     (fst (fold_left check_instance (indices (m_Entities s))
                                     (s, w)))) j no_entity)).
  { intros j. destruct (in_dec Z.eq_dec j (indices (m_Entities s))) as [Hin | Hout].
    - now apply F5.
    - rewrite (F4 j Hout). destruct (asked s j); cbn [handled]; auto. }
  split; [exact F1 |]. split; [exact F3 |]. split; [exact Hall |].
  intros j Hex Hcull. specialize (Hall j).
  assert (E : asked s j = DoNothing).
  { unfold asked, distance_check. apply Z.eqb_neq in Hex. rewrite Hex, Hcull.
    reflexivity. }
  rewrite E in Hall. exact Hall.
Qed.

(** X18.  A pass of the distance checks posts for removal only live
    objects of instances that existed at the start of the pass and were
    farther from the player than the cull distance of their class, that
    distance being set; and when no instance is to be spawned, the table
    of live objects stays as it is. *)
Theorem distance_checks_world (K : Constants) (H : Host) (s : Seed)
    (w : World) :
  let w' := snd (distance_checks s w) in
  (forall r, In r (removals w') ->
     In r (removals w) \/
     exists i,
       let ent := list_get (m_Entities s) i no_entity in
       let lclass := list_get (m_Classes s) (classIdx ent) no_class in
       0 <= i < Z.of_nat (List.length (m_Entities s)) /\
       Z.land (flags ent) SEED_ENTITY_EXISTS <> 0 /\
       F32.gtb (cullDist lclass) F32.zero = true /\
       F32.gtb (deltaSq lclass ent) (cullDist lclass) = true /\
       r = entity ent) /\
  ((forall i, 0 <= i < Z.of_nat (List.length (m_Entities s)) ->
              asked s i <> DoSpawn) ->
   entities w' = entities w /\ num_entities w' = num_entities w).
Proof.
  cbv zeta. unfold distance_checks.
  pose proof (check_instances_fold K H s (indices (m_Entities s)) (s, w)
                (indices_NoDup _) eq_refl (fun i _ => eq_refl)) as F.
  cbv zeta in F. cbn [fst snd] in F.
  destruct F as (_ & _ & _ & _ & _ & F6 & F7).
  split.
  - intros r Hr. destruct (F6 r Hr) as [Hin | (i & Hi & Hc & Er)];
      [now left |].
    right. exists i. apply indices_In in Hi.
    destruct (asked_cull K H s i Hc) as (A1 & A2 & A3). auto 10.
  - intros Hno. apply F7. intros i Hi. apply Hno. now apply indices_In.
Qed.

Lemma Fabs_sub_self (a : float) :
  F64.ltb (F64.lit 1 10) (F64.of_float (idMath_Fabs (F32.sub a a))) = false.
Proof.
  destruct a as [s | s | | s m e].
  - destruct s; vm_compute; reflexivity.
  - destruct s; vm_compute; reflexivity.
  - vm_compute; reflexivity.
  - assert (E : F32.sub (S754_finite s m e) (S754_finite s m e) = S754_zero false).
    { unfold F32.sub, SFsub. rewrite Z.min_id.
      set (x := cond_Zopp s (Z.pos (fst (shl_align m e e)))).
      replace (Zminus x x) with 0 by (symmetry; apply Z.sub_diag).
      reflexivity. }
    rewrite E. vm_compute. reflexivity.
Qed.

Lemma Think_bias_changed_bias (K : Constants) (H : Host) (s : Seed) (w : World)
    (e0 : seed_entity_t) (c0 : seed_class_t) :
  m_fLODBias (fst (Think_bias_changed s w e0 c0)) = cv_lod_bias.
Proof.
  unfold Think_bias_changed.
  destruct (ComputeEntityCount _ _ _) as [classes n].
  destruct (negb (m_iNumEntities s =? n)).
  - destruct (Event_CullAll _ w) as [s1 w1].
    destruct (PrepareEntities _ w1 e0 c0) as [s2 w2]. reflexivity.
  - reflexivity.
Qed.

Lemma distance_checks_bias (K : Constants) (H : Host) (s : Seed) (w : World) :
  m_fLODBias (fst (distance_checks s w)) = m_fLODBias s.
Proof.
  unfold distance_checks.
  pose proof (check_instances_fold K H s (indices (m_Entities s)) (s, w)
                (indices_NoDup _) eq_refl (fun i _ => eq_refl)) as F.
  cbv zeta in F. now destruct F as (_ & F2 & _).
Qed.

(** X19.  After a [Think] of a prepared SEED the bias recorded in the
    distribution no longer differs from the setting of the GUI, whatever
    both were before: a changed setting is taken up once, and the next
    [Think] does not compute the entity count again. *)
Theorem Think_takes_up_bias (K : Constants) (H : Host)
    (e0 : seed_entity_t) (c0 : seed_class_t)
    (st : Scheduler) (w : World) (time : Z) (inPVS : bool) :
  bias_changed (sc_seed (fst (Think_prepared e0 c0 st w time inPVS))) = false.
Proof.
  unfold Think_prepared.
  assert (E : bias_changed
                (fst (if bias_changed (sc_seed st)
                      then Think_bias_changed (sc_seed st) w e0 c0
                      else (sc_seed st, w))) = false).
  { destruct (bias_changed (sc_seed st)) eqn:B; [| exact B].
    unfold bias_changed. rewrite Think_bias_changed_bias. apply Fabs_sub_self. }
  destruct (if bias_changed (sc_seed st)
            then Think_bias_changed (sc_seed st) w e0 c0
            else (sc_seed st, w)) as [s1 w1]. cbn [fst] in E.
  cbn [with_seed m_bRestoreLOD m_DistCheckInterval m_DistCheckTimeStamp
       m_iThinkCounter].
  destruct (_ <? _); [| exact E].
  destruct (_ && negb inPVS); [exact E |].
  pose proof (distance_checks_bias K H s1
                (if m_bRestoreLOD st && (0 <? m_iNumStaticMulties s1)
                 then restore_LOD s1 w1 else w1)) as D.
  destruct (distance_checks s1 _) as [s2 w2]. cbn [fst] in *.
  unfold bias_changed in *. cbn [sc_seed with_seed]. now rewrite D.
Qed.

Lemma Think_gated (K : Constants) (H : Host)
    (Prepare : Scheduler -> World -> Scheduler * World)
    (e0 : seed_entity_t) (c0 : seed_class_t)
    (st : Scheduler) (w : World) (time : Z) (inPVS : bool) :
  m_iNumEntities (sc_seed st) < 0 \/ m_bWaitForTrigger st = true ->
  Think Prepare e0 c0 st w time inPVS = (st, w).
Proof.
  intros [Hn | Hw]; unfold Think.
  - apply Z.ltb_lt in Hn. now rewrite Hn.
  - rewrite Hw. now rewrite orb_true_r.
Qed.

(** X20.  A SEED whose entity count is negative, as [Prepare] leaves it
    when there is nothing to place, stays as it is for good: no sequence
    of [Think], [Event_Activate], [Event_Disable] and [Event_Enable]
    prepares it, changes its distribution or touches the world. *)
Theorem run_without_entities (K : Constants) (H : Host)
    (Prepare : Scheduler -> World -> Scheduler * World)
    (e0 : seed_entity_t) (c0 : seed_class_t)
    (calls : list call) (st : Scheduler) (w : World) :
  m_iNumEntities (sc_seed st) < 0 ->
  let r := run Prepare e0 c0 calls (st, w) in
  sc_seed (fst r) = sc_seed st /\ snd r = w /\
  m_bPrepared (fst r) = m_bPrepared st /\
  m_iThinkCounter (fst r) = m_iThinkCounter st /\
  m_DistCheckTimeStamp (fst r) = m_DistCheckTimeStamp st.
Proof.
  intros Hn. cbv zeta. unfold run. revert st Hn.
  induction calls as [| c calls IH]; intros st Hn; [cbn; auto |].
  cbn [fold_left].
  assert (Hstep : let r := do_call Prepare e0 c0 (st, w) c in
                  sc_seed (fst r) = sc_seed st /\ snd r = w /\
                  m_bPrepared (fst r) = m_bPrepared st /\
                  m_iThinkCounter (fst r) = m_iThinkCounter st /\
                  m_DistCheckTimeStamp (fst r) = m_DistCheckTimeStamp st).
  { destruct c as [time inPVS | | |]; cbn [do_call fst snd].
    - rewrite Think_gated by (now left). cbn. auto.
    - cbn. auto.
    - cbn. auto.
    - cbn. auto. }
  cbv zeta in Hstep.
  destruct (do_call Prepare e0 c0 (st, w) c) as [st1 w1]. cbn [fst snd] in Hstep.
  destruct Hstep as (S1 & S2 & S3 & S4 & S5). subst w1.
  specialize (IH st1). rewrite S1 in IH. specialize (IH Hn).
  rewrite <- S1, <- S3, <- S4, <- S5. rewrite S1. exact IH.
Qed.

Lemma run_without_entities_witness :
  let st := sample_scheduler (sample_seed [] [] [] 7 (-1)) 0 in
  let calls := [CallActivate; CallThink 1000 true; CallEnable; CallThink 2000 false] in
  m_iNumEntities (sc_seed st) < 0 /\
  sc_seed (fst (@run sample_constants idle_host no_Prepare no_entity no_class
                     calls (st, empty_world))) = sc_seed st.
Proof.
  cbv zeta. split; [cbn; lia |].
  apply (run_without_entities sample_constants idle_host no_Prepare no_entity
           no_class
           [CallActivate; CallThink 1000 true; CallEnable; CallThink 2000 false]
           (sample_scheduler (sample_seed [] [] [] 7 (-1)) 0) empty_world).
  cbn. lia.
Defined.

(** One prepared [Think]: the fields of the scheduler. *)
Lemma Think_prepared_fields (K : Constants) (H : Host)
    (e0 : seed_entity_t) (c0 : seed_class_t)
    (st : Scheduler) (w : World) (time : Z) (inPVS : bool) :
  let st' := fst (Think_prepared e0 c0 st w time inPVS) in
  m_bPrepared st' = m_bPrepared st /\
  m_bRestoreLOD st' = m_bRestoreLOD st /\
  m_bWaitForTrigger st' = m_bWaitForTrigger st /\
  m_DistCheckInterval st' = m_DistCheckInterval st /\
  (0 <= m_iThinkCounter st <= 20 -> 0 <= m_iThinkCounter st' <= 20) /\
  (m_DistCheckTimeStamp st' = m_DistCheckTimeStamp st \/
   m_DistCheckTimeStamp st' = time).
Proof.
  cbv zeta. unfold Think_prepared.
  destruct (if bias_changed (sc_seed st)
            then Think_bias_changed (sc_seed st) w e0 c0
            else (sc_seed st, w)) as [s1 w1].
  cbn [with_seed m_bRestoreLOD m_DistCheckInterval m_DistCheckTimeStamp
       m_iThinkCounter].
  destruct (_ <? _); [| cbn; auto 10].
  destruct (m_iThinkCounter st <? 20) eqn:E; cbn [andb].
  - destruct inPVS; cbn [negb].
    + destruct (distance_checks s1 _) as [s2 w2]. cbn. repeat split; auto; lia.
    + apply Z.ltb_lt in E. cbn. repeat split; auto; lia.
  - destruct (distance_checks s1 _) as [s2 w2]. cbn. repeat split; auto; lia.
Qed.

(** X21.  Once a SEED is prepared, no sequence of [Think] and of the
    events prepares it again or clears the flag that makes [Think] give
    the composite objects their LOD data after a restore; the interval
    of the distance check stays as it is, and the counter of the checks
    skipped outside the PVS of the player stays between 0 and 20. *)
Theorem run_prepared (K : Constants) (H : Host)
    (Prepare : Scheduler -> World -> Scheduler * World)
    (e0 : seed_entity_t) (c0 : seed_class_t)
    (calls : list call) (st : Scheduler) (w : World) :
  m_bPrepared st = true ->
  0 <= m_iThinkCounter st <= 20 ->
  let st' := fst (run Prepare e0 c0 calls (st, w)) in
  m_bPrepared st' = true /\
  m_bRestoreLOD st' = m_bRestoreLOD st /\
  m_DistCheckInterval st' = m_DistCheckInterval st /\
  0 <= m_iThinkCounter st' <= 20.
Proof.
  cbv zeta. unfold run. revert st w.
  induction calls as [| c calls IH]; intros st w Hp Hc; [cbn; auto |].
  cbn [fold_left].
  assert (Hstep : let st1 := fst (do_call Prepare e0 c0 (st, w) c) in
                  m_bPrepared st1 = true /\
                  m_bRestoreLOD st1 = m_bRestoreLOD st /\
                  m_DistCheckInterval st1 = m_DistCheckInterval st /\
                  0 <= m_iThinkCounter st1 <= 20).
  { destruct c as [time inPVS | | |]; cbn [do_call fst snd];
      [| cbn; auto | cbn; auto | cbn; auto].
    unfold Think.
    destruct (_ || _); [cbn; auto |]. rewrite Hp. cbn [negb].
    pose proof (Think_prepared_fields K H e0 c0 st w time inPVS) as F.
    cbv zeta in F. destruct F as (F1 & F2 & F3 & F4 & F5 & F6).
    rewrite F1, F2, F4. auto. }
  cbv zeta in Hstep.
  destruct (do_call Prepare e0 c0 (st, w) c) as [st1 w1]. cbn [fst] in Hstep.
  destruct Hstep as (S1 & S2 & S3 & S4).
  rewrite <- S2, <- S3. now apply IH.
Qed.

Lemma run_prepared_witness :
  let st := sample_scheduler three_in_a_row 19 in
  let calls := [CallThink 1000 false; CallThink 2000 false; CallDisable;
                CallThink 3000 true] in
  m_bPrepared st = true /\ 0 <= m_iThinkCounter st <= 20 /\
  0 <= m_iThinkCounter
         (fst (@run sample_constants idle_host no_Prepare no_entity no_class
                    calls (st, empty_world))) <= 20.
Proof.
  cbv zeta. split; [reflexivity |]. split; [cbn; lia |].
  apply (run_prepared sample_constants idle_host no_Prepare no_entity no_class
           [CallThink 1000 false; CallThink 2000 false; CallDisable;
            CallThink 3000 true]
           (sample_scheduler three_in_a_row 19) empty_world).
  - reflexivity.
  - cbn. lia.
Defined.

(** X22.  A SEED that waits for its trigger is left alone until it is
    activated: no sequence of [Think], [Event_Disable] and [Event_Enable]
    prepares it or changes its distribution or the world, and it keeps
    waiting. *)
Theorem run_waiting_for_trigger (K : Constants) (H : Host)
    (Prepare : Scheduler -> World -> Scheduler * World)
    (e0 : seed_entity_t) (c0 : seed_class_t)
    (calls : list call) (st : Scheduler) (w : World) :
  m_bWaitForTrigger st = true ->
  Forall (fun c => c <> CallActivate) calls ->
  let r := run Prepare e0 c0 calls (st, w) in
  sc_seed (fst r) = sc_seed st /\ snd r = w /\
  m_bPrepared (fst r) = m_bPrepared st /\
  m_bWaitForTrigger (fst r) = true.
Proof.
  intros Hw Hcalls. cbv zeta. unfold run. revert st Hw.
  induction Hcalls as [| c calls Hc Hcalls IH]; intros st Hw; [cbn; auto |].
  cbn [fold_left].
  assert (Hstep : let r := do_call Prepare e0 c0 (st, w) c in
                  sc_seed (fst r) = sc_seed st /\ snd r = w /\
                  m_bPrepared (fst r) = m_bPrepared st /\
                  m_bWaitForTrigger (fst r) = true).
  { destruct c as [time inPVS | | |]; cbn [do_call fst snd].
    - rewrite Think_gated by (now right). cbn. auto.
    - now contradiction Hc.
    - cbn. auto.
    - cbn. auto. }
  cbv zeta in Hstep.
  destruct (do_call Prepare e0 c0 (st, w) c) as [st1 w1]. cbn [fst snd] in Hstep.
  destruct Hstep as (S1 & S2 & S3 & S4). subst w1.
  rewrite <- S1, <- S3. now apply IH.
Qed.

Lemma run_waiting_for_trigger_witness :
  let st := mkScheduler three_in_a_row true true true false false 0 0 500 []
                        0 Vec3.zero in
  let calls := [CallThink 1000 true; CallEnable; CallThink 2000 true] in
  m_bWaitForTrigger st = true /\
  Forall (fun c => c <> CallActivate) calls /\
  sc_seed (fst (@run sample_constants idle_host no_Prepare no_entity no_class
                     calls (st, empty_world))) = three_in_a_row.
Proof.
  cbv zeta. split; [reflexivity |].
  assert (F : Forall (fun c => c <> CallActivate)
                [CallThink 1000 true; CallEnable; CallThink 2000 true])
    by (repeat constructor; discriminate).
  split; [exact F |].
  exact (proj1 (run_waiting_for_trigger sample_constants idle_host no_Prepare
                  no_entity no_class
                  [CallThink 1000 true; CallEnable; CallThink 2000 true]
                  (mkScheduler three_in_a_row true true true false false 0 0
                               500 [] 0 Vec3.zero)
                  empty_world eq_refl F)).
Defined.

(* ================================================================= *)
(** ** Preparing: what [Prepare] leaves behind *)

Lemma land_low31 (v : Z) : Z.land v 2147483647 = v mod 2 ^ 31.
Proof. change 2147483647 with (Z.ones 31). apply Z.land_ones. lia. Qed.

Lemma wrap32_mod31 (v : Z) : wrap32 v mod 2 ^ 31 = v mod 2 ^ 31.
Proof.
  unfold wrap32.
  pose proof (Z.div_mod (v + 2147483648) 4294967296 ltac:(lia)) as D.
  replace ((v + 2147483648) mod 4294967296 - 2147483648)
    with (v + (- 2 * ((v + 2147483648) / 4294967296)) * 2 ^ 31) by lia.
  apply Z.mod_add. lia.
Qed.

Lemma mod_pow2_low31 (bits v : Z) :
  31 <= bits -> (v mod 2 ^ bits) mod 2 ^ 31 = v mod 2 ^ 31.
Proof.
  intros Hb. apply Z.mod_mod_divide.
  exists (2 ^ (bits - 31)). rewrite <- Z.pow_add_r by lia. f_equal. lia.
Qed.

(** X23.  The root seed that [Prepare] takes from the clock is the
    linear congruential step [1664525 * seconds + 1013904223] reduced
    to its low 31 bits, for [seconds] the clock plus the entity number:
    it is never negative, and it is the same whether [unsigned long] has
    32 or 64 bits. *)
Theorem time_seed_low_bits (ulong_bits clock entityNumber : Z) :
  31 <= ulong_bits ->
  time_seed ulong_bits clock entityNumber
  = (1664525 * (clock + entityNumber) + 1013904223) mod 2 ^ 31 /\
  0 <= time_seed ulong_bits clock entityNumber < 2 ^ 31.
Proof.
  intros Hb.
  assert (E : time_seed ulong_bits clock entityNumber
              = (1664525 * (clock + entityNumber) + 1013904223) mod 2 ^ 31).
  { unfold time_seed. cbv zeta.
    rewrite land_low31, wrap32_mod31, mod_pow2_low31 by exact Hb.
    rewrite Z.add_mod, Z.mul_mod, (mod_pow2_low31 _ _ Hb) by lia.
    rewrite <- Z.mul_mod, <- Z.add_mod by lia. reflexivity. }
  split; [exact E |]. rewrite E. apply Z.mod_pos_bound. lia.
Qed.

Lemma time_seed_low_bits_witness :
  31 <= 64 /\ time_seed 64 1300000000 17 = time_seed 32 1300000000 17.
Proof.
  split; [lia |].
  rewrite (proj1 (time_seed_low_bits 64 1300000000 17 ltac:(lia))).
  reflexivity.
Defined.

Lemma world_grows_refl (w : World) : world_grows w w.
Proof. split; [apply incl_refl | auto]. Qed.

Lemma world_grows_trans (w1 w2 w3 : World) :
  world_grows w1 w2 -> world_grows w2 w3 -> world_grows w1 w3.
Proof.
  intros [A1 A2] [B1 B2]. split.
  - eapply incl_tran; eassumption.
  - auto.
Qed.

Lemma list_set_alive (l : list (option idEntity_t)) (n t : Z) (e : idEntity_t) :
  list_get l t None <> None -> list_get (list_set l n (Some e)) t None <> None.
Proof.
  intros Ht. destruct (Z.eq_dec n t) as [-> | Hne].
  - destruct (list_get_set_any l t (Some e) None) as [E | E]; rewrite E;
      [discriminate | exact Ht].
  - now rewrite list_get_set_other.
Qed.

Lemma place_entity_alive (l : list (option idEntity_t)) (n t : Z)
    (e : idEntity_t) :
  list_get l t None <> None -> list_get (place_entity l n e) t None <> None.
Proof.
  intros Ht. unfold place_entity. destruct (n <? 0); [exact Ht |].
  destruct (Z.of_nat (List.length l) <=? n); [| now apply list_set_alive].
  unfold list_get in *. destruct (t <? 0); [exact Ht |].
  destruct (Nat.lt_ge_cases (Z.to_nat t) (List.length l)) as [Hin | Hout].
  - now rewrite app_nth1.
  - now rewrite nth_overflow in Ht.
Qed.

Lemma post_removal_grows (w : World) (n : Z) : world_grows w (post_removal w n).
Proof. split; [apply incl_tl, incl_refl | auto]. Qed.

Lemma compile_inhibitor_ok (H : Host) (bounds_size : idEntity_t -> idVec3)
    (w : World) (inh : seed_inhibitor_t) (ent : idEntity_t) :
  inhibitor_ok (compile_inhibitor bounds_size w inh ent).
Proof.
  unfold compile_inhibitor, ParseFalloff. cbv zeta.
  set (args := l_spawnArgs ent).
  set (name := GetString args "seed_falloff" _).
  destruct (String.eqb name "none"); [unfold inhibitor_ok; cbn; split; [lia | intros []; discriminate] |].
  destruct (String.eqb name "cutoff"); [unfold inhibitor_ok; cbn; split; [lia | intros []; discriminate] |].
  destruct (String.eqb name "linear"); [unfold inhibitor_ok; cbn; split; [lia | intros []; discriminate] |].
  destruct (String.eqb name "func"); [unfold inhibitor_ok; cbn; split; [lia | intros []; discriminate] |].
  destruct (String.eqb name "power"), (String.eqb name "root"); cbn [Z.eqb];
    try (unfold inhibitor_ok; cbn; split; [lia | intros []; discriminate]);
    destruct (F32.ltb (GetFloat args "seed_func_a" _) F32.two) eqn:E;
    unfold inhibitor_ok; cbn [i_falloff i_factor Z.ltb Z.compare Pos.compare
                              Pos.compare_cont];
    (split; [lia | intros _; first [exact E | vm_compute; reflexivity]]).
Qed.

Lemma combine_one_world (K : Constants) (H : Host)
    (m_bDebugColors multiPVS : bool) (pvs : list Z) (dist : float)
    (js : list Z) (i : Z) (st : combine_t) :
  let st' := combine_one m_bDebugColors multiPVS pvs dist js i st in
  entities (cb_world st') = entities (cb_world st) /\
  num_entities (cb_world st') = num_entities (cb_world st) /\
  removals (cb_world st') = removals (cb_world st).
Proof.
  cbv zeta. unfold combine_one.
  destruct (classIdx _ <? 0); [auto |].
  destruct (nocombine _); [auto |].
  destruct ((if hModel _ =? 0 then _ else _) =? 0); [auto |].
  match goal with
  | |- context [collect ?a ?b ?c ?d ?e ?f ?g ?h ?k] =>
      destruct (collect a b c d e f g h k) as [[ents so] merged]
  end.
  destruct (0 <? merged); [| cbn; auto].
  match goal with
  | |- context [truncate_offsets ?a ?b ?c ?d] =>
      destruct (truncate_offsets a b c d) as [so' ents']
  end.
  cbn. auto.
Qed.

Lemma combine_loop_world (K : Constants) (H : Host)
    (m_bDebugColors multiPVS : bool) (pvs : list Z) (dist : float) (n : nat)
    (todo : list nat) :
  forall st : combine_t,
    let st' := fold_left
                 (fun st i =>
                    combine_one m_bDebugColors multiPVS pvs dist
                      (map Z.of_nat (seq (S i) (n - 1 - i))) (Z.of_nat i) st)
                 todo st in
    entities (cb_world st') = entities (cb_world st) /\
    num_entities (cb_world st') = num_entities (cb_world st) /\
    removals (cb_world st') = removals (cb_world st).
Proof.
  induction todo as [| i rest IH]; intros st; cbn [fold_left]; [cbn; auto |].
  cbv zeta in IH.
  destruct (combine_one_world K H m_bDebugColors multiPVS pvs dist
              (map Z.of_nat (seq (S i) (n - 1 - i))) (Z.of_nat i) st)
    as (C1 & C2 & C3).
  destruct (IH (combine_one m_bDebugColors multiPVS pvs dist
                  (map Z.of_nat (seq (S i) (n - 1 - i))) (Z.of_nat i) st))
    as (I1 & I2 & I3).
  repeat split; congruence.
Qed.

Lemma CombineEntities_world (K : Constants) (H : Host) (s : Seed) (w : World)
    (PseudoClass0 : seed_class_t) :
  let w' := snd (CombineEntities s w PseudoClass0) in
  entities w' = entities w /\ num_entities w' = num_entities w /\
  removals w' = removals w.
Proof.
  cbv zeta. unfold CombineEntities.
  destruct (negb (m_bCombine s)); [cbn; auto |]. cbn [snd].
  unfold combine_loop.
  match goal with
  | |- context [fold_left _ ?todo (mkCombine ?a ?b ?c ?d ?e)] =>
      apply (combine_loop_world K H _ _ _ _ _ todo (mkCombine a b c d e))
  end.
Qed.

Lemma PrepareEntities_keeps (K : Constants) (H : Host) (s : Seed) (w : World)
    (e0 : seed_entity_t) (c0 : seed_class_t) :
  let r := PrepareEntities s w e0 c0 in
  spawnArgs (fst r) = spawnArgs s /\
  m_iOrgSeed (fst r) = m_iOrgSeed s /\
  m_Inhibitors (fst r) = m_Inhibitors s /\
  m_iNumEntities (fst r) = m_iNumEntities s /\
  m_iNumStaticMulties (fst r) = m_iNumStaticMulties s /\
  entities (snd r) = entities w /\ num_entities (snd r) = num_entities w /\
  removals (snd r) = removals w.
Proof.
  cbv zeta. unfold PrepareEntities.
  pose proof (CombineEntities_world K H (PlaceEntities s w e0) w c0) as W.
  cbv zeta in W. destruct W as (W1 & W2 & W3).
  assert (S : spawnArgs (PlaceEntities s w e0) = spawnArgs s /\
              m_iOrgSeed (PlaceEntities s w e0) = m_iOrgSeed s /\
              m_Inhibitors (PlaceEntities s w e0) = m_Inhibitors s /\
              m_iNumEntities (PlaceEntities s w e0) = m_iNumEntities s /\
              m_iNumStaticMulties (PlaceEntities s w e0)
              = m_iNumStaticMulties s).
  { unfold PlaceEntities.
    destruct (generate s) as [[[classes pl] a] b].
    destruct (watch_classes _ _ _ _ _ _) as [ents skins]. cbn. auto. }
  destruct S as (S1 & S2 & S3 & S4 & S5).
  assert (C : forall s1 : Seed,
             let s2 := fst (CombineEntities s1 w c0) in
             spawnArgs s2 = spawnArgs s1 /\ m_iOrgSeed s2 = m_iOrgSeed s1 /\
             m_Inhibitors s2 = m_Inhibitors s1 /\
             m_iNumEntities s2 = m_iNumEntities s1 /\
             m_iNumStaticMulties s2 = m_iNumStaticMulties s1).
  { intros s1. cbv zeta. unfold CombineEntities.
    destruct (negb (m_bCombine s1)); cbn; auto. }
  destruct (C (PlaceEntities s w e0)) as (C1 & C2 & C3 & C4 & C5).
  repeat split; congruence.
Qed.

Lemma spawn_all_keeps (K : Constants) (H : Host) (s : Seed) (w : World) :
  let r := spawn_all s w in
  spawnArgs (fst r) = spawnArgs s /\
  m_iOrgSeed (fst r) = m_iOrgSeed s /\
  m_Inhibitors (fst r) = m_Inhibitors s /\
  world_grows w (snd r).
Proof.
  cbv zeta. unfold spawn_all. generalize (indices (m_Entities s)) as todo.
  intros todo. revert s w.
  induction todo as [| i rest IH]; intros s w; cbn [fold_left fst snd].
  - split; [reflexivity |]. split; [reflexivity |]. split; [reflexivity |].
    apply world_grows_refl.
  - assert (Hstep : let r := SpawnEntity s w i false in
                    spawnArgs (snd (fst r)) = spawnArgs s /\
                    m_iOrgSeed (snd (fst r)) = m_iOrgSeed s /\
                    m_Inhibitors (snd (fst r)) = m_Inhibitors s /\
                    world_grows w (snd r)).
    { cbv zeta. unfold SpawnEntity.
      destruct (SPAWN_LIMIT <? num_entities w);
        [cbn; auto using world_grows_refl |].
      destruct (FindEntityDefDict _); [| cbn; auto using world_grows_refl].
      destruct (SpawnEntityDef w _) as [[n ent2] |];
        [| cbn; auto using world_grows_refl].
      cbn [fst snd]. unfold with_entity. cbn [spawnArgs m_iOrgSeed m_Inhibitors].
      split; [reflexivity |]. split; [reflexivity |]. split; [reflexivity |].
      split.
      - destruct (pseudo _); cbn; apply incl_refl.
      - intros t Ht. destruct (pseudo _); cbn; now apply place_entity_alive. }
    cbv zeta in Hstep.
    destruct (SpawnEntity s w i false) as [[b s1] w1]. cbn [fst snd] in Hstep.
    destruct Hstep as (S1 & S2 & S3 & S4).
    destruct (IH s1 w1) as (I1 & I2 & I3 & I4).
    split; [congruence |]. split; [congruence |]. split; [congruence |].
    eapply world_grows_trans; eassumption.
Qed.

Lemma remove_targets_spec (ts : list Z) (w : World) :
  entities (remove_targets ts w) = entities w /\
  num_entities (remove_targets ts w) = num_entities w /\
  incl (removals w) (removals (remove_targets ts w)) /\
  (forall t, In t ts -> list_get (entities w) t None <> None ->
             In t (removals (remove_targets ts w))) /\
  (forall r, In r (removals (remove_targets ts w)) ->
             In r (removals w) \/ In r ts).
Proof.
  unfold remove_targets. revert w.
  induction ts as [| t ts IH]; intros w; cbn [fold_left].
  - repeat split; auto. + apply incl_refl. + intros t [].
  - set (w1 := match list_get (entities w) t None with
               | Some _ => post_removal w t
               | None => w
               end).
    assert (E1 : entities w1 = entities w)
      by (subst w1; destruct (list_get (entities w) t None); reflexivity).
    assert (E2 : num_entities w1 = num_entities w)
      by (subst w1; destruct (list_get (entities w) t None); reflexivity).
    assert (E3 : incl (removals w) (removals w1)).
    { subst w1. destruct (list_get (entities w) t None);
        [apply incl_tl |]; apply incl_refl. }
    assert (E4 : list_get (entities w) t None <> None -> In t (removals w1)).
    { subst w1. destruct (list_get (entities w) t None);
        [intros _; now left | intros X; now contradiction X]. }
    assert (E5 : forall r, In r (removals w1) -> In r (removals w) \/ r = t).
    { subst w1. destruct (list_get (entities w) t None); cbn; intros r Hr;
        [destruct Hr; auto | auto]. }
    destruct (IH w1) as (I1 & I2 & I3 & I4 & I5).
    split; [congruence |]. split; [congruence |].
    split; [eapply incl_tran; eassumption |].
    split.
    + intros t' [-> | Hin] Halive.
      * apply I3. now apply E4.
      * apply I4; [exact Hin |]. now rewrite E1.
    + intros r Hr. destruct (I5 r Hr) as [Hr1 | Hr1].
      * destruct (E5 r Hr1) as [? | ->]; [now left | right; now left].
      * right. now right.
Qed.

Example sample_Prepare_runs :
  match sample_Prepare 1300000000 [("randseed", "11"); ("max_entities", "3")] with
  | Some (st, w, _) =>
      m_bPrepared st = true /\ targets st = [] /\
      List.length (m_Entities (sc_seed st)) = 3%nat /\
      map i_falloff (m_Inhibitors (sc_seed st)) = [0] /\
      m_iOrgSeed (sc_seed st) = 11 /\ removals w = [1; 0]
  | None => False
  end.
Proof. vm_compute. repeat split. Qed.

Section PrepareFacts.
Context {K : Constants} {H : Host}.
Variable idRandom : Type.
Variable AddClassFromEntity :
  idRandom -> Seed -> idEntity_t -> bool ->
  option (seed_class_t * list string * idEntity_t * idRandom).
Variable RandomPart : idRandom -> string -> string * idRandom.
Variable bounds_size : idEntity_t -> idVec3.

Lemma prepare_step_refl (p : prepare_t idRandom) : prepare_step idRandom p p.
Proof.
  split; [| split; [apply world_grows_refl | auto]].
  exists (m_Classes (pr_seed _ p)), (m_Inhibitors (pr_seed _ p)),
         (m_Skins (pr_seed _ p)).
  now destruct (pr_seed _ p).
Qed.

Lemma prepare_step_trans (p1 p2 p3 : prepare_t idRandom) :
  prepare_step idRandom p1 p2 -> prepare_step idRandom p2 p3 ->
  prepare_step idRandom p1 p3.
Proof.
  intros ((c & i & k & E1) & W1 & I1) ((c' & i' & k' & E2) & W2 & I2).
  split; [| split; [eapply world_grows_trans; eassumption | auto]].
  exists c', i', k'. rewrite E2, E1. reflexivity.
Qed.

Lemma add_class_step (rnd rnd' : idRandom) (s s' : Seed) (w w' : World)
    (n : Z) (ent : idEntity_t) (watch : bool) (inh : seed_inhibitor_t) :
  add_class idRandom AddClassFromEntity rnd s w n ent watch = Some (s', w', rnd') ->
  prepare_step idRandom (mkPrepare idRandom s w rnd inh)
               (mkPrepare idRandom s' w' rnd' inh).
Proof.
  unfold add_class.
  destruct (AddClassFromEntity rnd s ent watch) as [[[[c k] e'] r'] |];
    [| discriminate].
  intros E. inversion E; subst; clear E. split; [| split]; cbn [pr_seed pr_world].
  - now exists (m_Classes s ++ [c])%list, (m_Inhibitors s), k.
  - split; [apply incl_refl |]. intros t Ht. cbn. now apply list_set_alive.
  - auto.
Qed.

Lemma gather_target_step (p p' : prepare_t idRandom) (t : Z) :
  gather_target idRandom AddClassFromEntity bounds_size p t = Some p' ->
  prepare_step idRandom p p'.
Proof.
  unfold gather_target.
  destruct (list_get (entities (pr_world _ p)) t None) as [ent |].
  2:{ intros E. inversion E. apply prepare_step_refl. }
  destruct (String.eqb (GetEntityDefName ent) "atdm:no_seed").
  - intros E. inversion E; subst; clear E.
    split; [| split]; cbn [pr_seed pr_world].
    + eexists _, _, _. reflexivity.
    + apply world_grows_refl.
    + intros Hok. cbn [with_compiled m_Inhibitors]. apply Forall_app. split;
        [exact Hok |]. constructor; [apply compile_inhibitor_ok | constructor].
  - destruct (add_class _ _ _ _ _ _ _ _) as [[[s' w'] rnd'] |] eqn:A;
      [| discriminate].
    intros E. inversion E; subst; clear E.
    apply (add_class_step _ _ _ _ _ _ _ _ _ (pr_SeedInhibitor _ p)) in A.
    now destruct p.
Qed.

Lemma gather_targets_step (ts : list Z) :
  forall p p' : prepare_t idRandom,
    gather_targets idRandom AddClassFromEntity bounds_size ts p = Some p' ->
    prepare_step idRandom p p'.
Proof.
  induction ts as [| t ts IH]; intros p p'; cbn [gather_targets].
  - intros E. inversion E. apply prepare_step_refl.
  - destruct (gather_target _ _ _ p t) as [p1 |] eqn:G; [| discriminate].
    intros E. eapply prepare_step_trans;
      [eapply gather_target_step; exact G | now apply IH].
Qed.

Lemma spawn_class_step (origin : idVec3) (p p' : prepare_t idRandom)
    (kv : string * string) :
  spawn_class idRandom AddClassFromEntity RandomPart origin p kv = Some p' ->
  prepare_step idRandom p p'.
Proof.
  unfold spawn_class.
  destruct (FindEntityDefDict (snd kv));
    [| intros E; inversion E; apply prepare_step_refl].
  destruct (RandomPart _ _) as [skin rnd].
  destruct (SpawnEntityDef _ _) as [[n ent] |].
  - destruct (add_class _ _ _ _ _ _ _ _) as [[[s' w'] rnd'] |] eqn:A;
      [| discriminate].
    intros E. inversion E; subst; clear E.
    apply (add_class_step _ _ _ _ _ _ _ _ _ (pr_SeedInhibitor _ p)) in A.
    destruct A as (A1 & A2 & A3). cbn [pr_seed pr_world] in *.
    split; [exact A1 | split; [| exact A3]]. cbn [pr_world].
    eapply world_grows_trans; [| apply post_removal_grows].
    eapply world_grows_trans; [| exact A2].
    split; [apply incl_refl |]. intros t Ht. cbn. now apply place_entity_alive.
  - intros E. inversion E; subst; clear E.
    split; [| split; [apply world_grows_refl | auto]]. cbn [pr_seed].
    exists (m_Classes (pr_seed _ p)), (m_Inhibitors (pr_seed _ p)),
           (m_Skins (pr_seed _ p)).
    now destruct (pr_seed _ p).
Qed.

Lemma spawn_classes_step (origin : idVec3) (kvs : idDict) :
  forall p p' : prepare_t idRandom,
    spawn_classes idRandom AddClassFromEntity RandomPart origin kvs p = Some p' ->
    prepare_step idRandom p p'.
Proof.
  induction kvs as [| kv kvs IH]; intros p p'; cbn [spawn_classes].
  - intros E. inversion E. apply prepare_step_refl.
  - destruct (spawn_class _ _ _ origin p kv) as [p1 |] eqn:G; [| discriminate].
    intros E. eapply prepare_step_trans;
      [eapply spawn_class_step; exact G | now apply IH].
Qed.

End PrepareFacts.

Lemma count_entities_keeps (H : Host) (s : Seed) :
  spawnArgs (count_entities s) = spawnArgs s /\
  m_Inhibitors (count_entities s) = m_Inhibitors s /\
  m_iNumStaticMulties (count_entities s) = m_iNumStaticMulties s.
Proof.
  unfold count_entities. destruct (0 <? _); [| auto].
  destruct (ComputeEntityCount _ _ _) as [classes n]. cbn. auto.
Qed.

(** [Prepare] up to its last part. *)
Lemma Prepare_inv (K : Constants) (H : Host) (idRandom : Type)
    (AddClassFromEntity :
       idRandom -> Seed -> idEntity_t -> bool ->
       option (seed_class_t * list string * idEntity_t * idRandom))
    (RandomPart : idRandom -> string -> string * idRandom)
    (bounds_size : idEntity_t -> idVec3) (ulong_bits : Z)
    (inh0 : seed_inhibitor_t) (e0 : seed_entity_t) (c0 : seed_class_t)
    (rnd rnd' : idRandom) (clock : Z) (st st' : Scheduler) (w w' : World) :
  Prepare idRandom AddClassFromEntity RandomPart bounds_size ulong_bits
          inh0 e0 c0 rnd clock st w = Some (st', w', rnd') ->
  exists (s1 : Seed) (w1 : World),
    spawnArgs s1 = spawnArgs (sc_seed st) /\
    m_iOrgSeed s1
    = root_seed ulong_bits (spawnArgs (sc_seed st)) clock (entityNumber st) /\
    Forall inhibitor_ok (m_Inhibitors s1) /\
    m_iNumStaticMulties s1 = m_iNumStaticMulties (sc_seed st) /\
    world_grows w w1 /\
    (forall t, In t (targets st) -> list_get (entities w) t None <> None ->
               In t (removals w1)) /\
    finish_Prepare st s1 w1 = (st', w').
Proof.
  unfold Prepare.
  destruct (gather_targets _ _ _ _ _) as [p1 |] eqn:G; [| discriminate].
  destruct (spawn_classes _ _ _ _ _ _) as [p2 |] eqn:S; [| discriminate].
  apply gather_targets_step in G. apply spawn_classes_step in S.
  pose proof (prepare_step_trans _ _ _ _ G S) as ((c & i & k & E) & W & I).
  cbn [pr_seed pr_world] in *.
  destruct (count_entities_keeps H (pr_seed _ p2)) as (C1 & C2 & C3).
  set (s0 := with_root_seed _ _) in *.
  pose proof (PrepareEntities_keeps K H s0 (pr_world _ p2) e0 c0) as P.
  cbv zeta in P.
  destruct (PrepareEntities s0 (pr_world _ p2) e0 c0) as [s1 w1].
  cbn [fst snd] in P. destruct P as (P1 & P2 & P3 & P4 & P5 & P6 & P7 & P8).
  destruct (remove_targets_spec (targets st) w1) as (R1 & R2 & R3 & R4 & R5).
  destruct (finish_Prepare st s1 _) as [st1 w2] eqn:F.
  intros X. inversion X; subst; clear X.
  assert (Hargs : spawnArgs (pr_seed _ p2) = spawnArgs (sc_seed st))
    by (rewrite E; reflexivity).
  exists s1, (remove_targets (targets st) w1).
  split; [rewrite P1; subst s0; cbn [with_root_seed spawnArgs]; congruence |].
  split.
  { rewrite P2. subst s0. cbn [with_root_seed m_iOrgSeed]. now rewrite C1, Hargs. }
  split.
  { rewrite P3. subst s0. cbn [with_root_seed m_Inhibitors]. rewrite C2.
    apply I. cbn. constructor. }
  split.
  { rewrite P5. subst s0. cbn [with_root_seed m_iNumStaticMulties].
    rewrite C3, E. reflexivity. }
  destruct W as [W1 W2].
  split.
  { split.
    - eapply incl_tran; [exact W1 |]. rewrite <- P8. exact R3.
    - intros t Ht. rewrite R1, P6. now apply W2. }
  split; [| exact F].
  intros t Hin Halive. apply R4; [exact Hin |]. rewrite P6. now apply W2.
Qed.

Lemma root_seed_fixed (H : Host) (ulong_bits : Z) (a : idDict)
    (clock clock' n : Z) :
  GetInt a "randseed" "0" <> 0 ->
  root_seed ulong_bits a clock' n = root_seed ulong_bits a clock n.
Proof.
  intros Hs. unfold root_seed. apply Z.eqb_neq in Hs. now rewrite Hs.
Qed.

(** X24.  [Prepare] leaves the spawn arguments of the SEED as they are
    and sets the root seed [m_iOrgSeed], from which the placement starts
    and to which it is reset when the quality bias changes, to the
    [randseed] argument if that is not 0, and to the seed taken from the
    clock and the entity number otherwise.  With a [randseed] that is not
    0 the clock has no influence on [Prepare] at all. *)
Theorem Prepare_root_seed (K : Constants) (H : Host) (idRandom : Type)
    (AddClassFromEntity :
       idRandom -> Seed -> idEntity_t -> bool ->
       option (seed_class_t * list string * idEntity_t * idRandom))
    (RandomPart : idRandom -> string -> string * idRandom)
    (bounds_size : idEntity_t -> idVec3) (ulong_bits : Z)
    (inh0 : seed_inhibitor_t) (e0 : seed_entity_t) (c0 : seed_class_t)
    (rnd : idRandom) (clock : Z) (st : Scheduler) (w : World) :
  let randseed := GetInt (spawnArgs (sc_seed st)) "randseed" "0" in
  (forall st' w' rnd',
      Prepare idRandom AddClassFromEntity RandomPart bounds_size ulong_bits
              inh0 e0 c0 rnd clock st w = Some (st', w', rnd') ->
      spawnArgs (sc_seed st') = spawnArgs (sc_seed st) /\
      m_iOrgSeed (sc_seed st')
      = (if randseed =? 0
         then time_seed ulong_bits clock (entityNumber st)
         else randseed)) /\
  (randseed <> 0 ->
   forall clock',
     Prepare idRandom AddClassFromEntity RandomPart bounds_size ulong_bits
             inh0 e0 c0 rnd clock' st w
     = Prepare idRandom AddClassFromEntity RandomPart bounds_size ulong_bits
               inh0 e0 c0 rnd clock st w).
Proof.
  cbv zeta. split.
  - intros st' w' rnd' E.
    destruct (Prepare_inv _ _ _ _ _ _ _ _ _ _ _ _ _ _ _ _ _ E)
      as (s1 & w1 & A1 & A2 & _ & _ & _ & _ & F).
    unfold root_seed in A2. cbv zeta in A2. rewrite <- A2, <- A1. clear E A1 A2.
    unfold finish_Prepare in F.
    destruct (GetBool (spawnArgs s1) "remove" "0").
    + destruct (0 <? m_iNumStaticMulties s1).
      * inversion F; subst. cbn. auto.
      * pose proof (spawn_all_keeps K H s1 w1) as Sp. cbv zeta in Sp.
        destruct (spawn_all s1 w1) as [s2 w2]. cbn [fst snd] in Sp.
        destruct Sp as (Sp1 & Sp2 & _).
        inversion F; subst. cbn. auto.
    + destruct (Z.of_nat (List.length (m_Entities s1)) =? 0);
        inversion F; subst; cbn; auto.
  - intros Hseed clock'. unfold Prepare.
    destruct (gather_targets _ _ _ _ _) as [p1 |] eqn:G; [| reflexivity].
    destruct (spawn_classes _ _ _ _ _ _) as [p2 |] eqn:S; [| reflexivity].
    apply gather_targets_step in G. apply spawn_classes_step in S.
    pose proof (prepare_step_trans _ _ _ _ G S) as ((c & i & k & E) & _).
    cbn [pr_seed] in E.
    destruct (count_entities_keeps H (pr_seed _ p2)) as (C1 & _).
    rewrite (root_seed_fixed H ulong_bits _ clock clock'); [reflexivity |].
    rewrite C1, E. exact Hseed.
Qed.

(** X25.  Every inhibitor that [Prepare] leaves in the distribution has
    a falloff of none, cutoff, power, root or linear, the falloff [func]
    being turned into none, and for power and root a factor that is not
    below 2. *)
Theorem Prepare_inhibitors (K : Constants) (H : Host) (idRandom : Type)
    (AddClassFromEntity :
       idRandom -> Seed -> idEntity_t -> bool ->
       option (seed_class_t * list string * idEntity_t * idRandom))
    (RandomPart : idRandom -> string -> string * idRandom)
    (bounds_size : idEntity_t -> idVec3) (ulong_bits : Z)
    (inh0 : seed_inhibitor_t) (e0 : seed_entity_t) (c0 : seed_class_t)
    (rnd rnd' : idRandom) (clock : Z) (st st' : Scheduler) (w w' : World) :
  Prepare idRandom AddClassFromEntity RandomPart bounds_size ulong_bits
          inh0 e0 c0 rnd clock st w = Some (st', w', rnd') ->
  Forall inhibitor_ok (m_Inhibitors (sc_seed st')).
Proof.
  intros E.
  destruct (Prepare_inv _ _ _ _ _ _ _ _ _ _ _ _ _ _ _ _ _ E)
    as (s1 & w1 & _ & _ & A3 & _ & _ & _ & F).
  unfold finish_Prepare in F.
  destruct (GetBool (spawnArgs s1) "remove" "0").
  - destruct (0 <? m_iNumStaticMulties s1).
    + inversion F; subst. exact A3.
    + pose proof (spawn_all_keeps K H s1 w1) as Sp. cbv zeta in Sp.
      destruct (spawn_all s1 w1) as [s2 w2]. cbn [fst snd] in Sp.
      destruct Sp as (_ & _ & Sp3 & _).
      inversion F; subst. cbn. now rewrite Sp3.
  - destruct (Z.of_nat (List.length (m_Entities s1)) =? 0);
      inversion F; subst; cbn; exact A3.
Qed.

Lemma Prepare_inhibitors_witness :
  let r := sample_Prepare_result in
  @Prepare sample_constants idle_host unit plain_AddClass first_RandomPart
           no_bounds 64 no_inhibitor no_entity no_class tt 1300000000
           (unprepared [("randseed", "11"); ("max_entities", "3")])
           template_world
  = Some (fst (fst r), snd (fst r), tt) /\
  Forall inhibitor_ok (m_Inhibitors (sc_seed (fst (fst r)))).
Proof.
  cbv zeta.
  assert (E : @Prepare sample_constants idle_host unit plain_AddClass
                first_RandomPart no_bounds 64 no_inhibitor no_entity no_class
                tt 1300000000
                (unprepared [("randseed", "11"); ("max_entities", "3")])
                template_world
              = Some (fst (fst sample_Prepare_result),
                      snd (fst sample_Prepare_result), tt))
    by (vm_compute; reflexivity).
  split; [exact E |].
  exact (Prepare_inhibitors sample_constants idle_host unit plain_AddClass
           first_RandomPart no_bounds 64 no_inhibitor no_entity no_class tt tt
           1300000000
           (unprepared [("randseed", "11"); ("max_entities", "3")])
           (fst (fst sample_Prepare_result)) template_world
           (snd (fst sample_Prepare_result)) E).
Defined.

(** X26.  When [Prepare] returns, the SEED has no targets any more, and
    every target that was a live object is posted for removal; what was
    posted before still is, and no live object has gone.  Without the
    [remove] argument the SEED is prepared, and if it has no instance its
    entity count is -1 and it no longer thinks.  With the [remove]
    argument the prepared flag is not set; unless the SEED has static
    multis, its classes and instances are cleared, its entity count is
    -1, it is neither active nor thinking, and it is posted for removal
    itself. *)
Theorem Prepare_outcome (K : Constants) (H : Host) (idRandom : Type)
    (AddClassFromEntity :
       idRandom -> Seed -> idEntity_t -> bool ->
       option (seed_class_t * list string * idEntity_t * idRandom))
    (RandomPart : idRandom -> string -> string * idRandom)
    (bounds_size : idEntity_t -> idVec3) (ulong_bits : Z)
    (inh0 : seed_inhibitor_t) (e0 : seed_entity_t) (c0 : seed_class_t)
    (rnd rnd' : idRandom) (clock : Z) (st st' : Scheduler) (w w' : World) :
  Prepare idRandom AddClassFromEntity RandomPart bounds_size ulong_bits
          inh0 e0 c0 rnd clock st w = Some (st', w', rnd') ->
  targets st' = [] /\
  world_grows w w' /\
  (forall t, In t (targets st) -> list_get (entities w) t None <> None ->
             In t (removals w')) /\
  (GetBool (spawnArgs (sc_seed st)) "remove" "0" = false ->
   m_bPrepared st' = true /\ active st' = active st /\
   (m_Entities (sc_seed st') = [] ->
    m_iNumEntities (sc_seed st') = -1 /\ thinking st' = false) /\
   (m_Entities (sc_seed st') <> [] -> thinking st' = thinking st)) /\
  (GetBool (spawnArgs (sc_seed st)) "remove" "0" = true ->
   m_bPrepared st' = m_bPrepared st /\
   (m_iNumStaticMulties (sc_seed st) <= 0 ->
    m_Entities (sc_seed st') = [] /\ m_Classes (sc_seed st') = [] /\
    m_iNumEntities (sc_seed st') = -1 /\
    active st' = false /\ thinking st' = false /\
    In (entityNumber st) (removals w'))).
Proof.
  intros E.
  destruct (Prepare_inv _ _ _ _ _ _ _ _ _ _ _ _ _ _ _ _ _ E)
    as (s1 & w1 & A1 & _ & _ & A4 & A5 & A6 & F).
  rewrite <- A1, <- A4. clear E A1 A4.
  unfold finish_Prepare in F.
  destruct (GetBool (spawnArgs s1) "remove" "0").
  - destruct (0 <? m_iNumStaticMulties s1) eqn:M.
    + inversion F; subst. cbn [targets m_bPrepared].
      split; [reflexivity |]. split; [exact A5 |]. split; [exact A6 |].
      split; [discriminate |]. intros _. split; [reflexivity |].
      intros Hm. apply Z.ltb_lt in M. lia.
    + pose proof (spawn_all_keeps K H s1 w1) as Sp. cbv zeta in Sp.
      destruct (spawn_all s1 w1) as [s2 w2]. cbn [fst snd] in Sp.
      destruct Sp as (_ & _ & _ & Sp4).
      inversion F; subst. cbn [targets m_bPrepared sc_seed active thinking].
      assert (G : world_grows w (post_removal w2 (entityNumber st))).
      { eapply world_grows_trans; [exact A5 |].
        eapply world_grows_trans; [exact Sp4 | apply post_removal_grows]. }
      split; [reflexivity |]. split; [exact G |].
      split.
      { intros t Hin Halive. right. apply (proj1 Sp4). now apply A6. }
      split; [discriminate |]. intros _. split; [reflexivity |].
      intros _. cbn. auto 10.
  - destruct (Z.of_nat (List.length (m_Entities s1)) =? 0) eqn:L;
      inversion F; subst;
      cbn [targets m_bPrepared sc_seed active thinking];
      (split; [reflexivity |]); (split; [exact A5 |]); (split; [exact A6 |]);
      (split; [intros _ | discriminate]).
    + cbn [with_numEntities with_counts m_Entities m_iNumEntities].
      split; [reflexivity |]. split; [reflexivity |]. split; [auto |].
      intros Hne. destruct (m_Entities s1); [now contradiction Hne | discriminate].
    + split; [reflexivity |]. split; [reflexivity |]. split; [| reflexivity].
      intros Hnil. rewrite Hnil in L. discriminate.
Qed.

Lemma Prepare_outcome_witness :
  let r := sample_Prepare_result in
  @Prepare sample_constants idle_host unit plain_AddClass first_RandomPart
           no_bounds 64 no_inhibitor no_entity no_class tt 1300000000
           (unprepared [("randseed", "11"); ("max_entities", "3")])
           template_world
  = Some (fst (fst r), snd (fst r), tt) /\
  targets (fst (fst r)) = [] /\ world_grows template_world (snd (fst r)).
Proof.
  cbv zeta.
  assert (E : @Prepare sample_constants idle_host unit plain_AddClass
                first_RandomPart no_bounds 64 no_inhibitor no_entity no_class
                tt 1300000000
                (unprepared [("randseed", "11"); ("max_entities", "3")])
                template_world
              = Some (fst (fst sample_Prepare_result),
                      snd (fst sample_Prepare_result), tt))
    by (vm_compute; reflexivity).
  split; [exact E |].
  pose proof (Prepare_outcome sample_constants idle_host unit plain_AddClass
                first_RandomPart no_bounds 64 no_inhibitor no_entity no_class
                tt tt 1300000000
                (unprepared [("randseed", "11"); ("max_entities", "3")])
                (fst (fst sample_Prepare_result)) template_world
                (snd (fst sample_Prepare_result)) E) as (O1 & O2 & _).
  split; [exact O1 | exact O2].
Defined.

(* ================================================================= *)
(** ** The skins of a class *)

Lemma list_ascii_length (s : string) :
  List.length (list_ascii_of_string s) = String.length s.
Proof. induction s as [| c s IH]; cbn; congruence. Qed.

Lemma idStr_at_app (s : string) (pre suf : list ascii) (c : ascii) :
  list_ascii_of_string s = (pre ++ c :: suf)%list ->
  idStr_at s (Z.of_nat (List.length pre)) = c.
Proof.
  intros E. unfold idStr_at. rewrite E, Nat2Z.id, app_nth2 by lia.
  now rewrite Nat.sub_diag.
Qed.

Lemma idStr_Mid_app (s : string) (pre body suf : list ascii) :
  list_ascii_of_string s = (pre ++ body ++ suf)%list ->
  idStr_Mid s (Z.of_nat (List.length pre)) (Z.of_nat (List.length body))
  = string_of_list_ascii body.
Proof.
  intros E. unfold idStr_Mid. rewrite E, !Nat2Z.id. f_equal.
  rewrite skipn_app, skipn_all, Nat.sub_diag. cbn [app skipn].
  rewrite firstn_app, firstn_all, Nat.sub_diag. cbn [firstn]. apply app_nil_r.
Qed.

(** The inner loops, on the part [suf] of the string that is still to be
    read. *)
Lemma skip_loop_spec (s : string) (fuel : nat) :
  forall (pre suf : list ascii),
    list_ascii_of_string s = (pre ++ suf)%list ->
    (List.length suf <= fuel)%nat ->
    exists seps rest,
      suf = (seps ++ rest)%list /\
      Forall (fun c => (Ascii.eqb c "," || Ascii.eqb c " ") = true) seps /\
      match rest with
      | [] => True
      | c :: _ => (Ascii.eqb c "," || Ascii.eqb c " ") = false
      end /\
      skip_loop s (idStr_Length s) fuel (Z.of_nat (List.length pre))
      = Z.of_nat (List.length pre + List.length seps).
Proof.
  induction fuel as [| fuel IH]; intros pre suf E Hf.
  - destruct suf; [| cbn in Hf; lia]. exists [], []. cbn.
    repeat split; [constructor | f_equal; lia].
  - cbn [skip_loop]. destruct suf as [| c suf].
    + exists [], []. rewrite app_nil_r in E.
      unfold idStr_Length. rewrite <- list_ascii_length, E, Z.ltb_irrefl.
      cbn. repeat split; [constructor | f_equal; lia].
    + assert (Hlt : (Z.of_nat (List.length pre) <? idStr_Length s) = true).
      { apply Z.ltb_lt. unfold idStr_Length.
        rewrite <- list_ascii_length, E, length_app. cbn. lia. }
      rewrite Hlt, (idStr_at_app s pre suf c E). cbn [andb].
      destruct (Ascii.eqb c "," || Ascii.eqb c " ") eqn:Hc.
      * destruct (IH (pre ++ [c])%list suf) as (seps & rest & E1 & F1 & R1 & S1).
        { now rewrite <- app_assoc. }
        { cbn in Hf. lia. }
        exists (c :: seps), rest. rewrite E1. split; [reflexivity |].
        split; [constructor; assumption |]. split; [exact R1 |].
        rewrite length_app in S1. cbn [List.length] in *.
        replace (Z.of_nat (List.length pre) + 1)
          with (Z.of_nat (List.length pre + 1)) by lia.
        rewrite S1. f_equal. lia.
      * exists [], (c :: suf). cbn. repeat split; [constructor | exact Hc |].
        f_equal. lia.
Qed.

Lemma end_loop_spec (s : string) (fuel : nat) :
  forall (pre suf : list ascii),
    list_ascii_of_string s = (pre ++ suf)%list ->
    (List.length suf <= fuel)%nat ->
    exists body rest,
      suf = (body ++ rest)%list /\
      Forall (fun c => Ascii.eqb c "," = false) body /\
      match rest with
      | [] => True
      | c :: _ => (Ascii.eqb c "," = true)
      end /\
      end_loop s (idStr_Length s) fuel (Z.of_nat (List.length pre))
      = Z.of_nat (List.length pre + List.length body).
Proof.
  induction fuel as [| fuel IH]; intros pre suf E Hf.
  - destruct suf; [| cbn in Hf; lia]. exists [], []. cbn.
    repeat split; [constructor | f_equal; lia].
  - cbn [end_loop]. destruct suf as [| c suf].
    + exists [], []. rewrite app_nil_r in E.
      unfold idStr_Length. rewrite <- list_ascii_length, E, Z.ltb_irrefl.
      cbn. repeat split; [constructor | f_equal; lia].
    + assert (Hlt : (Z.of_nat (List.length pre) <? idStr_Length s) = true).
      { apply Z.ltb_lt. unfold idStr_Length.
        rewrite <- list_ascii_length, E, length_app. cbn. lia. }
      rewrite Hlt, (idStr_at_app s pre suf c E). cbn [andb].
      destruct (Ascii.eqb c ",") eqn:Hc; cbn [negb].
      * exists [], (c :: suf). cbn. repeat split; [constructor | exact Hc |].
        f_equal. lia.
      * destruct (IH (pre ++ [c])%list suf) as (body & rest & E1 & F1 & R1 & S1).
        { now rewrite <- app_assoc. }
        { cbn in Hf. lia. }
        exists (c :: body), rest. rewrite E1. split; [reflexivity |].
        split; [constructor; assumption |]. split; [exact R1 |].
        rewrite length_app in S1. cbn [List.length] in *.
        replace (Z.of_nat (List.length pre) + 1)
          with (Z.of_nat (List.length pre + 1)) by lia.
        rewrite S1. f_equal. lia.
Qed.

Lemma pieces_skip (seps rest : list ascii) :
  Forall (fun c => (Ascii.eqb c "," || Ascii.eqb c " ") = true) seps ->
  pieces None (seps ++ rest) = pieces None rest.
Proof.
  induction 1 as [| c seps Hc _ IH]; cbn [app pieces]; [reflexivity |].
  now rewrite Hc.
Qed.

Lemma pieces_body (body rest : list ascii) :
  Forall (fun c => Ascii.eqb c "," = false) body ->
  forall p, pieces (Some p) (body ++ rest) = pieces (Some (rev body ++ p)%list) rest.
Proof.
  induction 1 as [| c body Hc _ IH]; intros p; cbn [app pieces rev];
    [reflexivity |].
  rewrite Hc, IH, <- app_assoc. reflexivity.
Qed.

(** The loop over the pieces, on the part [suf] of the string that is
    still to be read. *)
Lemma random_skin_loop_spec (s : string) (fuel : nat) :
  forall (pre suf : list ascii) (acc : list Z * list string),
    list_ascii_of_string s = (pre ++ suf)%list ->
    (List.length suf < fuel)%nat ->
    random_skin_loop s (idStr_Length s) fuel (Z.of_nat (List.length pre)) acc
    = fold_left add_piece (pieces None suf) acc.
Proof.
  induction fuel as [| fuel IH]; intros pre suf acc E Hf; [lia |].
  cbn [random_skin_loop].
  assert (Hn : idStr_Length s = Z.of_nat (List.length pre + List.length suf)).
  { unfold idStr_Length. now rewrite <- list_ascii_length, E, length_app. }
  destruct suf as [| c0 suf0].
  { rewrite Hn. cbn [List.length]. rewrite Nat.add_0_r, Z.ltb_irrefl.
    reflexivity. }
  set (suf := c0 :: suf0) in *.
  assert (Hlen : (1 <= List.length suf)%nat) by (subst suf; cbn; lia).
  assert (Hlt : (Z.of_nat (List.length pre) <? idStr_Length s) = true).
  { apply Z.ltb_lt. rewrite Hn. lia. }
  rewrite Hlt.
  destruct (skip_loop_spec s (Z.to_nat (idStr_Length s)) pre suf E)
    as (seps & rest & E1 & F1 & R1 & S1); [lia |].
  rewrite S1, E1, pieces_skip by exact F1.
  assert (E2 : list_ascii_of_string s = ((pre ++ seps) ++ rest)%list)
    by (rewrite <- app_assoc, <- E1; exact E).
  rewrite <- length_app.
  destruct rest as [| c rest].
  - (* only separators were left *)
    assert (Hend : (Z.of_nat (List.length (pre ++ seps)) <? idStr_Length s)
                   = false).
    { apply Z.ltb_ge. rewrite Hn, E1, !length_app. cbn. lia. }
    rewrite Hend. apply (IH (pre ++ seps)%list [] acc E2). cbn. lia.
  - assert (Hin : (Z.of_nat (List.length (pre ++ seps)) <? idStr_Length s)
                  = true).
    { apply Z.ltb_lt. rewrite Hn, E1, !length_app. cbn. lia. }
    rewrite Hin.
    assert (E3 : list_ascii_of_string s
                 = (((pre ++ seps) ++ [c]) ++ rest)%list)
      by (rewrite <- (app_assoc _ [c]); exact E2).
    destruct (end_loop_spec s (Z.to_nat (idStr_Length s))
                ((pre ++ seps) ++ [c])%list rest E3)
      as (body & rest2 & E4 & F4 & R4 & S4).
    { rewrite Hn, E1, !length_app. cbn. lia. }
    replace (Z.of_nat (List.length (pre ++ seps)) + 1)
      with (Z.of_nat (List.length ((pre ++ seps) ++ [c])))
      by (rewrite (length_app _ [c]); cbn; lia).
    rewrite S4.
    replace (Z.of_nat (List.length ((pre ++ seps) ++ [c]) + List.length body)
             - Z.of_nat (List.length (pre ++ seps)))
      with (Z.of_nat (List.length (c :: body)))
      by (rewrite (length_app _ [c]); cbn; lia).
    assert (Hpos : (0 <? Z.of_nat (List.length (c :: body))) = true)
      by (apply Z.ltb_lt; cbn; lia).
    rewrite Hpos.
    assert (E5 : list_ascii_of_string s
                 = ((pre ++ seps) ++ (c :: body) ++ rest2)%list)
      by (rewrite E2, E4; reflexivity).
    rewrite (idStr_Mid_app s _ _ _ E5).
    assert (E6 : list_ascii_of_string s
                 = ((((pre ++ seps) ++ [c]) ++ body) ++ rest2)%list)
      by (rewrite E3, E4, <- !app_assoc; reflexivity).
    rewrite <- length_app.
    rewrite (IH _ rest2 _ E6).
    2:{ pose proof (f_equal (@List.length ascii) E1) as L1.
        rewrite E4, length_app in L1. cbn [List.length] in L1.
        rewrite length_app in L1. lia. }
    (* the pieces of what was read *)
    cbn [pieces]. rewrite R1, E4, (pieces_body body rest2 F4 [c]).
    rewrite <- (rev_involutive (c :: body)). cbn [rev].
    rewrite rev_app_distr. cbn [rev app].
    destruct rest2 as [| c2 rest3].
    + cbn [pieces fold_left]. rewrite rev_app_distr, rev_involutive. reflexivity.
    + cbn [pieces]. rewrite R4. cbn [orb fold_left].
      rewrite rev_app_distr, rev_involutive. reflexivity.
Qed.

Lemma pieces_shape :
  forall (l : list ascii) (cur : option (list ascii)),
    match cur with
    | None => True
    | Some p =>
        exists c body,
          rev p = c :: body /\
          (Ascii.eqb c "," || Ascii.eqb c " ") = false /\
          Forall (fun d => Ascii.eqb d "," = false) body
    end ->
    forall q, In q (pieces cur l) ->
      exists c body,
        q = string_of_list_ascii (c :: body) /\
        (Ascii.eqb c "," || Ascii.eqb c " ") = false /\
        Forall (fun d => Ascii.eqb d "," = false) body.
Proof.
  induction l as [| c l IH]; intros cur Hcur q Hq.
  - destruct cur as [p |]; cbn in Hq; [| contradiction].
    destruct Hq as [<- | []]. destruct Hcur as (c & body & E & Hc & Hb).
    exists c, body. rewrite E. auto.
  - cbn [pieces] in Hq. destruct cur as [p |].
    + destruct (Ascii.eqb c ",") eqn:Ec.
      * destruct Hq as [<- | Hq]; [| now apply (IH None I)].
        destruct Hcur as (c1 & body & E & Hc & Hb).
        exists c1, body. rewrite E. auto.
      * apply (IH (Some (c :: p))); [| exact Hq].
        destruct Hcur as (c1 & body & E & Hc & Hb).
        exists c1, (body ++ [c])%list. cbn [rev]. rewrite E.
        split; [reflexivity |]. split; [exact Hc |].
        apply Forall_app. split; [exact Hb |]. constructor; [exact Ec | constructor].
    + destruct (Ascii.eqb c "," || Ascii.eqb c " ") eqn:Ec.
      * now apply (IH None I).
      * apply (IH (Some [c])); [| exact Hq].
        exists c, []. cbn. split; [reflexivity |]. split; [exact Ec | constructor].
Qed.

(** X27.  The loop that splits a [random_skin] argument ends within
    one round per character and one more, and it adds the pieces of the
    argument in their order: what stands between two commas, without the
    commas and blanks before it, and nothing for a part that is empty or
    blank.  So no piece is empty, none holds a comma, and none starts
    with a blank; blanks at the end of a piece stay. *)
Theorem random_skin_loop_pieces (random_skin : string) (extra : nat)
    (acc : list Z * list string) :
  let numChars := idStr_Length random_skin in
  random_skin_loop random_skin numChars (S (Z.to_nat numChars) + extra) 0 acc
  = fold_left add_piece (pieces None (list_ascii_of_string random_skin)) acc /\
  forall q, In q (pieces None (list_ascii_of_string random_skin)) ->
    exists c body,
      q = string_of_list_ascii (c :: body) /\
      (Ascii.eqb c "," || Ascii.eqb c " ") = false /\
      Forall (fun d => Ascii.eqb d "," = false) body.
Proof.
  cbv zeta. split.
  - apply (random_skin_loop_spec random_skin _ [] _ acc eq_refl).
    unfold idStr_Length. rewrite Nat2Z.id, list_ascii_length. lia.
  - apply (pieces_shape _ None I).
Qed.

Example random_skin_pieces_example :
  pieces None (list_ascii_of_string " a, b ,'',,c d,'' ")
  = ["a"; "b "; "''"; "c d"; "'' "] /\
  class_skins [("random_skin", " a, b ,'',,c d,'' ")] [""; "b "]
  = ([0; 2; 1; 0; 3; 4], [""; "b "; "a"; "c d"; "'' "]).
Proof. split; vm_compute; reflexivity. Qed.

Lemma AddSkin_grows (m_Skins : list string) (skin : string) :
  0 <= fst (AddSkin m_Skins skin)
    < Z.of_nat (List.length (snd (AddSkin m_Skins skin))) /\
  exists added, snd (AddSkin m_Skins skin) = (m_Skins ++ added)%list.
Proof.
  unfold AddSkin. pose proof (skin_index_spec m_Skins skin 0 ltac:(lia)) as S.
  destruct (skin_index m_Skins skin 0) as [j |]; cbn [fst snd].
  - split; [lia |]. exists []. now rewrite app_nil_r.
  - split; [rewrite length_app; cbn; lia |]. now exists [skin].
Qed.

(** What adding skins to a class keeps: the indices of the class are
    indices of the skin table, and the skin table has only grown. *)
Lemma add_skins_inv (m_Skins : list string) (names : list string)
    (f : list Z * list string -> string -> list Z * list string) :
  (forall acc name,
      f acc name
      = ((fst acc ++ [fst (AddSkin (snd acc) name)])%list,
         snd (AddSkin (snd acc) name)) \/
      f acc name
      = ((fst acc ++ [fst (AddSkin (snd acc) "")])%list,
         snd (AddSkin (snd acc) ""))) ->
  forall acc,
    Forall (fun i => 0 <= i < Z.of_nat (List.length (snd acc))) (fst acc) ->
    (exists added, snd acc = (m_Skins ++ added)%list) ->
    let r := fold_left f names acc in
    Forall (fun i => 0 <= i < Z.of_nat (List.length (snd r))) (fst r) /\
    (exists added, snd r = (m_Skins ++ added)%list) /\
    List.length (fst r) = (List.length (fst acc) + List.length names)%nat.
Proof.
  intros Hf. induction names as [| name names IH]; intros acc Hall Hgrow;
    cbn [fold_left].
  - cbn. auto.
  - assert (Hstep : exists name',
               f acc name
               = ((fst acc ++ [fst (AddSkin (snd acc) name')])%list,
                  snd (AddSkin (snd acc) name'))).
    { destruct (Hf acc name) as [E | E]; eauto. }
    destruct Hstep as (name' & E). rewrite E.
    destruct (AddSkin_grows (snd acc) name') as (Hi & added' & Ha).
    destruct Hgrow as (added & Hg).
    specialize (IH ((fst acc ++ [fst (AddSkin (snd acc) name')])%list,
                    snd (AddSkin (snd acc) name'))).
    cbn [fst snd] in IH. cbv zeta in IH.
    destruct IH as (I1 & I2 & I3).
    + apply Forall_app. split.
      * eapply Forall_impl; [| exact Hall]. cbn. intros i Hi'.
        rewrite Ha, length_app. lia.
      * constructor; [exact Hi | constructor].
    + exists (added ++ added')%list. rewrite Ha, Hg. now rewrite app_assoc.
    + split; [exact I1 |]. split; [exact I2 |].
      rewrite I3, length_app. cbn. lia.
Qed.

Lemma prefix_refl (s : string) : String.prefix s s = true.
Proof.
  induction s as [| c s IH]; cbn; [reflexivity |].
  destruct (ascii_dec c c); [exact IH | contradiction].
Qed.

Lemma FindKey_MatchPrefix (d : idDict) (key v : string) :
  FindKey d key = Some v -> MatchPrefix d key <> [].
Proof.
  induction d as [| [k v'] d IH]; cbn [FindKey MatchPrefix filter fst];
    [discriminate |].
  destruct (String.eqb k key) eqn:E.
  - apply String.eqb_eq in E. subst k. rewrite prefix_refl. discriminate.
  - intros Hf. destruct (String.prefix key k); [discriminate |]. now apply IH.
Qed.

(** X28.  The skins that [AddClassFromEntity] gives a class are never
    none, they are all indices of the skin table as it is afterwards,
    and the skin table has only grown, so that the skins of the classes
    compiled before keep their names. *)
Theorem class_skins_valid (ent : idDict) (m_Skins : list string) :
  m_Skins <> [] ->
  let r := class_skins ent m_Skins in
  fst r <> [] /\
  Forall (fun i => 0 <= i < Z.of_nat (List.length (snd r))) (fst r) /\
  exists added, snd r = (m_Skins ++ added)%list.
Proof.
  intros Hne. cbv zeta. unfold class_skins.
  set (skins0 := match FindKey ent "skin" with Some _ => [] | None => [0] end).
  set (step := fun (acc : list Z * list string) (kv : string * string) =>
                 let '(skinIdx, m) := AddSkin (snd acc) (snd kv) in
                 ((fst acc ++ [skinIdx])%list, m)).
  assert (H0 : Forall (fun i => 0 <= i < Z.of_nat (List.length m_Skins)) skins0).
  { subst skins0. destruct (FindKey ent "skin"); [constructor |].
    constructor; [| constructor]. destruct m_Skins; [contradiction | cbn; lia]. }
  assert (Hfold : fold_left step (MatchPrefix ent "skin") (skins0, m_Skins)
                  = fold_left (fun acc name =>
                       ((fst acc ++ [fst (AddSkin (snd acc) name)])%list,
                        snd (AddSkin (snd acc) name)))
                     (map snd (MatchPrefix ent "skin")) (skins0, m_Skins)).
  { generalize (skins0, m_Skins). generalize (MatchPrefix ent "skin").
    induction i as [| kv kvs IH]; intros acc; cbn [fold_left map];
      [reflexivity |].
    rewrite <- IH. f_equal. subst step. cbn beta.
    now destruct (AddSkin (snd acc) (snd kv)). }
  rewrite Hfold. clear Hfold.
  pose proof (add_skins_inv m_Skins (map snd (MatchPrefix ent "skin"))
                (fun acc name =>
                   ((fst acc ++ [fst (AddSkin (snd acc) name)])%list,
                    snd (AddSkin (snd acc) name)))
                (fun acc name => or_introl eq_refl)
                (skins0, m_Skins) H0
                (ex_intro _ [] (eq_sym (app_nil_r m_Skins)))) as A.
  cbv zeta in A. cbn [fst snd] in A.
  set (acc1 := fold_left _ (map snd (MatchPrefix ent "skin")) (skins0, m_Skins))
    in *.
  destruct A as (A1 & A2 & A3).
  assert (Hlen1 : (1 <= List.length (fst acc1))%nat).
  { rewrite A3, length_map. subst skins0.
    destruct (FindKey ent "skin") as [v |] eqn:F; [| cbn; lia].
    apply FindKey_MatchPrefix in F.
    destruct (MatchPrefix ent "skin"); [contradiction | cbn; lia]. }
  destruct (String.eqb (GetString ent "random_skin" "") "").
  - split; [| split; assumption].
    destruct (fst acc1); [cbn in Hlen1; lia | discriminate].
  - rewrite <- (Nat.add_0_r (S _)).
    rewrite (proj1 (random_skin_loop_pieces _ 0%nat acc1)).
    pose proof (add_skins_inv m_Skins
                  (pieces None (list_ascii_of_string
                                  (GetString ent "random_skin" "")))
                  add_piece) as B.
    cbv zeta in B.
    destruct (B ltac:(intros acc name; unfold add_piece;
                      destruct (String.eqb name "''");
                      [right | left];
                      now destruct (AddSkin (snd acc) _))
                acc1 A1 A2) as (B1 & B2 & B3).
    split; [| split; assumption].
    intros Hnil. rewrite Hnil in B3. cbn in B3. lia.
Qed.

Lemma class_skins_valid_witness :
  let r := class_skins [("skin_2", "moss"); ("random_skin", "ivy, ''")] [""] in
  [""] <> [] /\
  fst r <> [] /\
  Forall (fun i => 0 <= i < Z.of_nat (List.length (snd r))) (fst r) /\
  exists added, snd r = ([""] ++ added)%list.
Proof.
  cbv zeta. split; [discriminate |].
  apply (class_skins_valid [("skin_2", "moss"); ("random_skin", "ivy, ''")]
                           [""]).
  discriminate.
Defined.

(* ================================================================= *)
(** ** Saving and restoring: the round trip *)

Lemma read_n_flat_map {A B : Type} (P : A -> Prop) (r : reader B)
    (w : A -> list field) (g : A -> B) :
  (forall a rest, P a -> r (w a ++ rest)%list = Some (g a, rest)) ->
  forall l rest,
    Forall P l ->
    read_n (List.length l) r (flat_map w l ++ rest)%list = Some (map g l, rest).
Proof.
  intros Hr. induction l as [| a l IH]; intros rest Hall;
    cbn [List.length read_n flat_map map app]; [reflexivity |].
  inversion Hall as [| a' l' Ha Hl]; subst.
  unfold bind. rewrite <- app_assoc, (Hr a _ Ha), (IH _ Hl). reflexivity.
Qed.

Lemma read_n_flat_map_count {A B : Type} (r : reader B)
    (w : A -> list field) (g : A -> B) (n : nat) :
  (forall a rest, r (w a ++ rest)%list = Some (g a, rest)) ->
  forall l rest,
    List.length l = n ->
    read_n n r (flat_map w l ++ rest)%list = Some (map g l, rest).
Proof.
  intros Hr l rest <-.
  apply (read_n_flat_map (fun _ => True)); [auto |].
  apply Forall_forall. auto.
Qed.

Lemma read_n_map {A : Type} (r : reader A) (w : A -> field) :
  (forall a rest, r (w a :: rest) = Some (a, rest)) ->
  forall l rest,
    read_n (List.length l) r (map w l ++ rest)%list = Some (l, rest).
Proof.
  intros Hr. induction l as [| a l IH]; intros rest;
    cbn [List.length read_n map app]; [reflexivity |].
  unfold bind. rewrite Hr, IH. reflexivity.
Qed.

Lemma wrap32_dword (c : Z) :
  0 <= c < 4294967296 -> wrap32 c mod 4294967296 = c.
Proof.
  intros Hc. unfold wrap32.
  replace ((c + 2147483648) mod 4294967296 - 2147483648)
    with (c + (- ((c + 2147483648) / 4294967296)) * 4294967296)
    by (pose proof (Z.div_mod (c + 2147483648) 4294967296 ltac:(lia)); lia).
  rewrite Z.mod_add by lia. apply Z.mod_small. exact Hc.
Qed.

Lemma Restore_entity_Save (blank e : seed_entity_t) (rest : list field) :
  0 <= e_color e < 4294967296 ->
  Restore_entity blank (Save_entity e ++ rest)%list
  = Some (entity_as_saved blank e, rest).
Proof.
  intros Hc. cbn. unfold entity_as_saved. now rewrite wrap32_dword.
Qed.

Lemma Restore_inhibitor_Save (inh : seed_inhibitor_t) (rest : list field) :
  Restore_inhibitor (Save_inhibitor inh ++ rest)%list = Some (inh, rest).
Proof.
  unfold Save_inhibitor. rewrite <- app_assoc. cbn [app].
  unfold Restore_inhibitor, bind. cbn [ReadVec3 ReadBox ReadBool ReadInt ReadFloat].
  rewrite Nat2Z.id, (read_n_map ReadString FString) by reflexivity.
  now destruct inh.
Qed.

Lemma Restore_material_Save (m : seed_material_t) (rest : list field) :
  Restore_material (Save_material m ++ rest)%list = Some (m, rest).
Proof. now destruct m. Qed.

Lemma Restore_class_Save (blank c : seed_class_t) (stack : bool)
    (rest : list field) :
  Restore_class blank (Save_class c stack ++ rest)%list
  = Some ((class_as_saved blank c, stack), rest).
Proof.
  unfold Save_class, class_as_saved. cbv zeta. rewrite <- !app_assoc.
  unfold Restore_class, bind.
  cbn [app ReadString ReadBool ReadInt].
  destruct (clip c =? 0) eqn:Eclip; cbn [negb app read_if ReadBool ret
    ReadClipModel ReadFloat ReadVec3 ReadInt];
  rewrite Nat2Z.id, (read_n_map ReadInt FInt) by reflexivity;
  cbn [app ReadInt]; rewrite Nat2Z.id;
  rewrite (read_n_flat_map (fun _ => True) Restore_material Save_material
             (fun m => m)) by
    (first [intros; apply Restore_material_Save
           | apply Forall_forall; intros; exact I]);
  rewrite map_id;
  destruct (falloff c =? 5) eqn:Efunc;
  destruct ((2 <=? falloff c) && (falloff c <=? 3)) eqn:Eroot;
  destruct (imgmap c =? 0) eqn:Emap;
  destruct (hModel c =? 0) eqn:Emodel;
  destruct (physicsObj c =? 0) eqn:Ephys;
  cbn [negb app read_if Restore_func Restore_map bind ret ReadBool ReadFloat
       ReadInt ReadUnsignedInt ReadModel ReadPhysics
       f_x f_y f_s f_a f_Xt f_Yt f_f f_min f_max
       mp_invert mp_scale_x mp_scale_y mp_ofs_x mp_ofs_y];
  rewrite ?Emap; cbn [negb read_if Restore_map bind ret ReadBool ReadFloat
       ReadModel ReadPhysics
       mp_invert mp_scale_x mp_scale_y mp_ofs_x mp_ofs_y];
  repeat match goal with
         | E : (?x =? 0) = true |- _ => apply Z.eqb_eq in E
         end;
  unfold ret; rewrite ?Eclip, ?Emodel, ?Ephys; reflexivity.
Qed.

Lemma flat_map_indices {A B C : Type} (f : A -> B -> list C) (d : A) (d2 : B) :
  forall (l : list A) (l2 : list B) (pre : list A) (pre2 : list B),
    List.length l2 = List.length l ->
    List.length pre2 = List.length pre ->
    flat_map (fun i => f (list_get (pre ++ l) i d) (list_get (pre2 ++ l2) i d2))
             (map Z.of_nat (seq (List.length pre) (List.length l)))
    = flat_map (fun p => f (fst p) (snd p)) (combine l l2).
Proof.
  induction l as [| a l IH]; intros [| b l2] pre pre2 Hl Hp; cbn in Hl;
    try discriminate; cbn [List.length seq map flat_map combine fst snd];
    [reflexivity |].
  f_equal.
  - rewrite list_get_app_mid. rewrite <- Hp at 1.
    now rewrite list_get_app_mid.
  - specialize (IH l2 (pre ++ [a])%list (pre2 ++ [b])%list).
    rewrite <- !app_assoc, !length_app in IH. cbn [app List.length] in IH.
    rewrite !Nat.add_1_r in IH. apply IH; lia.
Qed.

Lemma map_fst_combine_eq {A B : Type} :
  forall (l : list A) (l2 : list B),
    List.length l2 = List.length l ->
    map fst (combine l l2) = l /\ map snd (combine l l2) = l2 /\
    List.length (combine l l2) = List.length l.
Proof.
  induction l as [| a l IH]; intros [| b l2] Hl; cbn in Hl; try discriminate;
    cbn; [auto |].
  destruct (IH l2 ltac:(lia)) as (I1 & I2 & I3). repeat split; congruence.
Qed.

Lemma map_list_get_indices {A : Type} (d : A) :
  forall (l pre : list A),
    map (fun i => list_get (pre ++ l) i d)
        (map Z.of_nat (seq (List.length pre) (List.length l))) = l.
Proof.
  induction l as [| a l IH]; intros pre; cbn [List.length seq map];
    [reflexivity |].
  f_equal; [apply list_get_app_mid |].
  specialize (IH (pre ++ [a])%list).
  rewrite <- app_assoc, length_app in IH. cbn [app List.length] in IH.
  now rewrite Nat.add_1_r in IH.
Qed.

Lemma classes_as_saved_combine (blank : seed_class_t) :
  forall (l : list seed_class_t) (l2 : list bool),
    List.length l2 = List.length l ->
    map fst (map (fun p : seed_class_t * bool =>
                    (class_as_saved blank (fst p), snd p)) (combine l l2))
    = map (class_as_saved blank) l /\
    map snd (map (fun p : seed_class_t * bool =>
                    (class_as_saved blank (fst p), snd p)) (combine l l2))
    = l2.
Proof.
  induction l as [| a l IH]; intros [| b l2] Hl; cbn in Hl; try discriminate;
    cbn [combine map fst snd]; [auto |].
  destruct (IH l2 ltac:(lia)) as (I1 & I2). split; congruence.
Qed.

(** X29.  [Restore] reads what [Save] has written, all of it and no
    more, for an object whose PVS count is the number of its PVS areas
    and whose colours are those of a dword.  Every member that [Save]
    writes comes back as it was: the flags, seeds, counts, time stamp and
    interval, the origin, the inhibitors, the skins, the PVS areas, the
    instances but for their scale, and of each class the members written
    for its falloff and its image map.  The members that are not in the
    file stay what they are in the object restored into, the prepared
    flag among them; the count of static multis is read but then set to 0
    by [ClearClasses], and the flag [m_bRestoreLOD] is set. *)
Theorem Save_then_Restore (blank_entity : seed_entity_t)
    (blank_class : seed_class_t) (base o : SeedObject) (rest : list field) :
  let st := ob_sched o in
  let s := sc_seed st in
  m_iNumPVSAreas s = Z.of_nat (List.length (m_iPVSAreas o)) ->
  List.length (c_stack o) = List.length (m_Classes s) ->
  Forall (fun e => 0 <= e_color e < 4294967296) (m_Entities s) ->
  exists o',
    Restore blank_entity blank_class base (Save o ++ rest)%list
    = Some (o', rest) /\
    let st' := ob_sched o' in
    let s' := sc_seed st' in
    (* what is in the file *)
    active st' = active st /\
    m_bWaitForTrigger st' = m_bWaitForTrigger st /\
    m_iDebug o' = m_iDebug o /\
    m_bDistCheckXYOnly o' = m_bDistCheckXYOnly o /\
    m_iThinkCounter st' = m_iThinkCounter st /\
    m_DistCheckTimeStamp st' = m_DistCheckTimeStamp st /\
    m_DistCheckInterval st' = m_DistCheckInterval st /\
    m_bDebugColors s' = m_bDebugColors s /\
    m_bCombine s' = m_bCombine s /\
    m_iSeed s' = m_iSeed s /\
    m_iSeed_2 s' = m_iSeed_2 s /\
    m_iOrgSeed s' = m_iOrgSeed s /\
    m_iNumEntities s' = m_iNumEntities s /\
    m_iNumExisting s' = m_iNumExisting s /\
    m_iNumVisible s' = m_iNumVisible s /\
    m_fLODBias s' = m_fLODBias s /\
    m_origin s' = m_origin s /\
    m_Entities s' = map (entity_as_saved blank_entity) (m_Entities s) /\
    m_Classes s' = map (class_as_saved blank_class) (m_Classes s) /\
    c_stack o' = c_stack o /\
    m_Inhibitors s' = m_Inhibitors s /\
    m_Skins s' = m_Skins s /\
    m_iNumPVSAreas s' = m_iNumPVSAreas s /\
    m_iPVSAreas o'
    = (m_iPVSAreas o
       ++ skipn (List.length (m_iPVSAreas o)) (m_iPVSAreas base))%list /\
    (* what is not *)
    m_iNumStaticMulties s' = 0 /\
    m_bRestoreLOD st' = true /\
    m_bPrepared st' = m_bPrepared (ob_sched base) /\
    thinking st' = thinking (ob_sched base) /\
    targets st' = targets (ob_sched base) /\
    spawnArgs s' = spawnArgs (sc_seed (ob_sched base)).
Proof.
  cbv zeta. intros Hpvs Hstack Hcolor.
  unfold Save. cbv zeta. rewrite <- !app_assoc. cbn [app].
  unfold Restore, bind. cbv zeta.
  cbn [ReadBool ReadInt ReadFloat ReadVec3].
  (* the instances *)
  rewrite Nat2Z.id.
  rewrite (read_n_flat_map (fun e => 0 <= e_color e < 4294967296)
             (Restore_entity blank_entity) Save_entity
             (entity_as_saved blank_entity))
    by (first [intros; now apply Restore_entity_Save | exact Hcolor]).
  cbn [ReadInt].
  (* the classes *)
  rewrite Nat2Z.id.
  unfold indices.
  pose proof (flat_map_indices Save_class no_class false
                (m_Classes (sc_seed (ob_sched o))) (c_stack o) [] [] Hstack
                eq_refl) as Hcls.
  cbn [app List.length] in Hcls. rewrite Hcls. clear Hcls.
  destruct (map_fst_combine_eq (m_Classes (sc_seed (ob_sched o))) (c_stack o)
              Hstack) as (C1 & C2 & C3).
  rewrite (read_n_flat_map_count (Restore_class blank_class)
             (fun p => Save_class (fst p) (snd p))
             (fun p => (class_as_saved blank_class (fst p), snd p)))
    by (first [intros; apply Restore_class_Save | exact C3]).
  cbn [ReadInt].
  (* the inhibitors *)
  rewrite Nat2Z.id.
  rewrite (read_n_flat_map (fun _ => True) Restore_inhibitor Save_inhibitor
             (fun inh => inh))
    by (first [intros; apply Restore_inhibitor_Save
              | apply Forall_forall; intros; exact I]).
  rewrite map_id. cbn [ReadInt].
  (* the skins *)
  rewrite Nat2Z.id, (read_n_map ReadString FString) by reflexivity.
  cbn [ReadInt].
  (* the PVS areas *)
  rewrite Hpvs, Nat2Z.id.
  rewrite <- (map_map (fun i => list_get (m_iPVSAreas o) i 0) FInt).
  pose proof (map_list_get_indices 0 (m_iPVSAreas o) []) as Hareas.
  cbn [app List.length] in Hareas. rewrite Hareas. clear Hareas.
  rewrite (read_n_map ReadInt FInt) by reflexivity.
  unfold ret. eexists. split; [reflexivity |].
  cbn [ob_sched sc_seed active m_bWaitForTrigger m_iDebug m_bDistCheckXYOnly
       m_iThinkCounter m_DistCheckTimeStamp m_DistCheckInterval m_bDebugColors
       m_bCombine m_iSeed m_iSeed_2 m_iOrgSeed m_iNumEntities m_iNumExisting
       m_iNumVisible m_fLODBias m_origin m_Entities m_Classes c_stack
       m_Inhibitors m_Skins m_iNumPVSAreas m_iPVSAreas m_iNumStaticMulties
       m_bRestoreLOD m_bPrepared thinking targets spawnArgs].
  destruct (classes_as_saved_combine blank_class
              (m_Classes (sc_seed (ob_sched o))) (c_stack o) Hstack)
    as (D1 & D2).
  rewrite D1, D2. repeat split; auto.
Qed.

Lemma Save_then_Restore_witness :
  let s := sc_seed (ob_sched sample_object) in
  m_iNumPVSAreas s = Z.of_nat (List.length (m_iPVSAreas sample_object)) /\
  List.length (c_stack sample_object) = List.length (m_Classes s) /\
  Forall (fun e => 0 <= e_color e < 4294967296) (m_Entities s) /\
  exists o',
    Restore no_entity no_class new_object (Save sample_object ++ [])%list
    = Some (o', []) /\
    m_Entities (sc_seed (ob_sched o'))
    = map (entity_as_saved no_entity) (m_Entities s).
Proof.
  cbv zeta.
  assert (H1 : m_iNumPVSAreas (sc_seed (ob_sched sample_object))
               = Z.of_nat (List.length (m_iPVSAreas sample_object)))
    by reflexivity.
  assert (H2 : List.length (c_stack sample_object)
               = List.length (m_Classes (sc_seed (ob_sched sample_object))))
    by reflexivity.
  assert (H3 : Forall (fun e => 0 <= e_color e < 4294967296)
                 (m_Entities (sc_seed (ob_sched sample_object))))
    by (repeat constructor; cbn; lia).
  split; [exact H1 |]. split; [exact H2 |]. split; [exact H3 |].
  destruct (Save_then_Restore no_entity no_class new_object sample_object []
              H1 H2 H3) as (o' & E & F).
  exists o'. split; [exact E |].
  cbv zeta in F. decompose [and] F. assumption.
Defined.

Lemma read_n_Forall {A : Type} (P : A -> Prop) (r : reader A) :
  (forall fs a fs', r fs = Some (a, fs') -> P a) ->
  forall n fs l fs', read_n n r fs = Some (l, fs') -> Forall P l.
Proof.
  intros Hr. induction n as [| n IH]; intros fs l fs'; cbn [read_n].
  - intros E. inversion E. constructor.
  - unfold bind. destruct (r fs) as [[a fs1] |] eqn:E1; [| discriminate].
    destruct (read_n n r fs1) as [[l1 fs2] |] eqn:E2; [| discriminate].
    intros E. inversion E; subst. constructor; eauto.
Qed.

Ltac read_step H :=
  match type of H with
  | match ?x with _ => _ end = Some _ =>
      let E := fresh "E" in
      destruct x as [[? ?] |] eqn:E; [| discriminate H]
  end.

Lemma Restore_entity_scale (blank : seed_entity_t) (fs fs' : list field)
    (e : seed_entity_t) :
  Restore_entity blank fs = Some (e, fs') -> e_scale e = e_scale blank.
Proof.
  unfold Restore_entity, bind. intros E. repeat read_step E.
  inversion E. reflexivity.
Qed.

Lemma Restore_class_blank (blank : seed_class_t) (fs fs' : list field)
    (c : seed_class_t) (stack : bool) :
  Restore_class blank fs = Some ((c, stack), fs') ->
  seed c = seed blank /\ m_LOD c = m_LOD blank /\ offsets c = offsets blank /\
  materialName c = materialName blank /\
  impulse_min c = impulse_min blank /\ impulse_max c = impulse_max blank.
Proof.
  unfold Restore_class, bind. intros E. repeat read_step E.
  inversion E. cbn. auto 10.
Qed.

(** X30.  Whatever the file holds, a [Restore] that reads it through
    leaves the prepared flag as it is in the object restored into, and
    ends with [m_bRestoreLOD] set but the count of static multis at 0, so
    that the condition under which [Think] gives the composite objects
    their LOD data again does not hold.  No instance gets a scale from
    the file, and no class its seed, its LOD data, its offsets, its
    material or its impulses: they are what a new element of the table
    holds. *)
Theorem Restore_leaves_out (blank_entity : seed_entity_t)
    (blank_class : seed_class_t) (base o' : SeedObject) (fs rest : list field) :
  Restore blank_entity blank_class base fs = Some (o', rest) ->
  let st' := ob_sched o' in
  let s' := sc_seed st' in
  m_bPrepared st' = m_bPrepared (ob_sched base) /\
  m_bRestoreLOD st' = true /\
  m_iNumStaticMulties s' = 0 /\
  (m_bRestoreLOD st' && (0 <? m_iNumStaticMulties s')) = false /\
  Forall (fun e => e_scale e = e_scale blank_entity) (m_Entities s') /\
  Forall (fun c =>
            seed c = seed blank_class /\ m_LOD c = m_LOD blank_class /\
            offsets c = offsets blank_class /\
            materialName c = materialName blank_class /\
            impulse_min c = impulse_min blank_class /\
            impulse_max c = impulse_max blank_class)
         (m_Classes s').
Proof.
  unfold Restore, bind. cbv zeta. intros E. repeat read_step E.
  inversion E; subst; clear E.
  cbn [ob_sched sc_seed m_bPrepared m_bRestoreLOD m_iNumStaticMulties
       m_Entities m_Classes andb Z.ltb Z.compare].
  repeat split.
  - eapply read_n_Forall; [| eassumption].
    intros fs0 a fs1. apply Restore_entity_scale.
  - apply Forall_map.
    match goal with
    | Hread : read_n _ (Restore_class blank_class) _ = Some _ |- _ =>
        refine (read_n_Forall _ (Restore_class blank_class) _ _ _ _ _ Hread)
    end.
    intros fs0 [c stack] fs1. cbn [fst]. apply Restore_class_blank.
Qed.

Lemma Restore_leaves_out_witness :
  let o' := match Restore no_entity no_class new_object (Save sample_object) with
            | Some (o', _) => o'
            | None => new_object
            end in
  Restore no_entity no_class new_object (Save sample_object) = Some (o', []) /\
  m_iNumStaticMulties (sc_seed (ob_sched o')) = 0 /\
  m_bPrepared (ob_sched o') = false.
Proof.
  cbv zeta.
  assert (E : Restore no_entity no_class new_object (Save sample_object)
              = Some (match Restore no_entity no_class new_object
                              (Save sample_object) with
                      | Some (o', _) => o'
                      | None => new_object
                      end, []))
    by (vm_compute; reflexivity).
  split; [exact E |].
  pose proof (Restore_leaves_out no_entity no_class new_object _
                (Save sample_object) [] E) as F.
  cbv zeta in F. destruct F as (F1 & _ & F3 & _). split; [exact F3 | exact F1].
Defined.
